(** * MicroBitLog: a shallow embedding of source/MicroBitLog.cpp

    The log file system of the micro:bit data logger keeps a CSV table in a
    block-erasable flash, behind a write-through cache.  This file embeds the
    methods of [MicroBitLog] as Rocq functions over an explicit state (the
    fields of the object, the flash contents and the list of operations issued
    to the flash and to the cache) and proves properties of them.

    Conventions.
    - A [uint32_t] is a [Z] in [0, 2^32); its arithmetic is written with
      [add32], [sub32] and [mul32], which wrap around.
    - A byte and a [char] are an [ascii]; a [ManagedString], like a buffer
      given by a pointer and a length, is a [list ascii].
    - A method is a function [MicroBitLog -> option (A * MicroBitLog)]: [None]
      stands for a loop that has used up its fuel and for an undefined
      operation (a division by a zero page size). *)

From Stdlib Require Import ZArith String Ascii List Bool Lia.
Import ListNotations.

Local Open Scope list_scope.
Local Open Scope Z_scope.

(** ** Bytes, characters and strings *)

Definition ManagedString := list ascii.

(** A string literal as a [ManagedString]. *)
Definition str (s : string) : ManagedString := list_ascii_of_string s.

Definition Z_of_char (c : ascii) : Z := Z.of_N (N_of_ascii c).
Definition char_of_Z (z : Z) : ascii := ascii_of_N (Z.to_N (z mod 256)).

Definition NUL : ascii := "000"%char.
Definition TAB : ascii := "009"%char.
Definition NL : ascii := "010"%char.
Definition ERASED : ascii := "255"%char.

(** [s[i]], for an index inside the buffer. *)
Definition char_at (s : list ascii) (i : nat) : ascii := nth i s NUL.

(** [*(p + i) = c]; a store outside the buffer does not occur in the code and
    is left without effect here. *)
Fixpoint set_char (out : list ascii) (i : nat) (c : ascii) : list ascii :=
  match out, i with
  | [], _ => []
  | _ :: t, O => c :: t
  | h :: t, S j => h :: set_char t j c
  end.

(** The characters of a C string: those before the first NUL. *)
Fixpoint c_str (s : list ascii) : list ascii :=
  match s with
  | [] => []
  | c :: t => if Ascii.eqb c NUL then [] else c :: c_str t
  end.

Definition strlen (s : list ascii) : Z := Z.of_nat (length (c_str s)).

(** ** Unsigned 32-bit arithmetic *)

Definition wrap32 (z : Z) : Z := z mod 2 ^ 32.
Definition add32 (a b : Z) : Z := wrap32 (a + b).
Definition sub32 (a b : Z) : Z := wrap32 (a - b).
Definition mul32 (a b : Z) : Z := wrap32 (a * b).

(** Conversion of a wide value to [int]. *)
Definition to_int (z : Z) : Z := (z + 2 ^ 31) mod 2 ^ 32 - 2 ^ 31.

(** ** Constants of MicroBitLog.h *)

(** Modelled from the spec: the header MicroBitLog.h is not among the sources;
    the cache block size B is 256 (spec, section 6). *)
Definition CONFIG_MICROBIT_LOG_CACHE_BLOCK_SIZE : Z := 256.

(** Modelled from the spec: a journal entry is 8 bytes (spec, section 3). *)
Definition MICROBIT_LOG_JOURNAL_ENTRY_SIZE : Z := 8.

(** Modelled from the spec: the version string, 18 characters (spec, section
    3); the script in the header blob compares its first 17. *)
Definition MICROBIT_LOG_VERSION : list ascii := str "UBIT_LOG_FS_V_001" ++ [NL].

(** Modelled from the spec: the status word has three flags, [initialized],
    [row_started] and [full] (spec, section 3); they are three distinct bits. *)
Definition MICROBIT_LOG_STATUS_INITIALIZED : Z := 1.
Definition MICROBIT_LOG_STATUS_ROW_STARTED : Z := 2.
Definition MICROBIT_LOG_STATUS_FULL : Z := 4.

(** [sizeof(header)], from the declaration [header[2048]], and
    [sizeof(MicroBitLogMetaData)]: [version[18]], [logEnd[11]] and
    [dataStart[11]], the order in which the script of the header blob reads
    them ([substring(18,29)] and [substring(29,40)]). *)
Definition sizeof_header : Z := 2048.
Definition sizeof_MicroBitLogMetaData : Z := 40.

Inductive TimeStampFormat :=
| TSNone | Milliseconds | Seconds | Minutes | Hours | Days.

Definition TimeStampFormat_eqb (a b : TimeStampFormat) : bool :=
  match a, b with
  | TSNone, TSNone | Milliseconds, Milliseconds | Seconds, Seconds
  | Minutes, Minutes | Hours, Hours | Days, Days => true
  | _, _ => false
  end.

(** The error codes the methods return. *)
Inductive ErrorCode := DEVICE_OK | DEVICE_INVALID_STATE | DEVICE_NO_RESOURCES.

(** ** ManagedString(int), padString and writeNum *)

(** The decimal digits of a non-negative [n], most significant first. *)
Fixpoint decimal_digits (fuel : nat) (n : Z) (acc : list ascii) : list ascii :=
  match fuel with
  | O => acc
  | S f =>
      let acc' := char_of_Z (Z_of_char "0" + n mod 10) :: acc in
      if n / 10 =? 0 then acc' else decimal_digits f (n / 10) acc'
  end.

(** [ManagedString(const int value)] of the string class of codal-core: the
    decimal text of an [int], with a sign when it is negative. *)
Definition ManagedString_of_int (v : Z) : ManagedString :=
  if v <? 0 then "-"%char :: decimal_digits 10 (- v) [] else decimal_digits 10 v [].

(** [while (s.length() != digits) s = zero + s;] *)
Fixpoint padString (fuel : nat) (s : ManagedString) (digits : Z) : option ManagedString :=
  if Z.of_nat (length s) =? digits then Some s
  else match fuel with
       | O => None
       | S f => padString f (str "0" ++ s) digits
       end.

Definition hex_digit (d : Z) : ascii :=
  if 9 <? d then char_of_Z (Z_of_char "A" + d - 10) else char_of_Z (Z_of_char "0" + d).

(** [writeNum(buf, n)]: the nine characters stored into [buf], eight digits
    from the most significant nibble down ([sh] = 28, 24, ..., 0) and a NUL. *)
Definition writeNum (n : Z) : list ascii :=
  map (fun sh => hex_digit (Z.land (Z.shiftr n sh) 15)) [28; 24; 20; 16; 12; 8; 4; 0] ++ [NUL].

(** ** strtoul, base 16 *)

Definition isspace (c : ascii) : bool :=
  let z := Z_of_char c in (z =? 32) || ((9 <=? z) && (z <=? 13)).

Definition digit_value (c : ascii) : option Z :=
  let z := Z_of_char c in
  if (48 <=? z) && (z <=? 57) then Some (z - 48)
  else if (65 <=? z) && (z <=? 70) then Some (z - 55)
  else if (97 <=? z) && (z <=? 102) then Some (z - 87)
  else None.

Fixpoint skip_spaces (s : list ascii) : list ascii :=
  match s with
  | c :: t => if isspace c then skip_spaces t else s
  | [] => []
  end.

(** The digits are accumulated until the first character that is not one; a
    value above [ULONG_MAX] saturates. *)
Fixpoint strtoul_digits (s : list ascii) (acc : Z) : Z :=
  match s with
  | c :: t => match digit_value c with
              | Some d => strtoul_digits t (Z.min (acc * 16 + d) (2 ^ 32))
              | None => acc
              end
  | [] => acc
  end.

Definition skip_0x (s : list ascii) : list ascii :=
  match s with
  | c0 :: c1 :: t =>
      if Ascii.eqb c0 "0" && (Ascii.eqb c1 "x" || Ascii.eqb c1 "X") then t else s
  | _ => s
  end.

(** [strtoul(s, NULL, 16)] on the characters of [s] up to its NUL: white space,
    an optional sign, an optional [0x], then the digits. *)
Definition strtoul16 (s : list ascii) : Z :=
  let s1 := skip_spaces (c_str s) in
  let '(neg, s2) := match s1 with
                    | c :: t => if Ascii.eqb c "-" then (true, t)
                                else if Ascii.eqb c "+" then (false, t)
                                else (false, s1)
                    | [] => (false, s1)
                    end in
  let acc := strtoul_digits (skip_0x s2) 0 in
  if 2 ^ 32 <=? acc then 2 ^ 32 - 1
  else if neg then wrap32 (- acc) else acc.

(** ** The flash and its cache *)

(** The operations a method issues to [MicroBitUSBFlashManager] ([flash]) and
    to [FSCache] ([cache]), in the order of the calls. *)
Inductive StorageOp :=
| cache_write_op (address : Z) (data : list ascii)
| cache_erase_op (address : Z)
| cache_clear_op
| flash_write_op (address : Z) (data : list ascii)
| flash_erase_op (address : Z)
| flash_setConfiguration_op (fileName : list ascii) (fileSize : Z) (visible : bool)
| flash_remount_op.

(** Modelled from the spec: MicroBitUSBFlashManager and FSCache are not among
    the sources.  The flash has a page size and two bounds; a write programs
    bits (it can clear them only), an erase sets the page of the address to
    0xFF; the cache is write-through and never delays a write, so that a read,
    through it or not, returns the bytes of the flash (spec, sections 4.1 and
    4.2).  [trace] records the operations issued, oldest first. *)
Record Storage := {
  pageSize : Z;
  flashStart : Z;
  flashEnd : Z;
  memory : Z -> ascii;
  trace : list StorageOp
}.

Definition byte_and (a b : ascii) : ascii :=
  ascii_of_N (N.land (N_of_ascii a) (N_of_ascii b)).

Definition program (address : Z) (data : list ascii) (m : Z -> ascii) : Z -> ascii :=
  fun x =>
    if (address <=? x) && (x <? address + Z.of_nat (length data))
    then byte_and (m x) (nth (Z.to_nat (x - address)) data ERASED)
    else m x.

Definition erase_page (size address : Z) (m : Z -> ascii) : Z -> ascii :=
  fun x =>
    if (address - address mod size <=? x) && (x <? address - address mod size + size)
    then ERASED else m x.

Definition read_bytes (m : Z -> ascii) (address : Z) (n : nat) : list ascii :=
  map (fun i => m (address + Z.of_nat i)) (seq 0 n).

Definition issue (op : StorageOp) (m : Z -> ascii) (f : Storage) : Storage :=
  {| pageSize := pageSize f; flashStart := flashStart f; flashEnd := flashEnd f;
     memory := m; trace := trace f ++ [op] |}.

Definition storage_cache_write (address : Z) (data : list ascii) (f : Storage) : Storage :=
  issue (cache_write_op address data) (program address data (memory f)) f.

Definition storage_flash_write (address : Z) (data : list ascii) (f : Storage) : Storage :=
  issue (flash_write_op address data) (program address data (memory f)) f.

Definition storage_cache_erase (address : Z) (f : Storage) : Storage :=
  issue (cache_erase_op address) (memory f) f.

Definition storage_cache_clear (f : Storage) : Storage :=
  issue cache_clear_op (memory f) f.

Definition storage_flash_erase (address : Z) (f : Storage) : Storage :=
  issue (flash_erase_op address) (erase_page (pageSize f) address (memory f)) f.

Definition storage_setConfiguration (name : list ascii) (size : Z) (visible : bool)
    (f : Storage) : Storage :=
  issue (flash_setConfiguration_op name size visible) (memory f) f.

Definition storage_remount (f : Storage) : Storage :=
  issue flash_remount_op (memory f) f.

(** ** The state of a MicroBitLog *)

Record ColumnEntry := { key : ManagedString; value : ManagedString }.

(** The fields of the class.  [rowData] is the array of [headingCount]
    entries, so that [headingCount] is its length; [metaData], a buffer that
    every use fills before it reads it, and the mutex are left out.
    [system_time] is what [system_timer_current_time()] returns, in
    milliseconds. *)
Record MicroBitLog := {
  status : Z;
  journalPages : Z;
  journalHead : Z;
  startAddress : Z;
  journalStart : Z;
  dataStart : Z;
  dataEnd : Z;
  headingStart : Z;
  headingLength : Z;
  logEnd : Z;
  headingsChanged : bool;
  rowData : list ColumnEntry;
  timeStampFormat : TimeStampFormat;
  timeStampHeading : ManagedString;
  flash : Storage;
  system_time : Z
}.

Definition headingCount (st : MicroBitLog) : Z := Z.of_nat (length (rowData st)).

Definition set_status (st : MicroBitLog) (v : Z) : MicroBitLog :=
  {| status := v;
     journalPages := journalPages st;
     journalHead := journalHead st;
     startAddress := startAddress st;
     journalStart := journalStart st;
     dataStart := dataStart st;
     dataEnd := dataEnd st;
     headingStart := headingStart st;
     headingLength := headingLength st;
     logEnd := logEnd st;
     headingsChanged := headingsChanged st;
     rowData := rowData st;
     timeStampFormat := timeStampFormat st;
     timeStampHeading := timeStampHeading st;
     flash := flash st;
     system_time := system_time st |}.

Definition set_journalPages (st : MicroBitLog) (v : Z) : MicroBitLog :=
  {| status := status st;
     journalPages := v;
     journalHead := journalHead st;
     startAddress := startAddress st;
     journalStart := journalStart st;
     dataStart := dataStart st;
     dataEnd := dataEnd st;
     headingStart := headingStart st;
     headingLength := headingLength st;
     logEnd := logEnd st;
     headingsChanged := headingsChanged st;
     rowData := rowData st;
     timeStampFormat := timeStampFormat st;
     timeStampHeading := timeStampHeading st;
     flash := flash st;
     system_time := system_time st |}.

Definition set_journalHead (st : MicroBitLog) (v : Z) : MicroBitLog :=
  {| status := status st;
     journalPages := journalPages st;
     journalHead := v;
     startAddress := startAddress st;
     journalStart := journalStart st;
     dataStart := dataStart st;
     dataEnd := dataEnd st;
     headingStart := headingStart st;
     headingLength := headingLength st;
     logEnd := logEnd st;
     headingsChanged := headingsChanged st;
     rowData := rowData st;
     timeStampFormat := timeStampFormat st;
     timeStampHeading := timeStampHeading st;
     flash := flash st;
     system_time := system_time st |}.

Definition set_startAddress (st : MicroBitLog) (v : Z) : MicroBitLog :=
  {| status := status st;
     journalPages := journalPages st;
     journalHead := journalHead st;
     startAddress := v;
     journalStart := journalStart st;
     dataStart := dataStart st;
     dataEnd := dataEnd st;
     headingStart := headingStart st;
     headingLength := headingLength st;
     logEnd := logEnd st;
     headingsChanged := headingsChanged st;
     rowData := rowData st;
     timeStampFormat := timeStampFormat st;
     timeStampHeading := timeStampHeading st;
     flash := flash st;
     system_time := system_time st |}.

Definition set_journalStart (st : MicroBitLog) (v : Z) : MicroBitLog :=
  {| status := status st;
     journalPages := journalPages st;
     journalHead := journalHead st;
     startAddress := startAddress st;
     journalStart := v;
     dataStart := dataStart st;
     dataEnd := dataEnd st;
     headingStart := headingStart st;
     headingLength := headingLength st;
     logEnd := logEnd st;
     headingsChanged := headingsChanged st;
     rowData := rowData st;
     timeStampFormat := timeStampFormat st;
     timeStampHeading := timeStampHeading st;
     flash := flash st;
     system_time := system_time st |}.

Definition set_dataStart (st : MicroBitLog) (v : Z) : MicroBitLog :=
  {| status := status st;
     journalPages := journalPages st;
     journalHead := journalHead st;
     startAddress := startAddress st;
     journalStart := journalStart st;
     dataStart := v;
     dataEnd := dataEnd st;
     headingStart := headingStart st;
     headingLength := headingLength st;
     logEnd := logEnd st;
     headingsChanged := headingsChanged st;
     rowData := rowData st;
     timeStampFormat := timeStampFormat st;
     timeStampHeading := timeStampHeading st;
     flash := flash st;
     system_time := system_time st |}.

Definition set_dataEnd (st : MicroBitLog) (v : Z) : MicroBitLog :=
  {| status := status st;
     journalPages := journalPages st;
     journalHead := journalHead st;
     startAddress := startAddress st;
     journalStart := journalStart st;
     dataStart := dataStart st;
     dataEnd := v;
     headingStart := headingStart st;
     headingLength := headingLength st;
     logEnd := logEnd st;
     headingsChanged := headingsChanged st;
     rowData := rowData st;
     timeStampFormat := timeStampFormat st;
     timeStampHeading := timeStampHeading st;
     flash := flash st;
     system_time := system_time st |}.

Definition set_headingStart (st : MicroBitLog) (v : Z) : MicroBitLog :=
  {| status := status st;
     journalPages := journalPages st;
     journalHead := journalHead st;
     startAddress := startAddress st;
     journalStart := journalStart st;
     dataStart := dataStart st;
     dataEnd := dataEnd st;
     headingStart := v;
     headingLength := headingLength st;
     logEnd := logEnd st;
     headingsChanged := headingsChanged st;
     rowData := rowData st;
     timeStampFormat := timeStampFormat st;
     timeStampHeading := timeStampHeading st;
     flash := flash st;
     system_time := system_time st |}.

Definition set_headingLength (st : MicroBitLog) (v : Z) : MicroBitLog :=
  {| status := status st;
     journalPages := journalPages st;
     journalHead := journalHead st;
     startAddress := startAddress st;
     journalStart := journalStart st;
     dataStart := dataStart st;
     dataEnd := dataEnd st;
     headingStart := headingStart st;
     headingLength := v;
     logEnd := logEnd st;
     headingsChanged := headingsChanged st;
     rowData := rowData st;
     timeStampFormat := timeStampFormat st;
     timeStampHeading := timeStampHeading st;
     flash := flash st;
     system_time := system_time st |}.

Definition set_logEnd (st : MicroBitLog) (v : Z) : MicroBitLog :=
  {| status := status st;
     journalPages := journalPages st;
     journalHead := journalHead st;
     startAddress := startAddress st;
     journalStart := journalStart st;
     dataStart := dataStart st;
     dataEnd := dataEnd st;
     headingStart := headingStart st;
     headingLength := headingLength st;
     logEnd := v;
     headingsChanged := headingsChanged st;
     rowData := rowData st;
     timeStampFormat := timeStampFormat st;
     timeStampHeading := timeStampHeading st;
     flash := flash st;
     system_time := system_time st |}.

Definition set_headingsChanged (st : MicroBitLog) (v : bool) : MicroBitLog :=
  {| status := status st;
     journalPages := journalPages st;
     journalHead := journalHead st;
     startAddress := startAddress st;
     journalStart := journalStart st;
     dataStart := dataStart st;
     dataEnd := dataEnd st;
     headingStart := headingStart st;
     headingLength := headingLength st;
     logEnd := logEnd st;
     headingsChanged := v;
     rowData := rowData st;
     timeStampFormat := timeStampFormat st;
     timeStampHeading := timeStampHeading st;
     flash := flash st;
     system_time := system_time st |}.

Definition set_rowData (st : MicroBitLog) (v : list ColumnEntry) : MicroBitLog :=
  {| status := status st;
     journalPages := journalPages st;
     journalHead := journalHead st;
     startAddress := startAddress st;
     journalStart := journalStart st;
     dataStart := dataStart st;
     dataEnd := dataEnd st;
     headingStart := headingStart st;
     headingLength := headingLength st;
     logEnd := logEnd st;
     headingsChanged := headingsChanged st;
     rowData := v;
     timeStampFormat := timeStampFormat st;
     timeStampHeading := timeStampHeading st;
     flash := flash st;
     system_time := system_time st |}.

Definition set_timeStampFormat (st : MicroBitLog) (v : TimeStampFormat) : MicroBitLog :=
  {| status := status st;
     journalPages := journalPages st;
     journalHead := journalHead st;
     startAddress := startAddress st;
     journalStart := journalStart st;
     dataStart := dataStart st;
     dataEnd := dataEnd st;
     headingStart := headingStart st;
     headingLength := headingLength st;
     logEnd := logEnd st;
     headingsChanged := headingsChanged st;
     rowData := rowData st;
     timeStampFormat := v;
     timeStampHeading := timeStampHeading st;
     flash := flash st;
     system_time := system_time st |}.

Definition set_timeStampHeading (st : MicroBitLog) (v : ManagedString) : MicroBitLog :=
  {| status := status st;
     journalPages := journalPages st;
     journalHead := journalHead st;
     startAddress := startAddress st;
     journalStart := journalStart st;
     dataStart := dataStart st;
     dataEnd := dataEnd st;
     headingStart := headingStart st;
     headingLength := headingLength st;
     logEnd := logEnd st;
     headingsChanged := headingsChanged st;
     rowData := rowData st;
     timeStampFormat := timeStampFormat st;
     timeStampHeading := v;
     flash := flash st;
     system_time := system_time st |}.

Definition set_flash (st : MicroBitLog) (v : Storage) : MicroBitLog :=
  {| status := status st;
     journalPages := journalPages st;
     journalHead := journalHead st;
     startAddress := startAddress st;
     journalStart := journalStart st;
     dataStart := dataStart st;
     dataEnd := dataEnd st;
     headingStart := headingStart st;
     headingLength := headingLength st;
     logEnd := logEnd st;
     headingsChanged := headingsChanged st;
     rowData := rowData st;
     timeStampFormat := timeStampFormat st;
     timeStampHeading := timeStampHeading st;
     flash := v;
     system_time := system_time st |}.

(** The flag [f] of a status word. *)
Definition has_flag (s f : Z) : bool := negb (Z.land s f =? 0).
Definition set_flag (s f : Z) : Z := Z.lor s f.
Definition clear_flag (s f : Z) : Z := Z.land s (Z.lnot f).

(** ** Methods as state transformers that may fail *)

Definition M (A : Type) : Type := MicroBitLog -> option (A * MicroBitLog).

Definition ret {A : Type} (a : A) : M A := fun st => Some (a, st).

Definition bind {A B : Type} (m : M A) (k : A -> M B) : M B :=
  fun st => match m st with
            | Some (a, st') => k a st'
            | None => None
            end.

Definition get : M MicroBitLog := fun st => Some (st, st).

Definition modify (f : MicroBitLog -> MicroBitLog) : M unit := fun st => Some (tt, f st).

Definition fail {A : Type} : M A := fun _ => None.

Definition when (b : bool) (m : M unit) : M unit := if b then m else ret tt.

Declare Scope log_scope.
Delimit Scope log_scope with log.
Notation "x <- m ;; k" := (bind m (fun x => k))
  (at level 61, m at next level, right associativity) : log_scope.
Notation "m ;; k" := (bind m (fun _ => k))
  (at level 61, right associativity) : log_scope.
Local Open Scope log_scope.

Definition cache_write (address : Z) (data : list ascii) : M unit :=
  modify (fun st => set_flash st (storage_cache_write address data (flash st))).

Definition cache_erase (address : Z) : M unit :=
  modify (fun st => set_flash st (storage_cache_erase address (flash st))).

Definition cache_clear : M unit :=
  modify (fun st => set_flash st (storage_cache_clear (flash st))).

Definition flash_write (address : Z) (data : list ascii) : M unit :=
  modify (fun st => set_flash st (storage_flash_write address data (flash st))).

Definition flash_erase (address : Z) : M unit :=
  modify (fun st => set_flash st (storage_flash_erase address (flash st))).

(** [cache.read(address, buf, n)] and [flash.read]: the [n] bytes at
    [address]. *)
Definition cache_read (st : MicroBitLog) (address : Z) (n : nat) : list ascii :=
  read_bytes (memory (flash st)) address n.

Definition flash_read (st : MicroBitLog) (address : Z) (n : nat) : list ascii :=
  read_bytes (memory (flash st)) address n.

(** ** The methods *)

Section Methods.

(** [CONFIG_MICROBIT_LOG_INVALID_CHAR_VALUE], which no source file defines. *)
Variable INVALID_CHAR : ascii.

(** The test of the first [if] of the loop body: ["-->"] starts at [i]. *)
Definition arrow_at (s : list ascii) (i : nat) : bool :=
  (i + 2 <? length s)%nat
  && Ascii.eqb (char_at s i) "-"
  && Ascii.eqb (char_at s (i + 1)) "-"
  && Ascii.eqb (char_at s (i + 2)) ">".

(** The test of the second [if]: a tab or, on request, a separator. *)
Definition separator_at (removeSeparators : bool) (s : list ascii) (i : nat) : bool :=
  Ascii.eqb (char_at s i) TAB
  || (removeSeparators && (Ascii.eqb (char_at s i) "," || Ascii.eqb (char_at s i) NL)).

(** [if (out.length() == 0) out = ManagedString(s, len);] *)
Definition copy_if_empty (s : list ascii) (out : ManagedString) : ManagedString :=
  if (length out =? 0)%nat then s else out.

(** One turn of the [for] loop, at index [i]. *)
Definition cleanBuffer_body (s : list ascii) (removeSeparators : bool)
    (out : ManagedString) (i : nat) : ManagedString :=
  let out1 :=
    if arrow_at s i then
      let o := copy_if_empty s out in
      set_char (set_char (set_char o i INVALID_CHAR) (i + 1) INVALID_CHAR) (i + 2) INVALID_CHAR
    else out in
  if separator_at removeSeparators s i then
    set_char (copy_if_empty s out1) i INVALID_CHAR
  else out1.

(** [cleanBuffer(s, len, removeSeparators)]; the pointer and the length are
    the list [s]. *)
Definition cleanBuffer (s : list ascii) (removeSeparators : bool) : ManagedString :=
  fold_left (cleanBuffer_body s removeSeparators) (seq 0 (length s)) [].

(** What the callers make of the result: [if (k.length()) key = k;]. *)
Definition cleaned (s : list ascii) (removeSeparators : bool) : ManagedString :=
  let k := cleanBuffer s removeSeparators in
  if (length k =? 0)%nat then s else k.

(** [(int) format]: the values of the enumerators of [TimeStampFormat], which
    MicroBitLog.h declares, are not among the sources. *)
Variable TimeStampFormat_value : TimeStampFormat -> Z.

(** The array [header] of 2048 bytes, an opaque blob. *)
Variable header : list ascii.

(** The eight bytes the constructor of [JournalEntry], in MicroBitLog.h, puts
    in a new entry. *)
Variable JournalEntry_new : list ascii.

(** Modelled from the spec: [CONFIG_MICROBIT_LOG_JOURNAL_PAGES] is 1 (spec,
    section 6). *)
Definition CONFIG_MICROBIT_LOG_JOURNAL_PAGES : Z := 1.

(** Modelled from the spec: the declarations of the default arguments are in
    MicroBitLog.h; [clear] erases in part unless asked (spec, section 4.8),
    [cleanBuffer] removes the separators unless told not to (spec, section
    4.6), and [addHeading] takes an empty value. *)
Definition clear_fullErase_default : bool := false.
Definition cleanBuffer_removeSeparators_default : bool := true.
Definition addHeading_value_default : ManagedString := [].

(** Modelled from the spec: [JournalEntry::containsOnly] and
    [JournalEntry::clear] are in MicroBitLog.h; an entry is erased when all
    its bytes are 0xFF, invalidated when all are 0x00, and [clear] fills it
    with 0x00 (spec, sections 3 and 4.4). *)
Definition containsOnly (j : list ascii) (v : ascii) : bool := forallb (Ascii.eqb v) j.
Definition JournalEntry_clear : list ascii := repeat NUL 8.

Definition bytes_eqb (a b : list ascii) : bool :=
  if list_eq_dec ascii_dec a b then true else false.

(** *** isPresent *)

(** Where the metadata starts: the size of the header, rounded up to a page. *)
Definition metadata_address (ps : Z) : Z :=
  if sizeof_header mod ps =? 0 then sizeof_header
  else mul32 (add32 1 (sizeof_header / ps)) ps.

Definition isPresent : M bool := fun st =>
  if has_flag (status st) MICROBIT_LOG_STATUS_INITIALIZED then Some (true, st)
  else if pageSize (flash st) =? 0 then None
  else
    let ps := pageSize (flash st) in
    let st1 := set_startAddress st (metadata_address ps) in
    let metaData := flash_read st1 (startAddress st1) 40 in
    let md_version := firstn 18 metaData in
    let md_logEnd := set_char (firstn 11 (skipn 18 metaData)) 10 NUL in
    let md_dataStart := set_char (firstn 11 (skipn 29 metaData)) 10 NUL in
    let st2 := set_dataStart st1 (strtoul16 md_dataStart) in
    let st3 := set_logEnd st2 (strtoul16 md_logEnd) in
    let st4 := set_journalStart st3 (add32 (startAddress st3) ps) in
    Some ((add32 (startAddress st4) (mul32 2 ps) <=? dataStart st4)
          && (dataStart st4 <? logEnd st4)
          && (logEnd st4 <? flashEnd (flash st4))
          && bytes_eqb (firstn 17 md_version) (firstn 17 MICROBIT_LOG_VERSION),
          st4).

(** *** clear *)

(** [for (p = ...; p <= limit; p += flash.getPageSize()) flash.erase(p);] *)
Fixpoint clear_erase (fuel : nat) (p limit : Z) : M unit := fun st =>
  if p <=? limit then
    match fuel with
    | O => None
    | S f => (flash_erase p ;; clear_erase f (add32 p (pageSize (flash st))) limit) st
    end
  else Some (tt, st).

Definition clear (fuel : nat) (fullErase : bool) : M unit := fun st =>
  let ps := pageSize (flash st) in
  if ps =? 0 then None
  else
    (modify (fun st => set_startAddress st (metadata_address ps)) ;;
     modify (fun st => set_journalPages st CONFIG_MICROBIT_LOG_JOURNAL_PAGES) ;;
     modify (fun st => set_journalStart st (add32 (startAddress st) ps)) ;;
     modify (fun st => set_journalHead st (journalStart st)) ;;
     modify (fun st => set_dataStart st (add32 (journalStart st) (mul32 (journalPages st) ps))) ;;
     modify (fun st => set_dataEnd st (dataStart st)) ;;
     modify (fun st => set_logEnd st (sub32 (sub32 (flashEnd (flash st)) ps) 4)) ;;
     modify (fun st => set_status st 0) ;;
     modify (fun st => set_headingsChanged st false) ;;
     modify (fun st => set_headingStart st 0) ;;
     modify (fun st => set_rowData st []) ;;
     modify (fun st => set_headingLength st 0) ;;
     st1 <- get ;;
     flash_write (logEnd st1) (repeat NUL 4) ;;
     cache_clear ;;
     clear_erase fuel (flashStart (flash st1)) (if fullErase then logEnd st1 else dataStart st1) ;;
     flash_write (flashStart (flash st1)) header ;;
     cache_write (startAddress st1)
       (MICROBIT_LOG_VERSION
        ++ (str "0x" ++ writeNum (logEnd st1))
        ++ (str "0x" ++ writeNum (dataStart st1))) ;;
     cache_write (journalHead st1) (firstn 8 JournalEntry_new) ;;
     modify (fun st => set_flash st
       (storage_remount
          (storage_setConfiguration (str "MY_DATA.HTM")
             (sub32 (sub32 (flashEnd (flash st)) (flashStart (flash st))) ps) true (flash st)))) ;;
     modify (fun st => set_status st (set_flag (status st) MICROBIT_LOG_STATUS_INITIALIZED))) st.

(** *** init *)

(** The loop that loads the last entry of the journal.  [strtoul] reads the
    array [j.length], whose ninth character terminates the eight read. *)
Fixpoint init_journal (fuel : nat) (journalEntryAddress : Z) (valid : bool) : M unit := fun st =>
  if journalEntryAddress <? dataStart st then
    match fuel with
    | O => None
    | S f =>
        let j := cache_read st journalEntryAddress 8 in
        if containsOnly j ERASED && valid then Some (tt, st)
        else if negb (containsOnly j NUL) then
          let st1 := set_journalHead st journalEntryAddress in
          let st2 := set_dataEnd st1 (add32 (dataStart st1) (strtoul16 j)) in
          init_journal f (add32 journalEntryAddress MICROBIT_LOG_JOURNAL_ENTRY_SIZE) true st2
        else
          init_journal f (add32 journalEntryAddress MICROBIT_LOG_JOURNAL_ENTRY_SIZE) valid st
    end
  else Some (tt, st).

(** The walk from [dataEnd] to the first unused byte. *)
Fixpoint init_dataEnd (fuel : nat) : M unit := fun st =>
  if dataEnd st <? logEnd st then
    match fuel with
    | O => None
    | S f =>
        let d := cache_read st (dataEnd st) 1 in
        if bytes_eqb d [ERASED] then Some (tt, st)
        else init_dataEnd f (set_dataEnd st (add32 (dataEnd st) 1))
    end
  else Some (tt, st).

(** [while (c == 0) { start++; cache.read(start, &c, 1); }] *)
Fixpoint init_skip_zeroes (fuel : nat) (start : Z) : M Z := fun st =>
  if bytes_eqb (cache_read st start 1) [NUL] then
    match fuel with
    | O => None
    | S f => init_skip_zeroes f (add32 start 1) st
    end
  else Some (start, st).

(** [while (c != 0xff) { end++; cache.read(end, &c, 1); }] *)
Fixpoint init_headings_end (fuel : nat) (end_ : Z) : M Z := fun st =>
  if bytes_eqb (cache_read st end_ 1) [ERASED] then Some (end_, st)
  else match fuel with
       | O => None
       | S f => init_headings_end f (add32 end_ 1) st
       end.

Definition is_separator (c : ascii) : bool := Ascii.eqb c "," || Ascii.eqb c NL.

(** The keys of the stored headings: [h] strings, the first at [headers + i],
    each read up to its terminator (or to the end of the buffer). *)
Fixpoint init_keys (h : nat) (i : nat) (headers : list ascii) : list ColumnEntry :=
  match h with
  | O => []
  | S h' =>
      let k := c_str (skipn i headers) in
      {| key := k; value := [] |} :: init_keys h' (i + length k + 1)%nat headers
  end.

Definition init_headings (fuel : nat) : M unit :=
  st <- get ;;
  start <- init_skip_zeroes fuel (add32 (startAddress st) sizeof_MicroBitLogMetaData) ;;
  end_ <- init_headings_end fuel start ;;
  modify (fun st => set_headingLength st (sub32 end_ start)) ;;
  st1 <- get ;;
  when (0 <? headingLength st1)
    (let headers := cache_read st1 start (Z.to_nat (headingLength st1)) in
     let count := length (filter is_separator headers) in
     let headers' := map (fun c => if is_separator c then NUL else c) headers in
     modify (fun st => set_headingStart st start) ;;
     modify (fun st => set_rowData st (init_keys count 0 headers'))).

Definition init_mount (fuel : nat) : M unit := fun st =>
  if pageSize (flash st) =? 0 then None
  else
    (modify (fun st => set_journalPages st
               (sub32 (sub32 (dataStart st) (startAddress st) / pageSize (flash st)) 1)) ;;
     modify (fun st => set_journalHead st (journalStart st)) ;;
     modify (fun st => set_dataEnd st (dataStart st)) ;;
     st1 <- get ;;
     init_journal fuel (journalHead st1) false ;;
     init_dataEnd fuel ;;
     init_headings fuel ;;
     modify (fun st => set_status st (set_flag (status st) MICROBIT_LOG_STATUS_INITIALIZED))) st.

Definition init (fuel : nat) : M unit := fun st =>
  if has_flag (status st) MICROBIT_LOG_STATUS_INITIALIZED then Some (tt, st)
  else
    match isPresent st with
    | Some (true, st1) => init_mount fuel st1
    | Some (false, st1) => clear fuel clear_fullErase_default st1
    | None => None
    end.

(** *** addHeading *)

Definition has_heading (k : ManagedString) (rows : list ColumnEntry) : bool :=
  existsb (fun e => bytes_eqb (key e) k) rows.

Definition addHeading (k v : ManagedString) : M unit := fun st =>
  if has_heading k (rowData st) then Some (tt, st)
  else
    let st1 := set_rowData st (rowData st ++ [{| key := k; value := v |}]) in
    Some (tt, set_headingsChanged st1 true).

(** *** logString *)

(** The loop [while (l > 0)] that writes [data], of length [l], page by
    page. *)
Fixpoint logString_write (fuel : nat) (data : list ascii) : M unit := fun st =>
  match data with
  | [] => Some (tt, st)
  | _ :: _ =>
      match fuel with
      | O => None
      | S f =>
          let ps := pageSize (flash st) in
          if ps =? 0 then None
          else
            let l := Z.of_nat (length data) in
            let spaceOnPage := sub32 ps (dataEnd st mod ps) in
            let lengthToWrite := Z.min l spaceOnPage in
            (when ((spaceOnPage <=? l) && (add32 (dataEnd st) spaceOnPage <? logEnd st))
               (flash_erase (mul32 (add32 (dataEnd st / ps) 1) ps)) ;;
             cache_write (dataEnd st) (firstn (Z.to_nat lengthToWrite) data) ;;
             modify (fun st => set_dataEnd st (add32 (dataEnd st) lengthToWrite)) ;;
             logString_write f (skipn (Z.to_nat lengthToWrite) data)) st
      end
  end.

(** The block that writes a new entry into the journal, once [dataEnd] has
    left the cache block of [oldDataEnd]. *)
Definition logString_journal : M unit := fun st =>
  let ps := pageSize (flash st) in
  if ps =? 0 then None
  else
    let oldJournalHead := journalHead st in
    (modify (fun st => set_journalHead st
               (add32 (journalHead st) MICROBIT_LOG_JOURNAL_ENTRY_SIZE)) ;;
     st1 <- get ;;
     when (journalHead st1 mod ps =? 0)
       (when (journalHead st1 =? dataStart st1)
          (modify (fun st => set_journalHead st (journalStart st))) ;;
        st2 <- get ;;
        cache_erase (journalHead st2) ;;
        flash_erase (journalHead st2)) ;;
     st3 <- get ;;
     cache_write (journalHead st3)
       (firstn 8 (writeNum
          (mul32 (sub32 (dataEnd st3) (dataStart st3) / CONFIG_MICROBIT_LOG_CACHE_BLOCK_SIZE)
             CONFIG_MICROBIT_LOG_CACHE_BLOCK_SIZE))) ;;
     cache_write oldJournalHead JournalEntry_clear) st.

(** [logString(const char *s)] *)
Definition logString (fuel : nat) (s : list ascii) : M ErrorCode :=
  init fuel ;;
  st <- get ;;
  let oldDataEnd := dataEnd st in
  let l := strlen s in
  let data := c_str s in
  if sub32 (logEnd st) (dataEnd st) <? l then
    when (negb (has_flag (status st) MICROBIT_LOG_STATUS_FULL))
      (cache_write (add32 (logEnd st) 1) (str "FUL") ;;
       modify (fun st => set_status st (set_flag (status st) MICROBIT_LOG_STATUS_FULL))) ;;
    ret DEVICE_NO_RESOURCES
  else
    let cleaned := cleanBuffer data false in
    let data := if negb (length cleaned =? 0)%nat then cleaned else data in
    logString_write fuel data ;;
    st1 <- get ;;
    when (negb (dataEnd st1 / CONFIG_MICROBIT_LOG_CACHE_BLOCK_SIZE
                =? oldDataEnd / CONFIG_MICROBIT_LOG_CACHE_BLOCK_SIZE))
      logString_journal ;;
    ret DEVICE_OK.

(** [logString(ManagedString s)] *)
Definition logString_ManagedString (fuel : nat) (s : ManagedString) : M ErrorCode :=
  logString fuel (s ++ [NUL]) ;;
  ret DEVICE_OK.

(** *** setTimeStamp *)

Definition setTimeStamp (fuel : nat) (format : TimeStampFormat) : M unit :=
  init fuel ;;
  modify (fun st => set_timeStampFormat st format) ;;
  match format with
  | TSNone => ret tt
  | _ =>
      let units :=
        match format with
        | TSNone => []
        | Milliseconds => str "milliseconds"
        | Seconds => str "seconds"
        | Minutes => str "minutes"
        | Hours => str "hours"
        | Days => str "hours"
        end in
      modify (fun st => set_timeStampHeading st (str "Time (" ++ units ++ str ")")) ;;
      st <- get ;;
      addHeading (timeStampHeading st) addHeading_value_default
  end.

(** *** beginRow, logData and endRow

    The three methods call one another: [beginRow] calls [endRow], which calls
    [logData], which calls [beginRow].  Each body takes the method it calls as
    an argument; [endRow] below closes the cycle. *)

Definition beginRow_body (fuel : nat) (endRow : M ErrorCode) : M ErrorCode :=
  init fuel ;;
  st <- get ;;
  when (has_flag (status st) MICROBIT_LOG_STATUS_ROW_STARTED) (endRow ;; ret tt) ;;
  modify (fun st => set_rowData st
            (map (fun e => {| key := key e; value := [] |}) (rowData st))) ;;
  modify (fun st => set_status st (set_flag (status st) MICROBIT_LOG_STATUS_ROW_STARTED)) ;;
  ret DEVICE_OK.

(** The loop that stores [v] in the first column whose key is [k]; [None]
    when there is none ([added] stays false). *)
Fixpoint set_value (rows : list ColumnEntry) (k v : ManagedString) : option (list ColumnEntry) :=
  match rows with
  | [] => None
  | e :: t =>
      if bytes_eqb (key e) k then Some ({| key := key e; value := v |} :: t)
      else option_map (cons e) (set_value t k v)
  end.

Definition logData_body (fuel : nat) (beginRow : M ErrorCode)
    (key value : ManagedString) : M ErrorCode :=
  init fuel ;;
  st <- get ;;
  when (negb (has_flag (status st) MICROBIT_LOG_STATUS_ROW_STARTED)) (beginRow ;; ret tt) ;;
  let k := cleanBuffer key cleanBuffer_removeSeparators_default in
  let v := cleanBuffer value cleanBuffer_removeSeparators_default in
  let key := if negb (length k =? 0)%nat then k else key in
  let value := if negb (length v =? 0)%nat then v else value in
  st1 <- get ;;
  match set_value (rowData st1) key value with
  | Some rows => modify (fun st => set_rowData st rows)
  | None => addHeading key value
  end ;;
  ret DEVICE_OK.

(** [h = h + rowData[i].key; if (i + 1 != headingCount) h = h + sep;] *)
Fixpoint join (sep : ManagedString) (l : list ManagedString) : ManagedString :=
  match l with
  | [] => []
  | x :: t =>
      match t with
      | [] => x
      | _ :: _ => x ++ sep ++ join sep t
      end
  end.

Definition wrap64 (z : Z) : Z := z mod 2 ^ 64.

(** The text of the time stamp, for a format other than [None]. *)
Definition endRow_timestamp (fuel : nat) (format : TimeStampFormat) (now : Z)
    : option ManagedString :=
  let divisor := wrap64 (TimeStampFormat_value format) in
  if divisor =? 0 then None
  else
    let t := now / divisor in
    let billions := to_int (t / 1000000000) in
    let units := to_int (t mod 1000000000) in
    let fractional := 1 <? TimeStampFormat_value format in
    let fraction := if fractional then Z.rem units 100 else 0 in
    let units := if fractional then Z.quot units 100 else units in
    let billions := if fractional then Z.quot billions 100 else billions in
    let u := ManagedString_of_int units in
    match padString fuel (ManagedString_of_int fraction) 2 with
    | None => None
    | Some f =>
        match (if billions =? 0 then Some ([], u)
               else option_map (fun u' => (ManagedString_of_int billions, u'))
                      (padString fuel u 9)) with
        | None => None
        | Some (s, u) =>
            let s := s ++ u in
            Some (if fractional then s ++ str "." ++ f else s)
        end
    end.

(** The block of [endRow] that stores the headings once they have changed. *)
Definition endRow_headings (fuel : nat) : M unit :=
  let sep := str "," in
  st2 <- get ;;
  when (headingsChanged st2)
    (when (headingStart st2 =? 0)
       (modify (fun st => set_headingStart st
                  (add32 (startAddress st) sizeof_MicroBitLogMetaData))) ;;
     let h := join sep (map key (rowData st2)) ++ [NL] in
     st3 <- get ;;
     cache_write (headingStart st3) (repeat NUL (Z.to_nat (headingLength st3))) ;;
     modify (fun st => set_headingStart st (add32 (headingStart st) (headingLength st))) ;;
     st4 <- get ;;
     cache_write (headingStart st4) h ;;
     logString_ManagedString fuel h ;;
     modify (fun st => set_headingsChanged st false)).

(** The block of [endRow] that serialises the row and logs it unless it is
    empty. *)
Definition endRow_row (fuel : nat) : M unit :=
  let sep := str "," in
  st5 <- get ;;
  let row := join sep (map value (rowData st5)) ++ [NL] in
  let empty := forallb (fun e => (length (value e) =? 0)%nat) (rowData st5) in
  when (negb empty) (logString_ManagedString fuel row ;; ret tt).

Definition endRow_body (fuel : nat)
    (logData : ManagedString -> ManagedString -> M ErrorCode) : M ErrorCode :=
  st <- get ;;
  if negb (has_flag (status st) MICROBIT_LOG_STATUS_ROW_STARTED) then ret DEVICE_INVALID_STATE
  else
    init fuel ;;
    st1 <- get ;;
    when (negb (TimeStampFormat_eqb (timeStampFormat st1) TSNone))
      (match endRow_timestamp fuel (timeStampFormat st1) (system_time st1) with
       | Some s => logData (timeStampHeading st1) s ;; ret tt
       | None => fail
       end) ;;
    endRow_headings fuel ;;
    endRow_row fuel ;;
    modify (fun st => set_status st (clear_flag (status st) MICROBIT_LOG_STATUS_ROW_STARTED)) ;;
    st6 <- get ;;
    if has_flag (status st6) MICROBIT_LOG_STATUS_FULL then ret DEVICE_NO_RESOURCES
    else ret DEVICE_OK.

(** [endRow]; the fuel also bounds the depth of the calls through [logData]
    and [beginRow] back to [endRow]. *)
Fixpoint endRow (fuel : nat) : M ErrorCode :=
  endRow_body fuel
    (logData_body fuel
       (beginRow_body fuel
          (match fuel with
           | O => fail
           | S f => endRow f
           end))).

Definition beginRow (fuel : nat) : M ErrorCode := beginRow_body fuel (endRow fuel).

(** [logData(ManagedString key, ManagedString value)] *)
Definition logData (fuel : nat) (key value : ManagedString) : M ErrorCode :=
  logData_body fuel (beginRow fuel) key value.

(** [logData(const char *key, const char *value)] *)
Definition logData_chars (fuel : nat) (key value : list ascii) : M ErrorCode :=
  logData fuel (c_str key) (c_str value).

(** *** invalidate and isFull *)

Definition invalidate : M unit :=
  present <- isPresent ;;
  st <- get ;;
  when present
    (flash_write (startAddress st) (repeat NUL (Z.to_nat sizeof_MicroBitLogMetaData)) ;;
     flash_write (logEnd st) (repeat NUL 4)) ;;
  modify (fun st => set_status st (clear_flag (status st) MICROBIT_LOG_STATUS_INITIALIZED)).

Definition isFull (st : MicroBitLog) : bool :=
  has_flag (status st) MICROBIT_LOG_STATUS_FULL.

(** ** Definitions used in the statements *)

(** What the turn [i] of the loop rewrites: the index [j] is one of them. *)
Definition rewrites (removeSeparators : bool) (s : list ascii) (i j : nat) : bool :=
  (arrow_at s i && ((j =? i) || (j =? i + 1) || (j =? i + 2))%nat)
  || (separator_at removeSeparators s i && (j =? i)%nat).

Definition hit (removeSeparators : bool) (s : list ascii) (i : nat) : bool :=
  arrow_at s i || separator_at removeSeparators s i.

Definition covered (removeSeparators : bool) (s : list ascii) (k j : nat) : bool :=
  existsb (fun i => rewrites removeSeparators s i j) (seq 0 k).

Definition initialized (st : MicroBitLog) : Prop :=
  has_flag (status st) MICROBIT_LOG_STATUS_INITIALIZED = true.

Definition row_started (st : MicroBitLog) : bool :=
  has_flag (status st) MICROBIT_LOG_STATUS_ROW_STARTED.

(** The unit named in the heading of the time stamps, as the specification
    lists it: the choice of days takes the name of the hours. *)
Definition unit_label (format : TimeStampFormat) : ManagedString :=
  match format with
  | TSNone => []
  | Milliseconds => str "milliseconds"
  | Seconds => str "seconds"
  | Minutes => str "minutes"
  | Hours => str "hours"
  | Days => str "hours"
  end.

Definition reset_values (rows : list ColumnEntry) : list ColumnEntry :=
  map (fun e => {| key := key e; value := [] |}) rows.

(** The state [beginRow] leaves when no row is open. *)
Definition row_begun (st : MicroBitLog) : MicroBitLog :=
  set_status (set_rowData st (reset_values (rowData st)))
    (set_flag (status st) MICROBIT_LOG_STATUS_ROW_STARTED).

(** The state in which [logData] stores its pair: the row is open. *)
Definition row_open (st : MicroBitLog) : MicroBitLog :=
  if row_started st then st else row_begun st.

(** The state [logData] leaves, with the key and the value as cleaned. *)
Definition pair_logged (k v : ManagedString) (st : MicroBitLog) : MicroBitLog :=
  match set_value (rowData st) k v with
  | Some rows => set_rowData st rows
  | None =>
      set_headingsChanged (set_rowData st (rowData st ++ [{| key := k; value := v |}])) true
  end.

(** The bytes a list of operations hands to [cache.write], in order. *)
Fixpoint written (ops : list StorageOp) : list ascii :=
  match ops with
  | [] => []
  | cache_write_op _ d :: t => d ++ written t
  | _ :: t => written t
  end.

(** An operation of the loop: a write inside [lo, hi), or the erasure of a
    page above [lo]. *)
Definition data_op (lo hi : Z) (op : StorageOp) : Prop :=
  match op with
  | cache_write_op a d => lo <= a /\ a + Z.of_nat (length d) <= hi
  | flash_erase_op a => lo < a
  | _ => False
  end.

(** One turn of the loop: the number of bytes it writes and the state it
    leaves. *)
Definition chunk_length (st : MicroBitLog) (data : list ascii) : Z :=
  Z.min (Z.of_nat (length data))
    (sub32 (pageSize (flash st)) (dataEnd st mod pageSize (flash st))).

Definition chunk_storage (st : MicroBitLog) (data : list ascii) : Storage :=
  let ps := pageSize (flash st) in
  let spaceOnPage := sub32 ps (dataEnd st mod ps) in
  let F1 := if (spaceOnPage <=? Z.of_nat (length data))
               && (add32 (dataEnd st) spaceOnPage <? logEnd st)
            then storage_flash_erase (mul32 (add32 (dataEnd st / ps) 1) ps) (flash st)
            else flash st in
  storage_cache_write (dataEnd st) (firstn (Z.to_nat (chunk_length st data)) data) F1.

Definition after_chunk (st : MicroBitLog) (data : list ascii) : MicroBitLog :=
  set_dataEnd (set_flash st (chunk_storage st data))
    (add32 (dataEnd st) (chunk_length st data)).

(** The bounds under which the loop runs: a page size, and a string that fits
    between [dataEnd] and [logEnd], a page at least below the end of the
    address space. *)
Definition room_for (data : list ascii) (st : MicroBitLog) : Prop :=
  0 < pageSize (flash st)
  /\ 0 <= dataEnd st
  /\ dataEnd st + Z.of_nat (length data) <= logEnd st
  /\ logEnd st + pageSize (flash st) <= 2 ^ 32.

(** What the loop has done once it has written [data] from the state [st]:
    [F] is the storage it leaves and [ops] the operations it has issued. *)
Definition data_written (data : list ascii) (st : MicroBitLog) (F : Storage)
    (ops : list StorageOp) : Prop :=
  let ps := pageSize (flash st) in
  let len := Z.of_nat (length data) in
  pageSize F = ps
  /\ trace F = trace (flash st) ++ ops
  /\ written ops = data
  /\ Forall (data_op (dataEnd st) (dataEnd st + len)) ops
  /\ (forall a, a < dataEnd st -> memory F a = memory (flash st) a)
  /\ ((forall a, dataEnd st <= a < dataEnd st + Z.min len (ps - dataEnd st mod ps) ->
                 memory (flash st) a = ERASED) ->
      forall i, (i < length data)%nat -> memory F (dataEnd st + Z.of_nat i) = nth i data NUL)
  /\ (forall a, dataEnd st + len <= a -> memory (flash st) a = ERASED -> memory F a = ERASED).

(** The head moved on by one entry, and where the new entry goes: back at
    [journalStart] when the page boundary reached is [dataStart]. *)
Definition advanced_head (st : MicroBitLog) : Z :=
  add32 (journalHead st) MICROBIT_LOG_JOURNAL_ENTRY_SIZE.

Definition on_page_boundary (st : MicroBitLog) : bool :=
  advanced_head st mod pageSize (flash st) =? 0.

Definition next_journalHead (st : MicroBitLog) : Z :=
  if on_page_boundary st && (advanced_head st =? dataStart st)
  then journalStart st else advanced_head st.

(** The value of the new entry. *)
Definition committed_length (st : MicroBitLog) : Z :=
  mul32 (sub32 (dataEnd st) (dataStart st) / CONFIG_MICROBIT_LOG_CACHE_BLOCK_SIZE)
    CONFIG_MICROBIT_LOG_CACHE_BLOCK_SIZE.

Definition journal_entry (st : MicroBitLog) : list ascii :=
  firstn 8 (writeNum (committed_length st)).

(** The operations of a commit, in the order of their issue. *)
Definition journal_ops (st : MicroBitLog) : list StorageOp :=
  (if on_page_boundary st
   then [cache_erase_op (next_journalHead st); flash_erase_op (next_journalHead st)]
   else [])
  ++ [cache_write_op (next_journalHead st) (journal_entry st);
      cache_write_op (journalHead st) JournalEntry_clear].

Definition journal_storage (st : MicroBitLog) : Storage :=
  let F1 := if on_page_boundary st
            then storage_flash_erase (next_journalHead st)
                   (storage_cache_erase (next_journalHead st) (flash st))
            else flash st in
  storage_cache_write (journalHead st) JournalEntry_clear
    (storage_cache_write (next_journalHead st) (journal_entry st) F1).

Definition committed (st : MicroBitLog) : MicroBitLog :=
  set_flash (set_journalHead st (next_journalHead st)) (journal_storage st).

Definition same_block (a b : Z) : bool :=
  a / CONFIG_MICROBIT_LOG_CACHE_BLOCK_SIZE =? b / CONFIG_MICROBIT_LOG_CACHE_BLOCK_SIZE.

(** The string [x] has no tab, no "-->" and, when the separators are to be
    removed, no comma and no newline. *)
Definition nothing_to_clean (removeSeparators : bool) (x : list ascii) : Prop :=
  ~ In TAB x
  /\ (forall p q, x <> p ++ str "-->" ++ q)
  /\ (removeSeparators = true -> ~ In ","%char x /\ ~ In NL x).

(** The entry of index [k] of the journal, as [init] reads it. *)
Definition entry_at (st : MicroBitLog) (k : nat) : list ascii :=
  cache_read st (journalStart st + 8 * Z.of_nat k) 8.

(** An entry that [init] takes as live: one that is not all 0x00. *)
Definition live (e : list ascii) : bool := negb (containsOnly e NUL).

(** The scan stops at the index [k]: the entry is all 0xFF and a live entry
    came before it. *)
Definition stops_at (st : MicroBitLog) (k : nat) : Prop :=
  containsOnly (entry_at st k) ERASED = true
  /\ exists k', (k' < k)%nat /\ live (entry_at st k') = true.

(** Among the entries of index below [n], the last live one has given
    [journalHead] and [dataEnd] the values [jh] and [de]; with no live entry
    they are [journalStart] and [dataStart]. *)
Definition selected (st : MicroBitLog) (n : nat) (jh de : Z) : Prop :=
  (exists j, (j < n)%nat
             /\ live (entry_at st j) = true
             /\ (forall j', (j < j' < n)%nat -> live (entry_at st j') = false)
             /\ jh = journalStart st + 8 * Z.of_nat j
             /\ de = add32 (dataStart st) (strtoul16 (entry_at st j)))
  \/ ((forall j, (j < n)%nat -> live (entry_at st j) = false)
      /\ jh = journalStart st /\ de = dataStart st).

(** The scan has read the entries of index below [n] and no other. *)
Definition scanned (st : MicroBitLog) (n : nat) : Prop :=
  (forall k, (k < n)%nat ->
     journalStart st + 8 * Z.of_nat k < dataStart st /\ ~ stops_at st k)
  /\ (dataStart st <= journalStart st + 8 * Z.of_nat n \/ stops_at st n).

(** From [d0], [dataEnd] has moved over used bytes below [logEnd] up to [d],
    which is [logEnd] or holds 0xFF. *)
Definition walked (st : MicroBitLog) (d0 d : Z) : Prop :=
  d0 <= d
  /\ (forall a, d0 <= a < d -> a < logEnd st /\ memory (flash st) a <> ERASED)
  /\ (d < logEnd st -> memory (flash st) d = ERASED).

(** The layout a commit relies on: the head is an entry of the journal, the
    journal ends at [dataStart], and both bounds of the journal are on page
    boundaries. *)
Definition journal_ok (st : MicroBitLog) : Prop :=
  0 < pageSize (flash st)
  /\ 0 <= journalStart st <= journalHead st
  /\ journalHead st + 8 <= dataStart st
  /\ dataStart st < 2 ^ 32
  /\ (journalHead st - journalStart st) mod 8 = 0
  /\ (dataStart st - journalStart st) mod 8 = 0
  /\ journalStart st mod pageSize (flash st) = 0
  /\ dataStart st mod pageSize (flash st) = 0.

(** What an append that fits leaves: the storage [F] and the journal head
    [jh] of the state after it, whose other fields are those of [st]. *)
Definition appended (s : list ascii) (st : MicroBitLog) (F : Storage) (jh : Z) : MicroBitLog :=
  set_journalHead (set_dataEnd (set_flash st F) (dataEnd st + strlen s)) jh.

Definition digit (d : Z) : ascii := char_of_Z (Z_of_char "0" + d).

Definition is_digit (c : ascii) : Prop := exists d, 0 <= d <= 9 /\ c = digit d.

(** The state in which [endRow] logs the line of the headings: the old
    headings are overwritten with 0x00 and the new line follows them. *)
Definition headings_stored (st : MicroBitLog) : MicroBitLog :=
  let hs0 := if headingStart st =? 0
             then add32 (startAddress st) sizeof_MicroBitLogMetaData
             else headingStart st in
  let hs := add32 hs0 (headingLength st) in
  let h := join (str ",") (map key (rowData st)) ++ [NL] in
  set_flash (set_headingStart st hs)
    (storage_cache_write hs h
       (storage_cache_write hs0 (repeat NUL (Z.to_nat (headingLength st))) (flash st))).

Definition S5_heading : ManagedString := str "Time (seconds)".

Definition S5_header_line : list ascii := str "Time (seconds),v" ++ [NL].

Definition S5_row : list ascii := str "12.34,hi" ++ [NL].

(** A log that holds no heading yet, with no row open and not full, laid out
    with its headings region below the journal and the journal below the
    data, and with 26 erased bytes free at [dataEnd]. *)
Definition fresh_log_with_room (st : MicroBitLog) : Prop :=
  initialized st /\ row_started st = false /\ isFull st = false
  /\ rowData st = [] /\ headingsChanged st = false
  /\ headingStart st = 0 /\ headingLength st = 0
  /\ journal_ok st
  /\ 0 <= startAddress st /\ startAddress st + 57 <= journalStart st
  /\ dataStart st <= dataEnd st
  /\ dataEnd st + 26 <= logEnd st
  /\ logEnd st + pageSize (flash st) <= 2 ^ 32
  /\ (forall a, dataEnd st <= a < dataEnd st + 26 -> memory (flash st) a = ERASED).

(** The characters of the strings of a list, with one separator each. *)
Definition total_length (l : list ManagedString) : nat :=
  list_sum (map (fun x => S (length x)) l).

(** Fuel enough for [endRow] on a state: its lines are no longer than this. *)
Definition endRow_fuel (st : MicroBitLog) : nat :=
  total_length (map key (rowData st)) + total_length (map value (rowData st))
  + length (timeStampHeading st) + 40.

(** What an append keeps, whether it fits or not. *)
Definition stable (st st' : MicroBitLog) : Prop :=
  initialized st'
  /\ pageSize (flash st') = pageSize (flash st)
  /\ logEnd st' = logEnd st
  /\ 0 <= dataEnd st' <= logEnd st'
  /\ rowData st' = rowData st
  /\ has_flag (status st') MICROBIT_LOG_STATUS_ROW_STARTED
     = has_flag (status st) MICROBIT_LOG_STATUS_ROW_STARTED.

(** ** Definitions used in the statements on the other methods *)

(** The value a row holds for the key [k]: that of the first column of that
    key. *)
Definition value_of (k : ManagedString) (rows : list ColumnEntry) : option ManagedString :=
  option_map value (find (fun e => bytes_eqb (key e) k) rows).

(** The fields that only [init], [clear] and the methods of the row change:
    the layout, the headings, the row and the settings of the time stamp; and
    the geometry of the flash. *)
Definition layout_kept (st st' : MicroBitLog) : Prop :=
  journalPages st' = journalPages st
  /\ startAddress st' = startAddress st
  /\ journalStart st' = journalStart st
  /\ dataStart st' = dataStart st
  /\ logEnd st' = logEnd st
  /\ headingStart st' = headingStart st
  /\ headingLength st' = headingLength st
  /\ headingsChanged st' = headingsChanged st
  /\ rowData st' = rowData st
  /\ timeStampFormat st' = timeStampFormat st
  /\ timeStampHeading st' = timeStampHeading st
  /\ system_time st' = system_time st
  /\ pageSize (flash st') = pageSize (flash st)
  /\ flashStart (flash st') = flashStart (flash st)
  /\ flashEnd (flash st') = flashEnd (flash st).

(** The constructor: every field it assigns, on the flash given.  It leaves
    [dataEnd] unassigned, so that the field holds whatever was there, [d]
    here; [timeStampHeading] is the empty string of its own constructor. *)
Definition MicroBitLog_new (f : Storage) (journalPages d now : Z) : MicroBitLog :=
  {| status := 0; journalPages := journalPages; journalHead := 0; startAddress := 0;
     journalStart := 0; dataStart := 0; dataEnd := d; headingStart := 0;
     headingLength := 0; logEnd := 0; headingsChanged := false; rowData := [];
     timeStampFormat := TSNone; timeStampHeading := [];
     flash := f; system_time := now |}.

(** The 40 bytes of the metadata block, as [clear] writes it. *)
Definition metadata_block (logEnd dataStart : Z) : list ascii :=
  MICROBIT_LOG_VERSION ++ (str "0x" ++ writeNum logEnd) ++ (str "0x" ++ writeNum dataStart).

(** The fields [clear] assigns, before it touches the flash. *)
Definition cleared (st : MicroBitLog) : MicroBitLog :=
  let ps := pageSize (flash st) in
  let sa := metadata_address ps in
  let js := add32 sa ps in
  let ds := add32 js (mul32 CONFIG_MICROBIT_LOG_JOURNAL_PAGES ps) in
  {| status := 0; journalPages := CONFIG_MICROBIT_LOG_JOURNAL_PAGES; journalHead := js;
     startAddress := sa; journalStart := js; dataStart := ds; dataEnd := ds;
     headingStart := 0; headingLength := 0;
     logEnd := sub32 (sub32 (flashEnd (flash st)) ps) 4;
     headingsChanged := false; rowData := [];
     timeStampFormat := timeStampFormat st; timeStampHeading := timeStampHeading st;
     flash := flash st; system_time := system_time st |}.

(** The layout of a log in use: pages of a multiple of the cache block, the
    metadata at its address, the journal one page above it and one page long
    at least, the head on an entry of the journal, the data above the journal
    and below [logEnd], all within the flash and the address space. *)
Definition layout_ok (st : MicroBitLog) : Prop :=
  let ps := pageSize (flash st) in
  0 < ps /\ ps mod CONFIG_MICROBIT_LOG_CACHE_BLOCK_SIZE = 0
  /\ startAddress st = metadata_address ps
  /\ journalStart st = startAddress st + ps
  /\ journalStart st + ps <= dataStart st
  /\ dataStart st mod ps = 0
  /\ journalStart st <= journalHead st
  /\ journalHead st + 8 <= dataStart st
  /\ (journalHead st - journalStart st) mod 8 = 0
  /\ dataStart st <= dataEnd st <= logEnd st
  /\ dataStart st < logEnd st
  /\ logEnd st < flashEnd (flash st)
  /\ flashEnd (flash st) + ps <= 2 ^ 32.

(** The metadata block is in the flash, and the region of the headings after
    it ends before the journal: it holds a byte other than 0x00 at [a] and an
    unused byte at [b]. *)
Definition metadata_stored (st : MicroBitLog) : Prop :=
  read_bytes (memory (flash st)) (startAddress st) 40
  = metadata_block (logEnd st) (dataStart st)
  /\ exists a b,
       startAddress st + sizeof_MicroBitLogMetaData <= a <= b
       /\ b < journalStart st
       /\ memory (flash st) a <> NUL
       /\ memory (flash st) b = ERASED.

(** The journal in the flash: the entries below the head are invalidated, the
    others are invalidated or unused, and the entry of the head, when it is
    not invalidated, holds a length that does not go beyond [dataEnd]. *)
Definition journal_shape (st : MicroBitLog) : Prop :=
  (forall k, journalStart st + 8 * Z.of_nat k < journalHead st ->
             containsOnly (entry_at st k) NUL = true)
  /\ (forall k, journalStart st + 8 * Z.of_nat k = journalHead st ->
                live (entry_at st k) = true ->
                strtoul16 (entry_at st k) <= dataEnd st - dataStart st)
  /\ (forall k, journalHead st < journalStart st + 8 * Z.of_nat k ->
                journalStart st + 8 * Z.of_nat k < dataStart st ->
                containsOnly (entry_at st k) NUL = true
                \/ containsOnly (entry_at st k) ERASED = true).

(** The bytes from [dataEnd] to the end of its page are unused, as far as
    they are below [logEnd]. *)
Definition tail_free (st : MicroBitLog) : Prop :=
  forall a,
    dataEnd st <= a < (dataEnd st / pageSize (flash st) + 1) * pageSize (flash st) ->
    a < logEnd st ->
    memory (flash st) a = ERASED.

(** The data in the flash: no byte below [dataEnd] reads 0xFF, and the rest
    of the page of [dataEnd] is unused. *)
Definition data_shape (st : MicroBitLog) : Prop :=
  (forall a, dataStart st <= a < dataEnd st -> memory (flash st) a <> ERASED)
  /\ tail_free st.

(** A log whose flash holds what its fields say. *)
Definition consistent (st : MicroBitLog) : Prop :=
  layout_ok st /\ metadata_stored st /\ journal_shape st /\ data_shape st.

(** The bounds under which [clear] formats the flash of [st]: pages of a
    multiple of the cache block, the flash starting on a page, the header
    below the metadata, room for a page of data, and a new journal entry of
    eight bytes. *)
Definition formattable (st : MicroBitLog) : Prop :=
  let ps := pageSize (flash st) in
  0 < ps /\ ps mod CONFIG_MICROBIT_LOG_CACHE_BLOCK_SIZE = 0
  /\ 0 <= flashStart (flash st)
  /\ flashStart (flash st) mod ps = 0
  /\ flashStart (flash st) + Z.of_nat (length header) <= metadata_address ps
  /\ metadata_address ps + 3 * ps + 4 < flashEnd (flash st)
  /\ flashEnd (flash st) + ps <= 2 ^ 32
  /\ (8 <= length JournalEntry_new)%nat.


(** A character a stored heading may hold: not the terminator, not the byte
    of unused flash, and none of the two separators of the line. *)
Definition heading_char (c : ascii) : Prop :=
  c <> NUL /\ c <> ERASED /\ is_separator c = false.

(** The line of the headings as [endRow] builds it, and the row [init] makes
    of it: the keys in their order, each with an empty value. *)
Definition heading_line (keys : list ManagedString) : list ascii :=
  join (str ",") keys ++ [NL].

Definition empty_row (keys : list ManagedString) : list ColumnEntry :=
  map (fun k => {| key := k; value := [] |}) keys.








(** ** Instances

    A flash of eight pages of 1024 bytes, laid out as [clear] lays it out: the
    metadata at 2048, one page of journal at 3072, the data from 4096 up to
    [logEnd] = 8192 - 1024 - 4. *)

Definition sample_storage (m : Z -> ascii) : Storage :=
  {| pageSize := 1024; flashStart := 0; flashEnd := 8192; memory := m; trace := [] |}.

Definition sample_log (st : Z) (jh de : Z) (rows : list ColumnEntry) (m : Z -> ascii)
    : MicroBitLog :=
  {| status := st; journalPages := 1; journalHead := jh; startAddress := 2048;
     journalStart := 3072; dataStart := 4096; dataEnd := de; headingStart := 0;
     headingLength := 0; logEnd := 7164; headingsChanged := false; rowData := rows;
     timeStampFormat := TSNone; timeStampHeading := [];
     flash := sample_storage m; system_time := 12340 |}.

Definition erased : Z -> ascii := fun _ => ERASED.

(** A log just formatted; a log 244 bytes into its first block, with the
    journal head on the first entry or on the last one of the journal page; a
    log four bytes short of its end, not yet full or already full with a row
    open, and that one once the row is closed. *)
Definition fresh_log : MicroBitLog := sample_log 1 3072 4096 [] erased.

Definition log_at_244 : MicroBitLog := sample_log 1 3072 4340 [] erased.

Definition log_at_journal_end : MicroBitLog := sample_log 1 4088 4340 [] erased.

Definition nearly_full_log : MicroBitLog := sample_log 1 3072 7160 [] erased.

Definition full_log_row_open : MicroBitLog :=
  sample_log 7 3072 7160 [{| key := str "k"; value := str "value" |}] erased.

Definition full_log_row_closed : MicroBitLog :=
  sample_log 5 3072 7160 [{| key := str "k"; value := str "value" |}] erased.

(** A flash to mount: valid metadata, a journal whose first entry is
    invalidated and whose next two are live (256, then 512), and 600 bytes of
    data. *)
Definition stored_log : Z -> ascii :=
  program 2048 (MICROBIT_LOG_VERSION ++ (str "0x" ++ writeNum 7164)
                ++ (str "0x" ++ writeNum 4096))
    (program 3072 (repeat NUL 8 ++ str "00000100" ++ str "00000200")
       (program 4096 (repeat "x"%char 600) erased)).

Definition unmounted_log : MicroBitLog := sample_log 0 0 0 [] stored_log.

(** The values of the time units that count the time in hundredths of the
    unit, milliseconds apart. *)
Definition hundredths (format : TimeStampFormat) : Z :=
  match format with
  | TSNone => 0
  | Milliseconds => 1
  | Seconds => 10
  | Minutes => 600
  | Hours => 36000
  | Days => 864000
  end.

Definition sample_header : list ascii := repeat " "%char 2048.

Definition sample_entry : list ascii := repeat ERASED 8.


Definition blank_device : MicroBitLog := sample_log 0 0 0 [] erased.

(** A flash just formatted, and one that holds the headings "a,b" as well;
    the log on the first, idle or with a row open, and the log on the
    second. *)
Definition formatted_flash : Z -> ascii := program 2048 (metadata_block 7164 4096) erased.

Definition headed_flash : Z -> ascii := program 2088 (str "a,b" ++ [NL]) formatted_flash.



Definition headed_log : MicroBitLog := sample_log 1 3072 4096 [] headed_flash.

(** ** Properties of cleanBuffer *)

Lemma set_char_length (o : list ascii) (i : nat) (c : ascii) :
  length (set_char o i c) = length o.
Proof.
  revert i; induction o as [|h t IH]; intros [|i]; simpl; auto.
Qed.

Lemma nth_set_char (o : list ascii) (i j : nat) (c d : ascii) :
  nth j (set_char o i c) d = if ((j =? i) && (i <? length o))%nat then c else nth j o d.
Proof.
  revert i j; induction o as [|h t IH]; intros [|i] [|j]; simpl; auto.
  all: try (rewrite andb_false_r; reflexivity).
  all: try (rewrite IH; reflexivity).
Qed.

Lemma char_at_in_range (s : list ascii) (i : nat) :
  char_at s i <> NUL -> (i < length s)%nat.
Proof.
  intros H. destruct (Nat.lt_ge_cases i (length s)) as [Hlt|Hge]; auto.
  exfalso; apply H. unfold char_at. apply nth_overflow; assumption.
Qed.

Lemma hit_in_range (rs : bool) (s : list ascii) (i : nat) :
  hit rs s i = true -> (i < length s)%nat.
Proof.
  unfold hit, arrow_at, separator_at. intros H.
  apply orb_true_iff in H. destruct H as [H|H].
  - repeat (apply andb_true_iff in H; destruct H as [H ?]).
    apply Nat.ltb_lt in H. lia.
  - apply char_at_in_range. intros E. rewrite E in H.
    destruct rs; vm_compute in H; discriminate H.
Qed.

Lemma rewrites_hit (rs : bool) (s : list ascii) (i j : nat) :
  rewrites rs s i j = true -> hit rs s i = true.
Proof.
  unfold rewrites, hit. intros H.
  apply orb_true_iff in H. apply orb_true_iff.
  destruct H as [H|H]; apply andb_true_iff in H; tauto.
Qed.

Lemma cleanBuffer_body_miss (rs : bool) (s : list ascii) (out : ManagedString) (i : nat) :
  hit rs s i = false -> cleanBuffer_body s rs out i = out.
Proof.
  unfold hit, cleanBuffer_body. intros H.
  apply orb_false_iff in H. destruct H as [Ha Hs]. rewrite Ha, Hs. reflexivity.
Qed.

Lemma cleanBuffer_body_hit (rs : bool) (s : list ascii) (out : ManagedString) (i : nat) :
  hit rs s i = true ->
  out = [] \/ length out = length s ->
  length (cleanBuffer_body s rs out i) = length s
  /\ forall j, nth j (cleanBuffer_body s rs out i) NUL
               = if rewrites rs s i j then INVALID_CHAR else nth j (copy_if_empty s out) NUL.
Proof.
  intros Hhit Hout.
  assert (Hi : (i < length s)%nat) by (eapply hit_in_range; eassumption).
  assert (Hc : length (copy_if_empty s out) = length s).
  { unfold copy_if_empty. destruct Hout as [->|E]; simpl; auto.
    rewrite E. destruct (length s =? 0)%nat; auto. }
  unfold cleanBuffer_body, rewrites, hit in *.
  destruct (arrow_at s i) eqn:Ha.
  - assert (Hi2 : (i + 2 < length s)%nat).
    { unfold arrow_at in Ha. repeat (apply andb_true_iff in Ha; destruct Ha as [Ha ?]).
      apply Nat.ltb_lt in Ha. exact Ha. }
    set (o3 := set_char (set_char (set_char (copy_if_empty s out) i INVALID_CHAR)
                           (i + 1) INVALID_CHAR) (i + 2) INVALID_CHAR).
    assert (Hl3 : length o3 = length s).
    { unfold o3. rewrite !set_char_length. exact Hc. }
    assert (Hn3 : forall j, nth j o3 NUL
                   = if ((j =? i) || (j =? i + 1) || (j =? i + 2))%nat then INVALID_CHAR
                     else nth j (copy_if_empty s out) NUL).
    { intros j. unfold o3. rewrite !nth_set_char, !set_char_length, Hc.
      replace (i <? length s)%nat with true by (symmetry; apply Nat.ltb_lt; lia).
      replace (i + 1 <? length s)%nat with true by (symmetry; apply Nat.ltb_lt; lia).
      replace (i + 2 <? length s)%nat with true by (symmetry; apply Nat.ltb_lt; lia).
      rewrite !andb_true_r.
      destruct (j =? i)%nat, (j =? i + 1)%nat, (j =? i + 2)%nat; reflexivity. }
    assert (Hce : copy_if_empty s o3 = o3).
    { unfold copy_if_empty. rewrite Hl3.
      replace (length s =? 0)%nat with false by (symmetry; apply Nat.eqb_neq; lia).
      reflexivity. }
    destruct (separator_at rs s i) eqn:Hs.
    + rewrite Hce. split.
      * rewrite set_char_length. exact Hl3.
      * intros j. rewrite nth_set_char, Hl3, Hn3.
        replace (i <? length s)%nat with true by (symmetry; apply Nat.ltb_lt; lia).
        simpl. rewrite andb_true_r.
        destruct (j =? i)%nat, (j =? i + 1)%nat, (j =? i + 2)%nat; reflexivity.
    + split; [exact Hl3|].
      intros j. rewrite Hn3. simpl. rewrite orb_false_r. reflexivity.
  - simpl in Hhit. rewrite Hhit. split.
    + rewrite set_char_length. exact Hc.
    + intros j. rewrite nth_set_char, Hc.
      replace (i <? length s)%nat with true by (symmetry; apply Nat.ltb_lt; lia).
      simpl. rewrite andb_true_r. reflexivity.
Qed.

(** The state of [out] after the turns [0 .. k-1]: still empty when none of
    them found anything, otherwise a copy of [s] with the rewritten indices
    set to the replacement character. *)
Lemma cleanBuffer_turns (rs : bool) (s : list ascii) (k : nat) :
  let out := fold_left (cleanBuffer_body s rs) (seq 0 k) [] in
  (existsb (hit rs s) (seq 0 k) = false /\ out = [])
  \/ (existsb (hit rs s) (seq 0 k) = true
      /\ length out = length s
      /\ forall j, nth j out NUL = if covered rs s k j then INVALID_CHAR else nth j s NUL).
Proof.
  cbv zeta. unfold covered. induction k as [|k IH].
  - left. split; reflexivity.
  - rewrite !seq_S, fold_left_app, existsb_app. cbn [Nat.add fold_left existsb].
    rewrite orb_false_r.
    set (out := fold_left (cleanBuffer_body s rs) (seq 0 k) []) in *.
    destruct (hit rs s k) eqn:Hk.
    + right. rewrite orb_true_r. split; [reflexivity|].
      destruct (cleanBuffer_body_hit rs s out k Hk) as [Hl Hn].
      { destruct IH as [[_ E]|[_ [E _]]]; auto. }
      split; [exact Hl|].
      intros j. rewrite Hn, existsb_app. cbn [existsb].
      rewrite orb_false_r.
      destruct (rewrites rs s k j) eqn:Hr.
      * rewrite orb_true_r. reflexivity.
      * rewrite orb_false_r.
        destruct IH as [[Hno E]|[_ [El En]]].
        -- rewrite E. unfold copy_if_empty; simpl.
           replace (existsb (fun i => rewrites rs s i j) (seq 0 k)) with false; auto.
           symmetry. apply not_true_iff_false. intros Hex.
           apply existsb_exists in Hex. destruct Hex as [i [Hin Hi]].
           apply rewrites_hit in Hi.
           assert (existsb (hit rs s) (seq 0 k) = true)
             by (apply existsb_exists; exists i; auto).
           congruence.
        -- unfold copy_if_empty. rewrite El.
           assert (Hpos : (k < length s)%nat) by (eapply hit_in_range; eassumption).
           replace (length s =? 0)%nat with false by (symmetry; apply Nat.eqb_neq; lia).
           apply En.
    + rewrite orb_false_r, (cleanBuffer_body_miss rs s out k Hk).
      destruct IH as [[Hno E]|[Hyes [El En]]].
      * left. split; assumption.
      * right. split; [assumption|]. split; [assumption|].
        intros j. rewrite En, existsb_app. cbn [existsb].
        replace (rewrites rs s k j) with false; [rewrite !orb_false_r; reflexivity|].
        symmetry. apply not_true_iff_false. intros Hr.
        apply rewrites_hit in Hr. congruence.
Qed.

Lemma cleanBuffer_no_hit (rs : bool) (s : list ascii) :
  (forall i, hit rs s i = false) -> cleanBuffer s rs = [].
Proof.
  intros H. unfold cleanBuffer.
  destruct (cleanBuffer_turns rs s (length s)) as [[_ E]|[Hex _]]; [exact E|].
  apply existsb_exists in Hex. destruct Hex as [i [_ Hi]]. rewrite H in Hi. discriminate.
Qed.

Lemma cleanBuffer_empty_or_same_length (rs : bool) (s : list ascii) :
  cleanBuffer s rs = [] \/ length (cleanBuffer s rs) = length s.
Proof.
  unfold cleanBuffer.
  destruct (cleanBuffer_turns rs s (length s)) as [[_ E]|[_ [E _]]]; auto.
Qed.

Lemma cleaned_length (rs : bool) (s : list ascii) :
  length (cleaned s rs) = length s.
Proof.
  unfold cleaned.
  destruct (cleanBuffer_empty_or_same_length rs s) as [E|E]; rewrite E; simpl; auto.
  destruct (length s =? 0)%nat eqn:H; auto.
Qed.

(** The string the callers keep is [s] with the rewritten indices replaced. *)
Lemma cleaned_nth (rs : bool) (s : list ascii) (j : nat) :
  nth j (cleaned s rs) NUL
  = if covered rs s (length s) j then INVALID_CHAR else nth j s NUL.
Proof.
  unfold cleaned, cleanBuffer.
  destruct (cleanBuffer_turns rs s (length s)) as [[Hno E]|[Hyes [El En]]].
  - rewrite E. simpl.
    replace (covered rs s (length s) j) with false; auto.
    symmetry. apply not_true_iff_false. intros Hc.
    apply existsb_exists in Hc. destruct Hc as [i [Hin Hi]].
    apply rewrites_hit in Hi.
    assert (existsb (hit rs s) (seq 0 (length s)) = true)
      by (apply existsb_exists; exists i; auto).
    congruence.
  - apply existsb_exists in Hyes. destruct Hyes as [i [_ Hi]].
    apply hit_in_range in Hi.
    rewrite El. replace (length s =? 0)%nat with false by (symmetry; apply Nat.eqb_neq; lia).
    apply En.
Qed.

Lemma covered_intro (rs : bool) (s : list ascii) (i j : nat) :
  rewrites rs s i j = true -> covered rs s (length s) j = true.
Proof.
  intros H. apply existsb_exists. exists i. split; auto.
  apply in_seq. apply rewrites_hit, hit_in_range in H. lia.
Qed.

(** Cleaning leaves nothing to clean, when the replacement character is not
    itself one of the characters cleaned. *)
Lemma cleaned_no_hit (rs : bool) (s : list ascii) :
  INVALID_CHAR <> "-"%char -> INVALID_CHAR <> ">"%char -> INVALID_CHAR <> TAB ->
  (rs = true -> INVALID_CHAR <> ","%char /\ INVALID_CHAR <> NL) ->
  forall i, hit rs (cleaned s rs) i = false.
Proof.
  intros Hdash Hgt Htab Hsep i.
  apply not_true_iff_false. intros Hhit.
  unfold hit in Hhit. apply orb_true_iff in Hhit.
  assert (Hsame : forall j c, char_at (cleaned s rs) j = c -> c <> INVALID_CHAR ->
                    covered rs s (length s) j = false /\ char_at s j = c).
  { intros j c Hj Hc. unfold char_at in *. rewrite cleaned_nth in Hj.
    destruct (covered rs s (length s) j); [congruence|auto]. }
  destruct Hhit as [Ha|Hs].
  - unfold arrow_at in Ha. rewrite cleaned_length in Ha.
    apply andb_true_iff in Ha. destruct Ha as [Ha H2].
    apply andb_true_iff in Ha. destruct Ha as [Ha H1].
    apply andb_true_iff in Ha. destruct Ha as [Hl H0].
    apply Ascii.eqb_eq in H0, H1, H2.
    destruct (Hsame _ _ H0) as [Hc0 E0]; [congruence|].
    destruct (Hsame _ _ H1) as [_ E1]; [congruence|].
    destruct (Hsame _ _ H2) as [_ E2]; [congruence|].
    assert (Hr : rewrites rs s i i = true).
    { unfold rewrites, arrow_at. rewrite Hl, E0, E1, E2, Nat.eqb_refl. reflexivity. }
    apply covered_intro in Hr. congruence.
  - unfold separator_at in Hs.
    assert (Hr : forall c, char_at (cleaned s rs) i = c -> c <> INVALID_CHAR ->
                   separator_at rs s i = false /\ char_at s i = c).
    { intros c Hc Hne. destruct (Hsame _ _ Hc Hne) as [Hcov E]. split; auto.
      apply not_true_iff_false. intros Hsp.
      assert (rewrites rs s i i = true)
        by (unfold rewrites; rewrite Hsp, Nat.eqb_refl, orb_true_r; reflexivity).
      apply covered_intro in H. congruence. }
    apply orb_true_iff in Hs. destruct Hs as [Ht|Hs].
    + apply Ascii.eqb_eq in Ht. destruct (Hr _ Ht) as [Hsp E]; [congruence|].
      unfold separator_at in Hsp. rewrite E in Hsp. discriminate Hsp.
    + apply andb_true_iff in Hs. destruct Hs as [Hrs Hs]. subst rs.
      destruct (Hsep eq_refl) as [Hcomma Hnl].
      apply orb_true_iff in Hs. destruct Hs as [Hs|Hs]; apply Ascii.eqb_eq in Hs.
      * destruct (Hr _ Hs) as [Hsp E]; [congruence|].
        unfold separator_at in Hsp. rewrite E in Hsp. discriminate Hsp.
      * destruct (Hr _ Hs) as [Hsp E]; [congruence|].
        unfold separator_at in Hsp. rewrite E in Hsp. discriminate Hsp.
Qed.

Lemma arrow_at_cons (h : ascii) (t : list ascii) (i : nat) :
  arrow_at (h :: t) (S i) = arrow_at t i.
Proof. reflexivity. Qed.

Lemma arrow_at_occurs (s : list ascii) (i : nat) :
  arrow_at s i = true -> exists p q, s = p ++ str "-->" ++ q.
Proof.
  revert i. induction s as [|h t IH]; intros i H.
  - unfold arrow_at in H. simpl in H. discriminate H.
  - destruct i as [|i].
    + unfold arrow_at, char_at in H.
      destruct t as [|b [|c q]]; try discriminate H.
      simpl in H.
      apply andb_true_iff in H. destruct H as [H H2].
      apply andb_true_iff in H. destruct H as [H0 H1].
      apply Ascii.eqb_eq in H0, H1, H2. subst.
      exists [], q. reflexivity.
    + rewrite arrow_at_cons in H. destruct (IH i H) as [p [q E]].
      exists (h :: p), q. rewrite E. reflexivity.
Qed.

Lemma separator_at_occurs (rs : bool) (s : list ascii) (i : nat) :
  separator_at rs s i = true ->
  In TAB s \/ (rs = true /\ (In ","%char s \/ In NL s)).
Proof.
  unfold separator_at. intros H.
  assert (Hin : forall c, c <> NUL -> char_at s i = c -> In c s).
  { intros c Hc E. rewrite <- E. apply nth_In. apply char_at_in_range. congruence. }
  apply orb_true_iff in H. destruct H as [H|H].
  - left. apply Ascii.eqb_eq in H. apply Hin; auto. discriminate.
  - right. apply andb_true_iff in H. destruct H as [-> H]. split; auto.
    apply orb_true_iff in H. destruct H as [H|H]; apply Ascii.eqb_eq in H.
    + left. apply Hin; auto. discriminate.
    + right. apply Hin; auto. discriminate.
Qed.

(** ** Status flags *)

Lemma land_pow2 (s k : Z) :
  0 <= k -> Z.land s (2 ^ k) = if Z.testbit s k then 2 ^ k else 0.
Proof.
  intros Hk. apply Z.bits_inj'. intros m Hm.
  rewrite Z.land_spec, Z.pow2_bits_eqb by assumption.
  destruct (Z.eqb_spec k m) as [->|Hne].
  - destruct (Z.testbit s m); simpl.
    + rewrite Z.pow2_bits_eqb, Z.eqb_refl by assumption. reflexivity.
    + rewrite Z.bits_0. reflexivity.
  - rewrite andb_false_r. destruct (Z.testbit s k).
    + rewrite Z.pow2_bits_eqb by assumption.
      symmetry. apply Z.eqb_neq. assumption.
    + rewrite Z.bits_0. reflexivity.
Qed.

Lemma has_flag_testbit (s k : Z) : 0 <= k -> has_flag s (2 ^ k) = Z.testbit s k.
Proof.
  intros Hk. unfold has_flag. rewrite land_pow2 by assumption.
  destruct (Z.testbit s k); simpl; auto.
  assert (0 < 2 ^ k) by (apply Z.pow_pos_nonneg; lia).
  destruct (Z.eqb_spec (2 ^ k) 0); auto. lia.
Qed.

Lemma has_flag_set (s k j : Z) :
  0 <= k -> 0 <= j ->
  has_flag (set_flag s (2 ^ k)) (2 ^ j) = has_flag s (2 ^ j) || (k =? j).
Proof.
  intros Hk Hj. rewrite !has_flag_testbit by assumption.
  unfold set_flag. rewrite Z.lor_spec, Z.pow2_bits_eqb by assumption. reflexivity.
Qed.

Lemma has_flag_clear (s k j : Z) :
  0 <= k -> 0 <= j ->
  has_flag (clear_flag s (2 ^ k)) (2 ^ j) = has_flag s (2 ^ j) && negb (k =? j).
Proof.
  intros Hk Hj. rewrite !has_flag_testbit by assumption.
  unfold clear_flag.
  rewrite Z.land_spec, Z.lnot_spec, Z.pow2_bits_eqb by assumption. reflexivity.
Qed.

Lemma full_after_set (s : Z) :
  has_flag (set_flag s MICROBIT_LOG_STATUS_FULL) MICROBIT_LOG_STATUS_FULL = true.
Proof. exact (eq_trans (has_flag_set s 2 2 ltac:(lia) ltac:(lia)) (orb_true_r _)). Qed.

Lemma initialized_after_set_full (s : Z) :
  has_flag (set_flag s MICROBIT_LOG_STATUS_FULL) MICROBIT_LOG_STATUS_INITIALIZED
  = has_flag s MICROBIT_LOG_STATUS_INITIALIZED.
Proof. exact (eq_trans (has_flag_set s 2 0 ltac:(lia) ltac:(lia)) (orb_false_r _)). Qed.

Lemma row_started_after_set_full (s : Z) :
  has_flag (set_flag s MICROBIT_LOG_STATUS_FULL) MICROBIT_LOG_STATUS_ROW_STARTED
  = has_flag s MICROBIT_LOG_STATUS_ROW_STARTED.
Proof. exact (eq_trans (has_flag_set s 2 1 ltac:(lia) ltac:(lia)) (orb_false_r _)). Qed.

Lemma row_started_after_set (s : Z) :
  has_flag (set_flag s MICROBIT_LOG_STATUS_ROW_STARTED) MICROBIT_LOG_STATUS_ROW_STARTED = true.
Proof. exact (eq_trans (has_flag_set s 1 1 ltac:(lia) ltac:(lia)) (orb_true_r _)). Qed.

Lemma initialized_after_set_row (s : Z) :
  has_flag (set_flag s MICROBIT_LOG_STATUS_ROW_STARTED) MICROBIT_LOG_STATUS_INITIALIZED
  = has_flag s MICROBIT_LOG_STATUS_INITIALIZED.
Proof. exact (eq_trans (has_flag_set s 1 0 ltac:(lia) ltac:(lia)) (orb_false_r _)). Qed.

Lemma full_after_set_row (s : Z) :
  has_flag (set_flag s MICROBIT_LOG_STATUS_ROW_STARTED) MICROBIT_LOG_STATUS_FULL
  = has_flag s MICROBIT_LOG_STATUS_FULL.
Proof. exact (eq_trans (has_flag_set s 1 2 ltac:(lia) ltac:(lia)) (orb_false_r _)). Qed.

Lemma row_started_after_clear (s : Z) :
  has_flag (clear_flag s MICROBIT_LOG_STATUS_ROW_STARTED) MICROBIT_LOG_STATUS_ROW_STARTED = false.
Proof. exact (eq_trans (has_flag_clear s 1 1 ltac:(lia) ltac:(lia)) (andb_false_r _)). Qed.


Lemma full_after_clear_row (s : Z) :
  has_flag (clear_flag s MICROBIT_LOG_STATUS_ROW_STARTED) MICROBIT_LOG_STATUS_FULL
  = has_flag s MICROBIT_LOG_STATUS_FULL.
Proof. exact (eq_trans (has_flag_clear s 1 2 ltac:(lia) ltac:(lia)) (andb_true_r _)). Qed.

Lemma init_initialized (fuel : nat) (st : MicroBitLog) :
  initialized st -> init fuel st = Some (tt, st).
Proof. unfold initialized, init. intros ->. reflexivity. Qed.

(** ** logString when the string does not fit *)

Lemma wrap32_small (z : Z) : 0 <= z < 2 ^ 32 -> wrap32 z = z.
Proof. intros H. unfold wrap32. apply Z.mod_small. exact H. Qed.

Lemma logString_no_room (fuel : nat) (s : list ascii) (st : MicroBitLog) :
  initialized st ->
  sub32 (logEnd st) (dataEnd st) < strlen s ->
  logString fuel s st
  = Some (DEVICE_NO_RESOURCES,
          if isFull st then st
          else set_status
                 (set_flash st (storage_cache_write (add32 (logEnd st) 1) (str "FUL") (flash st)))
                 (set_flag (status st) MICROBIT_LOG_STATUS_FULL)).
Proof.
  intros Hinit Hroom. unfold logString, bind.
  rewrite (init_initialized fuel st Hinit). cbn [get].
  apply Z.ltb_lt in Hroom. rewrite Hroom.
  unfold isFull. destruct (has_flag (status st) MICROBIT_LOG_STATUS_FULL); reflexivity.
Qed.

Lemma byte_and_erased (b : ascii) : byte_and ERASED b = b.
Proof. destruct b as [[] [] [] [] [] [] [] []]; reflexivity. Qed.

Lemma program_outside (address : Z) (data : list ascii) (m : Z -> ascii) (x : Z) :
  x < address \/ address + Z.of_nat (length data) <= x -> program address data m x = m x.
Proof.
  intros H. unfold program.
  destruct (address <=? x) eqn:E1; simpl; auto.
  destruct (x <? address + Z.of_nat (length data)) eqn:E2; auto.
  apply Z.leb_le in E1. apply Z.ltb_lt in E2. lia.
Qed.

(** C3, as amended.  When [s] is longer than [logEnd - dataEnd], [logString]
    writes the three bytes "FUL" at [logEnd + 1] unless the full flag is set
    already, sets the flag, changes no byte outside the three of the marker
    (so none of the data region), and returns [DEVICE_NO_RESOURCES]; the state
    it leaves answers every later append that does not fit in the same way,
    without any change. *)
Theorem logString_latches_full (fuel : nat) (s : list ascii) (st : MicroBitLog) :
  initialized st ->
  0 <= dataEnd st <= logEnd st ->
  logEnd st + 1 < 2 ^ 32 ->
  logEnd st - dataEnd st < strlen s ->
  exists st',
    logString fuel s st = Some (DEVICE_NO_RESOURCES, st')
    /\ isFull st' = true
    /\ trace (flash st')
       = trace (flash st)
         ++ (if isFull st then [] else [cache_write_op (logEnd st + 1) (str "FUL")])
    /\ (forall a, a < logEnd st + 1 \/ logEnd st + 4 <= a ->
                  memory (flash st') a = memory (flash st) a)
    /\ dataEnd st' = dataEnd st
    /\ journalHead st' = journalHead st
    /\ (isFull st = true -> st' = st)
    /\ (forall fuel2 s2, logEnd st - dataEnd st < strlen s2 ->
          logString fuel2 s2 st' = Some (DEVICE_NO_RESOURCES, st')).
Proof.
  intros Hinit Hend Hlog Hroom.
  assert (Hsub : sub32 (logEnd st) (dataEnd st) = logEnd st - dataEnd st)
    by (apply wrap32_small; lia).
  assert (Hadd : add32 (logEnd st) 1 = logEnd st + 1)
    by (apply wrap32_small; lia).
  eexists. split.
  { apply logString_no_room; [assumption|]. rewrite Hsub. assumption. }
  rewrite Hadd. unfold isFull.
  destruct (has_flag (status st) MICROBIT_LOG_STATUS_FULL) eqn:Hfull.
  - repeat split; auto.
    + rewrite app_nil_r. reflexivity.
    + intros fuel2 s2 H2.
      rewrite logString_no_room; [|assumption|rewrite Hsub; assumption].
      unfold isFull. rewrite Hfull. reflexivity.
  - cbn [status set_status flash set_flash storage_cache_write issue memory trace
         dataEnd journalHead].
    repeat split.
    + apply full_after_set.
    + intros a Ha. apply program_outside. simpl. lia.
    + discriminate.
    + intros fuel2 s2 H2.
      rewrite logString_no_room.
      * unfold isFull. cbn [status set_status]. rewrite full_after_set. reflexivity.
      * unfold initialized. cbn [status set_status].
        rewrite initialized_after_set_full. exact Hinit.
      * cbn [logEnd dataEnd set_status set_flash]. rewrite Hsub. assumption.
Qed.

(** ** Running a method step by step *)

Lemma bind_Some {A B : Type} (m : M A) (k : A -> M B) (st st' : MicroBitLog) (b : B) :
  bind m k st = Some (b, st') ->
  exists a st1, m st = Some (a, st1) /\ k a st1 = Some (b, st').
Proof.
  unfold bind. destruct (m st) as [[a st1]|]; [|discriminate].
  intros H. exists a, st1. split; auto.
Qed.

Lemma bind_step {A B : Type} (m : M A) (k : A -> M B) (st st1 : MicroBitLog) (a : A) :
  m st = Some (a, st1) -> bind m k st = k a st1.
Proof. unfold bind. intros ->. reflexivity. Qed.

Lemma bytes_eqb_refl (a : list ascii) : bytes_eqb a a = true.
Proof. unfold bytes_eqb. destruct (list_eq_dec ascii_dec a a); congruence. Qed.

Lemma bytes_eqb_eq (a b : list ascii) : bytes_eqb a b = true <-> a = b.
Proof. unfold bytes_eqb. destruct (list_eq_dec ascii_dec a b); split; congruence. Qed.

(** ** init leaves the log initialized

    Every method starts with [init], which does nothing on a log that is
    initialized; the theorems below are stated for such a log.  On another
    log a method acts as on the log that [init] leaves. *)

Lemma initialized_after_set (s : Z) :
  has_flag (set_flag s MICROBIT_LOG_STATUS_INITIALIZED) MICROBIT_LOG_STATUS_INITIALIZED = true.
Proof. exact (eq_trans (has_flag_set s 0 0 ltac:(lia) ltac:(lia)) (orb_true_r _)). Qed.

Lemma init_initializes (fuel : nat) (st st0 : MicroBitLog) :
  init fuel st = Some (tt, st0) -> initialized st0.
Proof.
  unfold init, initialized.
  destruct (has_flag (status st) MICROBIT_LOG_STATUS_INITIALIZED) eqn:Hinit.
  - intros H. inversion H; subst. exact Hinit.
  - destruct (isPresent st) as [[[|] st1]|]; [| |discriminate].
    + unfold init_mount. destruct (pageSize (flash st1) =? 0); [discriminate|].
      intros H.
      repeat (apply bind_Some in H; destruct H as [? [? [_ H]]]).
      inversion H; subst. cbn [status set_status]. apply initialized_after_set.
    + unfold clear. destruct (pageSize (flash st1) =? 0); [discriminate|].
      intros H.
      repeat (apply bind_Some in H; destruct H as [? [? [_ H]]]).
      inversion H; subst. cbn [status set_status]. apply initialized_after_set.
Qed.

Lemma logString_after_init (fuel : nat) (s : list ascii) (st st0 : MicroBitLog) :
  init fuel st = Some (tt, st0) -> logString fuel s st = logString fuel s st0.
Proof.
  intros H. unfold logString.
  rewrite (bind_step _ _ _ _ _ H).
  rewrite (bind_step _ _ _ _ _ (init_initialized fuel st0 (init_initializes _ _ _ H))).
  reflexivity.
Qed.

Lemma logData_after_init (fuel : nat) (k v : ManagedString) (st st0 : MicroBitLog) :
  init fuel st = Some (tt, st0) -> logData fuel k v st = logData fuel k v st0.
Proof.
  intros H. unfold logData, logData_body.
  rewrite (bind_step _ _ _ _ _ H).
  rewrite (bind_step _ _ _ _ _ (init_initialized fuel st0 (init_initializes _ _ _ H))).
  reflexivity.
Qed.

Lemma setTimeStamp_after_init (fuel : nat) (format : TimeStampFormat)
    (st st0 : MicroBitLog) :
  init fuel st = Some (tt, st0) -> setTimeStamp fuel format st = setTimeStamp fuel format st0.
Proof.
  intros H. unfold setTimeStamp.
  rewrite (bind_step _ _ _ _ _ H).
  rewrite (bind_step _ _ _ _ _ (init_initialized fuel st0 (init_initializes _ _ _ H))).
  reflexivity.
Qed.

(** ** setTimeStamp *)

Lemma addHeading_eq (k v : ManagedString) (st : MicroBitLog) :
  addHeading k v st
  = Some (tt, if has_heading k (rowData st) then st
              else set_headingsChanged
                     (set_rowData st (rowData st ++ [{| key := k; value := v |}])) true).
Proof. unfold addHeading. destruct (has_heading k (rowData st)); reflexivity. Qed.

Lemma has_heading_added (k v : ManagedString) (rows : list ColumnEntry) :
  has_heading k (rows ++ [{| key := k; value := v |}]) = true.
Proof.
  unfold has_heading. rewrite existsb_app. simpl.
  rewrite bytes_eqb_refl. apply orb_true_iff. right. reflexivity.
Qed.

(** C7.  With the unit of days, [setTimeStamp] makes sure that a column named
    "Time (hours)" exists: it appends one, with an empty value, when there is
    none, and leaves the columns alone when there is one; milliseconds,
    seconds, minutes and hours each give the column their own name. *)
Theorem setTimeStamp_heading (fuel : nat) (format : TimeStampFormat) (st : MicroBitLog) :
  initialized st ->
  format <> TSNone ->
  let heading := str "Time (" ++ unit_label format ++ str ")" in
  unit_label Days = str "hours"
  /\ exists st',
       setTimeStamp fuel format st = Some (tt, st')
       /\ timeStampFormat st' = format
       /\ timeStampHeading st' = heading
       /\ has_heading heading (rowData st') = true
       /\ rowData st'
          = (if has_heading heading (rowData st) then rowData st
             else rowData st ++ [{| key := heading; value := [] |}]).
Proof.
  intros Hinit Hfmt heading. split; [reflexivity|].
  set (st2 := set_timeStampHeading (set_timeStampFormat st format) heading).
  assert (Hrun : setTimeStamp fuel format st = addHeading heading addHeading_value_default st2).
  { unfold setTimeStamp.
    rewrite (bind_step _ _ _ _ _ (init_initialized fuel st Hinit)).
    destruct format; try congruence; reflexivity. }
  rewrite Hrun, addHeading_eq.
  change (rowData st2) with (rowData st).
  eexists. split; [reflexivity|].
  destruct (has_heading heading (rowData st)) eqn:Hh; cbn; repeat split; auto.
  apply has_heading_added.
Qed.

(** ** beginRow and logData *)

Lemma beginRow_body_idle (fuel : nat) (e : M ErrorCode) (st : MicroBitLog) :
  initialized st -> row_started st = false ->
  beginRow_body fuel e st = Some (DEVICE_OK, row_begun st).
Proof.
  intros Hinit Hrow. unfold beginRow_body.
  rewrite (bind_step _ _ _ _ _ (init_initialized fuel st Hinit)).
  unfold bind at 1. cbn [get].
  unfold row_started in Hrow. rewrite Hrow. reflexivity.
Qed.

Lemma set_value_None (rows : list ColumnEntry) (k v : ManagedString) :
  set_value rows k v = None -> has_heading k rows = false.
Proof.
  induction rows as [|e t IH]; simpl; auto.
  destruct (bytes_eqb (key e) k); [discriminate|].
  destruct (set_value t k v); [discriminate|]. intros _. simpl. auto.
Qed.

Lemma logData_body_eq (fuel : nat) (b : M ErrorCode) (k v : ManagedString) (st : MicroBitLog) :
  initialized st ->
  (row_started st = false -> b st = Some (DEVICE_OK, row_begun st)) ->
  logData_body fuel b k v st
  = Some (DEVICE_OK,
          pair_logged (cleaned k cleanBuffer_removeSeparators_default)
            (cleaned v cleanBuffer_removeSeparators_default) (row_open st)).
Proof.
  intros Hinit Hb. unfold logData_body.
  rewrite (bind_step _ _ _ _ _ (init_initialized fuel st Hinit)).
  unfold bind at 1. cbn [get].
  assert (Hopen : when (negb (has_flag (status st) MICROBIT_LOG_STATUS_ROW_STARTED))
                    (bind b (fun _ => ret tt)) st = Some (tt, row_open st)).
  { unfold row_open, row_started in *.
    destruct (has_flag (status st) MICROBIT_LOG_STATUS_ROW_STARTED); simpl.
    - reflexivity.
    - unfold bind. rewrite Hb by reflexivity. reflexivity. }
  rewrite (bind_step _ _ _ _ _ Hopen).
  unfold bind at 1. cbn [get].
  unfold cleaned, pair_logged.
  set (k' := if negb (length (cleanBuffer k cleanBuffer_removeSeparators_default) =? 0)%nat
             then cleanBuffer k cleanBuffer_removeSeparators_default else k).
  set (v' := if negb (length (cleanBuffer v cleanBuffer_removeSeparators_default) =? 0)%nat
             then cleanBuffer v cleanBuffer_removeSeparators_default else v).
  replace (if (length (cleanBuffer k cleanBuffer_removeSeparators_default) =? 0)%nat
           then k else cleanBuffer k cleanBuffer_removeSeparators_default) with k'
    by (unfold k'; destruct (length (cleanBuffer k cleanBuffer_removeSeparators_default) =? 0)%nat;
        reflexivity).
  replace (if (length (cleanBuffer v cleanBuffer_removeSeparators_default) =? 0)%nat
           then v else cleanBuffer v cleanBuffer_removeSeparators_default) with v'
    by (unfold v'; destruct (length (cleanBuffer v cleanBuffer_removeSeparators_default) =? 0)%nat;
        reflexivity).
  destruct (set_value (rowData (row_open st)) k' v') eqn:Hset.
  - reflexivity.
  - unfold bind. rewrite addHeading_eq.
    rewrite (set_value_None _ _ _ Hset). reflexivity.
Qed.

Lemma logData_eq (fuel : nat) (k v : ManagedString) (st : MicroBitLog) :
  initialized st ->
  logData fuel k v st
  = Some (DEVICE_OK,
          pair_logged (cleaned k cleanBuffer_removeSeparators_default)
            (cleaned v cleanBuffer_removeSeparators_default) (row_open st)).
Proof.
  intros Hinit. unfold logData. apply logData_body_eq; [assumption|].
  intros Hrow. apply beginRow_body_idle; assumption.
Qed.

Lemma pair_logged_storage (k v : ManagedString) (st : MicroBitLog) :
  flash (pair_logged k v st) = flash st /\ status (pair_logged k v st) = status st.
Proof. unfold pair_logged. destruct (set_value (rowData st) k v); split; reflexivity. Qed.

Lemma row_open_storage (st : MicroBitLog) :
  flash (row_open st) = flash st /\ isFull (row_open st) = isFull st.
Proof.
  unfold row_open, isFull. destruct (row_started st); split; auto.
  unfold row_begun. cbn [status set_status]. apply full_after_set_row.
Qed.

(** ** endRow closes the row *)

Lemma endRow_unfold (fuel : nat) :
  endRow fuel
  = endRow_body fuel
      (logData_body fuel
         (beginRow_body fuel
            (match fuel with
             | O => fail
             | S f => endRow f
             end))).
Proof. destruct fuel; reflexivity. Qed.

Lemma endRow_body_idle (fuel : nat) (ld : ManagedString -> ManagedString -> M ErrorCode)
    (st : MicroBitLog) :
  row_started st = false -> endRow_body fuel ld st = Some (DEVICE_INVALID_STATE, st).
Proof.
  unfold row_started, endRow_body, bind. cbn [get]. intros ->. reflexivity.
Qed.

Lemma endRow_body_closes (fuel : nat) (ld : ManagedString -> ManagedString -> M ErrorCode)
    (st st' : MicroBitLog) (r : ErrorCode) :
  endRow_body fuel ld st = Some (r, st') -> row_started st' = false.
Proof.
  unfold endRow_body. intros H.
  apply bind_Some in H. destruct H as [st0 [st0' [Hget H]]].
  inversion Hget; subst st0 st0'; clear Hget.
  destruct (has_flag (status st) MICROBIT_LOG_STATUS_ROW_STARTED) eqn:Hrow; simpl in H.
  - do 5 (apply bind_Some in H; destruct H as [? [? [_ H]]]).
    apply bind_Some in H. destruct H as [? [sa [Hmod H]]].
    apply bind_Some in H. destruct H as [sb [sc [Hget H]]].
    inversion Hmod; subst sa. inversion Hget; subst sb sc.
    match type of H with
    | (if ?c then _ else _) ?s = _ =>
        assert (Hst' : st' = s) by (destruct c; inversion H; reflexivity)
    end.
    rewrite Hst'. unfold row_started. cbn [status set_status].
    apply row_started_after_clear.
  - inversion H; subst. exact Hrow.
Qed.

(** Whatever [endRow] returns, it leaves the flag of the open row cleared, so
    that an [endRow] that follows at once returns [DEVICE_INVALID_STATE] and
    changes nothing. *)
Lemma endRow_closes_row (fuel fuel2 : nat) (st st' : MicroBitLog) (r : ErrorCode) :
  endRow fuel st = Some (r, st') ->
  row_started st' = false
  /\ endRow fuel2 st' = Some (DEVICE_INVALID_STATE, st').
Proof.
  intros H. rewrite endRow_unfold in H. apply endRow_body_closes in H.
  split; [exact H|].
  rewrite endRow_unfold. apply endRow_body_idle. exact H.
Qed.

(** ** The loop of logString that writes the data *)

Lemma logString_write_step (f : nat) (c : ascii) (t : list ascii) (st : MicroBitLog) :
  pageSize (flash st) <> 0 ->
  logString_write (S f) (c :: t) st
  = logString_write f (skipn (Z.to_nat (chunk_length st (c :: t))) (c :: t))
      (after_chunk st (c :: t)).
Proof.
  intros Hps. cbn [logString_write].
  apply Z.eqb_neq in Hps. rewrite Hps.
  unfold after_chunk, chunk_storage, chunk_length, bind, when.
  destruct ((sub32 (pageSize (flash st)) (dataEnd st mod pageSize (flash st))
             <=? Z.of_nat (length (c :: t)))
            && (add32 (dataEnd st)
                  (sub32 (pageSize (flash st)) (dataEnd st mod pageSize (flash st)))
                <? logEnd st)); reflexivity.
Qed.

Lemma erase_page_outside (size address : Z) (m : Z -> ascii) (x : Z) :
  x < address - address mod size \/ address - address mod size + size <= x ->
  erase_page size address m x = m x.
Proof.
  intros H. unfold erase_page.
  destruct (address - address mod size <=? x) eqn:E1; simpl; auto.
  destruct (x <? address - address mod size + size) eqn:E2; auto.
  apply Z.leb_le in E1. apply Z.ltb_lt in E2. lia.
Qed.

Lemma erase_page_inside (size address : Z) (m : Z -> ascii) (x : Z) :
  address - address mod size <= x < address - address mod size + size ->
  erase_page size address m x = ERASED.
Proof.
  intros [H1 H2]. unfold erase_page.
  apply Z.leb_le in H1. apply Z.ltb_lt in H2. rewrite H1, H2. reflexivity.
Qed.

Lemma program_inside (address : Z) (data : list ascii) (m : Z -> ascii) (i : nat) :
  (i < length data)%nat ->
  m (address + Z.of_nat i) = ERASED ->
  program address data m (address + Z.of_nat i) = nth i data NUL.
Proof.
  intros Hi Hm. unfold program.
  replace (address <=? address + Z.of_nat i) with true by (symmetry; apply Z.leb_le; lia).
  replace (address + Z.of_nat i <? address + Z.of_nat (length data)) with true
    by (symmetry; apply Z.ltb_lt; lia).
  simpl. rewrite Hm, byte_and_erased.
  replace (Z.to_nat (address + Z.of_nat i - address)) with i by lia.
  apply nth_indep. assumption.
Qed.

Lemma chunk_arith (st : MicroBitLog) (c : ascii) (t : list ascii) :
  room_for (c :: t) st ->
  let ps := pageSize (flash st) in
  let n := chunk_length st (c :: t) in
  sub32 ps (dataEnd st mod ps) = ps - dataEnd st mod ps
  /\ 1 <= n <= Z.of_nat (length (c :: t))
  /\ n = Z.min (Z.of_nat (length (c :: t))) (ps - dataEnd st mod ps)
  /\ add32 (dataEnd st) n = dataEnd st + n
  /\ add32 (dataEnd st) (ps - dataEnd st mod ps) = dataEnd st + (ps - dataEnd st mod ps)
  /\ (dataEnd st + (ps - dataEnd st mod ps) < logEnd st ->
      mul32 (add32 (dataEnd st / ps) 1) ps = dataEnd st + (ps - dataEnd st mod ps))
  /\ (dataEnd st + (ps - dataEnd st mod ps)) mod ps = 0.
Proof.
  intros [Hps [Hd [Hfit Hend]]] ps n.
  assert (Hl : 1 <= Z.of_nat (length (c :: t))) by (simpl; lia).
  pose proof (Z.mod_pos_bound (dataEnd st) ps Hps) as Hm.
  pose proof (Z.div_mod (dataEnd st) ps ltac:(lia)) as Hdm.
  fold ps in Hfit, Hend.
  assert (Hsub : sub32 ps (dataEnd st mod ps) = ps - dataEnd st mod ps)
    by (apply wrap32_small; lia).
  assert (Hn : n = Z.min (Z.of_nat (length (c :: t))) (ps - dataEnd st mod ps)).
  { unfold n, chunk_length. fold ps. rewrite Hsub. reflexivity. }
  assert (Hq : 0 <= dataEnd st / ps) by (apply Z.div_pos; lia).
  assert (Hnext : (dataEnd st / ps + 1) * ps = dataEnd st + (ps - dataEnd st mod ps)) by lia.
  split; [exact Hsub|].
  split; [lia|].
  split; [exact Hn|].
  split; [apply wrap32_small; lia|].
  split; [apply wrap32_small; lia|].
  split.
  - intros Hlt. unfold mul32, add32.
    rewrite (wrap32_small (dataEnd st / ps + 1)).
    + rewrite Hnext. apply wrap32_small. lia.
    + split; [lia|]. nia.
  - rewrite <- Hnext. apply Z.mod_mul. lia.
Qed.

Lemma state_eta (st : MicroBitLog) :
  set_dataEnd (set_flash st (flash st)) (dataEnd st) = st.
Proof. destruct st; reflexivity. Qed.

Lemma data_op_weaken (lo hi lo' hi' : Z) (op : StorageOp) :
  lo' <= lo -> hi <= hi' -> data_op lo hi op -> data_op lo' hi' op.
Proof. destruct op; simpl; intros; lia. Qed.

Lemma written_app (a b : list StorageOp) : written (a ++ b) = written a ++ written b.
Proof.
  induction a as [|op a IH]; simpl; auto.
  destruct op; auto. rewrite IH, app_assoc. reflexivity.
Qed.

(** One turn of the loop. *)
Lemma chunk_written (st : MicroBitLog) (c : ascii) (t : list ascii) :
  room_for (c :: t) st ->
  let data := c :: t in
  let ps := pageSize (flash st) in
  let n := chunk_length st data in
  let F := chunk_storage st data in
  exists ops,
    pageSize F = ps
    /\ trace F = trace (flash st) ++ ops
    /\ written ops = firstn (Z.to_nat n) data
    /\ Forall (data_op (dataEnd st) (dataEnd st + n)) ops
    /\ (forall a, a < dataEnd st -> memory F a = memory (flash st) a)
    /\ ((forall a, dataEnd st <= a < dataEnd st + n -> memory (flash st) a = ERASED) ->
        forall i, (i < Z.to_nat n)%nat -> memory F (dataEnd st + Z.of_nat i) = nth i data NUL)
    /\ (n < Z.of_nat (length data) ->
        forall a, dataEnd st + n <= a < dataEnd st + n + ps -> memory F a = ERASED)
    /\ (forall a, dataEnd st + n <= a -> memory (flash st) a = ERASED -> memory F a = ERASED).
Proof.
  intros Hroom data ps n F.
  destruct (chunk_arith st c t Hroom) as [Hsub [Hn [Hmin [Hadd [Hadd' [Hnext Hmod]]]]]].
  fold ps in Hsub, Hmin, Hadd', Hnext, Hmod. fold data in Hn, Hmin. fold n in Hn, Hmin, Hadd.
  destruct Hroom as [Hps [Hd [Hfit Hend]]]. fold ps in Hps, Hend. fold data in Hfit.
  set (sp := ps - dataEnd st mod ps) in *.
  assert (Hlen : length (firstn (Z.to_nat n) data) = Z.to_nat n).
  { apply firstn_length_le. lia. }
  unfold F, chunk_storage. fold ps. rewrite Hsub, Hadd'. fold sp. fold data. fold n.
  destruct ((sp <=? Z.of_nat (length data)) && (dataEnd st + sp <? logEnd st)) eqn:Hb.
  - apply andb_true_iff in Hb. destruct Hb as [Hb1 Hb2].
    apply Z.leb_le in Hb1. apply Z.ltb_lt in Hb2.
    rewrite (Hnext Hb2).
    exists [flash_erase_op (dataEnd st + sp); cache_write_op (dataEnd st) (firstn (Z.to_nat n) data)].
    cbn [storage_cache_write storage_flash_erase issue pageSize trace memory flash written].
    split; [reflexivity|]. split; [rewrite <- app_assoc; reflexivity|].
    split; [apply app_nil_r|].
    assert (Hsp : 1 <= sp) by (unfold sp; pose proof (Z.mod_pos_bound (dataEnd st) ps Hps); lia).
    split.
    { constructor; [cbn [data_op]; lia|].
      constructor; [cbn [data_op]; rewrite Hlen; lia|constructor]. }
    split.
    { intros a Ha. rewrite program_outside by lia.
      apply erase_page_outside. fold ps. rewrite Hmod. lia. }
    split.
    { intros Her i Hi.
      replace (nth i data NUL) with (nth i (firstn (Z.to_nat n) data) NUL)
        by (rewrite nth_firstn; apply Nat.ltb_lt in Hi; rewrite Hi; reflexivity).
      apply program_inside; [lia|].
      destruct (Z_lt_ge_dec (dataEnd st + Z.of_nat i) (dataEnd st + sp)).
      - rewrite erase_page_outside by (fold ps; rewrite Hmod; lia). apply Her. lia.
      - apply erase_page_inside. fold ps. rewrite Hmod. lia. }
    split.
    { intros Hmore a Ha. rewrite program_outside by (rewrite Hlen; lia).
      apply erase_page_inside. fold ps. rewrite Hmod. lia. }
    intros a Ha Her. rewrite program_outside by (rewrite Hlen; lia).
    destruct (Z_lt_ge_dec a (dataEnd st + sp + ps)).
    + destruct (Z_lt_ge_dec a (dataEnd st + sp)).
      * rewrite erase_page_outside by (fold ps; rewrite Hmod; lia). exact Her.
      * apply erase_page_inside. fold ps. rewrite Hmod. lia.
    + rewrite erase_page_outside by (fold ps; rewrite Hmod; lia). exact Her.
  - exists [cache_write_op (dataEnd st) (firstn (Z.to_nat n) data)].
    cbn [storage_cache_write issue pageSize trace memory flash written].
    split; [reflexivity|]. split; [reflexivity|].
    split; [apply app_nil_r|].
    split; [constructor; [cbn [data_op]; rewrite Hlen; lia|constructor]|].
    split; [intros a Ha; apply program_outside; lia|].
    split.
    { intros Her i Hi.
      replace (nth i data NUL) with (nth i (firstn (Z.to_nat n) data) NUL)
        by (rewrite nth_firstn; apply Nat.ltb_lt in Hi; rewrite Hi; reflexivity).
      apply program_inside; [lia|apply Her; lia]. }
    split.
    { intros Hmore. exfalso.
      apply andb_false_iff in Hb. destruct Hb as [Hb|Hb].
      + apply Z.leb_gt in Hb. lia.
      + apply Z.ltb_ge in Hb. lia. }
    intros a Ha Her. rewrite program_outside by (rewrite Hlen; lia). exact Her.
Qed.

Lemma set_twice (st : MicroBitLog) (F2 F : Storage) (d2 d : Z) :
  set_dataEnd (set_flash (set_dataEnd (set_flash st F2) d2) F) d
  = set_dataEnd (set_flash st F) d.
Proof. reflexivity. Qed.

(** The loop writes all of [data], given one unit of fuel per byte. *)
Lemma logString_write_spec (fuel : nat) :
  forall (data : list ascii) (st : MicroBitLog),
    room_for data st ->
    (length data <= fuel)%nat ->
    exists F ops,
      logString_write fuel data st
      = Some (tt, set_dataEnd (set_flash st F) (dataEnd st + Z.of_nat (length data)))
      /\ data_written data st F ops.
Proof.
  induction fuel as [|f IH]; intros data st Hroom Hfuel.
  - destruct data as [|c t]; [|simpl in Hfuel; lia].
    exists (flash st), []. split.
    + simpl. rewrite Z.add_0_r, state_eta. reflexivity.
    + unfold data_written. simpl.
      split; [reflexivity|]. split; [symmetry; apply app_nil_r|].
      split; [reflexivity|]. split; [constructor|].
      split; [reflexivity|]. split; [intros _ i Hi; lia|]. intros a _ Ha. exact Ha.
  - destruct data as [|c t].
    + exists (flash st), []. split.
      * simpl. rewrite Z.add_0_r, state_eta. reflexivity.
      * unfold data_written. simpl.
        split; [reflexivity|]. split; [symmetry; apply app_nil_r|].
        split; [reflexivity|]. split; [constructor|].
        split; [reflexivity|]. split; [intros _ i Hi; lia|]. intros a _ Ha. exact Ha.
    + set (data := c :: t) in *.
      destruct (chunk_arith st c t Hroom) as [Hsub [Hn [Hmin [Hadd [_ [_ Hmod]]]]]].
      destruct (chunk_written st c t Hroom)
        as [ops1 [Hps1 [Htr1 [Hw1 [Hops1 [Hlow1 [Hmem1 [Hnext1 Hfr1]]]]]]]].
      fold data in Hn, Hmin, Hadd, Hps1, Htr1, Hw1, Hops1, Hlow1, Hmem1, Hnext1, Hfr1.
      set (n := chunk_length st data) in *.
      set (ps := pageSize (flash st)) in *.
      set (st2 := after_chunk st data).
      set (rest := skipn (Z.to_nat n) data).
      assert (Hrest : Z.of_nat (length rest) = Z.of_nat (length data) - n).
      { unfold rest. rewrite length_skipn. lia. }
      assert (Hd2 : dataEnd st2 = dataEnd st + n).
      { unfold st2, after_chunk. cbn [dataEnd set_dataEnd]. exact Hadd. }
      assert (Hf2 : flash st2 = chunk_storage st data) by reflexivity.
      assert (Hl2 : logEnd st2 = logEnd st) by reflexivity.
      destruct Hroom as [Hps [Hd [Hfit Hend]]]. fold ps in Hps, Hend. fold data in Hfit.
      assert (Hroom2 : room_for rest st2).
      { unfold room_for. rewrite Hd2, Hf2, Hps1, Hl2, Hrest. lia. }
      destruct (IH rest st2 Hroom2) as [F [ops2 [Hrun Hdone]]].
      { apply Nat2Z.inj_le. rewrite Hrest. lia. }
      destruct Hdone as [HpsF [HtrF [HwF [HopsF [HlowF [HmemF HfrF]]]]]].
      rewrite Hd2, Hf2, Hps1, Hrest in *.
      exists F, (ops1 ++ ops2). split.
      * unfold data. rewrite logString_write_step by (fold ps; lia).
        fold data. fold n. fold rest. fold st2. rewrite Hrun.
        unfold st2, after_chunk. rewrite set_twice.
        replace (dataEnd st + n + (Z.of_nat (length data) - n))
          with (dataEnd st + Z.of_nat (length data)) by lia.
        reflexivity.
      * unfold data_written. fold ps.
        split; [exact HpsF|].
        split; [rewrite HtrF, Htr1, app_assoc; reflexivity|].
        split; [rewrite written_app, Hw1, HwF; apply firstn_skipn|].
        split.
        { apply Forall_app. split.
          - eapply Forall_impl; [|exact Hops1]. intros op. apply data_op_weaken; lia.
          - eapply Forall_impl; [|exact HopsF]. intros op. apply data_op_weaken; lia. }
        split.
        { intros a Ha. rewrite HlowF by lia. apply Hlow1. assumption. }
        split.
        { intros Her i Hi.
          destruct (Nat.lt_ge_cases i (Z.to_nat n)) as [Hin|Hout].
          { rewrite HlowF by lia. apply Hmem1; [|assumption].
            intros a Ha. apply Her. lia. }
          replace (dataEnd st + Z.of_nat i)
            with (dataEnd st + n + Z.of_nat (i - Z.to_nat n)) by lia.
          rewrite HmemF.
          -- unfold rest. rewrite nth_skipn. f_equal. lia.
          -- assert (Hz : (dataEnd st + n) mod ps = 0).
             { replace (dataEnd st + n) with (dataEnd st + (ps - dataEnd st mod ps)) by lia.
               exact Hmod. }
             intros a Ha. apply Hnext1; [lia|].
             rewrite Hz, Z.sub_0_r in Ha. lia.
          -- apply Nat2Z.inj_lt. rewrite Hrest. lia. }
        intros a Ha Her. apply HfrF; [lia|]. apply Hfr1; [lia|exact Her].
Qed.

(** ** writeNum and strtoul *)

Lemma hex_digit_facts (d : Z) :
  0 <= d < 16 ->
  digit_value (hex_digit d) = Some d
  /\ Ascii.eqb (hex_digit d) NUL = false
  /\ isspace (hex_digit d) = false
  /\ Ascii.eqb (hex_digit d) "-" = false
  /\ Ascii.eqb (hex_digit d) "+" = false
  /\ Ascii.eqb (hex_digit d) "x" = false
  /\ Ascii.eqb (hex_digit d) "X" = false.
Proof.
  intros H.
  assert (Hc : d = 0 \/ d = 1 \/ d = 2 \/ d = 3 \/ d = 4 \/ d = 5 \/ d = 6 \/ d = 7
               \/ d = 8 \/ d = 9 \/ d = 10 \/ d = 11 \/ d = 12 \/ d = 13 \/ d = 14 \/ d = 15)
    by lia.
  repeat (destruct Hc as [Hc|Hc]; [subst d; vm_compute; repeat split; reflexivity|]).
  subst d; vm_compute; repeat split; reflexivity.
Qed.

Lemma nibble (n sh : Z) :
  0 <= sh -> Z.land (Z.shiftr n sh) 15 = (n / 2 ^ sh) mod 16.
Proof.
  intros Hsh. rewrite Z.shiftr_div_pow2 by assumption.
  change 15 with (Z.ones 4). rewrite Z.land_ones by lia. reflexivity.
Qed.

(** The eight characters [writeNum] produces are the digits of [n], and
    [strtoul] reads [n] back from them. *)
Lemma strtoul16_writeNum (n : Z) :
  0 <= n < 2 ^ 32 ->
  length (firstn 8 (writeNum n)) = 8%nat
  /\ Forall (fun c => exists d, 0 <= d < 16 /\ c = hex_digit d) (firstn 8 (writeNum n))
  /\ strtoul16 (firstn 8 (writeNum n)) = n.
Proof.
  intros Hn. unfold writeNum. cbn [map app firstn].
  rewrite !nibble by lia.
  change (2 ^ 0) with 1. rewrite Z.div_1_r.
  set (d0 := n mod 16).
  set (d1 := (n / 2 ^ 4) mod 16). set (d2 := (n / 2 ^ 8) mod 16).
  set (d3 := (n / 2 ^ 12) mod 16). set (d4 := (n / 2 ^ 16) mod 16).
  set (d5 := (n / 2 ^ 20) mod 16). set (d6 := (n / 2 ^ 24) mod 16).
  set (d7 := (n / 2 ^ 28) mod 16).
  assert (B0 : 0 <= d0 < 16) by (apply Z.mod_pos_bound; lia).
  assert (B1 : 0 <= d1 < 16) by (apply Z.mod_pos_bound; lia).
  assert (B2 : 0 <= d2 < 16) by (apply Z.mod_pos_bound; lia).
  assert (B3 : 0 <= d3 < 16) by (apply Z.mod_pos_bound; lia).
  assert (B4 : 0 <= d4 < 16) by (apply Z.mod_pos_bound; lia).
  assert (B5 : 0 <= d5 < 16) by (apply Z.mod_pos_bound; lia).
  assert (B6 : 0 <= d6 < 16) by (apply Z.mod_pos_bound; lia).
  assert (B7 : 0 <= d7 < 16) by (apply Z.mod_pos_bound; lia).
  split; [reflexivity|]. split.
  { repeat constructor; eexists; split; try reflexivity; assumption. }
  assert (Hval : n = ((((((d7 * 16 + d6) * 16 + d5) * 16 + d4) * 16 + d3) * 16 + d2) * 16 + d1)
                     * 16 + d0).
  { unfold d0, d1, d2, d3, d4, d5, d6, d7.
    change (2 ^ 32) with 4294967296 in Hn.
    set (q1 := n / 16). set (q2 := q1 / 16). set (q3 := q2 / 16). set (q4 := q3 / 16).
    set (q5 := q4 / 16). set (q6 := q5 / 16). set (q7 := q6 / 16).
    assert (E2 : n / 2 ^ 8 = q2) by (unfold q2, q1; rewrite Z.div_div by lia; reflexivity).
    assert (E3 : n / 2 ^ 12 = q3)
      by (unfold q3; rewrite <- E2; rewrite Z.div_div by lia; reflexivity).
    assert (E4 : n / 2 ^ 16 = q4)
      by (unfold q4; rewrite <- E3; rewrite Z.div_div by lia; reflexivity).
    assert (E5 : n / 2 ^ 20 = q5)
      by (unfold q5; rewrite <- E4; rewrite Z.div_div by lia; reflexivity).
    assert (E6 : n / 2 ^ 24 = q6)
      by (unfold q6; rewrite <- E5; rewrite Z.div_div by lia; reflexivity).
    assert (E7 : n / 2 ^ 28 = q7)
      by (unfold q7; rewrite <- E6; rewrite Z.div_div by lia; reflexivity).
    change (n / 2 ^ 4) with q1. rewrite E2, E3, E4, E5, E6, E7.
    pose proof (Z.div_mod n 16 ltac:(lia)). fold q1 in H.
    pose proof (Z.div_mod q1 16 ltac:(lia)). fold q2 in H0.
    pose proof (Z.div_mod q2 16 ltac:(lia)). fold q3 in H1.
    pose proof (Z.div_mod q3 16 ltac:(lia)). fold q4 in H2.
    pose proof (Z.div_mod q4 16 ltac:(lia)). fold q5 in H3.
    pose proof (Z.div_mod q5 16 ltac:(lia)). fold q6 in H4.
    pose proof (Z.div_mod q6 16 ltac:(lia)). fold q7 in H5.
    pose proof (Z.div_mod q7 16 ltac:(lia)).
    assert (q7 / 16 = 0).
    { apply Z.div_small. rewrite <- E7. split.
      - apply Z.div_pos; lia.
      - apply Z.div_lt_upper_bound; lia. }
    lia. }
  destruct (hex_digit_facts d0 B0) as [V0 [N0 _]].
  destruct (hex_digit_facts d1 B1) as [V1 [N1 _]].
  destruct (hex_digit_facts d2 B2) as [V2 [N2 _]].
  destruct (hex_digit_facts d3 B3) as [V3 [N3 _]].
  destruct (hex_digit_facts d4 B4) as [V4 [N4 _]].
  destruct (hex_digit_facts d5 B5) as [V5 [N5 _]].
  destruct (hex_digit_facts d6 B6) as [V6 [N6 [_ [_ [_ [X6 Y6]]]]]].
  destruct (hex_digit_facts d7 B7) as [V7 [N7 [S7 [M7 [P7 _]]]]].
  unfold strtoul16. cbn [c_str]. rewrite N7, N6, N5, N4, N3, N2, N1, N0.
  cbn [skip_spaces]. rewrite S7, M7, P7.
  cbn [skip_0x]. rewrite X6, Y6. rewrite andb_false_r.
  cbn [strtoul_digits]. rewrite V7, V6, V5, V4, V3, V2, V1, V0.
  change (2 ^ 32) with 4294967296 in *.
  rewrite !Z.min_l by lia.
  rewrite Z.mul_0_l, Z.add_0_l, <- Hval.
  replace (4294967296 <=? n) with false by (symmetry; apply Z.leb_gt; lia).
  reflexivity.
Qed.

(** ** The journal commit of logString *)

Lemma logString_journal_eq (st : MicroBitLog) :
  pageSize (flash st) <> 0 ->
  logString_journal st = Some (tt, committed st).
Proof.
  intros Hps. unfold logString_journal. apply Z.eqb_neq in Hps. rewrite Hps.
  unfold committed, journal_storage, next_journalHead, on_page_boundary, advanced_head,
    journal_entry, committed_length, bind, modify, get, when, ret, cache_write, cache_erase,
    flash_erase.
  cbn [journalHead set_journalHead flash set_flash dataStart journalStart dataEnd].
  destruct (add32 (journalHead st) MICROBIT_LOG_JOURNAL_ENTRY_SIZE mod pageSize (flash st) =? 0);
    [destruct (add32 (journalHead st) MICROBIT_LOG_JOURNAL_ENTRY_SIZE =? dataStart st)|];
    reflexivity.
Qed.

Lemma journal_storage_trace (st : MicroBitLog) :
  trace (journal_storage st) = trace (flash st) ++ journal_ops st
  /\ pageSize (journal_storage st) = pageSize (flash st).
Proof.
  unfold journal_storage, journal_ops.
  destruct (on_page_boundary st);
    cbn [storage_cache_write storage_flash_erase storage_cache_erase issue trace pageSize];
    rewrite <- ?app_assoc; split; reflexivity.
Qed.

(** ** logString when the string fits *)

Lemma logString_fits (fuel : nat) (s : list ascii) (st : MicroBitLog) :
  initialized st ->
  room_for (c_str s) st ->
  (length (c_str s) <= fuel)%nat ->
  exists F ops,
    data_written (cleaned (c_str s) false) st F ops
    /\ logString fuel s st
       = Some (DEVICE_OK,
               let st1 := set_dataEnd (set_flash st F) (dataEnd st + strlen s) in
               if same_block (dataEnd st1) (dataEnd st) then st1 else committed st1).
Proof.
  intros Hinit Hroom Hfuel.
  assert (Hlen : length (cleaned (c_str s) false) = length (c_str s)) by apply cleaned_length.
  assert (Hroom' : room_for (cleaned (c_str s) false) st).
  { unfold room_for in *. rewrite Hlen. exact Hroom. }
  destruct (logString_write_spec fuel (cleaned (c_str s) false) st Hroom')
    as [F [ops [Hrun Hdone]]]; [rewrite Hlen; exact Hfuel|].
  exists F, ops. split; [exact Hdone|].
  destruct Hroom as [Hps [Hd [Hfit Hend]]].
  unfold logString.
  rewrite (bind_step _ _ _ _ _ (init_initialized fuel st Hinit)).
  unfold bind at 1. cbn [get].
  assert (Hsub : sub32 (logEnd st) (dataEnd st) = logEnd st - dataEnd st)
    by (apply wrap32_small; lia).
  rewrite Hsub.
  replace (logEnd st - dataEnd st <? strlen s) with false
    by (symmetry; apply Z.ltb_ge; unfold strlen; lia).
  replace (if negb (length (cleanBuffer (c_str s) false) =? 0)%nat
           then cleanBuffer (c_str s) false else c_str s)
    with (cleaned (c_str s) false)
    by (unfold cleaned; destruct (length (cleanBuffer (c_str s) false) =? 0)%nat; reflexivity).
  rewrite (bind_step _ _ _ _ _ Hrun).
  unfold bind at 1. cbn [get].
  rewrite Hlen. fold (strlen s).
  set (st1 := set_dataEnd (set_flash st F) (dataEnd st + strlen s)).
  cbv zeta. unfold same_block.
  destruct (dataEnd st1 / CONFIG_MICROBIT_LOG_CACHE_BLOCK_SIZE
            =? dataEnd st / CONFIG_MICROBIT_LOG_CACHE_BLOCK_SIZE); simpl.
  - reflexivity.
  - unfold bind. rewrite logString_journal_eq; [reflexivity|].
    unfold st1. cbn [flash set_dataEnd set_flash].
    destruct Hdone as [HpsF _]. rewrite HpsF. lia.
Qed.

Lemma committed_length_plain (st : MicroBitLog) :
  0 <= dataStart st <= dataEnd st -> dataEnd st < 2 ^ 32 ->
  committed_length st
  = (dataEnd st - dataStart st) / CONFIG_MICROBIT_LOG_CACHE_BLOCK_SIZE
    * CONFIG_MICROBIT_LOG_CACHE_BLOCK_SIZE
  /\ 0 <= committed_length st < 2 ^ 32.
Proof.
  intros Hs He. unfold committed_length, CONFIG_MICROBIT_LOG_CACHE_BLOCK_SIZE, sub32.
  rewrite (wrap32_small (dataEnd st - dataStart st)) by lia.
  pose proof (Z.div_mod (dataEnd st - dataStart st) 256 ltac:(lia)).
  pose proof (Z.mod_pos_bound (dataEnd st - dataStart st) 256 ltac:(lia)).
  assert (0 <= (dataEnd st - dataStart st) / 256) by (apply Z.div_pos; lia).
  unfold mul32. rewrite wrap32_small by lia. split; lia.
Qed.

(** C1.  An append that fits issues the operations of the data (writes inside
    the bytes appended, and erasures of pages above), and after them a journal
    commit exactly when [dataEnd / B] has changed.  The commit writes, at the
    new journal head, eight hexadecimal digits that read as
    [dataEnd - dataStart] rounded down to a multiple of B, and last of all
    writes eight zero bytes over the entry of the old head. *)
Theorem logString_commit (fuel : nat) (s : list ascii) (st : MicroBitLog) :
  initialized st ->
  room_for (c_str s) st ->
  0 <= dataStart st <= dataEnd st ->
  (length (c_str s) <= fuel)%nat ->
  let B := CONFIG_MICROBIT_LOG_CACHE_BLOCK_SIZE in
  exists st' data_ops commit,
    logString fuel s st = Some (DEVICE_OK, st')
    /\ dataEnd st' = dataEnd st + strlen s
    /\ trace (flash st') = trace (flash st) ++ data_ops ++ commit
    /\ Forall (data_op (dataEnd st) (dataEnd st')) data_ops
    /\ (dataEnd st' / B = dataEnd st / B -> commit = [] /\ journalHead st' = journalHead st)
    /\ (dataEnd st' / B <> dataEnd st / B ->
        exists erasures entry,
          commit = erasures
                   ++ [cache_write_op (journalHead st') entry;
                       cache_write_op (journalHead st) (repeat NUL 8)]
          /\ journalHead st' = next_journalHead st
          /\ Forall (fun op => op = cache_erase_op (journalHead st')
                               \/ op = flash_erase_op (journalHead st')) erasures
          /\ length entry = 8%nat
          /\ Forall (fun c => exists d, 0 <= d < 16 /\ c = hex_digit d) entry
          /\ strtoul16 entry = (dataEnd st' - dataStart st) / B * B).
Proof.
  intros Hinit Hroom Hstart Hfuel B.
  destruct (logString_fits fuel s st Hinit Hroom Hfuel) as [F [ops [Hdone Hrun]]].
  destruct Hdone as [HpsF [HtrF [_ [HopsF _]]]].
  rewrite cleaned_length in HopsF. fold (strlen s) in HopsF.
  set (st1 := set_dataEnd (set_flash st F) (dataEnd st + strlen s)) in *.
  cbv zeta in Hrun. unfold same_block in Hrun. fold B in Hrun.
  change (dataEnd st1) with (dataEnd st + strlen s) in Hrun.
  destruct (Z.eqb_spec ((dataEnd st + strlen s) / B) (dataEnd st / B)) as [Hsame|Hdiff].
  - exists st1, ops, []. split; [exact Hrun|].
    split; [reflexivity|]. split; [rewrite app_nil_r; exact HtrF|].
    split; [exact HopsF|]. split; [intros _; split; reflexivity|].
    intros Hne. exfalso. apply Hne. exact Hsame.
  - exists (committed st1), ops, (journal_ops st1). split; [exact Hrun|].
    destruct (journal_storage_trace st1) as [Htr _].
    split; [reflexivity|].
    split; [unfold committed; cbn [flash set_flash]; rewrite Htr; unfold st1;
            cbn [flash set_flash set_dataEnd]; rewrite HtrF, app_assoc; reflexivity|].
    split; [exact HopsF|].
    split; [intros Hsame; exfalso; apply Hdiff; exact Hsame|].
    intros _.
    assert (Hnext : next_journalHead st1 = next_journalHead st).
    { unfold next_journalHead, on_page_boundary, advanced_head, st1.
      cbn [flash set_flash set_dataEnd journalHead dataStart journalStart].
      rewrite HpsF. reflexivity. }
    destruct Hroom as [Hps [Hd [Hfit Hend]]].
    destruct (committed_length_plain st1) as [Hval Hbound].
    { unfold st1. cbn [dataStart dataEnd set_dataEnd set_flash]. unfold strlen. lia. }
    { unfold st1. cbn [dataEnd set_dataEnd set_flash]. unfold strlen. lia. }
    destruct (strtoul16_writeNum (committed_length st1) Hbound) as [Hlen [Hhex Hparse]].
    exists (if on_page_boundary st1
            then [cache_erase_op (next_journalHead st1); flash_erase_op (next_journalHead st1)]
            else []), (journal_entry st1).
    unfold committed. cbn [journalHead set_flash set_journalHead].
    split; [reflexivity|]. split; [exact Hnext|].
    split.
    { destruct (on_page_boundary st1); [|constructor].
      constructor; [left; reflexivity|].
      constructor; [right; reflexivity|constructor]. }
    split; [exact Hlen|]. split; [exact Hhex|].
    unfold journal_entry. rewrite Hparse, Hval. reflexivity.
Qed.

(** C4.  When the head moved on by one entry falls on a page boundary, the
    commit puts the new head back at [journalStart] if that boundary is
    [dataStart] and leaves it on the boundary otherwise; in both cases it
    erases the page of the new head, in the cache then in the flash, before it
    writes the new entry there. *)
Theorem logString_commit_page_boundary (fuel : nat) (s : list ascii) (st : MicroBitLog) :
  initialized st ->
  room_for (c_str s) st ->
  (length (c_str s) <= fuel)%nat ->
  let B := CONFIG_MICROBIT_LOG_CACHE_BLOCK_SIZE in
  let advanced := add32 (journalHead st) MICROBIT_LOG_JOURNAL_ENTRY_SIZE in
  (dataEnd st + strlen s) / B <> dataEnd st / B ->
  advanced mod pageSize (flash st) = 0 ->
  exists st' data_ops entry,
    logString fuel s st = Some (DEVICE_OK, st')
    /\ journalHead st' = (if advanced =? dataStart st then journalStart st else advanced)
    /\ Forall (data_op (dataEnd st) (dataEnd st')) data_ops
    /\ trace (flash st')
       = trace (flash st) ++ data_ops
         ++ [cache_erase_op (journalHead st'); flash_erase_op (journalHead st');
             cache_write_op (journalHead st') entry;
             cache_write_op (journalHead st) (repeat NUL 8)].
Proof.
  intros Hinit Hroom Hfuel B advanced Hdiff Hpage.
  destruct (logString_fits fuel s st Hinit Hroom Hfuel) as [F [ops [Hdone Hrun]]].
  destruct Hdone as [HpsF [HtrF [_ [HopsF _]]]].
  rewrite cleaned_length in HopsF. fold (strlen s) in HopsF.
  set (st1 := set_dataEnd (set_flash st F) (dataEnd st + strlen s)) in *.
  cbv zeta in Hrun. unfold same_block in Hrun. fold B in Hrun.
  change (dataEnd st1) with (dataEnd st + strlen s) in Hrun.
  apply Z.eqb_neq in Hdiff. rewrite Hdiff in Hrun.
  assert (Hb : on_page_boundary st1 = true).
  { unfold on_page_boundary, advanced_head, st1.
    cbn [flash set_flash set_dataEnd journalHead]. rewrite HpsF.
    apply Z.eqb_eq. exact Hpage. }
  assert (Hnext : next_journalHead st1
                  = if advanced =? dataStart st then journalStart st else advanced).
  { unfold next_journalHead. rewrite Hb. reflexivity. }
  exists (committed st1), ops, (journal_entry st1). split; [exact Hrun|].
  unfold committed. cbn [journalHead flash set_flash set_journalHead].
  split; [exact Hnext|]. split; [exact HopsF|].
  destruct (journal_storage_trace st1) as [Htr _]. rewrite Htr.
  unfold journal_ops. rewrite Hb. unfold st1 at 1. cbn [flash set_flash set_dataEnd].
  rewrite HtrF, <- app_assoc. reflexivity.
Qed.

(** ** Strings that need no cleaning *)

Lemma nothing_to_clean_no_hit (rs : bool) (x : list ascii) :
  nothing_to_clean rs x -> forall i, hit rs x i = false.
Proof.
  intros [Htab [Harrow Hsep]] i. apply not_true_iff_false. intros H.
  unfold hit in H. apply orb_true_iff in H. destruct H as [H|H].
  - apply arrow_at_occurs in H. destruct H as [p [q E]]. exact (Harrow p q E).
  - apply separator_at_occurs in H. destruct H as [H|[Hrs H]]; [contradiction|].
    destruct (Hsep Hrs) as [Hc Hn]. destruct H; contradiction.
Qed.

Lemma cleaned_unchanged (rs : bool) (x : list ascii) :
  nothing_to_clean rs x -> cleanBuffer x rs = [] /\ cleaned x rs = x.
Proof.
  intros H. assert (E : cleanBuffer x rs = [])
    by (apply cleanBuffer_no_hit, nothing_to_clean_no_hit; exact H).
  split; [exact E|]. unfold cleaned. rewrite E. reflexivity.
Qed.

Lemma set_value_In (rows rows' : list ColumnEntry) (k v : ManagedString) :
  set_value rows k v = Some rows' -> In {| key := k; value := v |} rows'.
Proof.
  revert rows'. induction rows as [|e t IH]; intros rows'; simpl; [discriminate|].
  destruct (bytes_eqb (key e) k) eqn:E.
  - apply bytes_eqb_eq in E. intros H. inversion H; subst. left. reflexivity.
  - destruct (set_value t k v) as [t'|]; [|discriminate].
    intros H. inversion H; subst. right. apply IH. reflexivity.
Qed.

Lemma pair_logged_In (k v : ManagedString) (st : MicroBitLog) :
  In {| key := k; value := v |} (rowData (pair_logged k v st)).
Proof.
  unfold pair_logged. destruct (set_value (rowData st) k v) as [rows|] eqn:E.
  - cbn [rowData set_rowData]. eapply set_value_In. exact E.
  - cbn [rowData set_rowData set_headingsChanged]. apply in_or_app. right. left. reflexivity.
Qed.

(** C9.  For a string with no tab, no "-->" and, when the separators are
    removed, no comma and no newline, [cleanBuffer] returns the empty string.
    [logData] then stores the key and the value it was given, and [logString]
    hands to the cache the characters it was given. *)
Theorem cleanBuffer_empty_when_clean (fuel : nat) (st : MicroBitLog)
    (removeSeparators : bool) (x k v s : list ascii) :
  nothing_to_clean removeSeparators x ->
  nothing_to_clean cleanBuffer_removeSeparators_default k ->
  nothing_to_clean cleanBuffer_removeSeparators_default v ->
  nothing_to_clean false (c_str s) ->
  initialized st ->
  room_for (c_str s) st ->
  (length (c_str s) <= fuel)%nat ->
  (cleanBuffer x removeSeparators = [] /\ length (cleanBuffer x removeSeparators) = 0%nat)
  /\ (exists st',
        logData fuel k v st = Some (DEVICE_OK, st')
        /\ In {| key := k; value := v |} (rowData st'))
  /\ (exists st' data_ops commit,
        logString fuel s st = Some (DEVICE_OK, st')
        /\ trace (flash st') = trace (flash st) ++ data_ops ++ commit
        /\ Forall (data_op (dataEnd st) (dataEnd st + strlen s)) data_ops
        /\ written data_ops = c_str s
        /\ (commit = [] \/ exists st1, commit = journal_ops st1)).
Proof.
  intros Hx Hk Hv Hs Hinit Hroom Hfuel.
  split.
  { destruct (cleaned_unchanged _ _ Hx) as [E _]. rewrite E. split; reflexivity. }
  split.
  { eexists. split; [apply logData_eq; exact Hinit|].
    destruct (cleaned_unchanged _ _ Hk) as [_ Ek].
    destruct (cleaned_unchanged _ _ Hv) as [_ Ev].
    rewrite Ek, Ev. apply pair_logged_In. }
  destruct (logString_fits fuel s st Hinit Hroom Hfuel) as [F [ops [Hdone Hrun]]].
  destruct (cleaned_unchanged _ _ Hs) as [_ Es]. rewrite Es in Hdone.
  destruct Hdone as [HpsF [HtrF [Hw [HopsF _]]]].
  set (st1 := set_dataEnd (set_flash st F) (dataEnd st + strlen s)) in *.
  cbv zeta in Hrun.
  destruct (same_block (dataEnd st1) (dataEnd st)).
  - exists st1, ops, []. split; [exact Hrun|].
    split; [rewrite app_nil_r; exact HtrF|].
    split; [exact HopsF|]. split; [exact Hw|]. left. reflexivity.
  - exists (committed st1), ops, (journal_ops st1). split; [exact Hrun|].
    destruct (journal_storage_trace st1) as [Htr _].
    split; [unfold committed; cbn [flash set_flash]; rewrite Htr; unfold st1;
            cbn [flash set_flash set_dataEnd]; rewrite HtrF, app_assoc; reflexivity|].
    split; [exact HopsF|]. split; [exact Hw|]. right. exists st1. reflexivity.
Qed.

(** C5, as amended.  [cleanBuffer] returns either the empty string or a string
    of the length of [x]; the string its callers keep ([x] when the result is
    empty, the result otherwise) has the length of [x], and needs no further
    cleaning: [cleanBuffer] of it is empty, so that cleaning twice is cleaning
    once.  The replacement character is taken not to be one of the characters
    that are replaced. *)
Theorem cleaned_idempotent (removeSeparators : bool) (x : list ascii) :
  INVALID_CHAR <> "-"%char -> INVALID_CHAR <> ">"%char -> INVALID_CHAR <> TAB ->
  (removeSeparators = true -> INVALID_CHAR <> ","%char /\ INVALID_CHAR <> NL) ->
  (cleanBuffer x removeSeparators = []
   \/ length (cleanBuffer x removeSeparators) = length x)
  /\ length (cleaned x removeSeparators) = length x
  /\ cleanBuffer (cleaned x removeSeparators) removeSeparators = []
  /\ cleaned (cleaned x removeSeparators) removeSeparators = cleaned x removeSeparators.
Proof.
  intros Hdash Hgt Htab Hsep.
  split; [apply cleanBuffer_empty_or_same_length|].
  split; [apply cleaned_length|].
  assert (E : cleanBuffer (cleaned x removeSeparators) removeSeparators = [])
    by (apply cleanBuffer_no_hit, cleaned_no_hit; assumption).
  split; [exact E|].
  unfold cleaned at 1. rewrite E. reflexivity.
Qed.

(** ** Mounting: the scan of the journal *)

Lemma heads_twice (st : MicroBitLog) (a b c d : Z) :
  set_dataEnd (set_journalHead (set_dataEnd (set_journalHead st a) b) c) d
  = set_dataEnd (set_journalHead st c) d.
Proof. reflexivity. Qed.

Lemma init_journal_spec (fuel : nat) :
  forall (k : nat) (valid : bool) (st : MicroBitLog) (jh de : Z),
    0 <= journalStart st ->
    dataStart st + 8 <= 2 ^ 32 ->
    dataStart st <= journalStart st + 8 * Z.of_nat k + 8 * Z.of_nat fuel ->
    (forall i, (i < k)%nat ->
       journalStart st + 8 * Z.of_nat i < dataStart st /\ ~ stops_at st i) ->
    (valid = true <-> exists i, (i < k)%nat /\ live (entry_at st i) = true) ->
    selected st k jh de ->
    exists n jh' de',
      init_journal fuel (journalStart st + 8 * Z.of_nat k) valid
        (set_dataEnd (set_journalHead st jh) de)
      = Some (tt, set_dataEnd (set_journalHead st jh') de')
      /\ scanned st n /\ selected st n jh' de'.
Proof.
  induction fuel as [|f IH]; intros k valid st jh de Hbase Htop Hfuel Hpre Hvalid Hsel.
  - exists k, jh, de.
    cbn [init_journal dataStart set_dataEnd set_journalHead].
    replace (journalStart st + 8 * Z.of_nat k <? dataStart st) with false
      by (symmetry; apply Z.ltb_ge; lia).
    split; [reflexivity|]. split; [|exact Hsel].
    split; [exact Hpre|]. left. lia.
  - cbn [init_journal]. cbn [dataStart set_dataEnd set_journalHead].
    destruct (journalStart st + 8 * Z.of_nat k <? dataStart st) eqn:Hin.
    + apply Z.ltb_lt in Hin.
      change (cache_read (set_dataEnd (set_journalHead st jh) de)
                (journalStart st + 8 * Z.of_nat k) 8) with (entry_at st k).
      assert (Hnext : add32 (journalStart st + 8 * Z.of_nat k) MICROBIT_LOG_JOURNAL_ENTRY_SIZE
                      = journalStart st + 8 * Z.of_nat (S k)).
      { unfold add32, MICROBIT_LOG_JOURNAL_ENTRY_SIZE. rewrite wrap32_small; lia. }
      rewrite Hnext.
      destruct (containsOnly (entry_at st k) ERASED && valid) eqn:Hstop.
      * apply andb_true_iff in Hstop. destruct Hstop as [Her Hv].
        exists k, jh, de. split; [reflexivity|]. split; [|exact Hsel].
        split; [exact Hpre|]. right. split; [exact Her|]. apply Hvalid. exact Hv.
      * assert (Hnostop : ~ stops_at st k).
        { intros [Her Hlive]. apply Hvalid in Hlive. rewrite Her, Hlive in Hstop.
          discriminate Hstop. }
        assert (Hpre' : forall i, (i < S k)%nat ->
                  journalStart st + 8 * Z.of_nat i < dataStart st /\ ~ stops_at st i).
        { intros i Hi. destruct (Nat.eq_dec i k) as [->|Hne]; [split; assumption|].
          apply Hpre. lia. }
        destruct (negb (containsOnly (entry_at st k) NUL)) eqn:Hlive.
        -- rewrite heads_twice.
           apply IH; try assumption; try lia.
           ++ split; [intros _|reflexivity]. exists k. split; [lia|exact Hlive].
           ++ left. exists k. split; [lia|]. split; [exact Hlive|].
              split; [intros j' Hj'; lia|]. split; reflexivity.
        -- apply IH; try assumption; try lia.
           ++ rewrite Hvalid. split; intros [i [Hi Hl]].
              ** exists i. split; [lia|exact Hl].
              ** exists i. split; [|exact Hl].
                 destruct (Nat.eq_dec i k) as [->|Hne]; [|lia].
                 unfold live in Hl. rewrite Hlive in Hl. discriminate Hl.
           ++ destruct Hsel as [[j [Hj [Hl [Hlast [Ejh Ede]]]]]|[Hnone [Ejh Ede]]].
              ** left. exists j. split; [lia|]. split; [exact Hl|].
                 split; [|split; assumption].
                 intros j' Hj'. destruct (Nat.eq_dec j' k) as [->|Hne]; [exact Hlive|].
                 apply Hlast. lia.
              ** right. split; [|split; assumption].
                 intros j Hj. destruct (Nat.eq_dec j k) as [->|Hne]; [exact Hlive|].
                 apply Hnone. lia.
    + apply Z.ltb_ge in Hin.
      exists k, jh, de. split; [reflexivity|]. split; [|exact Hsel].
      split; [exact Hpre|]. left. exact Hin.
Qed.

(** ** Mounting: the walk to the end of the data, and the headings *)

Lemma read_one (st : MicroBitLog) (a : Z) (c : ascii) :
  bytes_eqb (cache_read st a 1) [c] = true <-> memory (flash st) a = c.
Proof.
  unfold cache_read, read_bytes. cbn [seq map Z.of_nat]. rewrite Z.add_0_r.
  rewrite bytes_eqb_eq. split; [intros H; inversion H; reflexivity|intros ->; reflexivity].
Qed.

Lemma dataEnd_twice (st : MicroBitLog) (a b : Z) :
  set_dataEnd (set_dataEnd st a) b = set_dataEnd st b.
Proof. reflexivity. Qed.

Lemma init_dataEnd_spec (fuel : nat) :
  forall (st : MicroBitLog) (d0 d1 : Z),
    0 <= d1 ->
    logEnd st < 2 ^ 32 ->
    logEnd st - d1 <= Z.of_nat fuel ->
    d0 <= d1 ->
    (forall a, d0 <= a < d1 -> a < logEnd st /\ memory (flash st) a <> ERASED) ->
    exists d,
      init_dataEnd fuel (set_dataEnd st d1) = Some (tt, set_dataEnd st d)
      /\ walked st d0 d.
Proof.
  induction fuel as [|f IH]; intros st d0 d1 Hpos Hlog Hfuel Hle Hused.
  - exists d1. cbn [init_dataEnd dataEnd logEnd set_dataEnd].
    replace (d1 <? logEnd st) with false by (symmetry; apply Z.ltb_ge; lia).
    split; [reflexivity|]. split; [exact Hle|]. split; [exact Hused|]. lia.
  - cbn [init_dataEnd dataEnd logEnd set_dataEnd].
    destruct (d1 <? logEnd st) eqn:Hin.
    + apply Z.ltb_lt in Hin.
      destruct (bytes_eqb (cache_read (set_dataEnd st d1) d1 1) [ERASED]) eqn:Hb.
      * apply (read_one (set_dataEnd st d1)) in Hb. cbn [flash set_dataEnd] in Hb.
        exists d1. split; [reflexivity|].
        split; [exact Hle|]. split; [exact Hused|]. intros _. exact Hb.
      * assert (Hne : memory (flash st) d1 <> ERASED).
        { intros E. apply (read_one (set_dataEnd st d1)) in E. congruence. }
        rewrite dataEnd_twice.
        replace (add32 d1 1) with (d1 + 1) by (symmetry; apply wrap32_small; lia).
        apply IH; try lia.
        intros a Ha. destruct (Z.eq_dec a d1) as [->|Hd]; [split; assumption|].
        apply Hused. lia.
    + apply Z.ltb_ge in Hin. exists d1. split; [reflexivity|].
      split; [exact Hle|]. split; [exact Hused|]. lia.
Qed.

Lemma init_skip_zeroes_spec (fuel : nat) (st : MicroBitLog) :
  forall (start a : Z),
    0 <= start <= a -> a < 2 ^ 32 ->
    memory (flash st) a <> NUL ->
    a - start <= Z.of_nat fuel ->
    exists a0, start <= a0 <= a /\ init_skip_zeroes fuel start st = Some (a0, st).
Proof.
  induction fuel as [|f IH]; intros start a Hs Ha Hm Hfuel.
  - assert (start = a) by lia. subst start. exists a. split; [lia|].
    cbn [init_skip_zeroes].
    destruct (bytes_eqb (cache_read st a 1) [NUL]) eqn:Hb; [|reflexivity].
    apply read_one in Hb. contradiction.
  - cbn [init_skip_zeroes].
    destruct (bytes_eqb (cache_read st start 1) [NUL]) eqn:Hb.
    + apply read_one in Hb.
      assert (start <> a) by (intros ->; contradiction).
      replace (add32 start 1) with (start + 1) by (symmetry; apply wrap32_small; lia).
      destruct (IH (start + 1) a) as [a0 [Hr Hrun]]; try lia; try assumption.
      exists a0. split; [lia|exact Hrun].
    + exists start. split; [lia|reflexivity].
Qed.

Lemma init_headings_end_spec (fuel : nat) (st : MicroBitLog) :
  forall (start b : Z),
    0 <= start <= b -> b < 2 ^ 32 ->
    memory (flash st) b = ERASED ->
    b - start <= Z.of_nat fuel ->
    exists b0, start <= b0 <= b /\ init_headings_end fuel start st = Some (b0, st).
Proof.
  induction fuel as [|f IH]; intros start b Hs Hb Hm Hfuel.
  - assert (start = b) by lia. subst start. exists b. split; [lia|].
    cbn [init_headings_end].
    apply read_one in Hm. rewrite Hm. reflexivity.
  - cbn [init_headings_end].
    destruct (bytes_eqb (cache_read st start 1) [ERASED]) eqn:Hc.
    + exists start. split; [lia|reflexivity].
    + assert (start <> b).
      { intros ->. apply read_one in Hm. congruence. }
      replace (add32 start 1) with (start + 1) by (symmetry; apply wrap32_small; lia).
      destruct (IH (start + 1) b) as [b0 [Hr Hrun]]; try lia; try assumption.
      exists b0. split; [lia|exact Hrun].
Qed.

(** The headings are read once the two loops end, which they do when a byte
    other than 0x00 and, at or after it, a byte 0xFF follow the metadata. *)
Lemma init_headings_returns (fuel : nat) (st : MicroBitLog) (a b : Z) :
  0 <= startAddress st ->
  startAddress st + sizeof_MicroBitLogMetaData <= a <= b -> b < 2 ^ 32 ->
  memory (flash st) a <> NUL ->
  memory (flash st) b = ERASED ->
  b - startAddress st <= Z.of_nat fuel ->
  exists st',
    init_headings fuel st = Some (tt, st')
    /\ journalHead st' = journalHead st /\ dataEnd st' = dataEnd st
    /\ status st' = status st /\ flash st' = flash st.
Proof.
  intros Hs Hab Hb Ha Hm Hfuel. unfold sizeof_MicroBitLogMetaData in *.
  assert (Hstart : add32 (startAddress st) 40 = startAddress st + 40)
    by (apply wrap32_small; lia).
  destruct (init_skip_zeroes_spec fuel st (startAddress st + 40) a) as [a0 [Ha0 Hrun1]];
    try lia; try assumption.
  destruct (init_headings_end_spec fuel st a0 b) as [b0 [Hb0 Hrun2]];
    try lia; try assumption.
  unfold init_headings, sizeof_MicroBitLogMetaData.
  unfold bind at 1. cbn [get]. rewrite Hstart.
  rewrite (bind_step _ _ _ _ _ Hrun1), (bind_step _ _ _ _ _ Hrun2).
  unfold bind, modify, get, when. cbn [headingLength set_headingLength].
  destruct (0 <? sub32 b0 a0); eexists; (split; [reflexivity|]); repeat split; reflexivity.
Qed.

(** ** Mounting: init on a log that is present *)

Lemma isPresent_true (st st1 : MicroBitLog) :
  has_flag (status st) MICROBIT_LOG_STATUS_INITIALIZED = false ->
  isPresent st = Some (true, st1) ->
  pageSize (flash st) <> 0
  /\ flash st1 = flash st /\ status st1 = status st
  /\ 0 <= startAddress st1
  /\ 0 <= journalStart st1 < 2 ^ 32
  /\ 0 <= dataStart st1 /\ dataStart st1 < logEnd st1 /\ logEnd st1 < flashEnd (flash st).
Proof.
  intros Hinit H. unfold isPresent in H. rewrite Hinit in H.
  destruct (pageSize (flash st) =? 0) eqn:Hps; [discriminate|].
  apply Z.eqb_neq in Hps. inversion H as [[Hb Hst]]. clear H.
  cbn [flash status startAddress journalStart dataStart logEnd
       set_startAddress set_dataStart set_logEnd set_journalStart] in *.
  apply andb_true_iff in Hb. destruct Hb as [Hb _].
  apply andb_true_iff in Hb. destruct Hb as [Hb H3].
  apply andb_true_iff in Hb. destruct Hb as [H1 H2].
  apply Z.leb_le in H1. apply Z.ltb_lt in H2, H3.
  assert (Hw : forall z, 0 <= wrap32 z < 2 ^ 32)
    by (intros z; unfold wrap32; apply Z.mod_pos_bound; lia).
  split; [exact Hps|]. split; [reflexivity|]. split; [reflexivity|].
  split.
  { unfold metadata_address, sizeof_header.
    destruct (2048 mod pageSize (flash st) =? 0); [lia|]. apply Hw. }
  split; [apply Hw|].
  split.
  { pose proof (Hw (metadata_address (pageSize (flash st)) + mul32 2 (pageSize (flash st)))).
    unfold add32 in H1. lia. }
  split; assumption.
Qed.

Lemma all_zero_not_erased (st : MicroBitLog) (k : nat) :
  containsOnly (entry_at st k) NUL = true -> containsOnly (entry_at st k) ERASED = false.
Proof.
  unfold entry_at, cache_read, read_bytes. cbn [seq map containsOnly forallb].
  intros H. apply andb_true_iff in H. destruct H as [H _].
  apply Ascii.eqb_eq in H. rewrite <- H. reflexivity.
Qed.

(** Two live entries side by side, after invalidated entries and before an
    erased one or the end of the journal: the scan settles on the second. *)
Lemma two_live_entries (st : MicroBitLog) (n i : nat) (jh de : Z) :
  scanned st n -> selected st n jh de ->
  (forall k, (k < i)%nat -> containsOnly (entry_at st k) NUL = true) ->
  live (entry_at st i) = true -> containsOnly (entry_at st i) ERASED = false ->
  live (entry_at st (S i)) = true -> containsOnly (entry_at st (S i)) ERASED = false ->
  journalStart st + 8 * Z.of_nat (S i) < dataStart st ->
  (journalStart st + 8 * Z.of_nat (S (S i)) < dataStart st ->
   containsOnly (entry_at st (S (S i))) ERASED = true) ->
  jh = journalStart st + 8 * Z.of_nat (S i)
  /\ de = add32 (dataStart st) (strtoul16 (entry_at st (S i))).
Proof.
  intros [Hpre Hend] Hsel Hzero Hl1 He1 Hl2 He2 Hin Herased.
  assert (Hn : n = S (S i)).
  { destruct (Nat.lt_trichotomy n (S (S i))) as [Hlt|[Heq|Hgt]]; [|exact Heq|].
    - exfalso. destruct Hend as [Hend|[Her _]]; [lia|].
      destruct (Nat.eq_dec n (S i)) as [->|Hne1]; [congruence|].
      destruct (Nat.eq_dec n i) as [->|Hne2]; [congruence|].
      assert (Hk : (n < i)%nat) by lia.
      apply Hzero, all_zero_not_erased in Hk. congruence.
    - exfalso. destruct (Hpre (S (S i)) Hgt) as [Hlt Hns]. apply Hns.
      split; [apply Herased; exact Hlt|]. exists i. split; [lia|exact Hl1]. }
  subst n.
  destruct Hsel as [[j [Hj [Hl [Hlast [Ejh Ede]]]]]|[Hnone _]].
  - assert (j = S i).
    { destruct (Nat.eq_dec j (S i)) as [E|Hne]; [exact E|].
      assert (Hf : live (entry_at st (S i)) = false) by (apply Hlast; lia). congruence. }
    subst j. split; assumption.
  - assert (Hf : live (entry_at st i) = false) by (apply Hnone; lia). congruence.
Qed.

(** The first entry live and the second erased, as when the head has gone
    back to [journalStart]: the scan settles on the first, whatever the rest
    of the journal holds. *)
Lemma first_live_entry (st : MicroBitLog) (n : nat) (jh de : Z) :
  scanned st n -> selected st n jh de ->
  live (entry_at st 0) = true ->
  journalStart st + 8 < dataStart st ->
  containsOnly (entry_at st 1) ERASED = true ->
  jh = journalStart st /\ de = add32 (dataStart st) (strtoul16 (entry_at st 0)).
Proof.
  intros [Hpre Hend] Hsel Hl0 Hin Her.
  assert (Hstop : stops_at st 1).
  { split; [exact Her|]. exists 0%nat. split; [lia|exact Hl0]. }
  assert (Hn : n = 1%nat).
  { destruct n as [|[|n]]; [|reflexivity|].
    - exfalso. destruct Hend as [Hend|[_ [k' [Hk' _]]]]; lia.
    - exfalso. destruct (Hpre 1%nat ltac:(lia)) as [_ Hns]. exact (Hns Hstop). }
  subst n.
  destruct Hsel as [[j [Hj [_ [_ [Ejh Ede]]]]]|[Hnone _]].
  - assert (j = 0%nat) by lia. subst j. split; [lia|exact Ede].
  - assert (Hf : live (entry_at st 0) = false) by (apply Hnone; lia). congruence.
Qed.

(** C2.  On a log that is present, [init] reads the journal from
    [journalStart] entry by entry, eight bytes apart, up to [dataStart] or to
    the first entry that is all 0xFF and comes after a live one; an entry that
    is not all 0x00 counts as live.  The last live entry read gives
    [journalHead] its address and [dataEnd] the value [dataStart] plus the
    number [strtoul] reads in it; with none, they stay at [journalStart] and
    [dataStart].  [dataEnd] then moves up byte by byte to the first 0xFF, or
    to [logEnd].  With two live entries side by side the second is chosen;
    with a live entry at [journalStart] and an erased one after it, as when
    the head has gone back to [journalStart], the first is.
    The loops over the headings end when the bytes after the metadata hold a
    byte other than 0x00 at [a] and a byte 0xFF at [b]. *)
Theorem init_recovers_journal (fuel : nat) (st st1 : MicroBitLog) (a b : Z) :
  has_flag (status st) MICROBIT_LOG_STATUS_INITIALIZED = false ->
  isPresent st = Some (true, st1) ->
  flashEnd (flash st) + 8 <= 2 ^ 32 ->
  startAddress st1 + sizeof_MicroBitLogMetaData <= a <= b -> b < 2 ^ 32 ->
  memory (flash st) a <> NUL ->
  memory (flash st) b = ERASED ->
  logEnd st1 <= Z.of_nat fuel -> b <= Z.of_nat fuel ->
  exists st' n d0,
    init fuel st = Some (tt, st')
    /\ initialized st'
    /\ scanned st1 n
    /\ selected st1 n (journalHead st') d0
    /\ walked st1 d0 (dataEnd st')
    /\ (forall i,
          (forall k, (k < i)%nat -> containsOnly (entry_at st1 k) NUL = true) ->
          live (entry_at st1 i) = true -> containsOnly (entry_at st1 i) ERASED = false ->
          live (entry_at st1 (S i)) = true ->
          containsOnly (entry_at st1 (S i)) ERASED = false ->
          journalStart st1 + 8 * Z.of_nat (S i) < dataStart st1 ->
          (journalStart st1 + 8 * Z.of_nat (S (S i)) < dataStart st1 ->
           containsOnly (entry_at st1 (S (S i))) ERASED = true) ->
          journalHead st' = journalStart st1 + 8 * Z.of_nat (S i)
          /\ d0 = add32 (dataStart st1) (strtoul16 (entry_at st1 (S i))))
    /\ (live (entry_at st1 0) = true ->
        journalStart st1 + 8 < dataStart st1 ->
        containsOnly (entry_at st1 1) ERASED = true ->
        journalHead st' = journalStart st1
        /\ d0 = add32 (dataStart st1) (strtoul16 (entry_at st1 0))).
Proof.
  intros Hinit Hpresent Hflash Hab Hb Ha Hm Hfuel1 Hfuel2.
  destruct (isPresent_true st st1 Hinit Hpresent)
    as [Hps [Hf1 [Hs1 [Hsa [Hjs [Hds [Hlt1 Hlt2]]]]]]].
  unfold init. rewrite Hinit, Hpresent.
  unfold init_mount. rewrite Hf1. apply Z.eqb_neq in Hps. rewrite Hps.
  set (stB := set_journalPages st1
                (sub32 (sub32 (dataStart st1) (startAddress st1) / pageSize (flash st1)) 1)).
  destruct (init_journal_spec fuel 0 false stB (journalStart stB) (dataStart stB))
    as [n [jh [de [Hrun1 [Hscan Hsel]]]]].
  { exact (proj1 Hjs). }
  { change (dataStart stB) with (dataStart st1). lia. }
  { change (dataStart stB) with (dataStart st1).
    change (journalStart stB) with (journalStart st1). lia. }
  { intros i Hi. lia. }
  { split; [discriminate|]. intros [i [Hi _]]. lia. }
  { right. split; [intros j Hj; lia|]. split; reflexivity. }
  change (Z.of_nat 0) with 0 in Hrun1. rewrite Z.mul_0_r, Z.add_0_r in Hrun1.
  assert (Hde : 0 <= de).
  { destruct Hsel as [[j [_ [_ [_ [_ Ede]]]]]|[_ [_ Ede]]]; subst de.
    - unfold add32, wrap32. apply Z.mod_pos_bound. lia.
    - exact Hds. }
  destruct (init_dataEnd_spec fuel (set_journalHead stB jh) de de)
    as [d [Hrun2 Hwalk]]; try lia.
  { change (logEnd (set_journalHead stB jh)) with (logEnd st1). lia. }
  { change (logEnd (set_journalHead stB jh)) with (logEnd st1). lia. }
  set (stC := set_dataEnd (set_journalHead stB jh) d) in *.
  destruct (init_headings_returns fuel stC a b) as [stD [Hrun3 [Hjh [Hd [Hst Hfl]]]]];
    try assumption.
  { change (flash stC) with (flash st1). rewrite Hf1. exact Ha. }
  { change (flash stC) with (flash st1). rewrite Hf1. exact Hm. }
  { change (startAddress stC) with (startAddress st1). lia. }
  exists (set_status stD (set_flag (status stD) MICROBIT_LOG_STATUS_INITIALIZED)), n, de.
  split.
  { unfold bind at 1. unfold modify at 1.
    unfold bind at 1. unfold modify at 1.
    unfold bind at 1. unfold modify at 1.
    unfold bind at 1. cbn [get].
    fold stB. change (journalHead (set_dataEnd (set_journalHead stB (journalStart stB))
                                     (dataStart (set_journalHead stB (journalStart stB)))))
      with (journalStart stB).
    change (dataStart (set_journalHead stB (journalStart stB))) with (dataStart stB).
    rewrite (bind_step _ _ _ _ _ Hrun1), (bind_step _ _ _ _ _ Hrun2).
    fold stC. rewrite (bind_step _ _ _ _ _ Hrun3). reflexivity. }
  split.
  { unfold initialized. cbn [status set_status].
    exact (eq_trans (has_flag_set (status stD) 0 0 ltac:(lia) ltac:(lia)) (orb_true_r _)). }
  cbn [journalHead dataEnd set_status]. rewrite Hjh, Hd.
  change (journalHead stC) with jh. change (dataEnd stC) with d.
  split; [exact Hscan|]. split; [exact Hsel|]. split; [exact Hwalk|].
  split.
  - intros i Hzero Hl1 He1 Hl2 He2 Hin Her.
    exact (two_live_entries stB n i jh de Hscan Hsel Hzero Hl1 He1 Hl2 He2 Hin Her).
  - intros Hl0 Hin Her.
    exact (first_live_entry stB n jh de Hscan Hsel Hl0 Hin Her).
Qed.

(** ** The journal stays below the data *)

Lemma journal_entry_length (st : MicroBitLog) : length (journal_entry st) = 8%nat.
Proof. reflexivity. Qed.

Lemma next_journalHead_cases (st : MicroBitLog) :
  journal_ok st ->
  let jh' := next_journalHead st in
  journalStart st <= jh' /\ jh' + 8 <= dataStart st
  /\ (jh' - journalStart st) mod 8 = 0
  /\ (on_page_boundary st = true ->
      jh' mod pageSize (flash st) = 0 /\ jh' + pageSize (flash st) <= dataStart st).
Proof.
  intros [Hps [Hjs [Hjh [Hds [Hm1 [Hm2 [Hp1 Hp2]]]]]]] jh'.
  apply Z.mod_divide in Hm1, Hm2; try lia. apply Z.mod_divide in Hp1, Hp2; try lia.
  destruct Hm1 as [q1 Hq1]. destruct Hm2 as [q2 Hq2].
  destruct Hp1 as [r1 Hr1]. destruct Hp2 as [r2 Hr2].
  assert (Hadv : advanced_head st = journalHead st + 8).
  { unfold advanced_head, add32, MICROBIT_LOG_JOURNAL_ENTRY_SIZE. apply wrap32_small. lia. }
  unfold jh', next_journalHead, on_page_boundary. rewrite Hadv.
  destruct (Z.eqb_spec ((journalHead st + 8) mod pageSize (flash st)) 0) as [Hb|Hb].
  - apply Z.mod_divide in Hb; try lia. destruct Hb as [r3 Hr3].
    destruct (Z.eqb_spec (journalHead st + 8) (dataStart st)) as [Hw|Hw]; cbn [andb].
    + split; [lia|]. split; [lia|].
      split; [rewrite Z.sub_diag; reflexivity|]. intros _.
      split; [apply Z.mod_divide; [lia|exists r1; exact Hr1]|].
      assert (r1 < r2) by nia. nia.
    + split; [lia|]. split; [lia|].
      split; [apply Z.mod_divide; [lia|exists (q1 + 1); lia]|]. intros _.
      split; [apply Z.mod_divide; [lia|exists r3; exact Hr3]|].
      assert (r3 < r2) by nia. nia.
  - cbn [andb].
    assert (journalHead st + 8 <> dataStart st).
    { intros E. apply Hb. rewrite E. apply Z.mod_divide; [lia|exists r2; exact Hr2]. }
    split; [lia|]. split; [lia|].
    split; [apply Z.mod_divide; [lia|exists (q1 + 1); lia]|]. discriminate.
Qed.

(** A commit leaves the layout as it was and does not touch the data region. *)
Lemma committed_frame (st : MicroBitLog) :
  journal_ok st ->
  journal_ok (committed st)
  /\ pageSize (flash (committed st)) = pageSize (flash st)
  /\ (forall a, dataStart st <= a ->
        memory (flash (committed st)) a = memory (flash st) a).
Proof.
  intros Hok. pose proof (next_journalHead_cases st Hok) as Hn. cbv zeta in Hn.
  destruct Hn as [Hlo [Hhi [Hmod Hpage]]].
  destruct Hok as [Hps [Hjs [Hjh [Hds [Hm1 [Hm2 [Hp1 Hp2]]]]]]].
  destruct (journal_storage_trace st) as [_ Hsame].
  split.
  { unfold journal_ok, committed.
    cbn [flash set_flash journalStart journalHead dataStart set_journalHead].
    rewrite Hsame. repeat split; try assumption; lia. }
  split; [exact Hsame|].
  intros a Ha. unfold committed, journal_storage.
  cbn [flash set_flash storage_cache_write issue memory].
  rewrite program_outside by (unfold JournalEntry_clear; simpl length; lia).
  rewrite program_outside by (rewrite journal_entry_length; lia).
  destruct (on_page_boundary st) eqn:Hb; [|reflexivity].
  destruct (Hpage eq_refl) as [Hz Hroom].
  cbn [storage_flash_erase storage_cache_erase issue memory pageSize].
  apply erase_page_outside. rewrite Hz. lia.
Qed.

Lemma logString_appends (fuel : nat) (s : list ascii) (st : MicroBitLog) :
  initialized st ->
  room_for (c_str s) st ->
  journal_ok st ->
  dataStart st <= dataEnd st ->
  (length (c_str s) <= fuel)%nat ->
  exists F jh,
    logString fuel s st = Some (DEVICE_OK, appended s st F jh)
    /\ pageSize F = pageSize (flash st)
    /\ journal_ok (appended s st F jh)
    /\ (forall a, dataStart st <= a < dataEnd st -> memory F a = memory (flash st) a)
    /\ ((forall a, dataEnd st <= a < dataEnd st + strlen s -> memory (flash st) a = ERASED) ->
        forall i, (i < length (c_str s))%nat ->
          memory F (dataEnd st + Z.of_nat i) = nth i (cleaned (c_str s) false) NUL)
    /\ (forall a, dataEnd st + strlen s <= a ->
          memory (flash st) a = ERASED -> memory F a = ERASED).
Proof.
  intros Hinit Hroom Hok Hstart Hfuel.
  destruct (logString_fits fuel s st Hinit Hroom Hfuel) as [F [ops [Hdone Hrun]]].
  destruct Hdone as [HpsF [_ [_ [_ [Hlow [Hmem Hfr]]]]]].
  rewrite cleaned_length in Hmem, Hfr. fold (strlen s) in Hmem, Hfr.
  set (st1 := set_dataEnd (set_flash st F) (dataEnd st + strlen s)) in *.
  assert (Hok1 : journal_ok st1).
  { unfold journal_ok, st1 in *.
    cbn [flash set_flash set_dataEnd journalStart journalHead dataStart].
    rewrite HpsF. exact Hok. }
  assert (Hmem' : (forall a, dataEnd st <= a < dataEnd st + strlen s ->
                      memory (flash st) a = ERASED) ->
                  forall i, (i < length (c_str s))%nat ->
                    memory F (dataEnd st + Z.of_nat i) = nth i (cleaned (c_str s) false) NUL).
  { intros Her i Hi. apply Hmem; [|exact Hi].
    intros a Ha. apply Her. lia. }
  cbv zeta in Hrun.
  destruct (same_block (dataEnd st1) (dataEnd st)).
  - exists F, (journalHead st). split; [exact Hrun|].
    split; [exact HpsF|]. split; [exact Hok1|].
    split; [intros a Ha; apply Hlow; lia|]. split; [exact Hmem'|exact Hfr].
  - destruct (committed_frame st1 Hok1) as [Hok2 [Hps2 Hsame]].
    change (dataStart st1) with (dataStart st) in Hsame.
    change (flash st1) with F in Hsame, Hps2.
    exists (journal_storage st1), (next_journalHead st1). split; [exact Hrun|].
    split; [change (pageSize (flash (committed st1)) = pageSize (flash st));
            rewrite Hps2; exact HpsF|].
    split; [exact Hok2|].
    change (forall a, dataStart st <= a ->
              memory (journal_storage st1) a = memory F a) in Hsame.
    split; [intros a Ha; rewrite Hsame by lia; apply Hlow; lia|].
    split.
    + intros Her i Hi. rewrite Hsame by lia. apply Hmem'; assumption.
    + intros a Ha Her. rewrite Hsame by (unfold strlen in Ha; lia). apply Hfr; assumption.
Qed.

(** ** The text of a time stamp *)

Lemma padString_spec (fuel : nat) :
  forall (s : ManagedString) (digits : Z),
    Z.of_nat (length s) <= digits ->
    digits - Z.of_nat (length s) <= Z.of_nat fuel ->
    padString fuel s digits
    = Some (repeat "0"%char (Z.to_nat (digits - Z.of_nat (length s))) ++ s).
Proof.
  induction fuel as [|f IH]; intros s digits Hle Hfuel.
  - assert (E : Z.of_nat (length s) = digits) by lia.
    cbn [padString]. apply Z.eqb_eq in E. rewrite E. apply Z.eqb_eq in E.
    rewrite E, Z.sub_diag. reflexivity.
  - cbn [padString]. destruct (Z.eqb_spec (Z.of_nat (length s)) digits) as [E|E].
    + rewrite E, Z.sub_diag. reflexivity.
    + change (str "0" ++ s) with ("0"%char :: s).
      rewrite IH by (cbn [length]; lia).
      cbn [length].
      replace (Z.to_nat (digits - Z.of_nat (length s)))
        with (S (Z.to_nat (digits - Z.of_nat (S (length s))))) by lia.
      cbn [repeat]. rewrite repeat_cons, <- app_assoc. reflexivity.
Qed.

Lemma decimal_digits_are_digits (fuel : nat) :
  forall (n : Z) (acc : list ascii),
    Forall is_digit acc -> Forall is_digit (decimal_digits fuel n acc).
Proof.
  induction fuel as [|f IH]; intros n acc Hacc; cbn [decimal_digits]; [exact Hacc|].
  assert (Hd : is_digit (char_of_Z (Z_of_char "0" + n mod 10))).
  { exists (n mod 10). split; [|reflexivity].
    pose proof (Z.mod_pos_bound n 10 ltac:(lia)). lia. }
  destruct (n / 10 =? 0); [constructor; assumption|].
  apply IH. constructor; assumption.
Qed.

Lemma decimal_digits_length (k : nat) :
  forall (fuel : nat) (n : Z) (acc : list ascii),
    (1 <= k <= fuel)%nat -> 0 <= n < 10 ^ Z.of_nat k ->
    (1 + length acc <= length (decimal_digits fuel n acc) <= k + length acc)%nat.
Proof.
  induction k as [|k IH]; intros fuel n acc Hk Hn; [lia|].
  destruct fuel as [|f]; [lia|]. cbn [decimal_digits].
  destruct (Z.eqb_spec (n / 10) 0) as [E|E]; [cbn [length]; lia|].
  destruct k as [|k'].
  - exfalso. apply E. apply Z.div_small. change (10 ^ Z.of_nat 1) with 10 in Hn. lia.
  - assert (Hq : 0 <= n / 10 < 10 ^ Z.of_nat (S k')).
    { split; [apply Z.div_pos; lia|].
      apply Z.div_lt_upper_bound; [lia|].
      replace (Z.of_nat (S (S k'))) with (Z.of_nat (S k') + 1) in Hn by lia.
      rewrite Z.pow_add_r in Hn by lia. change (10 ^ 1) with 10 in Hn. lia. }
    pose proof (IH f (n / 10) (char_of_Z (Z_of_char "0" + n mod 10) :: acc)
                  ltac:(lia) Hq) as Hlen.
    cbn [length] in Hlen. lia.
Qed.

Lemma digit_not_point (c : ascii) : is_digit c -> c <> "."%char.
Proof.
  intros [d [Hd ->]].
  assert (Hc : d = 0 \/ d = 1 \/ d = 2 \/ d = 3 \/ d = 4 \/ d = 5 \/ d = 6 \/ d = 7
               \/ d = 8 \/ d = 9) by lia.
  repeat (destruct Hc as [Hc|Hc]; [subst d; discriminate|]). subst d; discriminate.
Qed.

Lemma ManagedString_of_int_no_point (v : Z) : ~ In "."%char (ManagedString_of_int v).
Proof.
  unfold ManagedString_of_int. intros Hin.
  assert (Hall : forall n, Forall is_digit (decimal_digits 10 n []))
    by (intros n; apply decimal_digits_are_digits; constructor).
  destruct (v <? 0).
  - destruct Hin as [E|Hin]; [discriminate E|].
    pose proof (Hall (- v)) as H. rewrite Forall_forall in H.
    exact (digit_not_point _ (H _ Hin) eq_refl).
  - pose proof (Hall v) as H. rewrite Forall_forall in H.
    exact (digit_not_point _ (H _ Hin) eq_refl).
Qed.

(** The two digits of a fraction below 100, as [padString] leaves them. *)
Lemma fraction_digits (fuel : nat) (f : Z) :
  0 <= f < 100 -> (1 <= fuel)%nat ->
  padString fuel (ManagedString_of_int f) 2 = Some [digit (f / 10); digit (f mod 10)].
Proof.
  intros Hf Hfuel. unfold ManagedString_of_int.
  replace (f <? 0) with false by (symmetry; apply Z.ltb_ge; lia).
  cbn [decimal_digits].
  destruct (Z.eqb_spec (f / 10) 0) as [E|E].
  - rewrite E. destruct fuel as [|fuel]; [lia|].
    cbn [padString length Z.of_nat]. change (Z.of_nat 1 =? 2) with false. cbv iota.
    change (str "0" ++ [char_of_Z (Z_of_char "0" + f mod 10)])
      with [digit 0; digit (f mod 10)].
    destruct fuel; reflexivity.
  - assert (Hq : 1 <= f / 10 < 10).
    { split.
      - assert (0 <= f / 10) by (apply Z.div_pos; lia). lia.
      - apply Z.div_lt_upper_bound; lia. }
    replace (f / 10 / 10 =? 0) with true
      by (symmetry; apply Z.eqb_eq; apply Z.div_small; lia).
    replace ((f / 10) mod 10) with (f / 10) by (symmetry; apply Z.mod_small; lia).
    destruct fuel; reflexivity.
Qed.

Lemma to_int_small (z : Z) : - 2 ^ 31 <= z < 2 ^ 31 -> to_int z = z.
Proof. intros H. unfold to_int. rewrite Z.mod_small; lia. Qed.

(** For a format whose value is above 1, the text ends with a point and two
    digits, those of the time modulo 100. *)
Lemma endRow_timestamp_fractional (fuel : nat) (format : TimeStampFormat) (now : Z) :
  1 < TimeStampFormat_value format < 2 ^ 64 ->
  0 <= now ->
  (9 <= fuel)%nat ->
  exists ip d1 d2,
    endRow_timestamp fuel format now = Some (ip ++ str "." ++ [digit d1; digit d2])
    /\ 0 <= d1 <= 9 /\ 0 <= d2 <= 9
    /\ 10 * d1 + d2 = ((now / TimeStampFormat_value format) mod 1000000000) mod 100
    /\ ~ In "."%char ip.
Proof.
  intros Hv Hnow Hfuel. unfold endRow_timestamp.
  set (v := TimeStampFormat_value format) in *.
  assert (Hw : wrap64 v = v) by (unfold wrap64; apply Z.mod_small; lia).
  rewrite Hw. replace (v =? 0) with false by (symmetry; apply Z.eqb_neq; lia).
  replace (1 <? v) with true by (symmetry; apply Z.ltb_lt; lia).
  set (t := now / v).
  assert (Ht : 0 <= t) by (apply Z.div_pos; lia).
  pose proof (Z.mod_pos_bound t 1000000000 ltac:(lia)) as Hu.
  rewrite (to_int_small (t mod 1000000000)) by lia.
  set (units0 := t mod 1000000000) in *.
  rewrite (Z.rem_mod_nonneg units0 100), (Z.quot_div_nonneg units0 100) by lia.
  pose proof (Z.mod_pos_bound units0 100 ltac:(lia)) as Hf.
  rewrite (fraction_digits fuel (units0 mod 100) Hf) by lia.
  assert (Hunits : 0 <= units0 / 100 < 10 ^ Z.of_nat 7).
  { split; [apply Z.div_pos; lia|]. apply Z.div_lt_upper_bound; [lia|].
    change (10 ^ Z.of_nat 7) with 10000000. lia. }
  assert (Hlen : (1 <= length (ManagedString_of_int (units0 / 100)) <= 7)%nat).
  { unfold ManagedString_of_int.
    replace (units0 / 100 <? 0) with false by (symmetry; apply Z.ltb_ge; lia).
    pose proof (decimal_digits_length 7 10 (units0 / 100) [] ltac:(lia) Hunits) as H.
    cbn [length] in H. lia. }
  assert (Hd1 : 0 <= units0 mod 100 / 10 <= 9).
  { split; [apply Z.div_pos; lia|].
    assert (units0 mod 100 / 10 < 10) by (apply Z.div_lt_upper_bound; lia). lia. }
  pose proof (Z.mod_pos_bound (units0 mod 100) 10 ltac:(lia)) as Hd2.
  pose proof (Z.div_mod (units0 mod 100) 10 ltac:(lia)) as Hsum.
  destruct (Z.quot (to_int (t / 1000000000)) 100 =? 0).
  - exists ([] ++ ManagedString_of_int (units0 / 100)), (units0 mod 100 / 10),
      ((units0 mod 100) mod 10).
    split; [reflexivity|]. split; [exact Hd1|]. split; [lia|]. split; [lia|].
    apply ManagedString_of_int_no_point.
  - rewrite padString_spec by lia. cbn [option_map].
    eexists. exists (units0 mod 100 / 10), ((units0 mod 100) mod 10).
    split; [reflexivity|]. split; [exact Hd1|]. split; [lia|]. split; [lia|].
    intros Hin. apply in_app_or in Hin. destruct Hin as [Hin|Hin].
    + exact (ManagedString_of_int_no_point _ Hin).
    + apply in_app_or in Hin. destruct Hin as [Hin|Hin].
      * apply repeat_spec in Hin. discriminate Hin.
      * exact (ManagedString_of_int_no_point _ Hin).
Qed.

(** The text of S5: 12340 ms in hundredths of a second. *)
Lemma endRow_timestamp_12340 (fuel : nat) :
  TimeStampFormat_value Seconds = 10 ->
  endRow_timestamp fuel Seconds 12340 = Some (str "12.34").
Proof.
  intros Hv. unfold endRow_timestamp. rewrite Hv.
  destruct fuel; reflexivity.
Qed.

(** ** The scenario S5 *)

Lemma read_bytes_eq (m : Z -> ascii) (a : Z) (l : list ascii) :
  (forall i, (i < length l)%nat -> m (a + Z.of_nat i) = nth i l NUL) ->
  read_bytes m a (length l) = l.
Proof.
  intros H. unfold read_bytes.
  apply nth_ext with (d := NUL) (d' := NUL).
  - rewrite length_map, length_seq. reflexivity.
  - intros i Hi. rewrite length_map, length_seq in Hi.
    rewrite <- (H i Hi).
    rewrite (nth_indep _ NUL (m (a + Z.of_nat 0)))
      by (rewrite length_map, length_seq; assumption).
    rewrite (map_nth (fun i => m (a + Z.of_nat i)) (seq 0 (length l)) 0%nat i).
    rewrite seq_nth by assumption. reflexivity.
Qed.

Lemma endRow_headings_changed (fuel : nat) (st : MicroBitLog) :
  headingsChanged st = true ->
  endRow_headings fuel st
  = (logString_ManagedString fuel (join (str ",") (map key (rowData st)) ++ [NL]) ;;
     modify (fun st => set_headingsChanged st false)) (headings_stored st).
Proof.
  intros H. unfold endRow_headings, headings_stored.
  unfold bind at 1. cbn [get]. rewrite H. cbn [when].
  destruct (headingStart st =? 0); reflexivity.
Qed.

Lemma endRow_row_logged (fuel : nat) (st : MicroBitLog) :
  forallb (fun e => (length (value e) =? 0)%nat) (rowData st) = false ->
  endRow_row fuel st
  = (logString_ManagedString fuel (join (str ",") (map value (rowData st)) ++ [NL]) ;;
     ret tt) st.
Proof.
  intros H. unfold endRow_row. unfold bind at 1. cbn [get]. rewrite H. reflexivity.
Qed.

Lemma logString_ManagedString_eq (fuel : nat) (s : ManagedString) (st st' : MicroBitLog)
    (r : ErrorCode) :
  logString fuel (s ++ [NUL]) st = Some (r, st') ->
  logString_ManagedString fuel s st = Some (DEVICE_OK, st').
Proof. intros H. unfold logString_ManagedString. rewrite (bind_step _ _ _ _ _ H). reflexivity. Qed.

Lemma S5_row_appended (fuel : nat) (st : MicroBitLog) :
  TimeStampFormat_value Seconds = 10 ->
  initialized st -> row_started st = false -> isFull st = false ->
  rowData st = [] -> headingsChanged st = false ->
  headingStart st = 0 -> headingLength st = 0 ->
  system_time st = 12340 ->
  journal_ok st ->
  0 <= startAddress st -> startAddress st + 57 <= journalStart st ->
  dataStart st <= dataEnd st ->
  dataEnd st + 26 <= logEnd st ->
  logEnd st + pageSize (flash st) <= 2 ^ 32 ->
  (forall a, dataEnd st <= a < dataEnd st + 26 -> memory (flash st) a = ERASED) ->
  (17 <= fuel)%nat ->
  exists st',
    (setTimeStamp fuel Seconds ;; beginRow fuel ;; logData fuel (str "v") (str "hi") ;;
     endRow fuel) st = Some (DEVICE_OK, st')
    /\ dataEnd st' = dataEnd st + 26
    /\ read_bytes (memory (flash st')) (dataEnd st) 26 = S5_header_line ++ S5_row
    /\ (forall a, dataStart st <= a < dataEnd st ->
          memory (flash st') a = memory (flash st) a).
Proof.
  intros Hval Hinit Hidle Hfull Hrows HhC HhS HhL Hclock Hok Hsa Hmeta Hstart Hfit Hend Her Hfuel.
  (* setTimeStamp *)
  set (st2 := set_timeStampHeading (set_timeStampFormat st Seconds) S5_heading).
  set (st3 := set_headingsChanged
                (set_rowData st2 [{| key := S5_heading; value := [] |}]) true).
  assert (H1 : setTimeStamp fuel Seconds st = Some (tt, st3)).
  { unfold setTimeStamp.
    rewrite (bind_step _ _ _ _ _ (init_initialized fuel st Hinit)).
    unfold bind, modify, get. cbn [timeStampHeading set_timeStampHeading].
    rewrite addHeading_eq. cbn [rowData set_timeStampHeading set_timeStampFormat].
    rewrite Hrows. reflexivity. }
  rewrite (bind_step _ _ _ _ _ H1).
  (* beginRow *)
  assert (Hinit3 : initialized st3) by exact Hinit.
  assert (H2 : beginRow fuel st3 = Some (DEVICE_OK, row_begun st3)).
  { apply beginRow_body_idle; [exact Hinit3|exact Hidle]. }
  rewrite (bind_step _ _ _ _ _ H2).
  set (st4 := row_begun st3).
  assert (Hinit4 : initialized st4).
  { unfold initialized, st4, row_begun. cbn [status set_status].
    rewrite initialized_after_set_row. exact Hinit. }
  assert (Hrow4 : row_started st4 = true).
  { unfold row_started, st4, row_begun. cbn [status set_status].
    apply row_started_after_set. }
  (* logData *)
  set (st5 := set_headingsChanged
                (set_rowData st4 [{| key := S5_heading; value := [] |};
                                  {| key := str "v"; value := str "hi" |}]) true).
  assert (H3 : logData fuel (str "v") (str "hi") st4 = Some (DEVICE_OK, st5)).
  { rewrite logData_eq by exact Hinit4.
    unfold row_open. rewrite Hrow4. reflexivity. }
  rewrite (bind_step _ _ _ _ _ H3).
  (* endRow *)
  assert (Hinit5 : initialized st5) by exact Hinit4.
  assert (Hrow5 : has_flag (status st5) MICROBIT_LOG_STATUS_ROW_STARTED = true) by exact Hrow4.
  set (st6 := set_rowData st5 [{| key := S5_heading; value := str "12.34" |};
                               {| key := str "v"; value := str "hi" |}]).
  assert (H4 : forall b, logData_body fuel b S5_heading (str "12.34") st5
                         = Some (DEVICE_OK, st6)).
  { intros b. rewrite logData_body_eq; [|exact Hinit5|].
    - unfold row_open, row_started. rewrite Hrow5. reflexivity.
    - unfold row_started. rewrite Hrow5. discriminate. }
  rewrite endRow_unfold. unfold endRow_body.
  unfold bind at 1. cbn [get]. rewrite Hrow5. cbn [negb].
  rewrite (bind_step _ _ _ _ _ (init_initialized fuel st5 Hinit5)).
  unfold bind at 1. cbn [get].
  change (timeStampFormat st5) with Seconds.
  change (system_time st5) with (system_time st). rewrite Hclock.
  change (timeStampHeading st5) with S5_heading.
  rewrite (endRow_timestamp_12340 fuel Hval).
  cbn [TimeStampFormat_eqb negb when].
  unfold bind at 1. unfold bind at 1. rewrite H4.
  unfold ret at 1.
  unfold bind at 1. cbn [get].
  rewrite (endRow_headings_changed fuel st6 eq_refl).
  change (map key (rowData st6)) with [S5_heading; str "v"].
  change (join (str ",") [S5_heading; str "v"] ++ [NL]) with S5_header_line.
  set (st7 := headings_stored st6).
  pose proof Hok as [Hps [Hjs [Hjh [Hds _]]]].
  assert (Hmem7 : forall a, journalStart st <= a ->
                    memory (flash st7) a = memory (flash st) a).
  { intros a Ha. unfold st7, headings_stored.
    change (headingStart st6) with (headingStart st).
    change (headingLength st6) with (headingLength st).
    change (startAddress st6) with (startAddress st).
    change (map key (rowData st6)) with [S5_heading; str "v"].
    rewrite HhS, HhL. cbn [Z.eqb Z.to_nat repeat].
    cbn [flash set_flash storage_cache_write issue memory].
    assert (Hhs : add32 (add32 (startAddress st) sizeof_MicroBitLogMetaData) 0
                  = startAddress st + 40).
    { unfold add32, sizeof_MicroBitLogMetaData. rewrite Z.add_0_r.
      rewrite (wrap32_small (startAddress st + 40)) by lia. apply wrap32_small. lia. }
    rewrite Hhs.
    rewrite program_outside by (right; simpl length; lia).
    apply program_outside. right. simpl length.
    unfold add32, sizeof_MicroBitLogMetaData. rewrite wrap32_small; lia. }
  assert (Hps7 : pageSize (flash st7) = pageSize (flash st)) by reflexivity.
  assert (Hok7 : journal_ok st7) by exact Hok.
  destruct (logString_appends fuel (S5_header_line ++ [NUL]) st7)
    as [F1 [jh1 [Hrun1 [HpsF1 [Hok8 [Hlow1 [Hnew1 Hfr1]]]]]]].
  { exact Hinit5. }
  { unfold room_for. rewrite Hps7. change (dataEnd st7) with (dataEnd st).
    change (logEnd st7) with (logEnd st). simpl length. lia. }
  { exact Hok7. }
  { exact Hstart. }
  { simpl length. lia. }
  change (dataEnd st7) with (dataEnd st) in Hlow1, Hnew1, Hfr1.
  change (dataStart st7) with (dataStart st) in Hlow1.
  change (strlen (S5_header_line ++ [NUL])) with 17 in Hnew1, Hfr1.
  change (c_str (S5_header_line ++ [NUL])) with S5_header_line in Hnew1.
  change (cleaned S5_header_line false) with S5_header_line in Hnew1.
  set (st8 := appended (S5_header_line ++ [NUL]) st7 F1 jh1) in *.
  rewrite (bind_step _ _ _ _ _ (logString_ManagedString_eq _ _ _ _ _ Hrun1)).
  cbn [modify].
  set (st9 := set_headingsChanged st8 false).
  unfold bind at 1.
  rewrite endRow_row_logged by reflexivity.
  change (map value (rowData st9)) with [str "12.34"; str "hi"].
  change (join (str ",") [str "12.34"; str "hi"] ++ [NL]) with S5_row.
  assert (Hps9 : pageSize (flash st9) = pageSize (flash st)).
  { change (pageSize (flash st9)) with (pageSize F1). rewrite HpsF1. exact Hps7. }
  destruct (logString_appends fuel (S5_row ++ [NUL]) st9)
    as [F2 [jh2 [Hrun2 [HpsF2 [Hok10 [Hlow2 [Hnew2 Hfr2]]]]]]].
  { exact Hinit5. }
  { unfold room_for. rewrite Hps9. change (dataEnd st9) with (dataEnd st + 17).
    change (logEnd st9) with (logEnd st). simpl length. lia. }
  { exact Hok8. }
  { change (dataEnd st9) with (dataEnd st + 17).
    change (dataStart st9) with (dataStart st). lia. }
  { simpl length. lia. }
  change (dataEnd st9) with (dataEnd st + 17) in Hlow2, Hnew2, Hfr2.
  change (dataStart st9) with (dataStart st) in Hlow2.
  change (flash st9) with F1 in Hlow2, Hnew2, Hfr2.
  change (strlen (S5_row ++ [NUL])) with 9 in Hnew2, Hfr2.
  change (c_str (S5_row ++ [NUL])) with S5_row in Hnew2.
  change (cleaned S5_row false) with S5_row in Hnew2.
  set (st10 := appended (S5_row ++ [NUL]) st9 F2 jh2) in *.
  rewrite (bind_step _ _ _ _ _ (logString_ManagedString_eq _ _ _ _ _ Hrun2)).
  unfold ret at 1. unfold bind at 1. cbn [modify]. unfold bind at 1. cbn [get].
  cbn [status set_status].
  assert (Hfull10 : has_flag (clear_flag (status st10) MICROBIT_LOG_STATUS_ROW_STARTED)
                      MICROBIT_LOG_STATUS_FULL = false).
  { rewrite full_after_clear_row.
    change (status st10) with (set_flag (status st) MICROBIT_LOG_STATUS_ROW_STARTED).
    rewrite full_after_set_row. exact Hfull. }
  rewrite Hfull10.
  eexists. split; [reflexivity|].
  cbn [dataEnd flash set_status].
  change (dataEnd st10) with (dataEnd st + 17 + 9).
  change (flash st10) with F2.
  assert (Her7 : forall a, dataEnd st <= a < dataEnd st + 26 ->
                   memory (flash st7) a = ERASED).
  { intros a Ha. rewrite Hmem7 by lia. apply Her. exact Ha. }
  split; [lia|]. split.
  - change 26%nat with (length (S5_header_line ++ S5_row)).
    apply read_bytes_eq. intros i Hi.
    change (length (S5_header_line ++ S5_row)) with 26%nat in Hi.
    destruct (Nat.lt_ge_cases i 17) as [Hlt|Hge].
    + rewrite Hlow2 by lia.
      rewrite Hnew1; [|intros a Ha; apply Her7; lia|exact Hlt].
      rewrite app_nth1 by exact Hlt. reflexivity.
    + replace (dataEnd st + Z.of_nat i)
        with (dataEnd st + 17 + Z.of_nat (i - 17)) by lia.
      rewrite Hnew2.
      * rewrite (app_nth2 S5_header_line) by exact Hge. reflexivity.
      * intros a Ha. apply Hfr1; [lia|]. apply Her7. lia.
      * change (length S5_row) with 9%nat. lia.
  - intros a Ha. rewrite Hlow2 by lia. rewrite Hlow1 by lia. apply Hmem7. lia.
Qed.

(** C6.  With the time counted in hundredths of a second (the value 10 for
    the unit of seconds) and the clock at 12340 ms, setting the unit to
    seconds and logging the row ("v", "hi") on a fresh log appends to the data
    region the 26 bytes "Time (seconds),v\n12.34,hi\n", the line of the
    headings then the row, and returns [DEVICE_OK].  For every unit whose
    value is above 1 the text of the time stamp ends with a point and exactly
    two digits, those of the time modulo 100. *)
Theorem endRow_seconds_row (fuel : nat) (st : MicroBitLog)
    (format : TimeStampFormat) (now : Z) :
  TimeStampFormat_value Seconds = 10 ->
  system_time st = 12340 ->
  fresh_log_with_room st ->
  (17 <= fuel)%nat ->
  1 < TimeStampFormat_value format < 2 ^ 64 ->
  0 <= now ->
  (exists st',
     (setTimeStamp fuel Seconds ;; beginRow fuel ;; logData fuel (str "v") (str "hi") ;;
      endRow fuel) st = Some (DEVICE_OK, st')
     /\ dataEnd st' = dataEnd st + 26
     /\ read_bytes (memory (flash st')) (dataEnd st) 26
        = str "Time (seconds),v" ++ [NL] ++ str "12.34,hi" ++ [NL]
     /\ (forall a, dataStart st <= a < dataEnd st ->
           memory (flash st') a = memory (flash st) a))
  /\ (exists ip d1 d2,
        endRow_timestamp fuel format now = Some (ip ++ str "." ++ [digit d1; digit d2])
        /\ 0 <= d1 <= 9 /\ 0 <= d2 <= 9
        /\ 10 * d1 + d2 = ((now / TimeStampFormat_value format) mod 1000000000) mod 100
        /\ ~ In "."%char ip).
Proof.
  intros Hval Hclock Hfresh Hfuel Hformat Hnow.
  destruct Hfresh as [H1 [H2 [H3 [H4 [H5 [H6 [H7 [H8 [H9 [H10 [H11 [H12 [H13 H14]]]]]]]]]]]]].
  split.
  - exact (S5_row_appended fuel st Hval H1 H2 H3 H4 H5 H6 H7 Hclock H8 H9 H10 H11 H12 H13
             H14 Hfuel).
  - apply endRow_timestamp_fractional; [exact Hformat|exact Hnow|lia].
Qed.

(** A string in which no turn of the loop of [cleanBuffer] finds anything has
    nothing to clean. *)
Lemma arrow_at_app (p q : list ascii) :
  arrow_at (p ++ str "-->" ++ q) (length p) = true.
Proof.
  induction p as [|h t IH]; [reflexivity|].
  cbn [app length]. rewrite arrow_at_cons. exact IH.
Qed.

Lemma no_hit_nothing_to_clean (rs : bool) (x : list ascii) :
  existsb (hit rs x) (seq 0 (length x)) = false -> nothing_to_clean rs x.
Proof.
  intros H.
  assert (Hno : forall i, (i < length x)%nat -> hit rs x i = false).
  { intros i Hi. apply not_true_iff_false. intros Hh.
    assert (existsb (hit rs x) (seq 0 (length x)) = true).
    { apply existsb_exists. exists i. split; [apply in_seq; lia|exact Hh]. }
    congruence. }
  assert (Hin : forall c, In c x -> exists i, (i < length x)%nat /\ char_at x i = c).
  { intros c Hc. destruct (In_nth x c NUL Hc) as [i [Hi E]]. exists i. split; assumption. }
  split; [|split].
  - intros Hc. destruct (Hin _ Hc) as [i [Hi E]].
    pose proof (Hno i Hi) as Hh. unfold hit, separator_at in Hh. rewrite E in Hh.
    rewrite orb_true_r in Hh. discriminate Hh.
  - intros p q E.
    assert (Hi : (length p < length x)%nat).
    { rewrite E, !length_app. simpl. lia. }
    pose proof (Hno _ Hi) as Hh. unfold hit in Hh.
    rewrite E in Hh at 1. rewrite arrow_at_app in Hh. discriminate Hh.
  - intros ->. split; intros Hc; destruct (Hin _ Hc) as [i [Hi E]];
      pose proof (Hno i Hi) as Hh; unfold hit, separator_at in Hh; rewrite E in Hh;
      cbn in Hh; rewrite ?orb_true_r in Hh; discriminate Hh.
Qed.

(** ** endRow returns *)

Lemma c_str_length (l : list ascii) : (length (c_str l) <= length l)%nat.
Proof.
  induction l as [|c t IH]; simpl; [lia|].
  destruct (Ascii.eqb c NUL); simpl; lia.
Qed.

Lemma logString_returns (fuel : nat) (s : list ascii) (st : MicroBitLog) :
  initialized st ->
  0 < pageSize (flash st) ->
  0 <= dataEnd st <= logEnd st ->
  logEnd st + pageSize (flash st) <= 2 ^ 32 ->
  (length s <= fuel)%nat ->
  exists r st', logString fuel s st = Some (r, st') /\ stable st st'.
Proof.
  intros Hinit Hps Hd Hend Hfuel.
  pose proof (c_str_length s) as Hc.
  destruct (Z_lt_ge_dec (logEnd st - dataEnd st) (strlen s)) as [Hno|Hyes].
  - assert (Hsub : sub32 (logEnd st) (dataEnd st) = logEnd st - dataEnd st)
      by (apply wrap32_small; lia).
    exists DEVICE_NO_RESOURCES. eexists. split.
    { apply logString_no_room; [exact Hinit|]. rewrite Hsub. exact Hno. }
    unfold stable, isFull, initialized.
    destruct (has_flag (status st) MICROBIT_LOG_STATUS_FULL).
    + repeat split; auto; lia.
    + cbn [status set_status flash set_flash storage_cache_write issue pageSize logEnd
           dataEnd rowData].
      rewrite initialized_after_set_full, row_started_after_set_full.
      repeat split; auto; lia.
  - assert (Hroom : room_for (c_str s) st).
    { unfold room_for. unfold strlen in Hyes. repeat split; lia. }
    destruct (logString_fits fuel s st Hinit Hroom ltac:(lia)) as [F [ops [Hdone Hrun]]].
    destruct Hdone as [HpsF _].
    exists DEVICE_OK. eexists. split; [exact Hrun|].
    cbv zeta. unfold stable, initialized, strlen in *.
    destruct (same_block _ _).
    + cbn [status flash set_flash set_dataEnd pageSize logEnd dataEnd rowData].
      repeat split; auto; lia.
    + unfold committed.
      cbn [status flash set_flash set_dataEnd set_journalHead pageSize logEnd dataEnd rowData].
      destruct (journal_storage_trace
                  (set_dataEnd (set_flash st F)
                     (dataEnd st + Z.of_nat (length (c_str s))))) as [_ Hp].
      rewrite Hp. cbn [flash set_flash set_dataEnd].
      repeat split; auto; lia.
Qed.

Lemma decimal_digits_bound (fuel : nat) :
  forall (n : Z) (acc : list ascii),
    (length (decimal_digits fuel n acc) <= fuel + length acc)%nat.
Proof.
  induction fuel as [|f IH]; intros n acc; cbn [decimal_digits]; [lia|].
  destruct (n / 10 =? 0); [cbn [length]; lia|].
  pose proof (IH (n / 10) (char_of_Z (Z_of_char "0" + n mod 10) :: acc)) as H.
  cbn [length] in H. lia.
Qed.

Lemma ManagedString_of_int_length (v : Z) : (length (ManagedString_of_int v) <= 11)%nat.
Proof.
  unfold ManagedString_of_int. destruct (v <? 0); cbn [length].
  - pose proof (decimal_digits_bound 10 (- v) []) as H. cbn [length] in H. lia.
  - pose proof (decimal_digits_bound 10 v []) as H. cbn [length] in H. lia.
Qed.

Lemma ManagedString_of_int_digits (k : nat) (v : Z) :
  (1 <= k <= 10)%nat -> 0 <= v < 10 ^ Z.of_nat k ->
  (length (ManagedString_of_int v) <= k)%nat.
Proof.
  intros Hk Hv. unfold ManagedString_of_int.
  replace (v <? 0) with false by (symmetry; apply Z.ltb_ge; lia).
  pose proof (decimal_digits_length k 10 v [] ltac:(lia) Hv) as H.
  cbn [length] in H. lia.
Qed.

(** The text of the time stamp exists for every divisor other than 0, and has
    at most 23 characters. *)
Lemma endRow_timestamp_returns (fuel : nat) (format : TimeStampFormat) (now : Z) :
  wrap64 (TimeStampFormat_value format) <> 0 ->
  0 <= now ->
  (9 <= fuel)%nat ->
  exists s, endRow_timestamp fuel format now = Some s /\ (length s <= 23)%nat.
Proof.
  intros Hv Hnow Hfuel. unfold endRow_timestamp.
  set (d := wrap64 (TimeStampFormat_value format)) in *.
  assert (Hd : 0 < d).
  { pose proof (Z.mod_pos_bound (TimeStampFormat_value format) (2 ^ 64) ltac:(lia)) as H.
    unfold d, wrap64 in *. lia. }
  replace (d =? 0) with false by (symmetry; apply Z.eqb_neq; lia).
  set (t := now / d).
  assert (Ht : 0 <= t) by (apply Z.div_pos; lia).
  pose proof (Z.mod_pos_bound t 1000000000 ltac:(lia)) as Hu.
  rewrite (to_int_small (t mod 1000000000)) by lia.
  set (units0 := t mod 1000000000) in *.
  set (b := to_int (t / 1000000000)).
  destruct (1 <? TimeStampFormat_value format).
  - rewrite (Z.rem_mod_nonneg units0 100), (Z.quot_div_nonneg units0 100) by lia.
    pose proof (Z.mod_pos_bound units0 100 ltac:(lia)) as Hf.
    rewrite (fraction_digits fuel (units0 mod 100) Hf) by lia.
    assert (Hunits : 0 <= units0 / 100 < 10 ^ Z.of_nat 7).
    { split; [apply Z.div_pos; lia|]. apply Z.div_lt_upper_bound; [lia|].
      change (10 ^ Z.of_nat 7) with 10000000. lia. }
    pose proof (ManagedString_of_int_digits 7 _ ltac:(lia) Hunits) as Hlen.
    pose proof (ManagedString_of_int_length (Z.quot b 100)) as Hb.
    destruct (Z.quot b 100 =? 0).
    + eexists. split; [reflexivity|].
      rewrite !length_app. cbn [length str list_ascii_of_string]. lia.
    + rewrite padString_spec by lia. cbn [option_map].
      eexists. split; [reflexivity|].
      rewrite !length_app, repeat_length. cbn [length str list_ascii_of_string]. lia.
  - rewrite (fraction_digits fuel 0) by lia.
    assert (Hunits : 0 <= units0 < 10 ^ Z.of_nat 9).
    { change (10 ^ Z.of_nat 9) with 1000000000. lia. }
    pose proof (ManagedString_of_int_digits 9 _ ltac:(lia) Hunits) as Hlen.
    pose proof (ManagedString_of_int_length b) as Hb.
    destruct (b =? 0).
    + eexists. split; [reflexivity|]. cbn [app]. lia.
    + rewrite padString_spec by lia. cbn [option_map].
      eexists. split; [reflexivity|].
      rewrite !length_app, repeat_length. lia.
Qed.

Lemma list_sum_cons (a : nat) (l : list nat) : list_sum (a :: l) = (a + list_sum l)%nat.
Proof. reflexivity. Qed.

Lemma join_length (l : list ManagedString) :
  (length (join (str ",") l) <= total_length l)%nat.
Proof.
  unfold total_length.
  induction l as [|x t IH]; [simpl; lia|].
  destruct t as [|y t']; [simpl; lia|].
  change (join (str ",") (x :: y :: t')) with (x ++ str "," ++ join (str ",") (y :: t')).
  rewrite !length_app.
  change (map (fun x0 => S (length x0)) (x :: y :: t'))
    with (S (length x) :: map (fun x0 => S (length x0)) (y :: t')).
  rewrite list_sum_cons. change (length (str ",")) with 1%nat. lia.
Qed.

Lemma set_value_total (rows rows' : list ColumnEntry) (k v : ManagedString) :
  set_value rows k v = Some rows' ->
  map key rows' = map key rows
  /\ (total_length (map value rows') <= total_length (map value rows) + length v)%nat.
Proof.
  unfold total_length.
  revert rows'. induction rows as [|e t IH]; intros rows'; cbn [set_value]; [discriminate|].
  destruct (bytes_eqb (key e) k).
  - intros H. inversion H; subst. cbn [map key value]. rewrite !list_sum_cons.
    cbn [key value]. split; [reflexivity|lia].
  - destruct (set_value t k v) as [t'|]; [|discriminate].
    intros H. inversion H; subst. destruct (IH t' eq_refl) as [Hk Hv].
    cbn [map]. rewrite !list_sum_cons, Hk. split; [reflexivity|lia].
Qed.

Lemma pair_logged_total (k v : ManagedString) (st : MicroBitLog) :
  (total_length (map key (rowData (pair_logged k v st)))
     <= total_length (map key (rowData st)) + S (length k))%nat
  /\ (total_length (map value (rowData (pair_logged k v st)))
        <= total_length (map value (rowData st)) + S (length v))%nat.
Proof.
  unfold pair_logged. destruct (set_value (rowData st) k v) as [rows|] eqn:E.
  - destruct (set_value_total _ _ _ _ E) as [Hk Hv].
    cbn [rowData set_rowData]. rewrite Hk. split; lia.
  - cbn [rowData set_rowData set_headingsChanged].
    unfold total_length. rewrite !map_app, !list_sum_app.
    cbn [map key value]. rewrite !list_sum_cons. simpl list_sum.
    rewrite !Nat.add_0_r. split; apply Nat.le_refl.
Qed.

Lemma pair_logged_layout (k v : ManagedString) (st : MicroBitLog) :
  dataEnd (pair_logged k v st) = dataEnd st /\ logEnd (pair_logged k v st) = logEnd st.
Proof. unfold pair_logged. destruct (set_value (rowData st) k v); split; reflexivity. Qed.

(** The time stamp of [endRow], on an open row. *)
Lemma endRow_stamps (fuel : nat) (b : M ErrorCode) (st : MicroBitLog) :
  initialized st -> row_started st = true ->
  (timeStampFormat st <> TSNone ->
   wrap64 (TimeStampFormat_value (timeStampFormat st)) <> 0) ->
  0 <= system_time st ->
  (9 <= fuel)%nat ->
  exists st',
    when (negb (TimeStampFormat_eqb (timeStampFormat st) TSNone))
      (match endRow_timestamp fuel (timeStampFormat st) (system_time st) with
       | Some s => logData_body fuel b (timeStampHeading st) s ;; ret tt
       | None => fail
       end) st = Some (tt, st')
    /\ flash st' = flash st /\ status st' = status st
    /\ dataEnd st' = dataEnd st /\ logEnd st' = logEnd st
    /\ (total_length (map key (rowData st')) + total_length (map value (rowData st'))
        <= endRow_fuel st - 14)%nat.
Proof.
  intros Hinit Hrow Hv Hnow Hfuel. unfold endRow_fuel.
  destruct (TimeStampFormat_eqb (timeStampFormat st) TSNone) eqn:E; cbn [negb when].
  - exists st. repeat split; auto. unfold ret. lia.
  - assert (Hne : timeStampFormat st <> TSNone)
      by (intros Heq; rewrite Heq in E; discriminate E).
    destruct (endRow_timestamp_returns fuel (timeStampFormat st) (system_time st)
                (Hv Hne) Hnow Hfuel) as [s [Hs Hlen]].
    rewrite Hs.
    assert (Hld := logData_body_eq fuel b (timeStampHeading st) s st Hinit
                     ltac:(intros H; rewrite H in Hrow; discriminate Hrow)).
    unfold row_open in Hld. rewrite Hrow in Hld.
    rewrite (bind_step _ _ _ _ _ Hld).
    eexists. split; [reflexivity|].
    destruct (pair_logged_storage (cleaned (timeStampHeading st) cleanBuffer_removeSeparators_default)
                (cleaned s cleanBuffer_removeSeparators_default) st) as [Hf Hst].
    destruct (pair_logged_layout (cleaned (timeStampHeading st) cleanBuffer_removeSeparators_default)
                (cleaned s cleanBuffer_removeSeparators_default) st) as [Hde Hle].
    destruct (pair_logged_total (cleaned (timeStampHeading st) cleanBuffer_removeSeparators_default)
                (cleaned s cleanBuffer_removeSeparators_default) st) as [Hk Hvl].
    rewrite !cleaned_length in Hk, Hvl.
    repeat split; auto. lia.
Qed.

(** [endRow] returns on every initialized log whose layout is within the
    address space, with fuel for its longest line. *)
Lemma endRow_returns (fuel : nat) (st : MicroBitLog) :
  initialized st ->
  0 < pageSize (flash st) ->
  0 <= dataEnd st <= logEnd st ->
  logEnd st + pageSize (flash st) <= 2 ^ 32 ->
  (timeStampFormat st <> TSNone ->
   wrap64 (TimeStampFormat_value (timeStampFormat st)) <> 0) ->
  0 <= system_time st ->
  (endRow_fuel st <= fuel)%nat ->
  exists r st',
    endRow fuel st = Some (r, st')
    /\ (row_started st = true ->
        r = if isFull st' then DEVICE_NO_RESOURCES else DEVICE_OK).
Proof.
  intros Hinit Hps Hd Hend Hv Hnow Hfuel.
  rewrite endRow_unfold.
  destruct (row_started st) eqn:Hrow.
  2:{ eexists. eexists. split; [apply endRow_body_idle; exact Hrow|discriminate]. }
  unfold endRow_body. unfold bind at 1. cbn [get].
  pose proof Hrow as Hrow'. unfold row_started in Hrow'. rewrite Hrow'. cbn [negb].
  rewrite (bind_step _ _ _ _ _ (init_initialized fuel st Hinit)).
  unfold bind at 1. cbn [get].
  destruct (endRow_stamps fuel
              (beginRow_body fuel (match fuel with O => fail | S f => endRow f end))
              st Hinit Hrow Hv Hnow ltac:(unfold endRow_fuel in Hfuel; lia))
    as [X [HX [HfX [HsX [HdX [HlX Htot]]]]]].
  rewrite (bind_step _ _ _ _ _ HX).
  assert (HinitX : initialized X) by (unfold initialized in *; rewrite HsX; exact Hinit).
  pose proof (join_length (map key (rowData X))) as Hkeys.
  pose proof (join_length (map value (rowData X))) as Hvalues.
  assert (HY : exists Y, endRow_headings fuel X = Some (tt, Y)
                         /\ initialized Y
                         /\ pageSize (flash Y) = pageSize (flash st)
                         /\ logEnd Y = logEnd st
                         /\ 0 <= dataEnd Y <= logEnd Y
                         /\ rowData Y = rowData X).
  { destruct (headingsChanged X) eqn:Hch.
    - rewrite (endRow_headings_changed fuel X Hch).
      destruct (logString_returns fuel
                  ((join (str ",") (map key (rowData X)) ++ [NL]) ++ [NUL])
                  (headings_stored X)) as [r [Y [HrunY HstY]]].
      + exact HinitX.
      + unfold headings_stored.
        cbn [flash set_flash set_headingStart storage_cache_write issue pageSize].
        rewrite HfX. exact Hps.
      + unfold headings_stored. cbn [dataEnd logEnd set_flash set_headingStart]. lia.
      + unfold headings_stored.
        cbn [dataEnd logEnd flash set_flash set_headingStart storage_cache_write issue pageSize].
        rewrite HfX. lia.
      + rewrite !length_app. cbn [length]. unfold endRow_fuel in *. lia.
      + rewrite (bind_step _ _ _ _ _ (logString_ManagedString_eq _ _ _ _ _ HrunY)).
        eexists. split; [reflexivity|].
        destruct HstY as [H1 [H2 [H3 [H4 [H5 _]]]]].
        unfold initialized in *.
        cbn [status flash dataEnd logEnd rowData set_headingsChanged].
        unfold headings_stored in H2, H3, H5.
        cbn [flash set_flash set_headingStart storage_cache_write issue pageSize
             logEnd rowData] in H2, H3, H5.
        repeat split; try assumption; try lia. congruence.
    - exists X. unfold endRow_headings. unfold bind at 1. cbn [get]. rewrite Hch.
      cbn [when]. repeat split; auto; try lia. rewrite HfX. reflexivity. }
  destruct HY as [Y [HY [HinitY [HpsY [HlY [HdY HrY]]]]]].
  rewrite (bind_step _ _ _ _ _ HY).
  assert (HZ : exists Z, endRow_row fuel Y = Some (tt, Z)).
  { destruct (forallb (fun e => (length (value e) =? 0)%nat) (rowData Y)) eqn:Hempty.
    - exists Y. unfold endRow_row. unfold bind at 1. cbn [get]. rewrite Hempty. reflexivity.
    - rewrite (endRow_row_logged fuel Y Hempty).
      destruct (logString_returns fuel
                  ((join (str ",") (map value (rowData Y)) ++ [NL]) ++ [NUL]) Y)
        as [r [Z [HrunZ _]]]; try assumption; try lia.
      + rewrite HrY, !length_app. cbn [length]. unfold endRow_fuel in *. lia.
      + rewrite (bind_step _ _ _ _ _ (logString_ManagedString_eq _ _ _ _ _ HrunZ)).
        eexists. reflexivity. }
  destruct HZ as [Z HZ].
  rewrite (bind_step _ _ _ _ _ HZ).
  unfold bind, modify. cbn [get].
  match goal with
  | |- exists r st', (if ?c then _ else _) ?s = _ /\ _ =>
      destruct c eqn:Hfull; eexists; eexists; (split; [reflexivity|]);
      intros _; unfold isFull; rewrite Hfull; reflexivity
  end.
Qed.

(** C10.  [endRow] clears the flag of the open row before it tests the full
    flag.  Whatever it returns, [DEVICE_NO_RESOURCES] included, the row is
    closed, and an [endRow] that follows at once returns [DEVICE_INVALID_STATE]
    and changes nothing.  On an initialized log with a row open, laid out
    within the address space, it does return: [DEVICE_NO_RESOURCES] when the
    full flag is set by then, [DEVICE_OK] otherwise. *)
Theorem endRow_twice (fuel : nat) (st : MicroBitLog) :
  (forall (r : ErrorCode) (st' : MicroBitLog) (fuel2 : nat),
     endRow fuel st = Some (r, st') ->
     row_started st' = false
     /\ endRow fuel2 st' = Some (DEVICE_INVALID_STATE, st'))
  /\ (initialized st ->
      row_started st = true ->
      0 < pageSize (flash st) ->
      0 <= dataEnd st <= logEnd st ->
      logEnd st + pageSize (flash st) <= 2 ^ 32 ->
      (timeStampFormat st <> TSNone ->
       wrap64 (TimeStampFormat_value (timeStampFormat st)) <> 0) ->
      0 <= system_time st ->
      (endRow_fuel st <= fuel)%nat ->
      exists r st',
        endRow fuel st = Some (r, st')
        /\ r = (if isFull st' then DEVICE_NO_RESOURCES else DEVICE_OK)).
Proof.
  split.
  - intros r st' fuel2 H. exact (endRow_closes_row fuel fuel2 st st' r H).
  - intros Hinit Hrow Hps Hd Hend Hv Hnow Hfuel.
    destruct (endRow_returns fuel st Hinit Hps Hd Hend Hv Hnow Hfuel) as [r [st' [H Hr]]].
    exists r, st'. split; [exact H|exact (Hr Hrow)].
Qed.



(** ** padString and writeNum on their own *)

Lemma padString_too_long (fuel : nat) :
  forall (s : ManagedString) (digits : Z),
    digits < Z.of_nat (length s) -> padString fuel s digits = None.
Proof.
  induction fuel as [|f IH]; intros s digits H; cbn [padString];
    (destruct (Z.eqb_spec (Z.of_nat (length s)) digits) as [E|E]; [lia|]).
  - reflexivity.
  - apply IH. rewrite length_app. cbn [length str list_ascii_of_string]. lia.
Qed.

(** X1.  [padString] puts zeros in front of a string shorter than [digits]
    until it has [digits] characters, and returns a string of that length as
    it is.  On a string longer than [digits] its loop never ends: no amount
    of fuel gives a result. *)
Theorem padString_pads (fuel : nat) (s : ManagedString) (digits : Z) :
  (Z.of_nat (length s) <= digits ->
   digits - Z.of_nat (length s) <= Z.of_nat fuel ->
   exists r,
     padString fuel s digits = Some r
     /\ r = repeat "0"%char (Z.to_nat (digits - Z.of_nat (length s))) ++ s
     /\ Z.of_nat (length r) = digits)
  /\ (digits < Z.of_nat (length s) -> padString fuel s digits = None).
Proof.
  split.
  - intros Hle Hfuel. eexists. split; [apply padString_spec; assumption|].
    split; [reflexivity|]. rewrite length_app, repeat_length. lia.
  - apply padString_too_long.
Qed.

Lemma c_str_no_NUL (l rest : list ascii) :
  Forall (fun c => Ascii.eqb c NUL = false) l ->
  c_str (l ++ NUL :: rest) = l /\ c_str l = l.
Proof.
  induction 1 as [|c t Hc Ht IH]; [split; reflexivity|].
  cbn [app c_str]. rewrite Hc. destruct IH as [E1 E2]. rewrite E1, E2. split; reflexivity.
Qed.

Lemma strtoul16_c_str (s : list ascii) : strtoul16 (c_str s) = strtoul16 s.
Proof.
  unfold strtoul16.
  replace (c_str (c_str s)) with (c_str s); [reflexivity|].
  induction s as [|c t IH]; [reflexivity|].
  cbn [c_str]. destruct (Ascii.eqb c NUL) eqn:E; [reflexivity|].
  cbn [c_str]. rewrite E, <- IH. reflexivity.
Qed.

(** The digits [writeNum] stores, behind "0x" and before any bytes at all,
    read as the digits alone. *)
Lemma strtoul16_0x (l rest : list ascii) :
  (1 <= length l)%nat ->
  Forall (fun c => exists d, 0 <= d < 16 /\ c = hex_digit d) l ->
  strtoul16 (str "0x" ++ l ++ NUL :: rest) = strtoul16 l
  /\ strtoul16 (l ++ NUL :: rest) = strtoul16 l.
Proof.
  intros Hlen Hall.
  assert (Hnz : Forall (fun c => Ascii.eqb c NUL = false) l).
  { eapply Forall_impl; [|exact Hall]. intros c [d [Hd ->]].
    apply (hex_digit_facts d Hd). }
  destruct (c_str_no_NUL l rest Hnz) as [E1 E2].
  split.
  2:{ rewrite <- strtoul16_c_str, E1. reflexivity. }
  destruct l as [|c0 t]; [cbn [length] in Hlen; lia|].
  inversion Hall as [|? ? [d0 [Hd0 Ec0]] Hall']; subst.
  destruct (hex_digit_facts d0 Hd0) as [_ [N0 [S0 [M0 [P0 _]]]]].
  unfold strtoul16.
  change (c_str (str "0x" ++ (hex_digit d0 :: t) ++ NUL :: rest))
    with ("0"%char :: "x"%char :: c_str ((hex_digit d0 :: t) ++ NUL :: rest)).
  rewrite E1, E2.
  cbn [skip_spaces]. change (isspace "0") with false. cbv iota.
  change (Ascii.eqb "0" "-") with false. change (Ascii.eqb "0" "+") with false. cbv iota.
  rewrite S0, M0, P0.
  change (skip_0x ("0"%char :: "x"%char :: hex_digit d0 :: t)) with (hex_digit d0 :: t).
  replace (skip_0x (hex_digit d0 :: t)) with (hex_digit d0 :: t); [reflexivity|].
  destruct t as [|c1 t']; [reflexivity|].
  inversion Hall' as [|? ? [d1 [Hd1 Ec1]] _]; subst.
  destruct (hex_digit_facts d1 Hd1) as [_ [_ [_ [_ [_ [Hx1 Hy1]]]]]].
  cbn [skip_0x]. rewrite Hx1, Hy1, andb_false_r. reflexivity.
Qed.

(** X2.  [writeNum] stores eight upper-case hexadecimal digits and a NUL, and
    [strtoul] in base 16 reads the number back from them, alone or behind the
    "0x" of the metadata block: what [clear] writes of [dataStart] and
    [logEnd], [isPresent] reads as the same numbers. *)
Theorem writeNum_strtoul_round_trip (n : Z) :
  0 <= n < 2 ^ 32 ->
  length (writeNum n) = 9%nat
  /\ nth 8 (writeNum n) ERASED = NUL
  /\ Forall (fun c => exists d, 0 <= d < 16 /\ c = hex_digit d) (firstn 8 (writeNum n))
  /\ strtoul16 (writeNum n) = n
  /\ strtoul16 (str "0x" ++ writeNum n) = n.
Proof.
  intros Hn. destruct (strtoul16_writeNum n Hn) as [Hlen [Hall Hval]].
  assert (E : writeNum n = firstn 8 (writeNum n) ++ NUL :: []) by reflexivity.
  split; [reflexivity|]. split; [reflexivity|]. split; [exact Hall|].
  destruct (strtoul16_0x (firstn 8 (writeNum n)) [] ltac:(lia) Hall) as [H0x Hplain].
  split; [rewrite E, Hplain|rewrite E, H0x]; exact Hval.
Qed.


(** ** The row as a table of keys and values *)

(** X3.  The string the callers of [cleanBuffer] keep has no tab, no "-->"
    and, when the separators are removed, no comma and no newline; it has the
    length of the string given, and each of its characters is the character
    given or the replacement character.  The replacement character is taken
    not to be one of the characters that are replaced. *)
Theorem cleaned_is_clean (removeSeparators : bool) (s : list ascii) :
  INVALID_CHAR <> "-"%char -> INVALID_CHAR <> ">"%char -> INVALID_CHAR <> TAB ->
  (removeSeparators = true -> INVALID_CHAR <> ","%char /\ INVALID_CHAR <> NL) ->
  nothing_to_clean removeSeparators (cleaned s removeSeparators)
  /\ length (cleaned s removeSeparators) = length s
  /\ (forall j, nth j (cleaned s removeSeparators) NUL = nth j s NUL
                \/ nth j (cleaned s removeSeparators) NUL = INVALID_CHAR).
Proof.
  intros Hdash Hgt Htab Hsep.
  split; [|split].
  - apply no_hit_nothing_to_clean.
    apply not_true_iff_false. intros H. apply existsb_exists in H.
    destruct H as [i [_ Hi]].
    rewrite (cleaned_no_hit removeSeparators s Hdash Hgt Htab Hsep i) in Hi. discriminate Hi.
  - apply cleaned_length.
  - intros j. rewrite cleaned_nth.
    destruct (covered removeSeparators s (length s) j); [right|left]; reflexivity.
Qed.

Lemma has_heading_In (k : ManagedString) (rows : list ColumnEntry) :
  has_heading k rows = true <-> In k (map key rows).
Proof.
  unfold has_heading. rewrite existsb_exists. split.
  - intros [e [He Hk]]. apply bytes_eqb_eq in Hk. subst k. apply in_map. exact He.
  - intros H. apply in_map_iff in H. destruct H as [e [Hk He]].
    exists e. split; [exact He|]. apply bytes_eqb_eq. exact Hk.
Qed.

(** X4.  [addHeading] keeps the keys of the columns distinct.  It leaves the
    columns there are as they are and in their order, appends one column for a
    key that is new, and does nothing at all for a key there is already: the
    value given with it is dropped, and a second call with the same key
    changes nothing. *)
Theorem addHeading_keeps_keys_distinct (k v : ManagedString) (st : MicroBitLog) :
  NoDup (map key (rowData st)) ->
  exists st',
    addHeading k v st = Some (tt, st')
    /\ NoDup (map key (rowData st'))
    /\ has_heading k (rowData st') = true
    /\ rowData st'
       = rowData st ++ (if has_heading k (rowData st) then []
                        else [{| key := k; value := v |}])
    /\ (has_heading k (rowData st) = true -> st' = st)
    /\ (forall v2, addHeading k v2 st' = Some (tt, st')).
Proof.
  intros Hnd. rewrite addHeading_eq.
  destruct (has_heading k (rowData st)) eqn:E.
  - exists st. split; [reflexivity|]. split; [exact Hnd|]. split; [exact E|].
    split; [rewrite app_nil_r; reflexivity|]. split; [reflexivity|].
    intros v2. rewrite addHeading_eq, E. reflexivity.
  - eexists. split; [reflexivity|].
    cbn [rowData set_rowData set_headingsChanged].
    split; [|split; [apply has_heading_added|split; [reflexivity|split; [discriminate|]]]].
    + rewrite map_app. cbn [map key].
      apply NoDup_app; [exact Hnd|repeat constructor; intros []|].
      intros x Hx [Hk|[]]. subst x.
      apply has_heading_In in Hx. congruence.
    + intros v2. rewrite addHeading_eq.
      cbn [rowData set_rowData set_headingsChanged].
      rewrite has_heading_added. reflexivity.
Qed.

Lemma value_of_app (k : ManagedString) (rows : list ColumnEntry) (e : ColumnEntry) :
  value_of k (rows ++ [e])
  = if has_heading k rows then value_of k rows
    else if bytes_eqb (key e) k then Some (value e) else None.
Proof.
  unfold value_of, has_heading.
  induction rows as [|x t IH]; cbn [app find existsb].
  - destruct (bytes_eqb (key e) k); reflexivity.
  - destruct (bytes_eqb (key x) k); [reflexivity|exact IH].
Qed.

Lemma bytes_eqb_neq (a b : list ascii) : a <> b -> bytes_eqb a b = false.
Proof.
  intros H. destruct (bytes_eqb a b) eqn:E; [|reflexivity].
  apply bytes_eqb_eq in E. contradiction.
Qed.

Lemma set_value_lookup (rows rows' : list ColumnEntry) (k v : ManagedString) :
  set_value rows k v = Some rows' ->
  has_heading k rows = true
  /\ map key rows' = map key rows
  /\ value_of k rows' = Some v
  /\ (forall k2, k2 <> k -> value_of k2 rows' = value_of k2 rows).
Proof.
  revert rows'. induction rows as [|e t IH]; intros rows'; cbn [set_value]; [discriminate|].
  unfold has_heading, value_of. cbn [existsb].
  destruct (bytes_eqb (key e) k) eqn:E.
  - intros H. inversion H; subst. cbn [map key find]. rewrite E.
    split; [reflexivity|]. split; [reflexivity|]. split; [reflexivity|].
    intros k2 Hk2. apply bytes_eqb_eq in E.
    rewrite bytes_eqb_neq by congruence. reflexivity.
  - destruct (set_value t k v) as [t'|]; [|discriminate].
    intros H. inversion H; subst.
    destruct (IH t' eq_refl) as [Hh [Hk [Hv Ho]]].
    cbn [map find]. rewrite E, Hk.
    split; [exact Hh|]. split; [reflexivity|]. split; [exact Hv|].
    intros k2 Hk2. destruct (bytes_eqb (key e) k2); [reflexivity|]. exact (Ho k2 Hk2).
Qed.

(** What [logData] does on an initialized log: it returns [DEVICE_OK],
    whether the log is full or not, opens the row if none is open, stores the
    value, as cleaned, under the key, as cleaned, and leaves the flash as it
    is. *)
Lemma logData_spec (fuel : nat) (k v : ManagedString) (st : MicroBitLog) :
  initialized st ->
  let k' := cleaned k cleanBuffer_removeSeparators_default in
  let v' := cleaned v cleanBuffer_removeSeparators_default in
  exists st',
    logData fuel k v st = Some (DEVICE_OK, st')
    /\ flash st' = flash st
    /\ isFull st' = isFull st
    /\ row_started st' = true
    /\ value_of k' (rowData st') = Some v'
    /\ (forall k2, k2 <> k' -> value_of k2 (rowData st') = value_of k2 (rowData (row_open st)))
    /\ map key (rowData st')
       = map key (rowData st) ++ (if has_heading k' (rowData st) then [] else [k'])
    /\ headingsChanged st' = headingsChanged st || negb (has_heading k' (rowData st)).
Proof.
  intros Hinit k' v'. eexists. split; [apply logData_eq; exact Hinit|].
  fold k' v'.
  split.
  { rewrite (proj1 (pair_logged_storage k' v' (row_open st))).
    exact (proj1 (row_open_storage st)). }
  split.
  { unfold isFull. rewrite (proj2 (pair_logged_storage k' v' (row_open st))).
    exact (proj2 (row_open_storage st)). }
  assert (Hkeys : map key (rowData (row_open st)) = map key (rowData st)).
  { unfold row_open. destruct (row_started st); [reflexivity|].
    unfold row_begun, reset_values. cbn [rowData set_status set_rowData].
    rewrite map_map. reflexivity. }
  assert (Hchanged : headingsChanged (row_open st) = headingsChanged st).
  { unfold row_open. destruct (row_started st); reflexivity. }
  assert (Hhead : has_heading k' (rowData (row_open st)) = has_heading k' (rowData st)).
  { destruct (has_heading k' (rowData st)) eqn:E.
    - apply has_heading_In. rewrite Hkeys. apply has_heading_In. exact E.
    - apply not_true_iff_false. intros H. apply has_heading_In in H.
      rewrite Hkeys in H. apply has_heading_In in H. congruence. }
  assert (Hrow : row_started (pair_logged k' v' (row_open st)) = true).
  { unfold row_started. rewrite (proj2 (pair_logged_storage k' v' (row_open st))).
    unfold row_open. destruct (row_started st) eqn:E; [exact E|].
    unfold row_begun. cbn [status set_status]. apply row_started_after_set. }
  split; [exact Hrow|].
  unfold pair_logged.
  destruct (set_value (rowData (row_open st)) k' v') as [rows|] eqn:E.
  - destruct (set_value_lookup _ _ _ _ E) as [Hh [Hk [Hv Ho]]].
    cbn [rowData set_rowData headingsChanged].
    rewrite <- Hhead, Hh, Hk, Hkeys, Hchanged, app_nil_r, orb_false_r.
    repeat split; auto.
  - pose proof (set_value_None _ _ _ E) as Hh.
    cbn [rowData set_rowData set_headingsChanged headingsChanged].
    rewrite <- Hhead, Hh, map_app, Hkeys, orb_true_r.
    split; [|split; [|split; reflexivity]].
    + rewrite value_of_app, Hh. cbn [key value]. rewrite bytes_eqb_refl. reflexivity.
    + intros k2 Hk2. rewrite value_of_app. cbn [key value].
      rewrite (bytes_eqb_neq k' k2) by congruence.
      destruct (has_heading k2 (rowData (row_open st))) eqn:E2; [reflexivity|].
      unfold value_of. unfold has_heading in E2.
      destruct (find (fun e => bytes_eqb (key e) k2) (rowData (row_open st))) eqn:Ef;
        [|reflexivity].
      apply find_some in Ef. destruct Ef as [Hin Hk].
      assert (existsb (fun e => bytes_eqb (key e) k2) (rowData (row_open st)) = true)
        by (apply existsb_exists; eauto).
      congruence.
Qed.

(** C8, as amended.  [logData] returns [DEVICE_OK] for every key and value,
    whether the full flag is set or not.  It starts with [init], which leaves
    an initialized log as it is and mounts or formats another; on the log
    [st0] that [init] leaves, it opens the row if none is open and stores the
    value, as cleaned, under the key, as cleaned, in the row in RAM: the row
    then holds that value for that key, the values of the other keys are those
    of the open row, a key there was keeps its column and a new key gets a
    column after the others and marks the headings changed.  It issues nothing
    to the flash or to the cache beyond what [init] has issued, and does not
    change the full flag. *)
Theorem logData_returns_ok (fuel : nat) (k v : ManagedString) (st st0 : MicroBitLog) :
  init fuel st = Some (tt, st0) ->
  let k' := cleaned k cleanBuffer_removeSeparators_default in
  let v' := cleaned v cleanBuffer_removeSeparators_default in
  exists st',
    logData fuel k v st = Some (DEVICE_OK, st')
    /\ (initialized st -> st0 = st)
    /\ flash st' = flash st0
    /\ isFull st' = isFull st0
    /\ row_started st' = true
    /\ value_of k' (rowData st') = Some v'
    /\ (forall k2, k2 <> k' ->
                   value_of k2 (rowData st') = value_of k2 (rowData (row_open st0)))
    /\ map key (rowData st')
       = map key (rowData st0) ++ (if has_heading k' (rowData st0) then [] else [k'])
    /\ headingsChanged st' = headingsChanged st0 || negb (has_heading k' (rowData st0)).
Proof.
  intros Hrun k' v'.
  destruct (logData_spec fuel k v st0 (init_initializes _ _ _ Hrun))
    as [st' [Hlog Hrest]].
  exists st'. split; [rewrite (logData_after_init fuel k v st st0 Hrun); exact Hlog|].
  split; [|exact Hrest].
  intros Hinit. rewrite (init_initialized fuel st Hinit) in Hrun.
  inversion Hrun. reflexivity.
Qed.


(** ** What logString leaves alone *)

Lemma logString_write_bounds (fuel : nat) :
  forall (data : list ascii) (st st' : MicroBitLog),
    logString_write fuel data st = Some (tt, st') ->
    flashStart (flash st') = flashStart (flash st)
    /\ flashEnd (flash st') = flashEnd (flash st).
Proof.
  induction fuel as [|f IH]; intros data st st' H.
  - destruct data; [inversion H; subst; split; reflexivity|discriminate H].
  - destruct data as [|c t]; [inversion H; subst; split; reflexivity|].
    destruct (Z.eq_dec (pageSize (flash st)) 0) as [E|E].
    + cbn [logString_write] in H. rewrite E in H. discriminate H.
    + rewrite (logString_write_step f c t st E) in H.
      destruct (IH _ _ _ H) as [H1 H2]. rewrite H1, H2.
      unfold after_chunk, chunk_storage.
      cbn [flash set_flash set_dataEnd].
      destruct ((sub32 (pageSize (flash st)) (dataEnd st mod pageSize (flash st))
                 <=? Z.of_nat (length (c :: t)))
                && (add32 (dataEnd st)
                      (sub32 (pageSize (flash st)) (dataEnd st mod pageSize (flash st)))
                    <? logEnd st)); split; reflexivity.
Qed.

Lemma journal_storage_bounds (st : MicroBitLog) :
  flashStart (journal_storage st) = flashStart (flash st)
  /\ flashEnd (journal_storage st) = flashEnd (flash st).
Proof.
  unfold journal_storage. destruct (on_page_boundary st); split; reflexivity.
Qed.

Lemma logString_bounds (fuel : nat) (s : list ascii) (st st' : MicroBitLog) (r : ErrorCode) :
  initialized st ->
  logString fuel s st = Some (r, st') ->
  flashStart (flash st') = flashStart (flash st)
  /\ flashEnd (flash st') = flashEnd (flash st).
Proof.
  intros Hinit H. unfold logString in H.
  rewrite (bind_step _ _ _ _ _ (init_initialized fuel st Hinit)) in H.
  unfold bind at 1 in H. cbn [get] in H.
  destruct (sub32 (logEnd st) (dataEnd st) <? strlen s).
  - destruct (has_flag (status st) MICROBIT_LOG_STATUS_FULL);
      inversion H; subst; split; reflexivity.
  - apply bind_Some in H. destruct H as [[] [sw [Hw H]]].
    destruct (logString_write_bounds _ _ _ _ Hw) as [B1 B2].
    apply bind_Some in H. destruct H as [s1 [s1' [Hget H]]].
    inversion Hget; subst s1 s1'; clear Hget.
    apply bind_Some in H. destruct H as [[] [sj [Hj H]]].
    inversion H; subst sj r; clear H.
    destruct (negb (dataEnd sw / CONFIG_MICROBIT_LOG_CACHE_BLOCK_SIZE
                    =? dataEnd st / CONFIG_MICROBIT_LOG_CACHE_BLOCK_SIZE)); cbn [when] in Hj.
    + destruct (Z.eq_dec (pageSize (flash sw)) 0) as [E|E].
      * unfold logString_journal in Hj. rewrite E in Hj. discriminate Hj.
      * rewrite (logString_journal_eq sw E) in Hj. inversion Hj; subst st'.
        unfold committed. cbn [flash set_flash].
        destruct (journal_storage_bounds sw) as [J1 J2]. rewrite J1, J2. split; assumption.
    + inversion Hj; subst st'. split; assumption.
Qed.

(** Every outcome of an append on an initialized log, laid out within the
    address space. *)
Lemma logString_outcome (fuel : nat) (s : list ascii) (st : MicroBitLog) :
  initialized st ->
  0 < pageSize (flash st) ->
  0 <= dataEnd st <= logEnd st ->
  logEnd st + pageSize (flash st) <= 2 ^ 32 ->
  (length (c_str s) <= fuel)%nat ->
  exists r st',
    logString fuel s st = Some (r, st')
    /\ layout_kept st st'
    /\ initialized st'
    /\ row_started st' = row_started st
    /\ (isFull st = true -> isFull st' = true)
    /\ (logEnd st - dataEnd st < strlen s ->
        r = DEVICE_NO_RESOURCES /\ dataEnd st' = dataEnd st /\ isFull st' = true
        /\ journalHead st' = journalHead st)
    /\ (strlen s <= logEnd st - dataEnd st ->
        r = DEVICE_OK /\ dataEnd st' = dataEnd st + strlen s
        /\ isFull st' = isFull st).
Proof.
  intros Hinit Hps Hd Hend Hfuel.
  destruct (Z_lt_ge_dec (logEnd st - dataEnd st) (strlen s)) as [Hno|Hyes].
  - assert (Hsub : sub32 (logEnd st) (dataEnd st) = logEnd st - dataEnd st)
      by (apply wrap32_small; lia).
    exists DEVICE_NO_RESOURCES. eexists. split.
    { apply logString_no_room; [exact Hinit|]. rewrite Hsub. exact Hno. }
    unfold layout_kept, isFull, initialized, row_started in *.
    destruct (has_flag (status st) MICROBIT_LOG_STATUS_FULL) eqn:Hfull.
    + repeat split; auto; lia.
    + cbn [status set_status flash set_flash storage_cache_write issue pageSize flashStart
           flashEnd logEnd dataEnd rowData journalPages startAddress journalStart dataStart
           headingStart headingLength headingsChanged timeStampFormat timeStampHeading
           system_time journalHead].
      rewrite initialized_after_set_full, row_started_after_set_full, full_after_set.
      repeat split; auto; lia.
  - assert (Hroom : room_for (c_str s) st).
    { unfold room_for. unfold strlen in Hyes. repeat split; lia. }
    destruct (logString_fits fuel s st Hinit Hroom Hfuel) as [F [ops [Hdone Hrun]]].
    destruct Hdone as [HpsF _].
    exists DEVICE_OK. eexists. split; [exact Hrun|].
    destruct (logString_bounds _ _ _ _ _ Hinit Hrun) as [B1 B2].
    revert B1 B2. cbv zeta.
    unfold layout_kept, isFull, initialized, row_started in *.
    destruct (same_block _ _).
    + cbn [status set_status flash set_flash set_dataEnd pageSize flashStart
           flashEnd logEnd dataEnd rowData journalPages startAddress journalStart dataStart
           headingStart headingLength headingsChanged timeStampFormat timeStampHeading
           system_time journalHead].
      intros B1 B2. repeat split; auto; lia.
    + unfold committed.
      cbn [status set_status flash set_flash set_dataEnd set_journalHead pageSize flashStart
           flashEnd logEnd dataEnd rowData journalPages startAddress journalStart dataStart
           headingStart headingLength headingsChanged timeStampFormat timeStampHeading
           system_time journalHead].
      intros B1 B2.
      destruct (journal_storage_trace
                  (set_dataEnd (set_flash st F) (dataEnd st + strlen s))) as [_ Hp].
      rewrite Hp. cbn [flash set_flash set_dataEnd].
      repeat split; auto; lia.
Qed.


(** ** beginRow and endRow on rows that need no append *)

(** X5.  On an initialized log laid out within the address space, an append
    returns [DEVICE_NO_RESOURCES] exactly when the string is longer than
    [logEnd - dataEnd], and then moves neither [dataEnd] nor the journal head
    and sets the full flag; otherwise it returns [DEVICE_OK] and moves
    [dataEnd] by the length of the string.  In both cases it leaves the
    layout, the headings, the row, the settings of the time stamp and the
    geometry of the flash as they are, and the log initialized. *)
Theorem logString_keeps_layout (fuel : nat) (s : list ascii) (st : MicroBitLog) :
  initialized st ->
  0 < pageSize (flash st) ->
  0 <= dataEnd st <= logEnd st ->
  logEnd st + pageSize (flash st) <= 2 ^ 32 ->
  (length (c_str s) <= fuel)%nat ->
  exists r st',
    logString fuel s st = Some (r, st')
    /\ layout_kept st st'
    /\ initialized st'
    /\ row_started st' = row_started st
    /\ (isFull st = true -> isFull st' = true)
    /\ (logEnd st - dataEnd st < strlen s ->
        r = DEVICE_NO_RESOURCES /\ dataEnd st' = dataEnd st /\ isFull st' = true
        /\ journalHead st' = journalHead st)
    /\ (strlen s <= logEnd st - dataEnd st ->
        r = DEVICE_OK /\ dataEnd st' = dataEnd st + strlen s
        /\ isFull st' = isFull st).
Proof. exact (logString_outcome fuel s st). Qed.

(** X6.  [logString] on a [ManagedString] returns [DEVICE_OK] whatever the
    append returns: when the string does not fit, [logString] on its
    characters returns [DEVICE_NO_RESOURCES], sets the full flag and writes no
    data, and the overload still returns [DEVICE_OK], with the same state. *)
Theorem logString_ManagedString_returns_ok (fuel : nat) (s : ManagedString)
    (st : MicroBitLog) :
  initialized st ->
  0 < pageSize (flash st) ->
  0 <= dataEnd st <= logEnd st ->
  logEnd st + pageSize (flash st) <= 2 ^ 32 ->
  (length s <= fuel)%nat ->
  exists r st',
    logString fuel (s ++ [NUL]) st = Some (r, st')
    /\ logString_ManagedString fuel s st = Some (DEVICE_OK, st')
    /\ (logEnd st - dataEnd st < strlen (s ++ [NUL]) ->
        r = DEVICE_NO_RESOURCES /\ isFull st' = true /\ dataEnd st' = dataEnd st).
Proof.
  intros Hinit Hps Hd Hend Hfuel.
  pose proof (c_str_length (s ++ [NUL])) as Hc.
  assert (Hc' : (length (c_str (s ++ [NUL])) <= length s)%nat).
  { clear. induction s as [|c t IH]; [simpl; lia|].
    cbn [app c_str]. destruct (Ascii.eqb c NUL); cbn [length]; lia. }
  destruct (logString_outcome fuel (s ++ [NUL]) st Hinit Hps Hd Hend ltac:(lia))
    as [r [st' [Hrun [_ [_ [_ [_ [Hno _]]]]]]]].
  exists r, st'. split; [exact Hrun|].
  split; [exact (logString_ManagedString_eq _ _ _ _ _ Hrun)|].
  intros H. destruct (Hno H) as [Hr [Hde [Hfull _]]]. auto.
Qed.




(** ** clear: the format *)

Lemma metadata_address_facts (ps : Z) :
  0 < ps -> ps + 2048 < 2 ^ 32 ->
  metadata_address ps mod ps = 0
  /\ 2048 <= metadata_address ps < 2048 + ps.
Proof.
  intros Hps Hlt. unfold metadata_address, sizeof_header.
  destruct (Z.eqb_spec (2048 mod ps) 0) as [E|E].
  - split; [exact E|lia].
  - pose proof (Z.div_mod 2048 ps ltac:(lia)) as Hdm.
    pose proof (Z.mod_pos_bound 2048 ps Hps) as Hm.
    assert (Hq : 0 <= 2048 / ps) by (apply Z.div_pos; lia).
    assert (Hq' : 2048 / ps <= 2048) by (apply Z.div_le_upper_bound; nia).
    unfold mul32, add32.
    rewrite (wrap32_small (1 + 2048 / ps)) by lia.
    rewrite wrap32_small by nia.
    split; [apply Z.mod_mul; lia|nia].
Qed.

Lemma set_flash_eta (st : MicroBitLog) : set_flash st (flash st) = st.
Proof. destruct st; reflexivity. Qed.

(** The loop of [clear] erases [n] pages from [p], the page of [limit]
    included. *)
Lemma clear_erase_spec (limit : Z) (n : nat) :
  forall (fuel : nat) (p : Z) (st : MicroBitLog),
    0 < pageSize (flash st) -> 0 <= p -> p mod pageSize (flash st) = 0 ->
    limit < p + pageSize (flash st) * Z.of_nat n ->
    p + pageSize (flash st) * Z.of_nat n <= limit + pageSize (flash st) ->
    p + pageSize (flash st) * Z.of_nat n < 2 ^ 32 ->
    (n <= fuel)%nat ->
    exists F,
      clear_erase fuel p limit st = Some (tt, set_flash st F)
      /\ pageSize F = pageSize (flash st)
      /\ flashStart F = flashStart (flash st)
      /\ flashEnd F = flashEnd (flash st)
      /\ (forall a, p <= a < p + pageSize (flash st) * Z.of_nat n -> memory F a = ERASED)
      /\ (forall a, a < p \/ p + pageSize (flash st) * Z.of_nat n <= a ->
                    memory F a = memory (flash st) a).
Proof.
  induction n as [|n IH]; intros fuel p st Hps Hp Hmod Hlt Hle Hmax Hfuel.
  - exists (flash st). split.
    + rewrite set_flash_eta.
      destruct fuel; cbn [clear_erase];
        replace (p <=? limit) with false by (symmetry; apply Z.leb_gt; lia); reflexivity.
    + repeat split; auto. intros a Ha. lia.
  - destruct fuel as [|f]; [lia|].
    cbn [clear_erase].
    replace (p <=? limit) with true by (symmetry; apply Z.leb_le; lia).
    unfold bind at 1. unfold flash_erase at 1. cbn [modify].
    set (st2 := set_flash st (storage_flash_erase p (flash st))).
    assert (Hps2 : pageSize (flash st2) = pageSize (flash st)) by reflexivity.
    assert (Hadd : add32 p (pageSize (flash st)) = p + pageSize (flash st))
      by (apply wrap32_small; lia).
    rewrite Hadd.
    destruct (IH f (p + pageSize (flash st)) st2) as [F [Hrun [H1 [H2 [H3 [Hin Hout]]]]]];
      rewrite ?Hps2; try lia.
    { rewrite <- Zplus_mod_idemp_r, Z.mod_same, Z.add_0_r by lia. exact Hmod. }
    rewrite Hps2 in *.
    exists F. split; [rewrite Hrun; reflexivity|].
    split; [exact H1|]. split; [exact H2|]. split; [exact H3|].
    assert (Hpage : forall a, memory (flash st2) a
                              = if (p <=? a) && (a <? p + pageSize (flash st))
                                then ERASED else memory (flash st) a).
    { intros a. unfold st2. cbn [flash set_flash storage_flash_erase issue memory].
      unfold erase_page. rewrite Hmod, Z.sub_0_r. reflexivity. }
    split.
    + intros a Ha. destruct (Z_lt_ge_dec a (p + pageSize (flash st))) as [Hlo|Hhi].
      * rewrite Hout by lia. rewrite Hpage.
        replace (p <=? a) with true by (symmetry; apply Z.leb_le; lia).
        replace (a <? p + pageSize (flash st)) with true by (symmetry; apply Z.ltb_lt; lia).
        reflexivity.
      * apply Hin. lia.
    + intros a Ha. rewrite Hout by lia. rewrite Hpage.
      destruct (Z.leb_spec p a); destruct (Z.ltb_spec a (p + pageSize (flash st)));
        try reflexivity; lia.
Qed.


Lemma program_read (address : Z) (data : list ascii) (m : Z -> ascii) :
  (forall a, address <= a < address + Z.of_nat (length data) -> m a = ERASED) ->
  read_bytes (program address data m) address (length data) = data.
Proof.
  intros H. apply read_bytes_eq. intros i Hi.
  apply program_inside; [exact Hi|]. apply H. lia.
Qed.

Lemma read_bytes_ext (m m' : Z -> ascii) (a : Z) (n : nat) :
  (forall x, a <= x < a + Z.of_nat n -> m' x = m x) ->
  read_bytes m' a n = read_bytes m a n.
Proof.
  intros H. unfold read_bytes. apply map_ext_in. intros i Hi.
  apply in_seq in Hi. apply H. lia.
Qed.

(** What [clear] leaves: the fields of [cleared], the flag [initialized]
    alone, and a flash that holds the metadata block and a new journal entry,
    unused from the metadata to the end of the first page of data apart from
    them. *)
Lemma clear_spec (fuel : nat) (fullErase : bool) (st : MicroBitLog) :
  formattable st ->
  flashEnd (flash st) <= pageSize (flash st) * Z.of_nat fuel ->
  let L := cleared st in
  exists F,
    clear fuel fullErase st
    = Some (tt, set_status (set_flash L F) MICROBIT_LOG_STATUS_INITIALIZED)
    /\ pageSize F = pageSize (flash st)
    /\ flashStart F = flashStart (flash st)
    /\ flashEnd F = flashEnd (flash st)
    /\ startAddress L = metadata_address (pageSize (flash st))
    /\ journalStart L = startAddress L + pageSize (flash st)
    /\ dataStart L = journalStart L + pageSize (flash st)
    /\ logEnd L = flashEnd (flash st) - pageSize (flash st) - 4
    /\ read_bytes (memory F) (startAddress L) 40 = metadata_block (logEnd L) (dataStart L)
    /\ read_bytes (memory F) (journalStart L) 8 = firstn 8 JournalEntry_new
    /\ (forall a, startAddress L + 40 <= a < journalStart L -> memory F a = ERASED)
    /\ (forall a, journalStart L + 8 <= a < dataStart L + pageSize (flash st) ->
                  memory F a = ERASED)
    /\ (fullErase = true ->
        forall a, dataStart L <= a <= logEnd L -> memory F a = ERASED).
Proof.
  intros [Hps [H256 [Hfs [Hfsm [Hhdr [Hsize [Hmax Hje]]]]]]] Hfuel L.
  set (ps := pageSize (flash st)) in *.
  assert (Hps256 : 256 <= ps).
  { unfold CONFIG_MICROBIT_LOG_CACHE_BLOCK_SIZE in H256.
    pose proof (Z.div_mod ps 256 ltac:(lia)) as Hdm. rewrite H256 in Hdm.
    assert (0 < ps / 256) by (destruct (Z_lt_ge_dec 0 (ps / 256)); lia). lia. }
  destruct (metadata_address_facts ps Hps ltac:(lia)) as [Hsam Hsab].
  set (sa := metadata_address ps) in *.
  assert (Esa : startAddress L = sa) by reflexivity.
  assert (Ejs : journalStart L = sa + ps).
  { unfold L, cleared. cbn [journalStart]. fold ps. fold sa. apply wrap32_small. lia. }
  assert (Eds : dataStart L = sa + ps + ps).
  { unfold L, cleared. cbn [dataStart]. fold ps. fold sa.
    unfold CONFIG_MICROBIT_LOG_JOURNAL_PAGES, mul32.
    rewrite Z.mul_1_l, (wrap32_small ps) by lia.
    unfold add32 at 2. rewrite (wrap32_small (sa + ps)) by lia.
    apply wrap32_small. lia. }
  assert (Ele : logEnd L = flashEnd (flash st) - ps - 4).
  { unfold L, cleared. cbn [logEnd]. fold ps.
    unfold sub32. rewrite (wrap32_small (flashEnd (flash st) - ps)) by lia.
    apply wrap32_small. lia. }
  assert (Ejh : journalHead L = journalStart L) by reflexivity.
  (* the storage before the loop *)
  set (G0 := storage_cache_clear (storage_flash_write (logEnd L) (repeat NUL 4) (flash L))).
  set (limit := if fullErase then logEnd L else dataStart L).
  set (fs := flashStart (flash st)) in *.
  assert (Hlim : sa + ps + ps <= limit <= flashEnd (flash st) - ps - 4).
  { unfold limit. destruct fullErase; lia. }
  set (q := (limit - fs) / ps).
  pose proof (Z.div_mod (limit - fs) ps ltac:(lia)) as Hdm. fold q in Hdm.
  pose proof (Z.mod_pos_bound (limit - fs) ps Hps) as Hm.
  assert (Hq : 0 <= q) by (apply Z.div_pos; lia).
  set (n := Z.to_nat (q + 1)).
  destruct (clear_erase_spec limit n fuel fs (set_flash L G0))
    as [G1 [Hrun [P1 [P2 [P3 [Hin Hout]]]]]];
    change (pageSize (flash (set_flash L G0))) with ps;
    try assumption; try (unfold n; lia).
  { unfold n. apply Nat2Z.inj_le. rewrite Z2Nat.id by lia.
    assert (q < Z.of_nat fuel); [|lia].
    apply Z.div_lt_upper_bound; [lia|]. lia. }
  change (pageSize (flash (set_flash L G0))) with ps in *.
  change (flashStart (flash (set_flash L G0))) with fs in *.
  change (flashEnd (flash (set_flash L G0))) with (flashEnd (flash st)) in *.
  assert (Hn : fs + ps * Z.of_nat n = fs + ps * (q + 1)) by (unfold n; lia).
  rewrite Hn in Hin, Hout.
  assert (Hcover : limit < fs + ps * (q + 1)) by lia.
  assert (Hcover' : sa + ps + ps + ps <= fs + ps * (q + 1)).
  { pose proof (Z.div_mod fs ps ltac:(lia)) as Hf. rewrite Hfsm in Hf.
    pose proof (Z.div_mod sa ps ltac:(lia)) as Hs. rewrite Hsam in Hs.
    assert (Hgt : sa + ps + ps < fs + ps * (q + 1)) by lia.
    rewrite Hf, Hs in Hgt |- *.
    assert (sa / ps + 2 < fs / ps + (q + 1)) by nia. nia. }
  set (md := metadata_block (logEnd L) (dataStart L)).
  set (G2 := storage_cache_write (journalHead L) (firstn 8 JournalEntry_new)
               (storage_cache_write (startAddress L) md
                  (storage_flash_write fs header G1))).
  set (G3 := storage_remount
               (storage_setConfiguration (str "MY_DATA.HTM")
                  (sub32 (sub32 (flashEnd G2) (flashStart G2)) ps) true G2)).
  exists G3.
  assert (Hmd : length md = 40%nat) by reflexivity.
  assert (Hlen8 : length (firstn 8 JournalEntry_new) = 8%nat)
    by (apply firstn_length_le; exact Hje).
  assert (Hmem : forall a,
            memory G3 a
            = program (journalStart L) (firstn 8 JournalEntry_new)
                (program sa md (program fs header (memory G1))) a) by reflexivity.
  assert (Herased : forall a, sa <= a < sa + ps + ps + ps -> memory G1 a = ERASED).
  { intros a Ha. apply Hin. lia. }
  split.
  { unfold clear. fold ps.
    replace (ps =? 0) with false by (symmetry; apply Z.eqb_neq; lia).
    do 12 (unfold bind at 1; unfold modify at 1).
    unfold bind at 1. cbn [get].
    change (set_headingLength _ 0) with L.
    unfold bind at 1. unfold flash_write at 1. cbn [modify].
    unfold bind at 1. unfold cache_clear at 1. cbn [modify].
    fold G0. fold limit. fold fs.
    change (flashStart (flash L)) with fs.
    rewrite (bind_step _ _ _ _ _ Hrun).
    reflexivity. }
  split; [exact P1|]. split; [exact P2|]. split; [exact P3|].
  split; [reflexivity|]. split; [lia|]. split; [lia|]. split; [exact Ele|].
  split.
  { rewrite Esa. rewrite <- Hmd.
    erewrite read_bytes_ext; [apply (program_read sa md (program fs header (memory G1)))|].
    - intros a Ha. rewrite Hmd in Ha. rewrite program_outside by lia. apply Herased. lia.
    - intros x Hx. rewrite Hmem. apply program_outside. rewrite Hlen8, Ejs. rewrite Hmd in Hx. lia. }
  split.
  { rewrite <- Hlen8 at 1.
    erewrite read_bytes_ext; [apply (program_read (journalStart L) (firstn 8 JournalEntry_new)
                                       (program sa md (program fs header (memory G1))))|].
    - intros a Ha. rewrite Hlen8, Ejs in Ha.
      rewrite program_outside by (rewrite Hmd; lia).
      rewrite program_outside by lia. apply Herased. lia.
    - intros x Hx. rewrite Hmem. reflexivity. }
  split.
  { intros a Ha. rewrite Esa, Ejs in Ha. rewrite Hmem.
    rewrite program_outside by (rewrite Ejs; lia).
    rewrite program_outside by (rewrite Hmd; lia).
    rewrite program_outside by lia. apply Herased. lia. }
  split.
  { intros a Ha. rewrite Ejs, Eds in Ha. rewrite Hmem.
    rewrite program_outside by (rewrite Hlen8, Ejs; lia).
    rewrite program_outside by (rewrite Hmd; lia).
    rewrite program_outside by lia. apply Herased. lia. }
  intros E a Ha. rewrite Eds in Ha. rewrite Hmem.
  rewrite program_outside by (rewrite Hlen8, Ejs; lia).
  rewrite program_outside by (rewrite Hmd; lia).
  rewrite program_outside by lia.
  apply Hin. unfold limit in *. rewrite E in *. lia.
Qed.


(** ** Appends keep the flash and the fields in step *)

Lemma byte_and_NUL_r (b : ascii) : byte_and b NUL = NUL.
Proof. destruct b as [[] [] [] [] [] [] [] []]; reflexivity. Qed.

Lemma byte_and_NUL_l (b : ascii) : byte_and NUL b = NUL.
Proof. destruct b as [[] [] [] [] [] [] [] []]; reflexivity. Qed.

Lemma containsOnly_read (m : Z -> ascii) (a : Z) (v : ascii) :
  containsOnly (read_bytes m a 8) v = true <-> (forall x, a <= x < a + 8 -> m x = v).
Proof.
  unfold containsOnly, read_bytes. rewrite forallb_forall. split.
  - intros H x Hx.
    assert (Hin : In (m x) (map (fun i => m (a + Z.of_nat i)) (seq 0 8))).
    { apply in_map_iff. exists (Z.to_nat (x - a)). split.
      - f_equal. lia.
      - apply in_seq. lia. }
    specialize (H _ Hin). apply Ascii.eqb_eq in H. congruence.
  - intros H c Hc. apply in_map_iff in Hc. destruct Hc as [i [<- Hi]].
    apply in_seq in Hi. apply Ascii.eqb_eq. symmetry. apply H. lia.
Qed.

Lemma page_end (d ps : Z) :
  0 < ps -> (d / ps + 1) * ps = d + (ps - d mod ps).
Proof. intros Hps. pose proof (Z.div_mod d ps ltac:(lia)). lia. Qed.

(** One turn of the loop keeps the rest of the page of [dataEnd] unused: it
    erases the next page when it fills the page it writes. *)
Lemma chunk_tail (st : MicroBitLog) (c : ascii) (t : list ascii) :
  room_for (c :: t) st ->
  tail_free st ->
  tail_free (after_chunk st (c :: t)).
Proof.
  intros Hroom Htail.
  destruct (chunk_arith st c t Hroom) as [Hsub [Hn [Hmin [Hadd [Hadd' [Hnext Hmod]]]]]].
  destruct Hroom as [Hps [Hd [Hfit Hend]]].
  set (data := c :: t) in *. set (ps := pageSize (flash st)) in *.
  set (n := chunk_length st data) in *. set (sp := ps - dataEnd st mod ps) in *.
  pose proof (Z.mod_pos_bound (dataEnd st) ps Hps) as Hmb.
  assert (Hlen : length (firstn (Z.to_nat n) data) = Z.to_nat n)
    by (apply firstn_length_le; lia).
  unfold tail_free in *. fold ps in Htail.
  rewrite page_end in Htail by exact Hps. fold sp in Htail.
  unfold after_chunk. cbn [dataEnd set_dataEnd flash set_flash logEnd].
  fold data. fold n. rewrite Hadd.
  assert (Hpsc : pageSize (chunk_storage st data) = ps).
  { unfold chunk_storage. destruct (_ && _); reflexivity. }
  rewrite Hpsc. rewrite page_end by exact Hps.
  intros a Ha Hle.
  unfold chunk_storage. fold ps. rewrite Hsub, Hadd'. fold sp. fold data. fold n.
  destruct (Z_lt_ge_dec n sp) as [Hin|Hfill].
  - (* the chunk ends inside the page *)
    assert (Hsame : (dataEnd st + n) mod ps = dataEnd st mod ps + n).
    { pose proof (Z.div_mod (dataEnd st) ps ltac:(lia)) as Hdm.
      symmetry. apply (Z.mod_unique _ _ (dataEnd st / ps)); lia. }
    rewrite Hsame in Ha.
    replace ((sp <=? Z.of_nat (length data)) && (dataEnd st + sp <? logEnd st)) with false
      by (symmetry; apply andb_false_iff; left; apply Z.leb_gt; lia).
    cbn [storage_cache_write issue memory].
    rewrite program_outside by (rewrite Hlen; lia).
    apply Htail; lia.
  - (* the chunk fills the page *)
    assert (En : n = sp) by lia.
    assert (Hz : (dataEnd st + n) mod ps = 0) by (rewrite En; exact Hmod).
    rewrite Hz, Z.sub_0_r in Ha.
    replace (sp <=? Z.of_nat (length data)) with true by (symmetry; apply Z.leb_le; lia).
    replace (dataEnd st + sp <? logEnd st) with true by (symmetry; apply Z.ltb_lt; lia).
    cbn [andb]. rewrite (Hnext ltac:(lia)).
    cbn [storage_cache_write storage_flash_erase issue memory pageSize].
    rewrite program_outside by (rewrite Hlen; lia).
    apply erase_page_inside. fold ps. rewrite Hmod. lia.
Qed.

Lemma logString_write_tail (fuel : nat) :
  forall (data : list ascii) (st st' : MicroBitLog),
    room_for data st ->
    tail_free st ->
    logString_write fuel data st = Some (tt, st') ->
    tail_free st'.
Proof.
  induction fuel as [|f IH]; intros data st st' Hroom Htail H.
  - destruct data; [inversion H; subst; exact Htail|discriminate H].
  - destruct data as [|c t]; [inversion H; subst; exact Htail|].
    pose proof Hroom as [Hps [Hd [Hfit Hend]]].
    rewrite (logString_write_step f c t st ltac:(lia)) in H.
    destruct (chunk_arith st c t Hroom) as [Hsub [Hn [Hmin [Hadd _]]]].
    refine (IH _ _ _ _ (chunk_tail st c t Hroom Htail) H).
    unfold room_for, after_chunk. cbn [dataEnd set_dataEnd flash set_flash logEnd].
    assert (Hpsc : pageSize (chunk_storage st (c :: t)) = pageSize (flash st)).
    { unfold chunk_storage. destruct (_ && _); reflexivity. }
    rewrite Hpsc, Hadd, length_skipn. lia.
Qed.

(** An append that fits, with the storage it leaves: the data are written,
    the rest of the last page is unused, and the geometry is kept. *)
Lemma logString_fits_tail (fuel : nat) (s : list ascii) (st : MicroBitLog) :
  initialized st ->
  room_for (c_str s) st ->
  (length (c_str s) <= fuel)%nat ->
  exists F ops,
    data_written (cleaned (c_str s) false) st F ops
    /\ (tail_free st -> tail_free (set_dataEnd (set_flash st F) (dataEnd st + strlen s)))
    /\ flashStart F = flashStart (flash st)
    /\ flashEnd F = flashEnd (flash st)
    /\ logString fuel s st
       = Some (DEVICE_OK,
               let st1 := set_dataEnd (set_flash st F) (dataEnd st + strlen s) in
               if same_block (dataEnd st1) (dataEnd st) then st1 else committed st1).
Proof.
  intros Hinit Hroom Hfuel.
  assert (Hlen : length (cleaned (c_str s) false) = length (c_str s)) by apply cleaned_length.
  assert (Hroom' : room_for (cleaned (c_str s) false) st).
  { unfold room_for in *. rewrite Hlen. exact Hroom. }
  destruct (logString_write_spec fuel (cleaned (c_str s) false) st Hroom')
    as [F [ops [Hrun Hdone]]]; [rewrite Hlen; exact Hfuel|].
  exists F, ops. split; [exact Hdone|].
  rewrite Hlen in Hrun. fold (strlen s) in Hrun.
  split; [intros Htail; exact (logString_write_tail _ _ _ _ Hroom' Htail Hrun)|].
  destruct (logString_write_bounds _ _ _ _ Hrun) as [B1 B2].
  split; [exact B1|]. split; [exact B2|].
  destruct Hroom as [Hps [Hd [Hfit Hend]]].
  unfold logString.
  rewrite (bind_step _ _ _ _ _ (init_initialized fuel st Hinit)).
  unfold bind at 1. cbn [get].
  assert (Hsub : sub32 (logEnd st) (dataEnd st) = logEnd st - dataEnd st)
    by (apply wrap32_small; lia).
  rewrite Hsub.
  replace (logEnd st - dataEnd st <? strlen s) with false
    by (symmetry; apply Z.ltb_ge; unfold strlen; lia).
  replace (if negb (length (cleanBuffer (c_str s) false) =? 0)%nat
           then cleanBuffer (c_str s) false else c_str s)
    with (cleaned (c_str s) false)
    by (unfold cleaned; destruct (length (cleanBuffer (c_str s) false) =? 0)%nat; reflexivity).
  rewrite (bind_step _ _ _ _ _ Hrun).
  unfold bind at 1. cbn [get].
  set (st1 := set_dataEnd (set_flash st F) (dataEnd st + strlen s)).
  cbv zeta. unfold same_block.
  destruct (dataEnd st1 / CONFIG_MICROBIT_LOG_CACHE_BLOCK_SIZE
            =? dataEnd st / CONFIG_MICROBIT_LOG_CACHE_BLOCK_SIZE); simpl.
  - reflexivity.
  - unfold bind. rewrite logString_journal_eq; [reflexivity|].
    unfold st1. cbn [flash set_dataEnd set_flash].
    destruct Hdone as [HpsF _]. rewrite HpsF. lia.
Qed.


Lemma multiple_of_8 (x ps : Z) :
  0 < ps -> ps mod CONFIG_MICROBIT_LOG_CACHE_BLOCK_SIZE = 0 -> x mod ps = 0 ->
  x mod 8 = 0 /\ x mod CONFIG_MICROBIT_LOG_CACHE_BLOCK_SIZE = 0.
Proof.
  unfold CONFIG_MICROBIT_LOG_CACHE_BLOCK_SIZE. intros Hps H256 Hx.
  apply Z.mod_divide in H256; [|lia]. apply Z.mod_divide in Hx; [|lia].
  destruct H256 as [a Ha]. destruct Hx as [b Hb].
  split; apply Z.mod_divide; try lia.
  - exists (b * a * 32). lia.
  - exists (b * a). lia.
Qed.

Lemma layout_facts (st : MicroBitLog) :
  layout_ok st ->
  let ps := pageSize (flash st) in
  256 <= ps /\ ps mod 8 = 0
  /\ 2048 <= startAddress st /\ startAddress st mod ps = 0
  /\ journalStart st mod ps = 0
  /\ journalStart st mod 8 = 0 /\ dataStart st mod 8 = 0
  /\ dataStart st mod CONFIG_MICROBIT_LOG_CACHE_BLOCK_SIZE = 0
  /\ journal_ok st.
Proof.
  intros [Hps [H256 [Hsa [Hjs [Hjd [Hdm [Hjh1 [Hjh2 [Hjh3 [Hde [Hdl [Hle Hmax]]]]]]]]]]]] ps.
  fold ps in Hps, H256, Hsa, Hjs, Hjd, Hdm, Hmax.
  assert (Hps256 : 256 <= ps).
  { unfold CONFIG_MICROBIT_LOG_CACHE_BLOCK_SIZE in H256.
    pose proof (Z.div_mod ps 256 ltac:(lia)) as Hd. rewrite H256 in Hd.
    destruct (Z_lt_ge_dec 0 (ps / 256)); [lia|].
    assert (ps / 256 = 0) by (pose proof (Z.div_pos ps 256); lia). lia. }
  assert (Hsa0 : 0 <= metadata_address ps).
  { unfold metadata_address, sizeof_header, mul32, wrap32.
    destruct (2048 mod ps =? 0); [lia|]. apply Z.mod_pos_bound. lia. }
  destruct (metadata_address_facts ps Hps ltac:(lia)) as [Hm1 Hm2].
  rewrite <- Hsa in Hm1, Hm2.
  assert (Hjsm : journalStart st mod ps = 0).
  { rewrite Hjs. rewrite <- Zplus_mod_idemp_r, Z.mod_same, Z.add_0_r by lia. exact Hm1. }
  destruct (multiple_of_8 ps ps Hps H256 (Z.mod_same ps ltac:(lia))) as [Hp8 _].
  destruct (multiple_of_8 _ ps Hps H256 Hjsm) as [Hj8 _].
  destruct (multiple_of_8 _ ps Hps H256 Hdm) as [Hd8 Hd256].
  split; [exact Hps256|]. split; [exact Hp8|]. split; [lia|]. split; [exact Hm1|].
  split; [exact Hjsm|]. split; [exact Hj8|]. split; [exact Hd8|]. split; [exact Hd256|].
  unfold journal_ok. fold ps.
  split; [exact Hps|]. split; [lia|]. split; [exact Hjh2|]. split; [lia|].
  split; [exact Hjh3|]. split; [|split; assumption].
  rewrite Zminus_mod, Hd8, Hj8. reflexivity.
Qed.

Lemma program_zero (address x : Z) (m : Z -> ascii) :
  address <= x < address + 8 -> program address JournalEntry_clear m x = NUL.
Proof.
  intros Hx. unfold program, JournalEntry_clear.
  replace (address <=? x) with true by (symmetry; apply Z.leb_le; lia).
  replace (x <? address + Z.of_nat (length (repeat NUL 8))) with true
    by (symmetry; apply Z.ltb_lt; rewrite repeat_length; lia).
  cbn [andb].
  replace (nth (Z.to_nat (x - address)) (repeat NUL 8) ERASED) with NUL;
    [apply byte_and_NUL_r|].
  assert (Hc : (Z.to_nat (x - address) < 8)%nat) by lia.
  revert Hc. generalize (Z.to_nat (x - address)). intros i Hi.
  do 8 (destruct i as [|i]; [reflexivity|]). lia.
Qed.

Lemma slot_read (st : MicroBitLog) (k : nat) (v : ascii) :
  containsOnly (entry_at st k) v = true
  <-> (forall x, journalStart st + 8 * Z.of_nat k <= x < journalStart st + 8 * Z.of_nat k + 8 ->
                 memory (flash st) x = v).
Proof. unfold entry_at, cache_read. apply containsOnly_read. Qed.

(** A commit keeps the shape of the journal: the entry of the old head is
    invalidated, the new head holds the length committed unless its entry
    was invalidated before, and an erased page holds unused entries. *)
Lemma committed_journal_shape (st : MicroBitLog) :
  layout_ok st ->
  (forall k, journalStart st + 8 * Z.of_nat k < journalHead st ->
             containsOnly (entry_at st k) NUL = true) ->
  (forall k, journalHead st < journalStart st + 8 * Z.of_nat k ->
             journalStart st + 8 * Z.of_nat k < dataStart st ->
             containsOnly (entry_at st k) NUL = true
             \/ containsOnly (entry_at st k) ERASED = true) ->
  journal_shape (committed st).
Proof.
  intros Hlay Hbelow Habove.
  destruct (layout_facts st Hlay) as [Hps256 [Hp8 [Hsa [Hsam [Hjsm [Hj8 [Hd8 [Hd256 Hok]]]]]]]].
  pose proof (next_journalHead_cases st Hok) as Hn. cbv zeta in Hn.
  destruct Hn as [Hlo [Hhi [Hmod Hpage]]].
  destruct Hlay as [Hps [H256 [Esa [Ejs [Hjd [Hdm [Hjh1 [Hjh2 [Hjh3 [Hde [Hdl [Hle Hmax]]]]]]]]]]]].
  set (ps := pageSize (flash st)) in *.
  set (js := journalStart st) in *. set (jh := journalHead st) in *.
  set (ds := dataStart st) in *. set (nh := next_journalHead st) in *.
  set (m := memory (flash st)).
  (* the heads as entries of the journal *)
  apply Z.mod_divide in Hjh3; [|lia]. destruct Hjh3 as [hj Hhj].
  apply Z.mod_divide in Hmod; [|lia]. destruct Hmod as [hn Hhn].
  apply Z.mod_divide in Hp8; [|lia]. destruct Hp8 as [p8 Hp8].
  assert (Hadv : advanced_head st = jh + 8).
  { unfold advanced_head, add32, MICROBIT_LOG_JOURNAL_ENTRY_SIZE. apply wrap32_small. lia. }
  assert (Hcases : (on_page_boundary st = false /\ nh = jh + 8)
                   \/ (on_page_boundary st = true /\ nh = jh + 8)
                   \/ (on_page_boundary st = true /\ nh = js /\ jh + 8 = ds)).
  { unfold nh, next_journalHead. rewrite Hadv.
    destruct (on_page_boundary st); cbn [andb]; [|left; split; reflexivity].
    destruct (Z.eqb_spec (jh + 8) (dataStart st)) as [E|E].
    - right; right. split; [reflexivity|]. split; [reflexivity|exact E].
    - right; left. split; reflexivity. }
  set (B := if on_page_boundary st then erase_page ps nh m else m).
  assert (HM : forall x, memory (flash (committed st)) x
                         = program jh JournalEntry_clear (program nh (journal_entry st) B) x).
  { intros x. unfold committed, journal_storage. cbn [flash set_flash].
    fold nh. unfold B. destruct (on_page_boundary st); reflexivity. }
  assert (HB : forall x, B x = if on_page_boundary st
                               then (if (nh <=? x) && (x <? nh + ps) then ERASED else m x)
                               else m x).
  { intros x. unfold B. destruct (on_page_boundary st) eqn:Eb; [|reflexivity].
    destruct (Hpage eq_refl) as [Hz _].
    unfold erase_page. rewrite Hz, Z.sub_0_r. reflexivity. }
  assert (Hold : forall k v, containsOnly (entry_at st k) v = true ->
                   forall x, js + 8 * Z.of_nat k <= x < js + 8 * Z.of_nat k + 8 -> m x = v).
  { intros k v H. apply slot_read. exact H. }
  assert (Hjs' : journalStart (committed st) = js) by reflexivity.
  assert (Hjh' : journalHead (committed st) = nh) by reflexivity.
  assert (Hds' : dataStart (committed st) = ds) by reflexivity.
  assert (Hde' : dataEnd (committed st) = dataEnd st) by reflexivity.
  unfold journal_shape. rewrite Hjs', Hjh', Hds', Hde'.
  split; [|split].
  - (* below the new head *)
    intros k Hk. apply slot_read. rewrite Hjs'. intros x Hx. rewrite HM.
    destruct (Z.eq_dec (js + 8 * Z.of_nat k) jh) as [E|E].
    + apply program_zero. lia.
    + rewrite program_outside by (unfold JournalEntry_clear; rewrite repeat_length; lia).
      rewrite program_outside by (rewrite journal_entry_length; lia).
      rewrite HB.
      assert (Hm : m x = NUL).
      { apply (Hold k NUL); [|exact Hx]. apply Hbelow. fold js jh.
        destruct Hcases as [[_ En]|[[_ En]|[_ [En Ew]]]]; lia. }
      destruct (on_page_boundary st) eqn:Eb; [|exact Hm].
      replace ((nh <=? x) && (x <? nh + ps)) with false; [exact Hm|].
      symmetry. apply andb_false_iff. left. apply Z.leb_gt. lia.
  - (* the new head *)
    intros k Hk Hlive.
    assert (Hread : forall x, nh <= x < nh + 8 ->
              memory (flash (committed st)) x
              = byte_and (B x) (nth (Z.to_nat (x - nh)) (journal_entry st) ERASED)).
    { intros x Hx. rewrite HM.
      rewrite program_outside
        by (unfold JournalEntry_clear; rewrite repeat_length;
            destruct Hcases as [[_ En]|[[_ En]|[_ [En Ew]]]]; lia).
      unfold program.
      replace (nh <=? x) with true by (symmetry; apply Z.leb_le; lia).
      replace (x <? nh + Z.of_nat (length (journal_entry st))) with true
        by (symmetry; apply Z.ltb_lt; rewrite journal_entry_length; lia).
      reflexivity. }
    assert (Hslot : (forall x, nh <= x < nh + 8 -> B x = ERASED)
                    \/ (forall x, nh <= x < nh + 8 -> B x = NUL)).
    { destruct (on_page_boundary st) eqn:Eb.
      - left. intros x Hx. rewrite HB.
        replace ((nh <=? x) && (x <? nh + ps)) with true; [reflexivity|].
        symmetry. apply andb_true_iff. split; [apply Z.leb_le|apply Z.ltb_lt]; lia.
      - assert (En : nh = jh + 8)
          by (destruct Hcases as [[_ En]|[[Ec _]|[Ec _]]]; [exact En|discriminate|discriminate]).
        destruct (Habove k) as [H|H]; fold js jh ds; try lia.
        + right. intros x Hx. rewrite HB. apply (Hold k NUL H). lia.
        + left. intros x Hx. rewrite HB. apply (Hold k ERASED H). lia. }
    destruct Hslot as [Her|Hnul].
    + assert (E : entry_at (committed st) k = journal_entry st).
      { unfold entry_at, cache_read. rewrite Hjs', Hk.
        rewrite <- (journal_entry_length st) at 1.
        apply read_bytes_eq. intros i Hi. rewrite journal_entry_length in Hi.
        rewrite Hread by lia. rewrite Her by lia. rewrite byte_and_erased.
        replace (Z.to_nat (nh + Z.of_nat i - nh)) with i by lia.
        apply nth_indep. rewrite journal_entry_length. exact Hi. }
      rewrite E. unfold journal_entry.
      destruct (committed_length_plain st ltac:(fold ds; lia) ltac:(lia)) as [Ecl Hcl].
      destruct (strtoul16_writeNum (committed_length st) Hcl) as [_ [_ Ev]].
      rewrite Ev, Ecl. fold ds. unfold CONFIG_MICROBIT_LOG_CACHE_BLOCK_SIZE.
      pose proof (Z.div_mod (dataEnd st - ds) 256 ltac:(lia)).
      pose proof (Z.mod_pos_bound (dataEnd st - ds) 256 ltac:(lia)). lia.
    + exfalso. unfold live in Hlive.
      assert (Hz : containsOnly (entry_at (committed st) k) NUL = true).
      { apply slot_read. rewrite Hjs', Hk. intros x Hx.
        rewrite Hread by lia. rewrite Hnul by lia. apply byte_and_NUL_l. }
      rewrite Hz in Hlive. discriminate Hlive.
  - (* above the new head *)
    intros k Hk1 Hk2.
    destruct (Z.eq_dec (js + 8 * Z.of_nat k) jh) as [E|E].
    { left. apply slot_read. rewrite Hjs'. intros x Hx. rewrite HM.
      apply program_zero. lia. }
    assert (HMx : forall x, js + 8 * Z.of_nat k <= x < js + 8 * Z.of_nat k + 8 ->
                    memory (flash (committed st)) x = B x).
    { intros x Hx. rewrite HM.
      rewrite program_outside by (unfold JournalEntry_clear; rewrite repeat_length; lia).
      apply program_outside. rewrite journal_entry_length. lia. }
    destruct (on_page_boundary st) eqn:Eb.
    + destruct (Hpage eq_refl) as [Hz Hroom].
      destruct (Z_lt_ge_dec (js + 8 * Z.of_nat k) (nh + ps)) as [Hin|Hout].
      * right. apply slot_read. rewrite Hjs'. intros x Hx. rewrite HMx by exact Hx.
        rewrite HB.
        replace ((nh <=? x) && (x <? nh + ps)) with true; [reflexivity|].
        symmetry. apply andb_true_iff. split; [apply Z.leb_le|apply Z.ltb_lt]; lia.
      * assert (Hsame : forall x, js + 8 * Z.of_nat k <= x < js + 8 * Z.of_nat k + 8 ->
                          memory (flash (committed st)) x = m x).
        { intros x Hx. rewrite HMx by exact Hx. rewrite HB.
          replace ((nh <=? x) && (x <? nh + ps)) with false; [reflexivity|].
          symmetry. apply andb_false_iff. right. apply Z.ltb_ge. lia. }
        destruct (Z_lt_ge_dec (js + 8 * Z.of_nat k) jh) as [Hlt|Hge].
        -- left. apply slot_read. rewrite Hjs'. intros x Hx. rewrite Hsame by exact Hx.
           apply (Hold k NUL); [|exact Hx]. apply Hbelow. exact Hlt.
        -- destruct (Habove k) as [H|H]; fold js jh ds; try lia.
           ++ left. apply slot_read. rewrite Hjs'. intros x Hx. rewrite Hsame by exact Hx.
              apply (Hold k NUL H). exact Hx.
           ++ right. apply slot_read. rewrite Hjs'. intros x Hx. rewrite Hsame by exact Hx.
              apply (Hold k ERASED H). exact Hx.
    + assert (En : nh = jh + 8)
        by (destruct Hcases as [[_ En]|[[Ec _]|[Ec _]]]; [exact En|discriminate|discriminate]).
      destruct (Habove k) as [H|H]; fold js jh ds; try lia.
      * left. apply slot_read. rewrite Hjs'. intros x Hx. rewrite HMx by exact Hx.
        rewrite HB. apply (Hold k NUL H). exact Hx.
      * right. apply slot_read. rewrite Hjs'. intros x Hx. rewrite HMx by exact Hx.
        rewrite HB. apply (Hold k ERASED H). exact Hx.
Qed.


(** Whether a log is consistent depends on its layout, on its two marks and
    on the bytes below [logEnd] only. *)
Lemma consistent_transfer (st st' : MicroBitLog) :
  pageSize (flash st') = pageSize (flash st) ->
  flashEnd (flash st') = flashEnd (flash st) ->
  startAddress st' = startAddress st ->
  journalStart st' = journalStart st ->
  journalHead st' = journalHead st ->
  dataStart st' = dataStart st ->
  dataEnd st' = dataEnd st ->
  logEnd st' = logEnd st ->
  (forall a, a < logEnd st -> memory (flash st') a = memory (flash st) a) ->
  consistent st -> consistent st'.
Proof.
  intros Eps Efe Esa Ejs Ejh Eds Ede Ele Hmem [Hlay [Hmeta [Hjournal Hdata]]].
  destruct (layout_facts st Hlay) as [Hps256 _].
  pose proof Hlay as [Hps [H256 [Hsa [Hjs [Hjd [Hdm [Hjh1 [Hjh2 [Hjh3 [Hde [Hdl [Hle Hmax]]]]]]]]]]]].
  assert (Hslot : forall k, journalStart st + 8 * Z.of_nat k < dataStart st ->
                    entry_at st' k = entry_at st k).
  { intros k Hk. unfold entry_at, cache_read. rewrite Ejs.
    apply read_bytes_ext. intros x Hx. apply Hmem.
    destruct (layout_facts st Hlay) as [_ [_ [_ [_ [_ [Hj8 [Hd8 _]]]]]]].
    apply Z.mod_divide in Hj8, Hd8; try lia.
    destruct Hj8 as [a Ha]. destruct Hd8 as [b Hb]. lia. }
  split; [|split; [|split]].
  - unfold layout_ok. rewrite Eps, Efe, Esa, Ejs, Ejh, Eds, Ede, Ele. exact Hlay.
  - destruct Hmeta as [Hmd [a [b [Hab [Hb [Ha Hbe]]]]]].
    unfold metadata_stored. rewrite Esa, Ejs, Eds, Ele. split.
    + rewrite <- Hmd. apply read_bytes_ext. intros x Hx. apply Hmem. lia.
    + exists a, b. unfold sizeof_MicroBitLogMetaData in *.
      rewrite !Hmem by lia. auto.
  - destruct Hjournal as [J1 [J2 J3]].
    unfold journal_shape. rewrite Ejs, Ejh, Eds, Ede.
    split; [|split].
    + intros k Hk. rewrite Hslot by lia. apply J1. exact Hk.
    + intros k Hk. rewrite Hslot by lia. apply J2. exact Hk.
    + intros k Hk1 Hk2. rewrite Hslot by lia. apply J3; assumption.
  - destruct Hdata as [D1 D2].
    unfold data_shape, tail_free. rewrite Eps, Eds, Ede, Ele. split.
    + intros a Ha. rewrite Hmem by lia. apply D1. exact Ha.
    + intros a Ha Hl. rewrite Hmem by lia. apply D2; assumption.
Qed.

(** A commit does not touch the bytes below the journal. *)
Lemma committed_frame_low (st : MicroBitLog) :
  journal_ok st ->
  forall a, a < journalStart st -> memory (flash (committed st)) a = memory (flash st) a.
Proof.
  intros Hok a Ha. pose proof (next_journalHead_cases st Hok) as Hn. cbv zeta in Hn.
  destruct Hn as [Hlo [Hhi [Hmod Hpage]]].
  destruct Hok as [Hps [Hjs [Hjh [Hds [Hm1 [Hm2 [Hp1 Hp2]]]]]]].
  unfold committed, journal_storage.
  cbn [flash set_flash storage_cache_write issue memory].
  rewrite program_outside by lia.
  rewrite program_outside by lia.
  destruct (on_page_boundary st) eqn:Hb; [|reflexivity].
  destruct (Hpage eq_refl) as [Hz Hroom].
  cbn [storage_flash_erase storage_cache_erase issue memory pageSize].
  apply erase_page_outside. rewrite Hz. lia.
Qed.

Lemma cleaned_chars (rs : bool) (s : list ascii) (c : ascii) (j : nat) :
  (j < length s)%nat ->
  INVALID_CHAR <> c -> ~ In c s ->
  nth j (cleaned s rs) NUL <> c.
Proof.
  intros Hj Hinv Hin. rewrite cleaned_nth.
  destruct (covered rs s (length s) j); [exact Hinv|].
  intros E. apply Hin. rewrite <- E. apply nth_In. exact Hj.
Qed.

(** An append keeps a consistent log consistent, whether the string fits or
    not, when no byte it writes is 0xFF. *)
Lemma logString_consistent (fuel : nat) (s : list ascii) (st : MicroBitLog) :
  initialized st ->
  consistent st ->
  INVALID_CHAR <> ERASED ->
  ~ In ERASED (c_str s) ->
  (length (c_str s) <= fuel)%nat ->
  exists r st',
    logString fuel s st = Some (r, st')
    /\ consistent st'
    /\ initialized st'
    /\ layout_kept st st'
    /\ (forall a, a < journalStart st \/ dataStart st <= a < dataEnd st ->
                  memory (flash st') a = memory (flash st) a)
    /\ ((strlen s <= logEnd st - dataEnd st
         /\ r = DEVICE_OK
         /\ dataEnd st' = dataEnd st + strlen s
         /\ read_bytes (memory (flash st')) (dataEnd st) (length (c_str s))
            = cleaned (c_str s) false)
        \/ (logEnd st - dataEnd st < strlen s
            /\ r = DEVICE_NO_RESOURCES
            /\ dataEnd st' = dataEnd st
            /\ journalHead st' = journalHead st)).
Proof.
  intros Hinit Hcons Hinv Hff Hfuel.
  pose proof Hcons as [Hlay [Hmeta [Hjournal Hdata]]].
  destruct (layout_facts st Hlay) as [Hps256 [Hp8 [Hsa [Hsam [Hjsm [Hj8 [Hd8 [Hd256 Hok]]]]]]]].
  pose proof Hlay as [Hps [H256 [Esa [Ejs [Hjd [Hdm [Hjh1 [Hjh2 [Hjh3 [Hde [Hdl [Hle Hmax]]]]]]]]]]]].
  destruct (logString_outcome fuel s st Hinit Hps ltac:(lia) ltac:(lia) Hfuel)
    as [r [st' [Hrun [Hkept [Hinit' [_ [_ [Hno Hyes]]]]]]]].
  exists r, st'. split; [exact Hrun|].
  destruct (Z_lt_ge_dec (logEnd st - dataEnd st) (strlen s)) as [Hnoroom|Hroom].
  - (* the string does not fit *)
    destruct (Hno Hnoroom) as [Er [Ede [_ Ejh]]].
    assert (Hsub : sub32 (logEnd st) (dataEnd st) = logEnd st - dataEnd st)
      by (apply wrap32_small; lia).
    pose proof (logString_no_room fuel s st Hinit ltac:(rewrite Hsub; exact Hnoroom)) as Hrun'.
    rewrite Hrun in Hrun'. injection Hrun' as _ Est'.
    assert (Hmem : forall a, a < logEnd st -> memory (flash st') a = memory (flash st) a).
    { intros a Ha. rewrite Est'. destruct (isFull st); [reflexivity|].
      cbn [flash set_flash set_status storage_cache_write issue memory].
      apply program_outside. left.
      unfold add32. rewrite wrap32_small by lia. lia. }
    destruct Hkept as [_ [K2 [K3 [K4 [K5 [_ [_ [_ [_ [_ [_ [_ [K13 [_ K15]]]]]]]]]]]]]].
    split.
    { apply (consistent_transfer st st'); try assumption. }
    split; [exact Hinit'|].
    split.
    { pose proof (logString_outcome fuel s st Hinit Hps ltac:(lia) ltac:(lia) Hfuel)
        as [r0 [st0 [Hrun0 [Hkept0 _]]]].
      rewrite Hrun in Hrun0. injection Hrun0 as _ <-. exact Hkept0. }
    split; [intros a Ha; apply Hmem; lia|].
    right. auto.
  - (* the string fits *)
    destruct (Hyes ltac:(lia)) as [Er [Ede _]].
    assert (Hroom' : room_for (c_str s) st).
    { unfold room_for. unfold strlen in Hroom. repeat split; lia. }
    destruct (logString_fits_tail fuel s st Hinit Hroom' Hfuel)
      as [F [ops [Hdone [Htail [B1 [B2 Hrun']]]]]].
    rewrite Hrun in Hrun'. injection Hrun' as _ Est'. cbv zeta in Est'.
    destruct Hdone as [HpsF [_ [_ [_ [Hlow [Hmem _]]]]]].
    rewrite cleaned_length in Hmem. fold (strlen s) in Hmem.
    destruct Hdata as [D1 D2].
    set (st1 := set_dataEnd (set_flash st F) (dataEnd st + strlen s)) in *.
    assert (Hcontent : forall i, (i < length (c_str s))%nat ->
              memory F (dataEnd st + Z.of_nat i) = nth i (cleaned (c_str s) false) NUL).
    { intros i Hi. apply Hmem; [|exact Hi].
      intros a Ha. apply D2.
      - rewrite page_end by exact Hps. lia.
      - unfold strlen in *. lia. }
    assert (Hcons1 : consistent st1).
    { split; [|split; [|split]].
      - unfold layout_ok, st1.
        cbn [flash set_flash set_dataEnd startAddress journalStart journalHead dataStart
             dataEnd logEnd].
        rewrite HpsF, B2. unfold strlen in *.
        repeat split; try assumption; lia.
      - destruct Hmeta as [Hmd [a [b [Hab [Hb [Ha Hbe]]]]]].
        unfold metadata_stored, st1, sizeof_MicroBitLogMetaData in *.
        cbn [flash set_flash set_dataEnd startAddress journalStart dataStart logEnd].
        split.
        + rewrite <- Hmd. apply read_bytes_ext. intros x Hx. apply Hlow. lia.
        + exists a, b. rewrite !Hlow by lia. auto.
      - destruct Hjournal as [J1 [J2 J3]].
        assert (Hslot : forall k, journalStart st + 8 * Z.of_nat k < dataStart st ->
                          entry_at st1 k = entry_at st k).
        { intros k Hk. unfold entry_at, cache_read, st1.
          cbn [flash set_flash set_dataEnd journalStart].
          apply read_bytes_ext. intros x Hx. apply Hlow.
          apply Z.mod_divide in Hj8, Hd8; try lia.
          destruct Hj8 as [a Ha]. destruct Hd8 as [b Hb]. lia. }
        unfold journal_shape.
        change (journalStart st1) with (journalStart st).
        change (journalHead st1) with (journalHead st).
        change (dataStart st1) with (dataStart st).
        change (dataEnd st1) with (dataEnd st + strlen s).
        split; [|split].
        + intros k Hk. rewrite Hslot by lia. apply J1. exact Hk.
        + intros k Hk Hl. rewrite Hslot in Hl |- * by lia.
          pose proof (J2 k Hk Hl). unfold strlen. lia.
        + intros k Hk1 Hk2. rewrite Hslot by lia. apply J3; assumption.
      - split; [|apply Htail; exact D2].
        unfold st1. cbn [flash set_flash set_dataEnd dataStart dataEnd].
        intros a Ha. destruct (Z_lt_ge_dec a (dataEnd st)) as [Hlt|Hge].
        + rewrite Hlow by exact Hlt. apply D1. lia.
        + replace a with (dataEnd st + Z.of_nat (Z.to_nat (a - dataEnd st))) by lia.
          unfold strlen in Ha.
          rewrite Hcontent by lia.
          apply cleaned_chars; [lia|exact Hinv|exact Hff]. }
    assert (Hbytes1 : read_bytes (memory F) (dataEnd st) (length (c_str s))
                      = cleaned (c_str s) false).
    { rewrite <- (cleaned_length false (c_str s)) at 1.
      apply read_bytes_eq. intros i Hi. rewrite cleaned_length in Hi.
      apply Hcontent. exact Hi. }
    assert (Hfinal : consistent st'
                     /\ (forall a, dataStart st <= a -> memory (flash st') a = memory F a)
                     /\ (forall a, a < journalStart st ->
                                   memory (flash st') a = memory F a)).
    { rewrite Est'. destruct (same_block (dataEnd st + strlen s) (dataEnd st)).
      - split; [exact Hcons1|]. split; intros a _; reflexivity.
      - destruct Hcons1 as [Hlay1 [Hmeta1 [[J1 [J2 J3]] [D11 D12]]]].
        destruct (layout_facts st1 Hlay1) as [_ [_ [_ [_ [_ [_ [_ [_ Hok1]]]]]]]].
        destruct (committed_frame st1 Hok1) as [Hok2 [Hps2 Hsame]].
        pose proof (committed_frame_low st1 Hok1) as Hlow2.
        pose proof (next_journalHead_cases st1 Hok1) as Hn. cbv zeta in Hn.
        destruct Hn as [Hnlo [Hnhi [Hnmod _]]].
        destruct (journal_storage_bounds st1) as [_ Jb2].
        split; [|split; [intros a Ha; apply Hsame; exact Ha
                        |intros a Ha; apply Hlow2; exact Ha]].
        split; [|split; [|split]].
        + unfold layout_ok, committed.
          cbn [flash set_flash set_journalHead startAddress journalStart journalHead
               dataStart dataEnd logEnd].
          destruct (journal_storage_trace st1) as [_ Jps]. rewrite Jps, Jb2.
          destruct Hlay1 as [L1 [L2 [L3 [L4 [L5 [L6 [L7 [L8 [L9 [L10 [L11 [L12 L13]]]]]]]]]]]].
          repeat split; try assumption; lia.
        + destruct Hmeta1 as [Hmd [a [b [Hab [Hb [Ha Hbe]]]]]].
          unfold metadata_stored, sizeof_MicroBitLogMetaData in *.
          change (startAddress (committed st1)) with (startAddress st1).
          change (journalStart (committed st1)) with (journalStart st1).
          change (dataStart (committed st1)) with (dataStart st1).
          change (logEnd (committed st1)) with (logEnd st1).
          destruct Hlay1 as [L1 [L2 [L3 [L4 _]]]].
          split.
          * rewrite <- Hmd. apply read_bytes_ext. intros x Hx. apply Hlow2. lia.
          * exists a, b. rewrite !Hlow2 by lia. auto.
        + apply committed_journal_shape; assumption.
        + split.
          * change (dataStart (committed st1)) with (dataStart st1).
            change (dataEnd (committed st1)) with (dataEnd st1).
            intros a Ha. rewrite Hsame by lia. apply D11. exact Ha.
          * unfold tail_free.
            change (dataEnd (committed st1)) with (dataEnd st1).
            change (logEnd (committed st1)) with (logEnd st1).
            rewrite Hps2. intros a Ha Hl. rewrite Hsame.
            -- apply D12; assumption.
            -- destruct Hlay1 as [_ [_ [_ [_ [_ [_ [_ [_ [_ [L10 _]]]]]]]]]]. lia. }
    destruct Hfinal as [Hcons' [Hmem' Hmem'']].
    split; [exact Hcons'|]. split; [exact Hinit'|]. split; [exact Hkept|].
    split.
    { intros a [Ha|Ha].
      - rewrite Hmem'' by exact Ha. apply Hlow. lia.
      - rewrite Hmem' by lia. apply Hlow. lia. }
    left. split; [lia|]. split; [exact Er|]. split; [exact Ede|].
    rewrite <- Hbytes1. apply read_bytes_ext. intros x Hx. apply Hmem'. lia.
Qed.


(** ** Mounting a consistent flash *)

Lemma strtoul16_erased (e : list ascii) :
  length e = 8%nat -> containsOnly e ERASED = true -> strtoul16 e = 0.
Proof.
  intros Hlen H. unfold containsOnly in H. rewrite forallb_forall in H.
  assert (E : e = repeat ERASED 8).
  { do 9 (destruct e as [|? e]; try discriminate Hlen).
    repeat match goal with
           | |- context [?c :: _] =>
               is_var c;
               let Hc := fresh in
               assert (Hc : Ascii.eqb ERASED c = true) by (apply H; simpl; tauto);
               apply Ascii.eqb_eq in Hc; subst c
           end.
    reflexivity. }
  rewrite E. reflexivity.
Qed.

Lemma strtoul16_nonneg (s : list ascii) : 0 <= strtoul16 s.
Proof.
  unfold strtoul16.
  assert (Hd : forall l acc, 0 <= acc -> 0 <= strtoul_digits l acc).
  { induction l as [|c t IH]; intros acc Ha; cbn [strtoul_digits]; [exact Ha|].
    destruct (digit_value c) as [d|] eqn:E; [|exact Ha].
    apply IH. unfold digit_value in E.
    assert (0 <= d).
    { destruct ((48 <=? Z_of_char c) && (Z_of_char c <=? 57)) eqn:E1.
      - inversion E. apply andb_true_iff in E1. destruct E1 as [E1 _].
        apply Z.leb_le in E1. lia.
      - destruct ((65 <=? Z_of_char c) && (Z_of_char c <=? 70)) eqn:E2.
        + inversion E. apply andb_true_iff in E2. destruct E2 as [E2 _].
          apply Z.leb_le in E2. lia.
        + destruct ((97 <=? Z_of_char c) && (Z_of_char c <=? 102)) eqn:E3; [|discriminate].
          inversion E. apply andb_true_iff in E3. destruct E3 as [E3 _].
          apply Z.leb_le in E3. lia. }
    apply Z.min_glb; lia. }
  destruct (skip_spaces (c_str s)) as [|c t].
  - cbn. lia.
  - set (p := if Ascii.eqb c "-" then (true, t)
              else if Ascii.eqb c "+" then (false, t) else (false, c :: t)).
    destruct p as [neg s2].
    pose proof (Hd (skip_0x s2) 0 ltac:(lia)) as Hacc.
    destruct (2 ^ 32 <=? strtoul_digits (skip_0x s2) 0); [lia|].
    destruct neg; [|exact Hacc].
    unfold wrap32. apply Z.mod_pos_bound. lia.
Qed.

(** [isPresent] on an object not yet initialized, over a flash that holds
    the metadata block of a log: it finds the log and reads its layout. *)
Lemma isPresent_stored (u st : MicroBitLog) :
  layout_ok st ->
  metadata_stored st ->
  flash u = flash st ->
  has_flag (status u) MICROBIT_LOG_STATUS_INITIALIZED = false ->
  isPresent u
  = Some (true,
          set_journalStart
            (set_logEnd
               (set_dataStart (set_startAddress u (startAddress st)) (dataStart st))
               (logEnd st))
            (journalStart st)).
Proof.
  intros Hlay [Hmd _] Hflash Hinit.
  destruct (layout_facts st Hlay) as [Hps256 [Hp8 [Hsa [Hsam [Hjsm _]]]]].
  destruct Hlay as [Hps [H256 [Esa [Ejs [Hjd [Hdm [Hjh1 [Hjh2 [Hjh3 [Hde [Hdl [Hle Hmax]]]]]]]]]]]].
  unfold isPresent. rewrite Hinit, Hflash.
  replace (pageSize (flash st) =? 0) with false by (symmetry; apply Z.eqb_neq; lia).
  rewrite <- Esa.
  unfold flash_read.
  cbn [startAddress set_startAddress flash].
  rewrite Hflash, Hmd.
  assert (Hle32 : 0 <= logEnd st < 2 ^ 32) by lia.
  assert (Hds32 : 0 <= dataStart st < 2 ^ 32) by lia.
  destruct (strtoul16_writeNum (logEnd st) Hle32) as [Hl1 [Hl2 Hl3]].
  destruct (strtoul16_writeNum (dataStart st) Hds32) as [Hd1 [Hd2 Hd3]].
  assert (E1 : set_char (firstn 11 (skipn 18 (metadata_block (logEnd st) (dataStart st))))
                 10 NUL
               = str "0x" ++ firstn 8 (writeNum (logEnd st)) ++ NUL :: []) by reflexivity.
  assert (E2 : set_char (firstn 11 (skipn 29 (metadata_block (logEnd st) (dataStart st))))
                 10 NUL
               = str "0x" ++ firstn 8 (writeNum (dataStart st)) ++ NUL :: []) by reflexivity.
  rewrite E1, E2.
  rewrite (proj1 (strtoul16_0x _ [] ltac:(rewrite Hl1; lia) Hl2)), Hl3.
  rewrite (proj1 (strtoul16_0x _ [] ltac:(rewrite Hd1; lia) Hd2)), Hd3.
  cbn [startAddress dataStart logEnd flash set_startAddress set_dataStart set_logEnd
       set_journalStart].
  rewrite Hflash.
  assert (A1 : add32 (startAddress st) (pageSize (flash st)) = journalStart st)
    by (rewrite Ejs; apply wrap32_small; lia).
  assert (A2 : add32 (startAddress st) (mul32 2 (pageSize (flash st)))
               = startAddress st + 2 * pageSize (flash st)).
  { unfold mul32. rewrite (wrap32_small (2 * pageSize (flash st))) by lia.
    apply wrap32_small. lia. }
  rewrite A1, A2.
  replace (startAddress st + 2 * pageSize (flash st) <=? dataStart st) with true
    by (symmetry; apply Z.leb_le; lia).
  replace (dataStart st <? logEnd st) with true by (symmetry; apply Z.ltb_lt; lia).
  replace (logEnd st <? flashEnd (flash st)) with true by (symmetry; apply Z.ltb_lt; lia).
  reflexivity.
Qed.


Lemma init_skip_zeroes_state (fuel : nat) :
  forall (start a : Z) (st st' : MicroBitLog),
    init_skip_zeroes fuel start st = Some (a, st') -> st' = st.
Proof.
  induction fuel as [|f IH]; intros start a st st' H; cbn [init_skip_zeroes] in H;
    destruct (bytes_eqb (cache_read st start 1) [NUL]); try discriminate H;
    try (inversion H; reflexivity).
  eapply IH. exact H.
Qed.

Lemma init_headings_end_state (fuel : nat) :
  forall (e a : Z) (st st' : MicroBitLog),
    init_headings_end fuel e st = Some (a, st') -> st' = st.
Proof.
  induction fuel as [|f IH]; intros e a st st' H; cbn [init_headings_end] in H;
    destruct (bytes_eqb (cache_read st e 1) [ERASED]); try discriminate H;
    try (inversion H; reflexivity).
  eapply IH. exact H.
Qed.

(** The parse of the headings changes nothing but the headings and the row. *)
Lemma init_headings_fields (fuel : nat) (st st' : MicroBitLog) :
  init_headings fuel st = Some (tt, st') ->
  startAddress st' = startAddress st
  /\ journalStart st' = journalStart st
  /\ dataStart st' = dataStart st
  /\ logEnd st' = logEnd st
  /\ journalHead st' = journalHead st
  /\ dataEnd st' = dataEnd st
  /\ status st' = status st
  /\ flash st' = flash st.
Proof.
  unfold init_headings. intros H.
  apply bind_Some in H. destruct H as [s0 [s0' [Hget H]]].
  inversion Hget; subst s0 s0'; clear Hget.
  apply bind_Some in H. destruct H as [start [s1 [H1 H]]].
  apply init_skip_zeroes_state in H1. subst s1.
  apply bind_Some in H. destruct H as [e [s2 [H2 H]]].
  apply init_headings_end_state in H2. subst s2.
  apply bind_Some in H. destruct H as [[] [s3 [H3 H]]].
  inversion H3; subst s3; clear H3.
  apply bind_Some in H. destruct H as [s4 [s4' [Hget H]]].
  inversion Hget; subst s4 s4'; clear Hget.
  destruct (0 <? headingLength (set_headingLength st (sub32 e start))); cbn [when] in H.
  - apply bind_Some in H. destruct H as [[] [s5 [H5 H]]].
    inversion H5; subst s5; clear H5.
    inversion H; subst st'. repeat split; reflexivity.
  - inversion H; subst st'. repeat split; reflexivity.
Qed.

(** [init] on an object not yet initialized, over the flash of a consistent
    log: it finds the layout, the end of the data and a journal head with
    which the log is consistent again, and then reads the headings, from a
    state [stC] that still has the row of [u]. *)
Lemma mount_steps (fuel : nat) (u st : MicroBitLog) :
  consistent st ->
  flash u = flash st ->
  has_flag (status u) MICROBIT_LOG_STATUS_INITIALIZED = false ->
  logEnd st <= Z.of_nat fuel ->
  exists st',
    init fuel u = Some (tt, st')
    /\ initialized st'
    /\ flash st' = flash st
    /\ startAddress st' = startAddress st
    /\ journalStart st' = journalStart st
    /\ dataStart st' = dataStart st
    /\ logEnd st' = logEnd st
    /\ dataEnd st' = dataEnd st
    /\ consistent st'
    /\ (forall k, journalStart st + 8 * Z.of_nat k = journalHead st ->
                  live (entry_at st k) = true ->
                  journalHead st' = journalHead st)
    /\ exists stC stD,
         flash stC = flash st
         /\ startAddress stC = startAddress st
         /\ rowData stC = rowData u
         /\ headingStart stC = headingStart u
         /\ init_headings fuel stC = Some (tt, stD)
         /\ rowData st' = rowData stD
         /\ headingStart st' = headingStart stD
         /\ headingLength st' = headingLength stD.
Proof.
  intros Hcons Hflash Hinit Hfuel.
  pose proof Hcons as [Hlay [Hmeta [[J1 [J2 J3]] [D1 D2]]]].
  destruct (layout_facts st Hlay) as [Hps256 [Hp8 [Hsa [Hsam [Hjsm [Hj8 [Hd8 [Hd256 Hok]]]]]]]].
  pose proof Hlay as [Hps [H256 [Esa [Ejs [Hjd [Hdm [Hjh1 [Hjh2 [Hjh3 [Hde [Hdl [Hle Hmax]]]]]]]]]]]].
  pose proof Hmeta as [Hmd [a [b [Hab [Hb [Ha Hbe]]]]]].
  unfold init. rewrite Hinit, (isPresent_stored u st Hlay Hmeta Hflash Hinit).
  set (st1 := set_journalStart
                (set_logEnd
                   (set_dataStart (set_startAddress u (startAddress st)) (dataStart st))
                   (logEnd st)) (journalStart st)).
  assert (Hf1 : flash st1 = flash st) by exact Hflash.
  unfold init_mount. rewrite Hf1.
  replace (pageSize (flash st) =? 0) with false by (symmetry; apply Z.eqb_neq; lia).
  set (stB := set_journalPages st1
                (sub32 (sub32 (dataStart st1) (startAddress st1) / pageSize (flash st1)) 1)).
  assert (EjsB : journalStart stB = journalStart st) by reflexivity.
  assert (EdsB : dataStart stB = dataStart st) by reflexivity.
  assert (EleB : logEnd stB = logEnd st) by reflexivity.
  assert (EflB : flash stB = flash st) by exact Hflash.
  assert (Hslot : forall k, entry_at stB k = entry_at st k).
  { intros k. unfold entry_at, cache_read. rewrite EjsB, EflB. reflexivity. }
  destruct (init_journal_spec fuel 0 false stB (journalStart stB) (dataStart stB))
    as [n [jh [de [Hrun1 [Hscan Hsel]]]]].
  { rewrite EjsB. lia. }
  { rewrite EdsB. lia. }
  { rewrite EdsB, EjsB. lia. }
  { intros i Hi. lia. }
  { split; [discriminate|]. intros [i [Hi _]]. lia. }
  { right. split; [intros j Hj; lia|]. split; reflexivity. }
  change (Z.of_nat 0) with 0 in Hrun1. rewrite Z.mul_0_r, Z.add_0_r in Hrun1.
  (* what the scan has selected *)
  destruct Hscan as [Hs1 Hs2]. rewrite EjsB, EdsB in Hs1, Hs2.
  unfold stops_at in Hs1, Hs2.
  assert (Hlive_slot : forall k, journalStart st + 8 * Z.of_nat k < dataStart st ->
            live (entry_at st k) = true ->
            (journalStart st + 8 * Z.of_nat k = journalHead st
             /\ strtoul16 (entry_at st k) <= dataEnd st - dataStart st)
            \/ (journalHead st < journalStart st + 8 * Z.of_nat k
                /\ containsOnly (entry_at st k) ERASED = true
                /\ strtoul16 (entry_at st k) = 0)).
  { intros k Hk Hl.
    destruct (Z.lt_trichotomy (journalStart st + 8 * Z.of_nat k) (journalHead st))
      as [Hlt|[Heq|Hgt]].
    - unfold live in Hl. rewrite (J1 k Hlt) in Hl. discriminate Hl.
    - left. split; [exact Heq|]. apply J2; assumption.
    - right. split; [exact Hgt|].
      destruct (J3 k Hgt Hk) as [Hz|He].
      + unfold live in Hl. rewrite Hz in Hl. discriminate Hl.
      + split; [exact He|]. apply strtoul16_erased; [|exact He].
        unfold entry_at, cache_read, read_bytes. rewrite length_map, length_seq. reflexivity. }
  assert (Hsel' :
            journalStart st <= jh /\ jh + 8 <= dataStart st
            /\ (jh - journalStart st) mod 8 = 0
            /\ dataStart st <= de <= dataEnd st
            /\ (forall k, journalStart st + 8 * Z.of_nat k < jh ->
                          containsOnly (entry_at st k) NUL = true)
            /\ (forall k, journalStart st + 8 * Z.of_nat k = jh ->
                          live (entry_at st k) = true ->
                          strtoul16 (entry_at st k) <= dataEnd st - dataStart st)
            /\ (forall k, jh < journalStart st + 8 * Z.of_nat k ->
                          journalStart st + 8 * Z.of_nat k < dataStart st ->
                          containsOnly (entry_at st k) NUL = true
                          \/ containsOnly (entry_at st k) ERASED = true)
            /\ (forall k, journalStart st + 8 * Z.of_nat k = journalHead st ->
                          live (entry_at st k) = true -> jh = journalHead st)).
  { apply Z.mod_divide in Hjh3; [|lia]. destruct Hjh3 as [hj Hhj].
    apply Z.mod_divide in Hj8, Hd8; try lia.
    destruct Hj8 as [j8 Hj8]. destruct Hd8 as [d8 Hd8].
    assert (Hnotlive : forall k, live (entry_at st k) = false ->
                         containsOnly (entry_at st k) NUL = true).
    { intros k H. unfold live in H. destruct (containsOnly (entry_at st k) NUL);
        [reflexivity|discriminate H]. }
    destruct Hsel as [[j [Hj [Hjl [Hjn [Ejh Ede]]]]]|[Hnone [Ejh Ede]]].
    - rewrite EjsB in Ejh. rewrite EdsB in Ede. rewrite Hslot in Hjl, Ede.
      destruct (Hs1 j Hj) as [Hjin _].
      assert (Hbelow_j : forall k, (k < j)%nat -> live (entry_at st k) = false).
      { intros k Hk. apply not_true_iff_false. intros Hl.
        destruct (Hs1 k ltac:(lia)) as [Hkin _].
        destruct (Hlive_slot j Hjin Hjl) as [[Hjh _]|[Hjgt [Hje _]]].
        - destruct (Hlive_slot k Hkin Hl) as [[Hkh _]|[Hkgt _]]; lia.
        - destruct (Hs1 j Hj) as [_ Hns]. apply Hns. split.
          + rewrite Hslot. exact Hje.
          + exists k. split; [exact Hk|]. rewrite Hslot. exact Hl. }
      assert (Hhead_le : journalHead st <= journalStart st + 8 * Z.of_nat j).
      { destruct (Hlive_slot j Hjin Hjl) as [[Hjh _]|[Hjgt _]]; lia. }
      assert (Hv : 0 <= strtoul16 (entry_at st j) <= dataEnd st - dataStart st).
      { split; [apply strtoul16_nonneg|].
        destruct (Hlive_slot j Hjin Hjl) as [[_ Hv]|[_ [_ Hv]]]; lia. }
      rewrite Ejh, Ede. unfold add32. rewrite wrap32_small by lia.
      split; [lia|]. split; [lia|].
      split; [apply Z.mod_divide; [lia|]; exists (Z.of_nat j); lia|].
      split; [lia|].
      split.
      { intros k Hk. apply Hnotlive. apply Hbelow_j. lia. }
      split.
      { intros k Hk Hl. assert (k = j) by lia. subst k. lia. }
      split.
      { intros k Hk1 Hk2. apply J3; [lia|exact Hk2]. }
      intros k Hk Hl.
      destruct (Z.eq_dec (journalStart st + 8 * Z.of_nat j) (journalHead st)) as [E|E];
        [exact E|].
      exfalso. assert (Hkj : (k < j)%nat) by lia.
      rewrite (Hbelow_j k Hkj) in Hl. discriminate Hl.
    - rewrite EjsB in Ejh. rewrite EdsB in Ede.
      assert (Hall : forall k, journalStart st + 8 * Z.of_nat k < dataStart st ->
                       (k < n)%nat).
      { intros k Hk. destruct Hs2 as [Hend|[_ [k' [Hk' Hl']]]].
        - lia.
        - rewrite (Hnone k' Hk') in Hl'. discriminate Hl'. }
      assert (Hzero : forall k, journalStart st + 8 * Z.of_nat k < dataStart st ->
                        containsOnly (entry_at st k) NUL = true).
      { intros k Hk. apply Hnotlive. rewrite <- Hslot. apply Hnone. apply Hall. exact Hk. }
      rewrite Ejh, Ede.
      split; [lia|]. split; [lia|]. split; [rewrite Z.sub_diag; reflexivity|].
      split; [lia|].
      split; [intros k Hk; lia|].
      split.
      { intros k Hk Hl. exfalso. unfold live in Hl.
        rewrite Hzero in Hl by lia. discriminate Hl. }
      split; [intros k Hk1 Hk2; left; apply Hzero; exact Hk2|].
      intros k Hk Hl. exfalso. unfold live in Hl.
      rewrite Hzero in Hl by lia. discriminate Hl. }
  destruct Hsel' as [Hjh_lo [Hjh_hi [Hjh_mod [Hde_in [N1 [N2 [N3 Nhead]]]]]]].
  (* the walk to the end of the data *)
  destruct (init_dataEnd_spec fuel (set_journalHead stB jh) de de)
    as [d [Hrun2 Hwalk]]; try lia.
  { change (logEnd (set_journalHead stB jh)) with (logEnd st). lia. }
  { change (logEnd (set_journalHead stB jh)) with (logEnd st). lia. }
  assert (Ed : d = dataEnd st).
  { destruct Hwalk as [W1 [W2 W3]].
    change (logEnd (set_journalHead stB jh)) with (logEnd st) in W2, W3.
    change (flash (set_journalHead stB jh)) with (flash u) in W2, W3.
    rewrite Hflash in W2, W3.
    destruct (Z.lt_trichotomy d (dataEnd st)) as [Hlt|[Heq|Hgt]]; [|exact Heq|].
    - exfalso. apply (D1 d); [lia|]. apply W3. lia.
    - exfalso. destruct (W2 (dataEnd st) ltac:(lia)) as [Hl Hne].
      apply Hne. apply D2; [|exact Hl].
      rewrite page_end by exact Hps.
      pose proof (Z.mod_pos_bound (dataEnd st) (pageSize (flash st)) Hps). lia. }
  subst d.
  set (stC := set_dataEnd (set_journalHead stB jh) (dataEnd st)) in *.
  destruct (init_headings_returns fuel stC a b) as [stD [Hrun3 _]].
  { change (startAddress stC) with (startAddress st). lia. }
  { change (startAddress stC) with (startAddress st). exact Hab. }
  { lia. }
  { change (flash stC) with (flash u). rewrite Hflash. exact Ha. }
  { change (flash stC) with (flash u). rewrite Hflash. exact Hbe. }
  { change (startAddress stC) with (startAddress st). lia. }
  destruct (init_headings_fields fuel stC stD Hrun3)
    as [F1 [F2 [F3 [F4 [F5 [F6 [F7 F8]]]]]]].
  change (startAddress stC) with (startAddress st) in F1.
  change (journalStart stC) with (journalStart st) in F2.
  change (dataStart stC) with (dataStart st) in F3.
  change (logEnd stC) with (logEnd st) in F4.
  change (journalHead stC) with jh in F5.
  change (dataEnd stC) with (dataEnd st) in F6.
  change (flash stC) with (flash u) in F8. rewrite Hflash in F8.
  exists (set_status stD (set_flag (status stD) MICROBIT_LOG_STATUS_INITIALIZED)).
  split.
  { unfold bind at 1. unfold modify at 1.
    unfold bind at 1. unfold modify at 1.
    unfold bind at 1. unfold modify at 1.
    unfold bind at 1. cbn [get].
    fold stB. change (journalHead (set_dataEnd (set_journalHead stB (journalStart stB))
                                     (dataStart (set_journalHead stB (journalStart stB)))))
      with (journalStart stB).
    change (dataStart (set_journalHead stB (journalStart stB))) with (dataStart stB).
    rewrite (bind_step _ _ _ _ _ Hrun1), (bind_step _ _ _ _ _ Hrun2).
    fold stC. rewrite (bind_step _ _ _ _ _ Hrun3). reflexivity. }
  split.
  { unfold initialized. cbn [status set_status]. apply initialized_after_set. }
  cbn [flash startAddress journalStart dataStart logEnd dataEnd journalHead set_status].
  split; [exact F8|]. split; [exact F1|]. split; [exact F2|]. split; [exact F3|].
  split; [exact F4|]. split; [exact F6|].
  split.
  { split; [|split; [|split]].
    - unfold layout_ok.
      cbn [flash startAddress journalStart dataStart logEnd dataEnd journalHead set_status].
      rewrite F1, F2, F3, F4, F5, F6, F8.
      repeat split; try assumption; lia.
    - unfold metadata_stored.
      cbn [flash startAddress journalStart dataStart logEnd set_status].
      rewrite F1, F2, F3, F4, F8. exact Hmeta.
    - assert (Hslot' : forall k,
                entry_at (set_status stD (set_flag (status stD) MICROBIT_LOG_STATUS_INITIALIZED)) k
                = entry_at st k).
      { intros k. unfold entry_at, cache_read.
        cbn [flash journalStart set_status]. rewrite F2, F8. reflexivity. }
      unfold journal_shape.
      cbn [journalStart dataStart dataEnd journalHead set_status].
      rewrite F2, F3, F5, F6.
      split; [|split].
      + intros k Hk. rewrite Hslot'. apply N1. exact Hk.
      + intros k Hk. rewrite Hslot'. apply N2. exact Hk.
      + intros k Hk1 Hk2. rewrite Hslot'. apply N3; assumption.
    - unfold data_shape, tail_free.
      cbn [flash dataStart dataEnd logEnd set_status].
      rewrite F3, F4, F6, F8. split; assumption. }
  split; [intros k Hk Hl; rewrite F5; exact (Nhead k Hk Hl)|].
  exists stC, stD.
  split; [exact Hflash|]. split; [reflexivity|]. split; [reflexivity|].
  split; [reflexivity|]. split; [exact Hrun3|]. repeat split; reflexivity.
Qed.

(** [init] on an object not yet initialized, over the flash of a consistent
    log: it finds the layout, the end of the data and a journal head with
    which the log is consistent again. *)
Lemma mount_spec (fuel : nat) (u st : MicroBitLog) :
  consistent st ->
  flash u = flash st ->
  has_flag (status u) MICROBIT_LOG_STATUS_INITIALIZED = false ->
  logEnd st <= Z.of_nat fuel ->
  exists st',
    init fuel u = Some (tt, st')
    /\ initialized st'
    /\ flash st' = flash st
    /\ startAddress st' = startAddress st
    /\ journalStart st' = journalStart st
    /\ dataStart st' = dataStart st
    /\ logEnd st' = logEnd st
    /\ dataEnd st' = dataEnd st
    /\ consistent st'
    /\ (forall k, journalStart st + 8 * Z.of_nat k = journalHead st ->
                  live (entry_at st k) = true ->
                  journalHead st' = journalHead st).
Proof.
  intros Hcons Hflash Hinit Hfuel.
  destruct (mount_steps fuel u st Hcons Hflash Hinit Hfuel)
    as [st' [H1 [H2 [H3 [H4 [H5 [H6 [H7 [H8 [H9 [H10 _]]]]]]]]]]].
  exists st'. repeat (split; [assumption|]). exact H10.
Qed.


(** [clear] leaves a consistent log, empty and initialized. *)
Lemma clear_consistent (fuel : nat) (fullErase : bool) (st : MicroBitLog) :
  formattable st ->
  strtoul16 (firstn 8 JournalEntry_new) = 0 ->
  flashEnd (flash st) <= pageSize (flash st) * Z.of_nat fuel ->
  exists st',
    clear fuel fullErase st = Some (tt, st')
    /\ consistent st'
    /\ status st' = MICROBIT_LOG_STATUS_INITIALIZED
    /\ pageSize (flash st') = pageSize (flash st)
    /\ flashEnd (flash st') = flashEnd (flash st)
    /\ dataStart st' = metadata_address (pageSize (flash st)) + 2 * pageSize (flash st)
    /\ logEnd st' = flashEnd (flash st) - pageSize (flash st) - 4
    /\ dataEnd st' = dataStart st'
    /\ journalHead st' = journalStart st'
    /\ rowData st' = []
    /\ headingsChanged st' = false
    /\ headingStart st' = 0 /\ headingLength st' = 0
    /\ timeStampFormat st' = timeStampFormat st
    /\ timeStampHeading st' = timeStampHeading st
    /\ (forall a, startAddress st' + sizeof_MicroBitLogMetaData <= a < journalStart st' ->
                  memory (flash st') a = ERASED).
Proof.
  intros Hfmt Hzero Hfuel.
  destruct (clear_spec fuel fullErase st Hfmt Hfuel)
    as [F [Hrun [P1 [P2 [P3 [Esa [Ejs [Eds [Ele [Hmd [Hje [Hgap [Her _]]]]]]]]]]]]].
  destruct Hfmt as [Hps [H256 [Hfs [Hfsm [Hhdr [Hsize [Hmax Hlen]]]]]]].
  set (ps := pageSize (flash st)) in *.
  set (L := cleared st) in *.
  assert (Hps256 : 256 <= ps).
  { unfold CONFIG_MICROBIT_LOG_CACHE_BLOCK_SIZE in H256.
    pose proof (Z.div_mod ps 256 ltac:(lia)) as Hd. rewrite H256 in Hd.
    destruct (Z_lt_ge_dec 0 (ps / 256)); [lia|].
    assert (ps / 256 = 0) by (pose proof (Z.div_pos ps 256); lia). lia. }
  destruct (metadata_address_facts ps Hps ltac:(lia)) as [Hsam Hsab].
  rewrite <- Esa in Hsam, Hsab, Hsize, Hhdr.
  set (st' := set_status (set_flash L F) MICROBIT_LOG_STATUS_INITIALIZED) in *.
  assert (Edm : dataStart L mod ps = 0).
  { rewrite Eds, Ejs.
    rewrite <- Zplus_mod_idemp_r, Z.mod_same, Z.add_0_r by lia.
    rewrite <- Zplus_mod_idemp_r, Z.mod_same, Z.add_0_r by lia. exact Hsam. }
  exists st'. split; [exact Hrun|].
  split.
  { split; [|split; [|split]].
    - unfold layout_ok, st'.
      cbn [flash set_flash set_status startAddress journalStart journalHead dataStart
           dataEnd logEnd].
      rewrite P1, P3. fold ps.
      change (journalHead L) with (journalStart L).
      change (dataEnd L) with (dataStart L).
      rewrite Z.sub_diag.
      repeat split; try assumption; try reflexivity; lia.
    - unfold metadata_stored, st', sizeof_MicroBitLogMetaData.
      cbn [flash set_flash set_status startAddress journalStart dataStart logEnd].
      split; [exact Hmd|].
      exists (startAddress L + 40), (startAddress L + 40).
      split; [lia|]. split; [lia|].
      rewrite Hgap by lia. split; [discriminate|reflexivity].
    - assert (Hslot : forall k, entry_at st' k
                                = read_bytes (memory F) (journalStart L + 8 * Z.of_nat k) 8)
        by reflexivity.
      unfold journal_shape.
      change (journalStart st') with (journalStart L).
      change (journalHead st') with (journalStart L).
      change (dataStart st') with (dataStart L).
      change (dataEnd st') with (dataStart L).
      split; [intros k Hk; lia|]. split.
      + intros k Hk _. assert (k = 0%nat) by lia. subst k.
        rewrite Hslot. change (Z.of_nat 0) with 0. rewrite Z.mul_0_r, Z.add_0_r.
        rewrite Hje, Hzero. lia.
      + intros k Hk1 Hk2. right. rewrite Hslot. apply containsOnly_read.
        intros x Hx. apply Her. lia.
    - split.
      + change (dataStart st') with (dataStart L). change (dataEnd st') with (dataStart L).
        intros a Ha. lia.
      + unfold tail_free.
        change (dataEnd st') with (dataStart L). change (logEnd st') with (logEnd L).
        change (flash st') with F. rewrite P1. fold ps.
        rewrite page_end by exact Hps. rewrite Edm, Z.sub_0_r.
        intros a Ha _. apply Her. lia. }
  split; [reflexivity|]. split; [exact P1|]. split; [exact P3|].
  split; [change (dataStart st') with (dataStart L); lia|].
  split; [exact Ele|].
  do 8 (split; [reflexivity|]). exact Hgap.
Qed.


(** ** The log across a power cycle *)

(** X9.  [clear] formats the flash, with a full erase or without: it returns
    with the flag [initialized] alone, an empty row, no headings, the layout
    computed from the page size and the end of the flash ([dataStart] two
    pages above the metadata, [logEnd] a page and four bytes below the end),
    [dataEnd] at [dataStart] and the journal head at [journalStart]; the
    settings of the time stamp are kept.  The flash then holds what the fields
    say: the log is consistent; and the bytes between the metadata block and
    the journal, where the headings go, are unused. *)
Theorem clear_formats (fuel : nat) (fullErase : bool) (st : MicroBitLog) :
  formattable st ->
  strtoul16 (firstn 8 JournalEntry_new) = 0 ->
  flashEnd (flash st) <= pageSize (flash st) * Z.of_nat fuel ->
  exists st',
    clear fuel fullErase st = Some (tt, st')
    /\ consistent st'
    /\ status st' = MICROBIT_LOG_STATUS_INITIALIZED
    /\ pageSize (flash st') = pageSize (flash st)
    /\ flashEnd (flash st') = flashEnd (flash st)
    /\ dataStart st' = metadata_address (pageSize (flash st)) + 2 * pageSize (flash st)
    /\ logEnd st' = flashEnd (flash st) - pageSize (flash st) - 4
    /\ dataEnd st' = dataStart st'
    /\ journalHead st' = journalStart st'
    /\ rowData st' = []
    /\ headingsChanged st' = false
    /\ headingStart st' = 0 /\ headingLength st' = 0
    /\ timeStampFormat st' = timeStampFormat st
    /\ timeStampHeading st' = timeStampHeading st
    /\ (forall a, startAddress st' + sizeof_MicroBitLogMetaData <= a < journalStart st' ->
                  memory (flash st') a = ERASED).
Proof. exact (clear_consistent fuel fullErase st). Qed.

(** X10.  An append keeps a consistent log consistent, whether the string
    fits or not, provided no byte it writes is 0xFF; it touches neither the
    bytes below the journal nor the data already stored.  When the string
    fits, its characters, as cleaned, are read back from the flash at the old
    [dataEnd]. *)
Theorem logString_keeps_consistent (fuel : nat) (s : list ascii) (st : MicroBitLog) :
  initialized st ->
  consistent st ->
  INVALID_CHAR <> ERASED ->
  ~ In ERASED (c_str s) ->
  (length (c_str s) <= fuel)%nat ->
  exists r st',
    logString fuel s st = Some (r, st')
    /\ consistent st'
    /\ initialized st'
    /\ layout_kept st st'
    /\ (forall a, a < journalStart st \/ dataStart st <= a < dataEnd st ->
                  memory (flash st') a = memory (flash st) a)
    /\ ((strlen s <= logEnd st - dataEnd st
         /\ r = DEVICE_OK
         /\ dataEnd st' = dataEnd st + strlen s
         /\ read_bytes (memory (flash st')) (dataEnd st) (length (c_str s))
            = cleaned (c_str s) false)
        \/ (logEnd st - dataEnd st < strlen s
            /\ r = DEVICE_NO_RESOURCES
            /\ dataEnd st' = dataEnd st
            /\ journalHead st' = journalHead st)).
Proof. exact (logString_consistent fuel s st). Qed.

(** X11.  [init] on an object that is not initialized, over the flash of a
    consistent log, mounts the log: it reads the layout back from the
    metadata, finds [dataEnd] where the log had it, and leaves a consistent
    log on the same flash.  The journal head it finds is that of the log
    when the entry of that head is live. *)
Theorem mount_recovers_dataEnd (fuel : nat) (u st : MicroBitLog) :
  consistent st ->
  flash u = flash st ->
  has_flag (status u) MICROBIT_LOG_STATUS_INITIALIZED = false ->
  logEnd st <= Z.of_nat fuel ->
  exists st',
    init fuel u = Some (tt, st')
    /\ initialized st'
    /\ flash st' = flash st
    /\ startAddress st' = startAddress st
    /\ journalStart st' = journalStart st
    /\ dataStart st' = dataStart st
    /\ logEnd st' = logEnd st
    /\ dataEnd st' = dataEnd st
    /\ consistent st'
    /\ (forall k, journalStart st + 8 * Z.of_nat k = journalHead st ->
                  live (entry_at st k) = true ->
                  journalHead st' = journalHead st).
Proof. exact (mount_spec fuel u st). Qed.


Lemma isPresent_absent (u : MicroBitLog) :
  has_flag (status u) MICROBIT_LOG_STATUS_INITIALIZED = false ->
  pageSize (flash u) <> 0 ->
  firstn 17 (read_bytes (memory (flash u)) (metadata_address (pageSize (flash u))) 40)
  <> firstn 17 MICROBIT_LOG_VERSION ->
  exists u',
    isPresent u = Some (false, u')
    /\ flash u' = flash u /\ status u' = status u
    /\ timeStampFormat u' = timeStampFormat u
    /\ timeStampHeading u' = timeStampHeading u.
Proof.
  intros Hinit Hps Hver. unfold isPresent. rewrite Hinit.
  replace (pageSize (flash u) =? 0) with false by (symmetry; apply Z.eqb_neq; exact Hps).
  eexists. split.
  - f_equal. f_equal.
    replace (bytes_eqb _ (firstn 17 MICROBIT_LOG_VERSION)) with false;
      [apply andb_false_r|].
    symmetry. apply bytes_eqb_neq.
    rewrite firstn_firstn. exact Hver.
  - repeat split; reflexivity.
Qed.

(** [init] on a flash without the version string formats it. *)
Lemma init_absent_formats (fuel : nat) (u : MicroBitLog) :
  has_flag (status u) MICROBIT_LOG_STATUS_INITIALIZED = false ->
  formattable u ->
  strtoul16 (firstn 8 JournalEntry_new) = 0 ->
  firstn 17 (read_bytes (memory (flash u)) (metadata_address (pageSize (flash u))) 40)
  <> firstn 17 MICROBIT_LOG_VERSION ->
  flashEnd (flash u) <= pageSize (flash u) * Z.of_nat fuel ->
  exists st',
    init fuel u = Some (tt, st')
    /\ consistent st'
    /\ status st' = MICROBIT_LOG_STATUS_INITIALIZED
    /\ dataEnd st' = dataStart st'
    /\ journalHead st' = journalStart st'
    /\ rowData st' = []
    /\ timeStampFormat st' = timeStampFormat u.
Proof.
  intros Hinit Hfmt Hzero Hver Hfuel.
  destruct (isPresent_absent u Hinit ltac:(destruct Hfmt; lia) Hver)
    as [u' [Hpres [Hfl [_ [Hts _]]]]].
  assert (Hfmt' : formattable u') by (unfold formattable in *; rewrite Hfl; exact Hfmt).
  destruct (clear_consistent fuel clear_fullErase_default u' Hfmt' Hzero
              ltac:(rewrite Hfl; exact Hfuel))
    as [st' [Hrun [Hcons [Hst [_ [_ [_ [_ [Hde [Hjh [Hrows [_ [_ [_ [Htf _]]]]]]]]]]]]]]].
  exists st'. unfold init. rewrite Hinit, Hpres.
  split; [exact Hrun|]. split; [exact Hcons|]. split; [exact Hst|].
  split; [exact Hde|]. split; [exact Hjh|]. split; [exact Hrows|]. congruence.
Qed.

(** X13.  On an object that is not initialized, over a flash that does not
    hold the version string at the address of the metadata, [init] formats
    the flash as [clear] does without a full erase, and leaves an empty,
    consistent log. *)
Theorem init_formats_when_absent (fuel : nat) (u : MicroBitLog) :
  has_flag (status u) MICROBIT_LOG_STATUS_INITIALIZED = false ->
  formattable u ->
  strtoul16 (firstn 8 JournalEntry_new) = 0 ->
  firstn 17 (read_bytes (memory (flash u)) (metadata_address (pageSize (flash u))) 40)
  <> firstn 17 MICROBIT_LOG_VERSION ->
  flashEnd (flash u) <= pageSize (flash u) * Z.of_nat fuel ->
  exists st',
    init fuel u = Some (tt, st')
    /\ consistent st'
    /\ status st' = MICROBIT_LOG_STATUS_INITIALIZED
    /\ dataEnd st' = dataStart st'
    /\ journalHead st' = journalStart st'
    /\ rowData st' = []
    /\ timeStampFormat st' = timeStampFormat u.
Proof. exact (init_absent_formats fuel u). Qed.


Lemma isPresent_dataEnd (st : MicroBitLog) (d : Z) :
  isPresent (set_dataEnd st d)
  = option_map (fun r => (fst r, set_dataEnd (snd r) d)) (isPresent st).
Proof.
  destruct st. unfold isPresent, set_dataEnd. cbn [status flash].
  destruct (has_flag _ MICROBIT_LOG_STATUS_INITIALIZED); [reflexivity|].
  destruct (pageSize _ =? 0); reflexivity.
Qed.

Lemma init_mount_dataEnd (fuel : nat) (st : MicroBitLog) (d : Z) :
  init_mount fuel (set_dataEnd st d) = init_mount fuel st.
Proof.
  destruct st. unfold init_mount, set_dataEnd at 1. cbn [flash].
  destruct (pageSize _ =? 0); [reflexivity|].
  do 3 (unfold bind at 1; unfold modify at 1).
  symmetry. do 3 (unfold bind at 1; unfold modify at 1).
  reflexivity.
Qed.

Lemma clear_dataEnd (fuel : nat) (fullErase : bool) (st : MicroBitLog) (d : Z) :
  clear fuel fullErase (set_dataEnd st d) = clear fuel fullErase st.
Proof.
  destruct st. unfold clear, set_dataEnd at 1. cbn [flash].
  destruct (pageSize _ =? 0); [reflexivity|].
  do 6 (unfold bind at 1; unfold modify at 1).
  symmetry. do 6 (unfold bind at 1; unfold modify at 1).
  reflexivity.
Qed.

(** X14.  [init] assigns [dataEnd] before it reads it: on the object that the
    constructor leaves, which does not assign the field, [init] gives the same
    result whatever the field held. *)
Theorem init_ignores_unassigned_dataEnd (fuel : nat) (f : Storage) (pages d1 d2 now : Z) :
  init fuel (MicroBitLog_new f pages d1 now) = init fuel (MicroBitLog_new f pages d2 now).
Proof.
  assert (H : forall d, init fuel (MicroBitLog_new f pages d now)
                        = init fuel (MicroBitLog_new f pages 0 now)).
  { intros d.
    change (MicroBitLog_new f pages d now) with (set_dataEnd (MicroBitLog_new f pages 0 now) d).
    set (u := MicroBitLog_new f pages 0 now).
    assert (Hu : has_flag (status u) MICROBIT_LOG_STATUS_INITIALIZED = false) by reflexivity.
    clearbody u.
    unfold init. change (status (set_dataEnd u d)) with (status u).
    rewrite isPresent_dataEnd, Hu.
    destruct (isPresent u) as [[[|] u1]|]; cbn [option_map fst snd].
    - apply init_mount_dataEnd.
    - apply clear_dataEnd.
    - reflexivity. }
  rewrite (H d1), (H d2). reflexivity.
Qed.


(** ** invalidate *)

Lemma initialized_after_clear (s : Z) :
  has_flag (clear_flag s MICROBIT_LOG_STATUS_INITIALIZED) MICROBIT_LOG_STATUS_INITIALIZED = false.
Proof. exact (eq_trans (has_flag_clear s 0 0 ltac:(lia) ltac:(lia)) (andb_false_r _)). Qed.

Lemma row_started_after_clear_initialized (s : Z) :
  has_flag (clear_flag s MICROBIT_LOG_STATUS_INITIALIZED) MICROBIT_LOG_STATUS_ROW_STARTED
  = has_flag s MICROBIT_LOG_STATUS_ROW_STARTED.
Proof. exact (eq_trans (has_flag_clear s 0 1 ltac:(lia) ltac:(lia)) (andb_true_r _)). Qed.

Lemma full_after_clear_initialized (s : Z) :
  has_flag (clear_flag s MICROBIT_LOG_STATUS_INITIALIZED) MICROBIT_LOG_STATUS_FULL
  = has_flag s MICROBIT_LOG_STATUS_FULL.
Proof. exact (eq_trans (has_flag_clear s 0 2 ltac:(lia) ltac:(lia)) (andb_true_r _)). Qed.

Lemma program_NUL (address x : Z) (n : nat) (m : Z -> ascii) :
  address <= x < address + Z.of_nat n -> program address (repeat NUL n) m x = NUL.
Proof.
  intros Hx. unfold program. rewrite repeat_length.
  replace (address <=? x) with true by (symmetry; apply Z.leb_le; lia).
  replace (x <? address + Z.of_nat n) with true by (symmetry; apply Z.ltb_lt; lia).
  cbn [andb]. rewrite nth_repeat_lt by lia. apply byte_and_NUL_r.
Qed.

Lemma program_zeroes (address : Z) (n : nat) (m : Z -> ascii) :
  read_bytes (program address (repeat NUL n) m) address n = repeat NUL n.
Proof.
  rewrite <- (repeat_length NUL n) at 2. apply read_bytes_eq.
  rewrite repeat_length. intros i Hi. rewrite nth_repeat.
  apply program_NUL. lia.
Qed.

(** X15.  On an initialized log whose metadata is at its address,
    [invalidate] overwrites the metadata block and the word at [logEnd] with
    zeroes, touches no other byte, and clears the flag of initialization
    alone; after it [isPresent] finds no log, and the next [init] is a
    [clear] without a full erase.  On an object that is not initialized over a
    flash without the version string, it leaves the flash as it is. *)
Theorem invalidate_makes_absent (st : MicroBitLog) :
  0 < pageSize (flash st) ->
  (initialized st ->
   startAddress st = metadata_address (pageSize (flash st)) ->
   exists st',
     invalidate st = Some (tt, st')
     /\ has_flag (status st') MICROBIT_LOG_STATUS_INITIALIZED = false
     /\ row_started st' = row_started st
     /\ isFull st' = isFull st
     /\ read_bytes (memory (flash st')) (startAddress st) 40 = repeat NUL 40
     /\ read_bytes (memory (flash st')) (logEnd st) 4 = repeat NUL 4
     /\ (forall a, ~ startAddress st <= a < startAddress st + 40 ->
                   ~ logEnd st <= a < logEnd st + 4 ->
                   memory (flash st') a = memory (flash st) a)
     /\ exists st'',
          isPresent st' = Some (false, st'')
          /\ flash st'' = flash st'
          /\ forall fuel, init fuel st' = clear fuel clear_fullErase_default st'')
  /\ (has_flag (status st) MICROBIT_LOG_STATUS_INITIALIZED = false ->
      firstn 17 (read_bytes (memory (flash st)) (metadata_address (pageSize (flash st))) 40)
      <> firstn 17 MICROBIT_LOG_VERSION ->
      exists st',
        invalidate st = Some (tt, st')
        /\ has_flag (status st') MICROBIT_LOG_STATUS_INITIALIZED = false
        /\ flash st' = flash st).
Proof.
  intros Hps. split.
  - intros Hinit Hsa.
    unfold initialized in Hinit.
    assert (Hpres : isPresent st = Some (true, st))
      by (unfold isPresent; rewrite Hinit; reflexivity).
    unfold invalidate. rewrite (bind_step _ _ _ _ _ Hpres).
    unfold bind at 1. cbn [get when].
    unfold bind at 1, bind at 1, flash_write at 1, modify at 1.
    unfold flash_write at 1, modify at 1, modify at 1.
    eexists. split; [reflexivity|].
    cbn [status set_status set_flash flash storage_flash_write issue memory logEnd
         startAddress].
    split; [apply initialized_after_clear|].
    split; [unfold row_started; cbn [status set_status set_flash];
            apply row_started_after_clear_initialized|].
    split; [unfold isFull; cbn [status set_status set_flash];
            apply full_after_clear_initialized|].
    set (m1 := program (startAddress st) (repeat NUL (Z.to_nat sizeof_MicroBitLogMetaData))
                 (memory (flash st))).
    assert (Hzero : read_bytes (program (logEnd st) (repeat NUL 4) m1) (startAddress st) 40
                    = repeat NUL 40).
    { apply (read_bytes_eq _ _ (repeat NUL 40)).
      rewrite repeat_length. intros i Hi. rewrite nth_repeat.
      destruct (Z.leb_spec (logEnd st) (startAddress st + Z.of_nat i)) as [H1|H1];
        [destruct (Z.ltb_spec (startAddress st + Z.of_nat i) (logEnd st + 4)) as [H2|H2]|].
      - apply program_NUL. lia.
      - rewrite program_outside by (rewrite repeat_length; lia).
        apply program_NUL. cbn. lia.
      - rewrite program_outside by (rewrite repeat_length; lia).
        apply program_NUL. cbn. lia. }
    split; [exact Hzero|].
    split; [apply program_zeroes|].
    split.
    { intros a H1 H2. rewrite program_outside by (rewrite repeat_length; lia).
      unfold m1. rewrite program_outside by (rewrite repeat_length; cbn; lia).
      reflexivity. }
    match goal with |- context [isPresent ?u0] => set (u := u0) end.
    destruct (isPresent_absent u) as [u' [Hrun [Hfl _]]].
    + apply initialized_after_clear.
    + change (pageSize (flash u)) with (pageSize (flash st)). lia.
    + change (pageSize (flash u)) with (pageSize (flash st)).
      change (memory (flash u)) with (program (logEnd st) (repeat NUL 4) m1).
      rewrite <- Hsa, Hzero. discriminate.
    + exists u'. split; [exact Hrun|]. split; [exact Hfl|].
      intros fuel. unfold init. rewrite Hrun.
      replace (has_flag (status u) MICROBIT_LOG_STATUS_INITIALIZED) with false
        by (symmetry; apply initialized_after_clear).
      reflexivity.
  - intros Hinit Hver.
    destruct (isPresent_absent st Hinit ltac:(lia) Hver) as [u' [Hrun [Hfl [Hst _]]]].
    unfold invalidate. rewrite (bind_step _ _ _ _ _ Hrun).
    unfold bind at 1. cbn [get when]. unfold bind, ret, modify.
    eexists. split; [reflexivity|].
    cbn [status set_status flash]. split; [apply initialized_after_clear|exact Hfl].
Qed.


(** ** The headings: what init reads back *)

Lemma heading_line_cons (k k2 : ManagedString) (t : list ManagedString) :
  heading_line (k :: k2 :: t) = k ++ ","%char :: heading_line (k2 :: t).
Proof.
  unfold heading_line. change (join (str ",") (k :: k2 :: t))
    with (k ++ str "," ++ join (str ",") (k2 :: t)).
  rewrite <- !app_assoc. reflexivity.
Qed.

Lemma terminate_key (k : ManagedString) :
  Forall heading_char k -> map (fun c => if is_separator c then NUL else c) k = k.
Proof.
  induction 1 as [|c t [_ [_ Hc]] _ IH]; [reflexivity|].
  cbn [map]. rewrite Hc, IH. reflexivity.
Qed.

Lemma key_no_separator (k : ManagedString) :
  Forall heading_char k -> filter is_separator k = [].
Proof.
  induction 1 as [|c t [_ [_ Hc]] _ IH]; [reflexivity|].
  cbn [filter]. rewrite Hc. exact IH.
Qed.

(** The line with its separators turned into terminators is the keys, each
    terminated; it holds as many separators as keys. *)
Lemma heading_line_terminated (keys : list ManagedString) :
  keys <> [] ->
  Forall (Forall heading_char) keys ->
  map (fun c => if is_separator c then NUL else c) (heading_line keys)
  = concat (map (fun k => k ++ [NUL]) keys)
  /\ length (filter is_separator (heading_line keys)) = length keys.
Proof.
  intros Hne H. induction H as [|k t Hk Ht IH]; [contradiction|].
  destruct t as [|k2 t].
  - unfold heading_line. cbn [join map concat length].
    rewrite map_app, filter_app, (terminate_key k Hk), (key_no_separator k Hk), app_nil_r.
    split; reflexivity.
  - destruct (IH ltac:(discriminate)) as [IH1 IH2].
    assert (E1 : forall l, map (fun c => if is_separator c then NUL else c) (","%char :: l)
                           = NUL :: map (fun c => if is_separator c then NUL else c) l)
      by reflexivity.
    assert (E2 : forall l, filter is_separator (","%char :: l)
                           = ","%char :: filter is_separator l) by reflexivity.
    rewrite heading_line_cons, map_app, filter_app, (terminate_key k Hk),
      (key_no_separator k Hk), E1, E2.
    split.
    + change (concat (map (fun k0 => k0 ++ [NUL]) (k :: k2 :: t)))
        with ((k ++ [NUL]) ++ concat (map (fun k0 => k0 ++ [NUL]) (k2 :: t))).
      rewrite <- app_assoc. cbn [app]. f_equal. f_equal. exact IH1.
    + cbn [app length]. f_equal. exact IH2.
Qed.

Lemma init_keys_terminated (keys : list ManagedString) :
  Forall (Forall heading_char) keys ->
  forall pre : list ascii,
    init_keys (length keys) (length pre) (pre ++ concat (map (fun k => k ++ [NUL]) keys))
    = empty_row keys.
Proof.
  induction 1 as [|k t Hk Ht IH]; intros pre; [reflexivity|].
  cbn [length init_keys map concat empty_row].
  rewrite skipn_app, Nat.sub_diag, skipn_all. cbn [skipn app].
  rewrite <- app_assoc. cbn [app].
  assert (Hc : c_str (k ++ NUL :: concat (map (fun k0 => k0 ++ [NUL]) t)) = k).
  { apply c_str_no_NUL. eapply Forall_impl; [|exact Hk].
    intros c [Hc _]. apply Ascii.eqb_neq. exact Hc. }
  rewrite Hc. f_equal.
  specialize (IH (pre ++ k ++ [NUL])).
  rewrite !length_app in IH. cbn [length] in IH.
  rewrite <- !app_assoc in IH. cbn [app] in IH.
  rewrite Nat.add_assoc in IH. exact IH.
Qed.

(** The parse of a stored line: the keys it was made of. *)
Lemma heading_line_parsed (keys : list ManagedString) :
  keys <> [] ->
  Forall (Forall heading_char) keys ->
  init_keys (length (filter is_separator (heading_line keys))) 0
    (map (fun c => if is_separator c then NUL else c) (heading_line keys))
  = empty_row keys.
Proof.
  intros Hne H. destruct (heading_line_terminated keys Hne H) as [E1 E2].
  rewrite E1, E2. exact (init_keys_terminated keys H []).
Qed.

Lemma heading_line_chars (keys : list ManagedString) :
  Forall (Forall heading_char) keys ->
  Forall (fun c => c <> NUL /\ c <> ERASED) (heading_line keys).
Proof.
  intros H.
  assert (Hk : forall k, Forall heading_char k -> Forall (fun c => c <> NUL /\ c <> ERASED) k).
  { intros k. apply Forall_impl. intros c [H1 [H2 _]]. split; assumption. }
  assert (Hnl : Forall (fun c => c <> NUL /\ c <> ERASED) [NL])
    by (constructor; [split; discriminate|constructor]).
  induction H as [|k t Hk1 Ht IH].
  - exact Hnl.
  - destruct t as [|k2 t].
    + unfold heading_line. cbn [join]. apply Forall_app. split; [apply Hk; exact Hk1|exact Hnl].
    + rewrite heading_line_cons. apply Forall_app. split; [apply Hk; exact Hk1|].
      constructor; [split; discriminate|exact IH].
Qed.

Lemma init_skip_zeroes_run (fuel : nat) (st : MicroBitLog) :
  forall (z : nat) (start : Z),
    0 <= start -> start + Z.of_nat z < 2 ^ 32 ->
    (forall i, (i < z)%nat -> memory (flash st) (start + Z.of_nat i) = NUL) ->
    memory (flash st) (start + Z.of_nat z) <> NUL ->
    (z <= fuel)%nat ->
    init_skip_zeroes fuel start st = Some (start + Z.of_nat z, st).
Proof.
  induction fuel as [|f IH]; intros z start Hs Hz Hm Hne Hfuel.
  - assert (z = 0%nat) by lia. subst z. cbn [init_skip_zeroes].
    destruct (bytes_eqb (cache_read st start 1) [NUL]) eqn:Hb.
    + apply read_one in Hb. rewrite Z.add_0_r in Hne. contradiction.
    + rewrite Z.add_0_r. reflexivity.
  - cbn [init_skip_zeroes].
    destruct (bytes_eqb (cache_read st start 1) [NUL]) eqn:Hb.
    + apply read_one in Hb. destruct z as [|z].
      { rewrite Z.add_0_r in Hne. contradiction. }
      replace (add32 start 1) with (start + 1) by (symmetry; apply wrap32_small; lia).
      rewrite (IH z (start + 1)); try lia.
      * f_equal. f_equal. lia.
      * intros i Hi. replace (start + 1 + Z.of_nat i) with (start + Z.of_nat (S i)) by lia.
        apply Hm. lia.
      * replace (start + 1 + Z.of_nat z) with (start + Z.of_nat (S z)) by lia. exact Hne.
    + destruct z as [|z]; [rewrite Z.add_0_r; reflexivity|].
      exfalso. apply not_true_iff_false in Hb. apply Hb. apply read_one.
      rewrite <- (Z.add_0_r start). apply (Hm 0%nat). lia.
Qed.

Lemma init_headings_end_run (fuel : nat) (st : MicroBitLog) :
  forall (n : nat) (e : Z),
    0 <= e -> e + Z.of_nat n < 2 ^ 32 ->
    (forall i, (i < n)%nat -> memory (flash st) (e + Z.of_nat i) <> ERASED) ->
    memory (flash st) (e + Z.of_nat n) = ERASED ->
    (n <= fuel)%nat ->
    init_headings_end fuel e st = Some (e + Z.of_nat n, st).
Proof.
  induction fuel as [|f IH]; intros n e He Hn Hm Hend Hfuel.
  - assert (n = 0%nat) by lia. subst n. cbn [init_headings_end].
    rewrite Z.add_0_r in *. apply read_one in Hend. rewrite Hend. reflexivity.
  - cbn [init_headings_end].
    destruct (bytes_eqb (cache_read st e 1) [ERASED]) eqn:Hb.
    + apply read_one in Hb. destruct n as [|n]; [rewrite Z.add_0_r; reflexivity|].
      exfalso. apply (Hm 0%nat); [lia|]. rewrite Z.add_0_r. exact Hb.
    + destruct n as [|n].
      { exfalso. apply not_true_iff_false in Hb. apply Hb. apply read_one.
        rewrite Z.add_0_r in Hend. exact Hend. }
      replace (add32 e 1) with (e + 1) by (symmetry; apply wrap32_small; lia).
      rewrite (IH n (e + 1)); try lia.
      * f_equal. f_equal. lia.
      * intros i Hi. replace (e + 1 + Z.of_nat i) with (e + Z.of_nat (S i)) by lia.
        apply Hm. lia.
      * replace (e + 1 + Z.of_nat n) with (e + Z.of_nat (S n)) by lia. exact Hend.
Qed.

Lemma read_bytes_at (m : Z -> ascii) (a : Z) (n : nat) (l : list ascii) (i : nat) :
  read_bytes m a n = l -> (i < n)%nat -> m (a + Z.of_nat i) = nth i l NUL.
Proof.
  intros <- Hi. unfold read_bytes.
  rewrite (nth_indep _ NUL (m (a + Z.of_nat 0))) by (rewrite length_map, length_seq; exact Hi).
  rewrite (map_nth (fun i => m (a + Z.of_nat i)) (seq 0 n) 0%nat i).
  rewrite seq_nth by exact Hi. reflexivity.
Qed.

(** The bytes of a region that holds [z] zeroes, the line of [keys] and an
    unused byte. *)
Lemma heading_region (m : Z -> ascii) (a : Z) (z : nat) (keys : list ManagedString) :
  Forall (Forall heading_char) keys ->
  read_bytes m a (z + length (heading_line keys) + 1)
  = repeat NUL z ++ heading_line keys ++ [ERASED] ->
  (forall i, (i < z)%nat -> m (a + Z.of_nat i) = NUL)
  /\ (forall i, (i < length (heading_line keys))%nat ->
                m (a + Z.of_nat z + Z.of_nat i) = nth i (heading_line keys) NUL
                /\ m (a + Z.of_nat z + Z.of_nat i) <> NUL
                /\ m (a + Z.of_nat z + Z.of_nat i) <> ERASED)
  /\ m (a + Z.of_nat z + Z.of_nat (length (heading_line keys))) = ERASED
  /\ read_bytes m (a + Z.of_nat z) (length (heading_line keys)) = heading_line keys.
Proof.
  intros Hkeys Hread.
  pose proof (heading_line_chars keys Hkeys) as Hchars.
  rewrite Forall_forall in Hchars.
  assert (Hline : forall i, (i < length (heading_line keys))%nat ->
            m (a + Z.of_nat z + Z.of_nat i) = nth i (heading_line keys) NUL).
  { intros i Hi.
    replace (a + Z.of_nat z + Z.of_nat i) with (a + Z.of_nat (z + i)) by lia.
    rewrite (read_bytes_at _ _ _ _ (z + i) Hread) by lia.
    rewrite app_nth2 by (rewrite repeat_length; lia).
    rewrite repeat_length, app_nth1 by lia. f_equal. lia. }
  split; [|split; [|split]].
  - intros i Hi. rewrite (read_bytes_at _ _ _ _ i Hread) by lia.
    rewrite app_nth1 by (rewrite repeat_length; exact Hi). apply nth_repeat.
  - intros i Hi. rewrite (Hline i Hi).
    split; [reflexivity|]. apply Hchars. apply nth_In. exact Hi.
  - replace (a + Z.of_nat z + Z.of_nat (length (heading_line keys)))
      with (a + Z.of_nat (z + length (heading_line keys))) by lia.
    rewrite (read_bytes_at _ _ _ _ (z + length (heading_line keys)) Hread) by lia.
    rewrite app_nth2 by (rewrite repeat_length; lia).
    rewrite repeat_length, app_nth2 by lia.
    replace (z + length (heading_line keys) - z - length (heading_line keys))%nat
      with 0%nat by lia.
    reflexivity.
  - apply read_bytes_eq. exact Hline.
Qed.

(** The parse of the headings, of a region that holds a line of keys. *)
Lemma init_headings_parsed (fuel : nat) (keys : list ManagedString) (z : nat)
    (st : MicroBitLog) :
  keys <> [] ->
  Forall (Forall heading_char) keys ->
  0 <= startAddress st ->
  startAddress st + 40 + Z.of_nat (z + length (heading_line keys)) < 2 ^ 32 ->
  read_bytes (memory (flash st)) (startAddress st + 40) (z + length (heading_line keys) + 1)
  = repeat NUL z ++ heading_line keys ++ [ERASED] ->
  (z + length (heading_line keys) <= fuel)%nat ->
  exists st',
    init_headings fuel st = Some (tt, st')
    /\ rowData st' = empty_row keys
    /\ headingStart st' = startAddress st + 40 + Z.of_nat z
    /\ headingLength st' = Z.of_nat (length (heading_line keys)).
Proof.
  intros Hne Hkeys Hsa Hmax Hread Hfuel.
  destruct (heading_region _ _ _ _ Hkeys Hread) as [Hz [Hline [Hend Hbytes]]].
  assert (Hlen : (0 < length (heading_line keys))%nat)
    by (unfold heading_line; rewrite length_app; cbn [length]; lia).
  assert (Hstart : add32 (startAddress st) sizeof_MicroBitLogMetaData = startAddress st + 40)
    by (apply wrap32_small; unfold sizeof_MicroBitLogMetaData; lia).
  assert (Hrun1 : init_skip_zeroes fuel (startAddress st + 40) st
                  = Some (startAddress st + 40 + Z.of_nat z, st)).
  { apply init_skip_zeroes_run; try lia; [exact Hz|].
    replace (startAddress st + 40 + Z.of_nat z)
      with (startAddress st + 40 + Z.of_nat z + Z.of_nat 0) by lia.
    apply (Hline 0%nat Hlen). }
  assert (Hrun2 : init_headings_end fuel (startAddress st + 40 + Z.of_nat z) st
                  = Some (startAddress st + 40 + Z.of_nat z
                          + Z.of_nat (length (heading_line keys)), st)).
  { apply init_headings_end_run; try lia; [|exact Hend].
    intros i Hi. apply (Hline i Hi). }
  unfold init_headings. unfold bind at 1. cbn [get]. rewrite Hstart.
  rewrite (bind_step _ _ _ _ _ Hrun1), (bind_step _ _ _ _ _ Hrun2).
  unfold bind at 1. unfold modify at 1. unfold bind at 1. cbn [get].
  cbn [headingLength set_headingLength].
  assert (Hsub : sub32 (startAddress st + 40 + Z.of_nat z
                        + Z.of_nat (length (heading_line keys)))
                   (startAddress st + 40 + Z.of_nat z)
                 = Z.of_nat (length (heading_line keys))).
  { unfold sub32.
    replace (startAddress st + 40 + Z.of_nat z + Z.of_nat (length (heading_line keys))
             - (startAddress st + 40 + Z.of_nat z))
      with (Z.of_nat (length (heading_line keys))) by lia.
    apply wrap32_small. lia. }
  rewrite Hsub.
  replace (0 <? Z.of_nat (length (heading_line keys))) with true
    by (symmetry; apply Z.ltb_lt; lia).
  cbn [when]. rewrite Nat2Z.id.
  unfold cache_read. cbn [flash set_headingLength]. rewrite Hbytes.
  rewrite (heading_line_parsed keys Hne Hkeys).
  unfold bind, modify. eexists. split; [reflexivity|].
  repeat split; reflexivity.
Qed.

(** The parse of the headings, of a region that holds none. *)
Lemma init_headings_none (fuel : nat) (st : MicroBitLog) :
  0 <= startAddress st -> startAddress st + 40 < 2 ^ 32 ->
  memory (flash st) (startAddress st + 40) = ERASED ->
  init_headings fuel st = Some (tt, set_headingLength st 0).
Proof.
  intros Hsa Hmax Hm.
  assert (Hstart : add32 (startAddress st) sizeof_MicroBitLogMetaData = startAddress st + 40)
    by (apply wrap32_small; unfold sizeof_MicroBitLogMetaData; lia).
  assert (Hrun1 : init_skip_zeroes fuel (startAddress st + 40) st
                  = Some (startAddress st + 40, st)).
  { rewrite <- (Z.add_0_r (startAddress st + 40)) at 2.
    apply (init_skip_zeroes_run fuel st 0); try lia.
    rewrite Z.add_0_r, Hm. discriminate. }
  assert (Hrun2 : init_headings_end fuel (startAddress st + 40) st
                  = Some (startAddress st + 40, st)).
  { rewrite <- (Z.add_0_r (startAddress st + 40)) at 2.
    apply (init_headings_end_run fuel st 0); try lia.
    rewrite Z.add_0_r. exact Hm. }
  unfold init_headings. unfold bind at 1. cbn [get]. rewrite Hstart.
  rewrite (bind_step _ _ _ _ _ Hrun1), (bind_step _ _ _ _ _ Hrun2).
  unfold bind at 1. unfold modify at 1. unfold bind at 1. cbn [get].
  cbn [headingLength set_headingLength].
  unfold sub32. rewrite Z.sub_diag. reflexivity.
Qed.

(** The headings [init] reads back on mounting the flash of a consistent
    log. *)
Lemma mount_headings (fuel : nat) (u st : MicroBitLog) :
  consistent st ->
  flash u = flash st ->
  has_flag (status u) MICROBIT_LOG_STATUS_INITIALIZED = false ->
  logEnd st <= Z.of_nat fuel ->
  exists st',
    init fuel u = Some (tt, st')
    /\ initialized st'
    /\ dataEnd st' = dataEnd st
    /\ (forall (keys : list ManagedString) (z : nat),
          keys <> [] ->
          Forall (Forall heading_char) keys ->
          read_bytes (memory (flash st)) (startAddress st + sizeof_MicroBitLogMetaData)
            (z + length (heading_line keys) + 1)
          = repeat NUL z ++ heading_line keys ++ [ERASED] ->
          rowData st' = empty_row keys
          /\ headingStart st' = startAddress st + sizeof_MicroBitLogMetaData + Z.of_nat z
          /\ headingLength st' = Z.of_nat (length (heading_line keys)))
    /\ (memory (flash st) (startAddress st + sizeof_MicroBitLogMetaData) = ERASED ->
        rowData st' = rowData u
        /\ headingStart st' = headingStart u
        /\ headingLength st' = 0).
Proof.
  intros Hcons Hflash Hinit Hfuel.
  destruct (mount_steps fuel u st Hcons Hflash Hinit Hfuel)
    as [st' [Hrun [Hini [_ [_ [_ [_ [_ [Hde [_ [_ Hsteps]]]]]]]]]]].
  destruct Hsteps as [stC [stD [EflC [EsaC [ErowC [EhsC [Hrun3 [Erow [Ehs Ehl]]]]]]]]].
  pose proof Hcons as [Hlay [[_ [a [b [Hab [Hb [Ha Hbe]]]]]] _]].
  destruct (layout_facts st Hlay) as [_ [_ [Hsa _]]].
  pose proof Hlay as [Hps [_ [_ [Ejs [Hjd [_ [_ [_ [_ [Hdd [Hdl [Hle Hmax]]]]]]]]]]]].
  unfold sizeof_MicroBitLogMetaData in *.
  exists st'. split; [exact Hrun|]. split; [exact Hini|]. split; [exact Hde|].
  split.
  - intros keys z Hne Hkeys Hread.
    destruct (heading_region _ _ _ _ Hkeys Hread) as [Hz [Hline [Hend _]]].
    assert (Ha_lo : startAddress st + 40 + Z.of_nat z <= a).
    { destruct (Z.lt_ge_cases a (startAddress st + 40 + Z.of_nat z)) as [Hlt|Hge]; [|exact Hge].
      exfalso. apply Ha.
      replace a with (startAddress st + 40 + Z.of_nat (Z.to_nat (a - (startAddress st + 40))))
        by lia.
      apply Hz. lia. }
    assert (Hb_lo : startAddress st + 40 + Z.of_nat z + Z.of_nat (length (heading_line keys))
                    <= b).
    { destruct (Z.lt_ge_cases b (startAddress st + 40 + Z.of_nat z
                                 + Z.of_nat (length (heading_line keys)))) as [Hlt|Hge];
        [|exact Hge].
      exfalso.
      destruct (Hline (Z.to_nat (b - (startAddress st + 40 + Z.of_nat z))) ltac:(lia))
        as [_ [_ Hne']].
      apply Hne'.
      replace (startAddress st + 40 + Z.of_nat z
               + Z.of_nat (Z.to_nat (b - (startAddress st + 40 + Z.of_nat z))))
        with b by lia.
      exact Hbe. }
    destruct (init_headings_parsed fuel keys z stC Hne Hkeys) as [stD' [Hrun' [R1 [R2 R3]]]].
    + rewrite EsaC. lia.
    + rewrite EsaC. lia.
    + rewrite EsaC, EflC. exact Hread.
    + lia.
    + rewrite Hrun3 in Hrun'. inversion Hrun'. subst stD'.
      rewrite Erow, Ehs, Ehl, R1, R2, R3, EsaC. repeat split; reflexivity.
  - intros Hm.
    rewrite (init_headings_none fuel stC) in Hrun3.
    + inversion Hrun3. subst stD. rewrite Erow, Ehs, Ehl.
      cbn [rowData headingStart headingLength set_headingLength].
      split; [exact ErowC|]. split; [exact EhsC|reflexivity].
    + rewrite EsaC. lia.
    + rewrite EsaC. lia.
    + rewrite EsaC, EflC. exact Hm.
Qed.


(** ** endRow on a consistent log *)

















(** ** The headings and the rows across a power cycle *)

(** X16.  [init] on an object not yet initialized, over the flash of a
    consistent log, reads the headings back: when the bytes after the
    metadata block are zeroes, then the line [endRow] makes of a list of
    keys, then an unused byte, the row of the mounted log is these keys in
    their order, each with an empty value, and the line is the stored
    heading; when the first byte after the block is unused, the row is left
    as it was and no heading is stored. *)
Theorem mount_recovers_headings (fuel : nat) (u st : MicroBitLog) :
  consistent st ->
  flash u = flash st ->
  has_flag (status u) MICROBIT_LOG_STATUS_INITIALIZED = false ->
  logEnd st <= Z.of_nat fuel ->
  exists st',
    init fuel u = Some (tt, st')
    /\ initialized st'
    /\ dataEnd st' = dataEnd st
    /\ (forall (keys : list ManagedString) (z : nat),
          keys <> [] ->
          Forall (Forall heading_char) keys ->
          read_bytes (memory (flash st)) (startAddress st + sizeof_MicroBitLogMetaData)
            (z + length (heading_line keys) + 1)
          = repeat NUL z ++ heading_line keys ++ [ERASED] ->
          rowData st' = empty_row keys
          /\ headingStart st' = startAddress st + sizeof_MicroBitLogMetaData + Z.of_nat z
          /\ headingLength st' = Z.of_nat (length (heading_line keys)))
    /\ (memory (flash st) (startAddress st + sizeof_MicroBitLogMetaData) = ERASED ->
        rowData st' = rowData u
        /\ headingStart st' = headingStart u
        /\ headingLength st' = 0).
Proof. exact (mount_headings fuel u st). Qed.




(** ** The first row of a log just formatted *)







End Methods.

(** * The methods and the theorems at the instances *)

(** ** Runs of the methods *)

Example mount_selects_second_entry :
  option_map (fun r => (journalHead (snd r), dataEnd (snd r), status (snd r)))
    (init sample_header sample_entry 700 unmounted_log)
  = Some (3088, 4696, 1).
Proof. vm_compute. reflexivity. Qed.

Example S5_bytes :
  option_map (fun r => (fst r, read_bytes (memory (flash (snd r))) 4096 26))
    ((setTimeStamp sample_header sample_entry 20 Seconds ;;
      beginRow "#" hundredths sample_header sample_entry 20 ;;
      logData "#" hundredths sample_header sample_entry 20 (str "v") (str "hi") ;;
      endRow "#" hundredths sample_header sample_entry 20)%log fresh_log)
  = Some (DEVICE_OK, str "Time (seconds),v" ++ [NL] ++ str "12.34,hi" ++ [NL]).
Proof. vm_compute. reflexivity. Qed.

Example S6_bytes :
  option_map (fun r => (fst r, read_bytes (memory (flash (snd r))) 4096 8))
    (logString "#" sample_header sample_entry 20
       (str "a-->b" ++ [TAB] ++ str "c" ++ [NL]) fresh_log)
  = Some (DEVICE_OK, str "a###b#c" ++ [NL]).
Proof. vm_compute. reflexivity. Qed.

(** The round trip R1 from a device never formatted: [logData] formats it by
    way of [init] and [clear], and [endRow] writes the headings line, then the
    row; mounting the flash it leaves finds the end of the data and the
    heading again. *)
Example R1_from_blank_device :
  option_map (fun r => (fst r, dataEnd (snd r), read_bytes (memory (flash (snd r))) 4096 5))
    ((logData "#" hundredths sample_header sample_entry 20 (str "k") (str "v") ;;
      endRow "#" hundredths sample_header sample_entry 20)%log (sample_log 0 0 0 [] erased))
  = Some (DEVICE_OK, 4100, str "k" ++ [NL] ++ str "v" ++ [NL] ++ [ERASED]).
Proof. vm_compute. reflexivity. Qed.

Example remount_after_R1 :
  match (logData "#" hundredths sample_header sample_entry 20 (str "k") (str "v") ;;
         endRow "#" hundredths sample_header sample_entry 20)%log
          (sample_log 0 0 0 [] erased) with
  | Some (_, st) =>
      option_map (fun r => (journalHead (snd r), dataEnd (snd r), map key (rowData (snd r)),
                            headingStart (snd r), headingLength (snd r)))
        (init sample_header sample_entry 20 (sample_log 0 0 0 [] (memory (flash st))))
  | None => None
  end
  = Some (3072, 4100, [str "k"], 2088, 2).
Proof. vm_compute. reflexivity. Qed.

(** ** The theorems on the instances *)

Lemma logString_commit_witness :
  exists st' data_ops commit,
    logString "#" sample_header sample_entry 16 (str "0123456789abcdef") log_at_244
    = Some (DEVICE_OK, st')
    /\ dataEnd st' = 4356
    /\ trace (flash st') = data_ops ++ commit
    /\ commit <> [].
Proof.
  destruct (logString_commit "#" sample_header sample_entry 16 (str "0123456789abcdef")
              log_at_244)
    as [st' [data_ops [commit [Hrun [Hend [Htr [_ [_ Hcommit]]]]]]]].
  - reflexivity.
  - unfold room_for. simpl. lia.
  - simpl. lia.
  - simpl. lia.
  - exists st', data_ops, commit. split; [exact Hrun|]. split; [exact Hend|].
    split; [exact Htr|].
    destruct Hcommit as [erasures [entry [E _]]].
    + rewrite Hend. vm_compute. discriminate.
    + rewrite E. intros H. apply app_eq_nil in H. destruct H as [_ H]. discriminate H.
Defined.

Lemma init_recovers_journal_witness :
  exists st',
    init sample_header sample_entry (Z.to_nat 7164) unmounted_log = Some (tt, st')
    /\ journalHead st' = 3072 + 8 * 2.
Proof.
  destruct (init_recovers_journal sample_header sample_entry (Z.to_nat 7164) unmounted_log
              (sample_log 0 0 0 [] stored_log) 2088 2088)
    as [st' [n [d0 [Hrun [_ [_ [_ [_ [Htwo _]]]]]]]]].
  - reflexivity.
  - vm_compute. reflexivity.
  - simpl. lia.
  - simpl. unfold sizeof_MicroBitLogMetaData. lia.
  - lia.
  - vm_compute. discriminate.
  - vm_compute. reflexivity.
  - change (logEnd (sample_log 0 0 0 [] stored_log)) with 7164. lia.
  - lia.
  - exists st'. split; [exact Hrun|].
    destruct (Htwo 1%nat) as [Hjh _].
    + intros k Hk. assert (k = 0%nat) by lia. subst k. vm_compute. reflexivity.
    + vm_compute. reflexivity.
    + vm_compute. reflexivity.
    + vm_compute. reflexivity.
    + vm_compute. reflexivity.
    + vm_compute. reflexivity.
    + intros _. vm_compute. reflexivity.
    + exact Hjh.
Defined.

Lemma logString_latches_full_witness :
  exists st',
    logString "#" sample_header sample_entry 0 (str "0123456789") nearly_full_log
    = Some (DEVICE_NO_RESOURCES, st')
    /\ isFull st' = true
    /\ trace (flash st') = [cache_write_op 7165 (str "FUL")]
    /\ logString "#" sample_header sample_entry 0 (str "0123456789") st'
       = Some (DEVICE_NO_RESOURCES, st').
Proof.
  destruct (logString_latches_full "#" sample_header sample_entry 0 (str "0123456789")
              nearly_full_log)
    as [st' [Hrun [Hfull [Htr [_ [_ [_ [_ Hagain]]]]]]]].
  - reflexivity.
  - simpl. lia.
  - simpl. lia.
  - vm_compute. reflexivity.
  - exists st'. split; [exact Hrun|]. split; [exact Hfull|]. split; [exact Htr|].
    apply Hagain. vm_compute. reflexivity.
Defined.

(** C3, as stated, fails: once the full flag is set, an append that still fits
    is written and returns [DEVICE_OK]. *)
Lemma logString_after_full_counterexample :
  exists st1 st2,
    logString "#" sample_header sample_entry 4 (str "0123456789") nearly_full_log
    = Some (DEVICE_NO_RESOURCES, st1)
    /\ isFull st1 = true
    /\ logString "#" sample_header sample_entry 4 (str "hi") st1 = Some (DEVICE_OK, st2)
    /\ dataEnd st2 = dataEnd st1 + 2
    /\ trace (flash st2) = trace (flash st1) ++ [cache_write_op 7160 (str "hi")].
Proof.
  eexists. eexists.
  split; [vm_compute; reflexivity|].
  split; [reflexivity|].
  split; [vm_compute; reflexivity|].
  split; reflexivity.
Qed.

Lemma logString_commit_page_boundary_witness :
  exists st' data_ops entry,
    logString "#" sample_header sample_entry 16 (str "0123456789abcdef") log_at_journal_end
    = Some (DEVICE_OK, st')
    /\ journalHead st' = 3072
    /\ trace (flash st')
       = data_ops ++ [cache_erase_op 3072; flash_erase_op 3072;
                      cache_write_op 3072 entry; cache_write_op 4088 (repeat NUL 8)].
Proof.
  destruct (logString_commit_page_boundary "#" sample_header sample_entry 16
              (str "0123456789abcdef") log_at_journal_end)
    as [st' [data_ops [entry [Hrun [Hjh [_ Htr]]]]]].
  - reflexivity.
  - unfold room_for. simpl. lia.
  - simpl. lia.
  - vm_compute. discriminate.
  - reflexivity.
  - exists st', data_ops, entry. split; [exact Hrun|].
    change (journalHead st' = 3072) in Hjh. split; [exact Hjh|].
    rewrite Htr, Hjh. reflexivity.
Defined.

Lemma cleaned_idempotent_witness :
  let x := str "a-->b" ++ [TAB] ++ str "c,d" in
  cleaned "#" x true = str "a###b#c#d"
  /\ cleanBuffer "#" (cleaned "#" x true) true = []
  /\ cleaned "#" (cleaned "#" x true) true = cleaned "#" x true.
Proof.
  intros x.
  destruct (cleaned_idempotent "#" true x) as [_ [_ [Hempty Hidem]]].
  - discriminate.
  - discriminate.
  - discriminate.
  - intros _. split; discriminate.
  - split; [reflexivity|]. split; [exact Hempty|exact Hidem].
Defined.

(** C5, as stated, fails: [cleanBuffer] returns the empty string for a string
    that needs no change, which has not the length of the string, and
    [cleanBuffer] of a cleaned string is empty, which is not that string. *)
Lemma cleanBuffer_counterexample :
  length (cleanBuffer "#" (str "abc") true) <> length (str "abc")
  /\ cleanBuffer "#" (cleanBuffer "#" (str "a-->b") true) true
     <> cleanBuffer "#" (str "a-->b") true.
Proof. split; vm_compute; discriminate. Qed.

Lemma endRow_seconds_row_witness :
  (exists st',
     (setTimeStamp sample_header sample_entry 20 Seconds ;;
      beginRow "#" hundredths sample_header sample_entry 20 ;;
      logData "#" hundredths sample_header sample_entry 20 (str "v") (str "hi") ;;
      endRow "#" hundredths sample_header sample_entry 20)%log fresh_log
     = Some (DEVICE_OK, st')
     /\ dataEnd st' = 4096 + 26
     /\ read_bytes (memory (flash st')) 4096 26
        = str "Time (seconds),v" ++ [NL] ++ str "12.34,hi" ++ [NL])
  /\ exists ip d1 d2,
       endRow_timestamp hundredths 20 Minutes 3723000
       = Some (ip ++ str "." ++ [digit d1; digit d2])
       /\ 10 * d1 + d2 = 5.
Proof.
  destruct (endRow_seconds_row "#" hundredths sample_header sample_entry 20 fresh_log
              Minutes 3723000)
    as [[st' [Hrun [Hend [Hbytes _]]]] [ip [d1 [d2 [Hts [_ [_ [Hsum _]]]]]]]].
  - reflexivity.
  - reflexivity.
  - unfold fresh_log_with_room, journal_ok. simpl.
    repeat split; try reflexivity; try lia.
  - lia.
  - simpl. lia.
  - lia.
  - split.
    + exists st'. split; [exact Hrun|]. split; [exact Hend|exact Hbytes].
    + exists ip, d1, d2. split; [exact Hts|exact Hsum].
Defined.

Lemma setTimeStamp_heading_witness :
  exists st',
    setTimeStamp sample_header sample_entry 0 Days fresh_log = Some (tt, st')
    /\ rowData st' = [{| key := str "Time (hours)"; value := [] |}].
Proof.
  destruct (setTimeStamp_heading sample_header sample_entry 0 Days fresh_log)
    as [_ [st' [Hrun [_ [_ [_ Hrows]]]]]].
  - reflexivity.
  - discriminate.
  - exists st'. split; [exact Hrun|exact Hrows].
Defined.

(** C8, as stated, fails: on a log whose full flag is set, [logData] returns
    [DEVICE_OK], not [DEVICE_NO_RESOURCES]. *)
Lemma logData_full_counterexample :
  isFull full_log_row_open = true
  /\ option_map fst
       (logData "#" hundredths sample_header sample_entry 4 (str "k") (str "v")
          full_log_row_open)
     = Some DEVICE_OK.
Proof. split; vm_compute; reflexivity. Qed.

Lemma cleanBuffer_empty_when_clean_witness :
  cleanBuffer "#" (str "a,b") false = []
  /\ (exists st',
        logData "#" hundredths sample_header sample_entry 5 (str "key") (str "12.5") fresh_log
        = Some (DEVICE_OK, st')
        /\ In {| key := str "key"; value := str "12.5" |} (rowData st'))
  /\ (exists st' data_ops commit,
        logString "#" sample_header sample_entry 5 (str "a,b" ++ [NL]) fresh_log
        = Some (DEVICE_OK, st')
        /\ trace (flash st') = data_ops ++ commit
        /\ written data_ops = str "a,b" ++ [NL]).
Proof.
  destruct (cleanBuffer_empty_when_clean "#" hundredths sample_header sample_entry 5 fresh_log
              false (str "a,b") (str "key") (str "12.5") (str "a,b" ++ [NL]))
    as [[Hx _] [Hlog [st' [data_ops [commit [Hrun [Htr [_ [Hw _]]]]]]]]].
  - apply no_hit_nothing_to_clean. vm_compute. reflexivity.
  - apply no_hit_nothing_to_clean. vm_compute. reflexivity.
  - apply no_hit_nothing_to_clean. vm_compute. reflexivity.
  - apply no_hit_nothing_to_clean. vm_compute. reflexivity.
  - reflexivity.
  - unfold room_for. simpl. lia.
  - simpl. lia.
  - split; [exact Hx|]. split; [exact Hlog|].
    exists st', data_ops, commit. split; [exact Hrun|]. split; [exact Htr|exact Hw].
Defined.

Lemma endRow_twice_witness :
  endRow "#" hundredths sample_header sample_entry 48 full_log_row_open
  = Some (DEVICE_NO_RESOURCES, full_log_row_closed)
  /\ endRow "#" hundredths sample_header sample_entry 48 full_log_row_closed
     = Some (DEVICE_INVALID_STATE, full_log_row_closed)
  /\ isFull full_log_row_closed = true.
Proof.
  destruct (endRow_twice "#" hundredths sample_header sample_entry 48 full_log_row_open)
    as [Hclosed Hreturns].
  assert (H1 : initialized full_log_row_open) by (vm_compute; reflexivity).
  assert (H2 : row_started full_log_row_open = true) by (vm_compute; reflexivity).
  assert (H3 : 0 < pageSize (flash full_log_row_open)) by (vm_compute; reflexivity).
  assert (H4 : 0 <= dataEnd full_log_row_open <= logEnd full_log_row_open)
    by (vm_compute; split; discriminate).
  assert (H5 : logEnd full_log_row_open + pageSize (flash full_log_row_open) <= 2 ^ 32)
    by (vm_compute; discriminate).
  assert (H6 : timeStampFormat full_log_row_open <> TSNone ->
               wrap64 (hundredths (timeStampFormat full_log_row_open)) <> 0)
    by (intros H; exfalso; apply H; reflexivity).
  assert (H7 : 0 <= system_time full_log_row_open) by (vm_compute; discriminate).
  assert (H8 : (endRow_fuel full_log_row_open <= 48)%nat) by (vm_compute; lia).
  destruct (Hreturns H1 H2 H3 H4 H5 H6 H7 H8) as [r [st' [Hrun Hr]]].
  assert (H : endRow "#" hundredths sample_header sample_entry 48 full_log_row_open
              = Some (DEVICE_NO_RESOURCES, full_log_row_closed))
    by (vm_compute; reflexivity).
  split; [exact H|].
  split; [exact (proj2 (Hclosed _ _ 48%nat H))|].
  rewrite H in Hrun. injection Hrun as Er Est. rewrite <- Er, <- Est in Hr.
  destruct (isFull full_log_row_closed); [reflexivity|discriminate Hr].
Defined.

(** ** The other theorems on the instances *)

Lemma padString_pads_witness :
  padString 3 (str "7") 2 = Some (str "07") /\ padString 3 (str "123") 2 = None.
Proof.
  destruct (padString_pads 3 (str "7") 2) as [H1 _].
  destruct (padString_pads 3 (str "123") 2) as [_ H2].
  destruct (H1 ltac:(simpl; lia) ltac:(simpl; lia)) as [r [Hr [Er _]]].
  split; [rewrite Hr, Er; reflexivity|].
  apply H2. simpl. lia.
Defined.

Lemma writeNum_strtoul_round_trip_witness :
  writeNum 4096 = str "00001000" ++ [NUL]
  /\ strtoul16 (str "0x" ++ writeNum 4096) = 4096.
Proof.
  destruct (writeNum_strtoul_round_trip 4096 ltac:(lia)) as [_ [_ [_ [_ H]]]].
  split; [reflexivity|exact H].
Defined.

Lemma cleaned_is_clean_witness :
  cleaned "#" (str "a,b-->c") true = str "a#b###c"
  /\ nothing_to_clean true (cleaned "#" (str "a,b-->c") true).
Proof.
  destruct (cleaned_is_clean "#" true (str "a,b-->c")) as [H _].
  - discriminate.
  - discriminate.
  - discriminate.
  - intros _. split; discriminate.
  - split; [reflexivity|exact H].
Defined.

Lemma addHeading_keeps_keys_distinct_witness :
  exists st',
    addHeading (str "k") (str "v") fresh_log = Some (tt, st')
    /\ rowData st' = [{| key := str "k"; value := str "v" |}]
    /\ addHeading (str "k") (str "w") st' = Some (tt, st').
Proof.
  destruct (addHeading_keeps_keys_distinct (str "k") (str "v") fresh_log)
    as [st' [Hrun [_ [_ [Hrows [_ Hagain]]]]]].
  - constructor.
  - exists st'. split; [exact Hrun|]. split; [exact Hrows|apply Hagain].
Defined.

Lemma logString_keeps_layout_witness :
  exists st',
    logString "#" sample_header sample_entry 2 (str "hi") fresh_log = Some (DEVICE_OK, st')
    /\ dataEnd st' = 4098
    /\ logEnd st' = 7164.
Proof.
  destruct (logString_keeps_layout "#" sample_header sample_entry 2 (str "hi") fresh_log)
    as [r [st' [Hrun [Hkept [_ [_ [_ [_ Hfits]]]]]]]].
  - reflexivity.
  - reflexivity.
  - simpl. lia.
  - simpl. lia.
  - simpl. lia.
  - destruct Hfits as [Er [Ede _]]; [vm_compute; discriminate|].
    destruct Hkept as [_ [_ [_ [_ [Ele _]]]]].
    exists st'. subst r. split; [exact Hrun|]. split; [exact Ede|exact Ele].
Defined.

Lemma logString_ManagedString_returns_ok_witness :
  exists st',
    logString "#" sample_header sample_entry 10 (str "0123456789" ++ [NUL]) nearly_full_log
    = Some (DEVICE_NO_RESOURCES, st')
    /\ logString_ManagedString "#" sample_header sample_entry 10 (str "0123456789")
         nearly_full_log
       = Some (DEVICE_OK, st')
    /\ isFull st' = true.
Proof.
  destruct (logString_ManagedString_returns_ok "#" sample_header sample_entry 10
              (str "0123456789") nearly_full_log) as [r [st' [Hrun [Hok Hno]]]].
  - reflexivity.
  - reflexivity.
  - simpl. lia.
  - simpl. lia.
  - simpl. lia.
  - destruct Hno as [Er [Hfull _]]; [vm_compute; reflexivity|].
    exists st'. subst r. split; [exact Hrun|]. split; [exact Hok|exact Hfull].
Defined.



Lemma blank_device_formattable : formattable sample_header sample_entry blank_device.
Proof.
  unfold formattable, blank_device, sample_log, sample_storage.
  cbn [flash pageSize flashStart flashEnd].
  change (metadata_address 1024) with 2048.
  change (length sample_header) with (Z.to_nat 2048).
  change (length sample_entry) with 8%nat.
  repeat split; try reflexivity; lia.
Qed.

Lemma clear_formats_witness :
  exists st',
    clear sample_header sample_entry 8 false blank_device = Some (tt, st')
    /\ consistent st'
    /\ dataStart st' = 4096
    /\ logEnd st' = 7164
    /\ dataEnd st' = 4096.
Proof.
  destruct (clear_formats sample_header sample_entry 8 false blank_device)
    as [st' [Hrun [Hcons [_ [_ [_ [Hds [Hle [Hde _]]]]]]]]].
  - exact blank_device_formattable.
  - reflexivity.
  - simpl. lia.
  - exists st'. split; [exact Hrun|]. split; [exact Hcons|].
    split; [exact Hds|]. split; [exact Hle|]. rewrite Hde. exact Hds.
Defined.

Lemma logString_keeps_consistent_witness :
  exists st0 st',
    clear sample_header sample_entry 8 false blank_device = Some (tt, st0)
    /\ logString "#" sample_header sample_entry 8 (str "hi") st0 = Some (DEVICE_OK, st')
    /\ consistent st'
    /\ read_bytes (memory (flash st')) 4096 2 = str "hi".
Proof.
  destruct (clear_consistent sample_header sample_entry 8 false blank_device
              blank_device_formattable eq_refl ltac:(simpl; lia))
    as [st0 [Hclear [Hcons [Hst [_ [_ [Hds [Hle [Hde _]]]]]]]]].
  destruct (logString_keeps_consistent "#" sample_header sample_entry 8 (str "hi") st0)
    as [r [st' [Hrun [Hcons' [_ [_ [_ Hcase]]]]]]].
  - unfold initialized. rewrite Hst. reflexivity.
  - exact Hcons.
  - discriminate.
  - simpl. intros [H|[H|[]]]; discriminate H.
  - simpl. lia.
  - exists st0, st'. split; [exact Hclear|].
    destruct Hcase as [[_ [Er [_ Hbytes]]]|[Hno _]].
    + subst r. split; [exact Hrun|]. split; [exact Hcons'|].
      rewrite Hde, Hds in Hbytes. exact Hbytes.
    + exfalso. rewrite Hle, Hde, Hds in Hno. vm_compute in Hno. discriminate Hno.
Defined.

Lemma mount_recovers_dataEnd_witness :
  exists st0 st',
    clear sample_header sample_entry 8 false blank_device = Some (tt, st0)
    /\ init sample_header sample_entry (Z.to_nat 7164) (MicroBitLog_new (flash st0) 1 0 0)
       = Some (tt, st')
    /\ dataEnd st' = 4096
    /\ logEnd st' = 7164.
Proof.
  destruct (clear_consistent sample_header sample_entry 8 false blank_device
              blank_device_formattable eq_refl ltac:(simpl; lia))
    as [st0 [Hclear [Hcons [_ [_ [_ [Hds [Hle [Hde _]]]]]]]]].
  destruct (mount_recovers_dataEnd sample_header sample_entry (Z.to_nat 7164)
              (MicroBitLog_new (flash st0) 1 0 0) st0)
    as [st' [Hrun [_ [_ [_ [_ [_ [Hle' [Hde' _]]]]]]]]].
  - exact Hcons.
  - reflexivity.
  - reflexivity.
  - rewrite Hle. simpl. lia.
  - exists st0, st'. split; [exact Hclear|]. split; [exact Hrun|].
    split; [rewrite Hde', Hde; exact Hds|rewrite Hle'; exact Hle].
Defined.


Lemma init_formats_when_absent_witness :
  exists st',
    init sample_header sample_entry 8 blank_device = Some (tt, st')
    /\ consistent st'
    /\ dataEnd st' = dataStart st'
    /\ rowData st' = [].
Proof.
  destruct (init_formats_when_absent sample_header sample_entry 8 blank_device)
    as [st' [Hrun [Hcons [_ [Hde [_ [Hrows _]]]]]]].
  - reflexivity.
  - exact blank_device_formattable.
  - reflexivity.
  - vm_compute. discriminate.
  - simpl. lia.
  - exists st'. split; [exact Hrun|]. split; [exact Hcons|]. split; [exact Hde|exact Hrows].
Defined.

Lemma invalidate_makes_absent_witness :
  exists st' st'',
    invalidate fresh_log = Some (tt, st')
    /\ has_flag (status st') MICROBIT_LOG_STATUS_INITIALIZED = false
    /\ read_bytes (memory (flash st')) 2048 40 = repeat NUL 40
    /\ isPresent st' = Some (false, st'').
Proof.
  destruct (invalidate_makes_absent sample_header sample_entry fresh_log ltac:(simpl; lia))
    as [H _].
  destruct (H eq_refl eq_refl)
    as [st' [Hrun [Hinit [_ [_ [Hzero [_ [_ [st'' [Hpresent _]]]]]]]]]].
  exists st', st''. split; [exact Hrun|]. split; [exact Hinit|].
  split; [exact Hzero|exact Hpresent].
Defined.

(** The log of the instances is consistent over a flash that holds the
    metadata block, a region of headings that ends, and nothing from the
    journal on. *)
Lemma sample_log_consistent (s : Z) (rows : list ColumnEntry) (m : Z -> ascii) :
  read_bytes m 2048 40 = metadata_block 7164 4096 ->
  (exists a b, 2088 <= a <= b /\ b < 3072 /\ m a <> NUL /\ m b = ERASED) ->
  (forall x, 3072 <= x -> m x = ERASED) ->
  consistent (sample_log s 3072 4096 rows m).
Proof.
  intros Hmd Hab Hhigh. split; [|split; [|split]].
  - unfold layout_ok, sample_log, sample_storage.
    cbn [flash pageSize flashEnd startAddress journalStart journalHead dataStart dataEnd
         logEnd].
    repeat split; try reflexivity; lia.
  - split; [exact Hmd|]. destruct Hab as [a [b [H1 [H2 [H3 H4]]]]].
    exists a, b. unfold sample_log, sample_storage, sizeof_MicroBitLogMetaData.
    cbn [flash memory startAddress journalStart]. repeat split; try assumption; lia.
  - assert (Hslot : forall k, containsOnly (entry_at (sample_log s 3072 4096 rows m) k) ERASED
                              = true).
    { intros k. unfold entry_at, cache_read, sample_log, sample_storage.
      cbn [flash memory journalStart]. apply containsOnly_read.
      intros x Hx. apply Hhigh. lia. }
    split; [|split].
    + unfold sample_log. cbn [journalStart journalHead]. intros k Hk. lia.
    + intros k _ _. rewrite strtoul16_erased; [cbn; lia| |apply Hslot].
      unfold entry_at, cache_read, read_bytes. rewrite length_map, length_seq. reflexivity.
    + intros k _ _. right. apply Hslot.
  - split.
    + unfold sample_log. cbn [dataStart dataEnd]. intros a Ha. lia.
    + unfold tail_free, sample_log, sample_storage.
      cbn [flash memory dataEnd logEnd pageSize]. intros a Ha _. apply Hhigh. lia.
Qed.

Lemma formatted_flash_unused (x : Z) : 2088 <= x -> formatted_flash x = ERASED.
Proof.
  intros Hx. unfold formatted_flash. rewrite program_outside; [reflexivity|].
  right. change (length (metadata_block 7164 4096)) with 40%nat. lia.
Qed.


Lemma headed_consistent : consistent headed_log.
Proof.
  apply sample_log_consistent.
  - vm_compute. reflexivity.
  - exists 2088, 2092. split; [lia|]. split; [lia|].
    split; [vm_compute; discriminate|vm_compute; reflexivity].
  - intros x Hx. unfold headed_flash. rewrite program_outside by (cbn; lia).
    apply formatted_flash_unused. lia.
Qed.

Lemma mount_recovers_headings_witness :
  exists st',
    init sample_header sample_entry (Z.to_nat 7164) (MicroBitLog_new (sample_storage headed_flash) 1 0 0)
    = Some (tt, st')
    /\ rowData st' = [{| key := str "a"; value := [] |}; {| key := str "b"; value := [] |}]
    /\ headingStart st' = 2088
    /\ headingLength st' = 4.
Proof.
  destruct (mount_recovers_headings sample_header sample_entry (Z.to_nat 7164)
              (MicroBitLog_new (sample_storage headed_flash) 1 0 0) headed_log)
    as [st' [Hrun [_ [_ [Hkeys _]]]]].
  - exact headed_consistent.
  - reflexivity.
  - reflexivity.
  - simpl. lia.
  - destruct (Hkeys [str "a"; str "b"] 0%nat) as [R1 [R2 R3]].
    + discriminate.
    + repeat constructor; try discriminate.
    + vm_compute. reflexivity.
    + exists st'. split; [exact Hrun|]. split; [exact R1|]. split; [exact R2|exact R3].
Defined.




Lemma logData_returns_ok_witness :
  (exists st',
     logData "#" hundredths sample_header sample_entry 0 (str "k") (str "v") full_log_row_open
     = Some (DEVICE_OK, st')
     /\ flash st' = flash full_log_row_open
     /\ isFull st' = true
     /\ value_of (str "k") (rowData st') = Some (str "v"))
  /\ (exists st0 st',
        init sample_header sample_entry 8 blank_device = Some (tt, st0)
        /\ length (trace (flash st0)) = 12%nat
        /\ logData "#" hundredths sample_header sample_entry 8 (str "k") (str "v") blank_device
           = Some (DEVICE_OK, st')
        /\ flash st' = flash st0
        /\ value_of (str "k") (rowData st') = Some (str "v")).
Proof.
  split.
  - destruct (logData_returns_ok "#" hundredths sample_header sample_entry 0 (str "k") (str "v")
                full_log_row_open full_log_row_open eq_refl)
      as [st' [Hrun [_ [Hflash [Hfull [_ [Hvalue _]]]]]]].
    exists st'. split; [exact Hrun|]. split; [exact Hflash|].
    split; [rewrite Hfull; reflexivity|exact Hvalue].
  - destruct (init_absent_formats sample_header sample_entry 8 blank_device)
      as [st0 [Hinit _]].
    + reflexivity.
    + exact blank_device_formattable.
    + reflexivity.
    + vm_compute. discriminate.
    + simpl. lia.
    + destruct (logData_returns_ok "#" hundredths sample_header sample_entry 8 (str "k")
                  (str "v") blank_device st0 Hinit)
        as [st' [Hrun [_ [Hflash [_ [_ [Hvalue _]]]]]]].
      assert (Hops : option_map (fun r => length (trace (flash (snd r))))
                       (init sample_header sample_entry 8 blank_device) = Some 12%nat)
        by (vm_compute; reflexivity).
      rewrite Hinit in Hops. injection Hops as Hops.
      exists st0, st'. split; [exact Hinit|]. split; [exact Hops|]. auto.
Defined.
